(* ===== verification/_CoqProject ===== *)
-Q . S2P
Prelude.v
Schema.v
Like.v
Validation.v
Auth.v
Bookings.v
Reviews.v
Packages.v
PackageQueries.v
ReviewQueries.v
Admin.v
Server.v
Client.v
Numbers.v
Routes.v
ClientForms.v
Store.v
Progress.v
Columns.v
Dashboards.v
Pages.v
Navigation.v
AdminActions.v
