(* ===== verification/Prelude.v ===== *)
(** * Wavv travel backend: a verification development

    The program.  [src/server] is an Express application over a MySQL
    store.  [server.js] mounts the routers [routes/auth.js],
    [routes/packages.js], [routes/bookings.js], [routes/reviews.js],
    [routes/admin.js] and [routes/contact.js] (and requires a
    [routes/payment.js] that is not in the repository).  Every route is
    a chain of middleware: the rules of [middleware/validation.js]
    (the first failing rule answers 400), [authenticateToken] and
    [requireAdmin] of [middleware/auth.js] (401 / 403), then the
    handler, which issues parameterised SQL through the pool of
    [config/database.js] and answers a status and a JSON body; each
    handler wraps its body in [try/catch] and answers 500 on a store
    error.  [middleware/errorHandler.js] maps the errors that escape a
    route.  [initializeDatabase] creates the five tables and seeds the
    admin account and six sample packages.  The React client calls the
    routes through [src/client/src/services] ([api.js] keeps the token
    in localStorage and sends it as a Bearer header).

    The files (library root of the development, in dependency order).
    - [Prelude] (this file): the handler monad [M S A] (state passing
      with three outcomes: a value, an early [res.status(..).json]
      reply, or a thrown store error), [catch_500] and [swallow] for
      the handlers' [try/catch], the monad laws and [bind_preserves],
      the tactics [run_m], [split_branches], [bool_facts], integer and
      map helpers and the [wavv] hint database.
    - [Schema]: the five tables as [gmap Z row] with their
      AUTO_INCREMENT counters, the enums of the DDL as inductives, the
      SQL statements the handlers issue (INSERT with its constraint
      checks, SELECT ... WHERE as [filter], COUNT/SUM/AVG, LIKE,
      ORDER BY id, LIMIT/OFFSET), DECIMAL columns as integers in
      hundredths with their range, and [initializeDatabase_seed], the
      functional specification of the seeding.
    - [Like]: MySQL's LIKE as an inductive relation, equivalent to the
      executable matcher of [Schema].
    - [Validation]: the express-validator chains with the
      first-error-wins behaviour of [handleValidationErrors],
      [parseInt] and the LIMIT/OFFSET computation of the listings.
    - [Auth]: [middleware/auth.js] and [routes/auth.js]; the JWT and
      bcrypt libraries are the interfaces [JwtScheme] and
      [PasswordHasher] (type classes with their laws), instantiated in
      [Auth.Instances] for the examples.
    - [Bookings], [Reviews], [ReviewQueries], [Packages], [Admin]: one
      Definition per route handler of the routers, with its guards and
      every statement it issues, in the code's order.
    - [PackageQueries]: the popular listing (the bookings x reviews
      LEFT JOIN as a product, its distinct counts, average, order and
      textual LIMIT) and the by-destination listing of
      [routes/packages.js].
    - [Server]: [routes/contact.js], the unmounted contact and
      newsletter chains, [errorHandler], [checkTables] and
      [startServer].
    - [Client]: the client's services: token storage, auth headers,
      [apiRequest]'s status handling, the query strings built with
      [URLSearchParams] and the server's parser of them.
    - [Numbers]: [`${n}`] for numbers (a fuelled digit loop, with an
      Equations definition by well-founded recursion as its
      reference) and its reading by [parseInt] and [isInt].
    - [Routes]: how client and server meet: every route of
      [server.js] and the routers as a table in declaration order
      (the admin router's [router.use] guard included), Express's
      first-match [dispatch] with case-insensitive literals, one
      optional trailing slash and the 404 handler; the method and URL
      of every service method and of the [fetch] calls of the pages;
      the booking modal of [Popular].
    - [ClientForms]: the forms of the client pages: the email regex
      of [Contact.jsx] and [Newsletter.jsx], [Contact]'s
      [validateForm] and [handleSubmit] against [POST /contact],
      [Newsletter]'s [handleSubmit], and the booking-contact tables of
      [UserDashboard.jsx] over [GET /bookings/contacts/all].
    - [Store]: the server as a state machine: a [request] per writing
      route, [run] dispatches it to its handler, [step] is one request;
      [initializeDatabase] statement by statement; the store invariant.
    - [Progress]: [can_reach], the states from which some sequence
      of requests reaches a property (the EF of the [step] relation).
    - [Columns]: the declared SQL domains of the DECIMAL and rating
      columns, and their preservation by every kind of write.
    - [Dashboards]: the JSON bodies of the listings ([res.json] of the
      rows under the DDL's column names and the queries' aliases),
      [fetch] with [response.ok], and the two dashboards of the
      client: [loadDashboardData] and [loadUserData] as state passing
      over the store, and the cells and counters the pages render.
    - [Pages]: [apiRequest] over JSON bodies, the popular section of
      [Popular.jsx] (its loading, cards, login guard and modal details)
      and the booking form of [Featured.jsx] against
      [POST /bookings/contacts].
    - [Navigation]: the route table of [App.jsx] with React Router's
      matching, the links of [Header.jsx] for a signed-in user, an
      admin or none, and the guard of the admin page.
    - [AdminActions]: the selects and buttons of the admin dashboard:
      each request, then [loadDashboardData] when the answer is ok or
      the alert of the failure.

    Theorems, by group (ids C<n> are the claims of PROJECT.json).
    - The store invariant ([Store]): from [initializeDatabase] and any
      sequence of requests of any users, every package's cached rating
      and count are the aggregate of its reviews, every review is
      backed by a booking of its author for its package, every
      booking's package and user exist; proved by rule induction on
      [rtc step] from one preservation lemma per kind of write.  The
      package detail answer refines its abstract view; start-up refines
      its functional specification and is idempotent.
    - Rating cache ([Reviews]): each review write keeps the cache; the
      cached rating lies in [1.00, 5.00] when reviews exist.
    - Handlers: the functional behaviour and the error branches of
      booking creation and status changes, registration, login and the
      token middleware, the admin routes, the contact routes, package
      deletion and the listings (only the caller's rows; the count and
      pagination of the package search).
    - Round trips and equivalences: the client's query strings parse
      back to the filters ([Client]); the numbers written into URLs are
      read back by the validators ([Routes]); the LIKE matcher is
      MySQL's LIKE ([Like]); the aggregates over the popular listing's
      join are the per-table aggregates ([PackageQueries]); a login
      session end to end ([Client.client_session]).
    - Composition of client and server ([Routes]): every service
      request and every page request reaches the handler it is written
      for, except the admin dashboard's booking deletion, which no
      route handles (404); the Popular booking modal's body is always
      rejected by [validateBooking].
    - Bounds: booking totals against DECIMAL(10,2).
    - Type invariant ([Columns]): in every reachable store each value
      of a DECIMAL(10,2), DECIMAL(3,2) or CHECK-ed column lies in its
      type.
    - Liveness ([Progress]): from every store satisfying the
      invariant, every booking can end in a review of its package by
      its user (the admin confirms it, the user posts the review).
    - Client forms ([ClientForms]): the email regex test is the regular
      language it denotes; the Contact page's outcome is the server's
      answer once its own weaker check passes; the user dashboard shows
      every visitor's booking contacts to any user.
    - Dashboards ([Dashboards]): the admin page's statistics cards
      read keys the dashboard body does not have and stay blank; its
      tables hold the first ten rows of each listing; the user page's
      counters are min(10, n), the length of the first page; deleting
      a review from the user page goes through the token, [validateId]
      and the handler, keeps the store invariant and lowers the
      reloaded counter by one.
    - Home page ([Pages]): the popular section shows the first six
      packages of the popular listing, its modal's category is always
      undefined; the Featured form stores exactly the contact entered.
    - Navigation ([Navigation]): every route link of the header renders
      a page, the admin link appears exactly when the admin page shows
      itself; every scroll link but [home] has its section.
    - Admin controls ([AdminActions]): a status chosen for a booking
      is stored, keeps the invariant and reloads the page; the booking
      Delete button always fails; deleting an admin or a user with
      bookings changes nothing and alerts.
    - Termination ([Numbers]): the fuelled digit loop never runs out of
      fuel and agrees with its well-founded reference definition.

    Bounds and representation.  Ids are [Z].  Money (DECIMAL(10,2)) and
    the cached rating (DECIMAL(3,2)) are integers in hundredths; AVG
    over INT ratings is computed with MySQL's four extra decimals and
    half-up rounding, then rounded to the column's two decimals.  The
    JavaScript product [package.price * guests * rooms] is computed
    exactly in cents: for prices below 10^8 cents and the validated
    guest and room counts the double-precision product rounds back to
    the same cents, which is what MySQL stores.  [created_at] ordering
    is the id order (AUTO_INCREMENT ids grow with insertion time).  The
    only fuel is that of [Numbers.digits_rev], the decimal digits of a
    number: one step per binary digit of [n] bounds its decimal
    digits, which [Numbers.decimal_terminates] proves enough for every
    [n >= 0] (any larger fuel gives the same digits).  Numbers in URLs are exact integers ([`${n}`] is exact
    below 2^53, which every id and count is).

    Not modelled: the React UI's rendering, hooks and timers (the
    requests the pages send, the Contact and Newsletter forms, the
    loading and rendered cells of the dashboards and the home page,
    the admin controls and the header's links are modelled); the
    header's menu state, [UserProfile] and the login and register
    modals, which rest on [contexts/AuthContext.jsx] and components
    that are not in the repository (their behaviour cannot be read
    from the code); the [Services], [Discover] and testimonial pages
    (markup, modals and alerts) and the unrendered [ReviewModal]; the
    payment request of [Popular] (its router module is
    missing: [Routes.payment_router] has no route), the percent-encoding
    of [fetch] and decoding of Express for segments outside the
    unreserved characters, helmet, CORS and rate
    limiting (off-the-shelf middleware), the [/api] and [/api/health]
    constant answers and static files, bcrypt and the JWT signature
    (interfaces, not cryptography), the [toFixed(1)] formatting of
    averages (JavaScript doubles), console logging, and the connection
    pool (each statement is one atomic step of the store; handlers are
    not interleaved except where a theorem states an interleaving). *)

From stdpp Require Export base gmap strings list.
From Stdlib Require Export ZArith Lia.

Declare Scope wavv_scope.
Delimit Scope wavv_scope with wavv.
Open Scope Z_scope.
Open Scope wavv_scope.

Create HintDb wavv.
Create Rewrite HintDb wavv_rw.

(** ** Store errors

    The error codes of the MySQL driver that the code names
    ([middleware/errorHandler.js]) and the ones the modelled statements
    raise. *)
Inductive sql_error :=
  | ER_DUP_ENTRY
  | ER_NO_REFERENCED_ROW_2
  | ER_ROW_IS_REFERENCED_2
  | ER_WARN_DATA_OUT_OF_RANGE
  | ER_CHECK_CONSTRAINT_VIOLATED
  | ER_WRONG_ARGUMENTS
  | ER_TRUNCATED_WRONG_VALUE_FOR_FIELD
  | ER_PARSE_ERROR
  | BIND_UNDEFINED.   (* mysql2: "Bind parameters must not contain undefined" *)

#[export] Instance sql_error_eq_dec : EqDecision sql_error.
Proof. solve_decision. Defined.

(** ** Strings

    stdpp makes [String.append] opaque to [simpl]; these are its two
    equations. *)

Lemma string_app_cons c s t : (String c s ++ t)%string = String c (s ++ t).
Proof. reflexivity. Qed.

Lemma string_app_empty s : (s ++ "")%string = s.
Proof. induction s as [|c s IH]; [done|]. rewrite string_app_cons. by f_equal. Qed.

Lemma list_ascii_of_string_app a b :
  String.list_ascii_of_string (a ++ b) = String.list_ascii_of_string a ++ String.list_ascii_of_string b.
Proof. induction a as [|c a IH]; [done|]. rewrite string_app_cons. simpl. by rewrite IH. Qed.

(** ** The handler monad

    A handler runs against a state [S] (the store) and ends in one of
    three ways: it continues with a value ([Done]), it answers early
    with [return res.status(code).json({ error: msg })] ([Reply]), or a
    statement throws ([Throw]), which the handler's [catch] turns into
    a 500. *)
Inductive outcome (A : Type) :=
  | Done (a : A)
  | Reply (status : Z) (msg : string)
  | Throw (e : sql_error).
Arguments Done {A} a.
Arguments Reply {A} status msg.
Arguments Throw {A} e.

Definition M (S A : Type) : Type := S -> S * outcome A.

Section monad.
Context {S : Type}.

#[export] Instance M_ret : MRet (M S) := fun A a s => (s, Done a).

#[export] Instance M_bind : MBind (M S) := fun A B f c s =>
  match c s with
  | (s', Done a) => f a s'
  | (s', Reply code msg) => (s', Reply code msg)
  | (s', Throw e) => (s', Throw e)
  end.

Definition reply {A} (code : Z) (msg : string) : M S A :=
  fun s => (s, Reply code msg).

Definition throw {A} (e : sql_error) : M S A := fun s => (s, Throw e).

Definition get_state : M S S := fun s => (s, Done s).

Definition put_state (s' : S) : M S unit := fun _ => (s', Done tt).

(** [if (cond) return res.status(code).json({ error: msg });] *)
Definition guard (b : bool) (code : Z) (msg : string) : M S unit :=
  if b then reply code msg else mret tt.

(** [try { body } catch (error) { res.status(500).json({ error: msg }) }] *)
Definition catch_500 {A} (msg : string) (c : M S A) : M S A := fun s =>
  match c s with
  | (s', Throw _) => (s', Reply 500 msg)
  | r => r
  end.

(** [try { body } catch (error) { console.error(...) }]: the error is
    logged and the caller continues. *)
Definition swallow (c : M S unit) : M S unit := fun s =>
  match c s with
  | (s', Throw _) => (s', Done tt)
  | r => r
  end.
End monad.

Arguments get_state {S}.

(** The status of the HTTP response a finished handler sends. *)
Definition response_status {A} (o : outcome (Z * A)) : Z :=
  match o with
  | Done (code, _) => code
  | Reply code _ => code
  | Throw _ => 500
  end.

(** ** Monad laws and running lemmas *)

Section monad_laws.
Context {S : Type}.

Lemma bind_ret_l {A B} (a : A) (f : A -> M S B) s :
  (mret a ≫= f) s = f a s.
Proof. reflexivity. Qed.

Lemma bind_ret_r {A} (c : M S A) s : (c ≫= mret) s = c s.
Proof. unfold mbind, M_bind. by destruct (c s) as [? []]. Qed.

Lemma bind_assoc {A B C} (c : M S A) (f : A -> M S B) (g : B -> M S C) s :
  ((c ≫= f) ≫= g) s = (c ≫= (fun a => f a ≫= g)) s.
Proof. unfold mbind, M_bind. by destruct (c s) as [? []]. Qed.

Lemma bind_done {A B} (c : M S A) (f : A -> M S B) s s' a :
  c s = (s', Done a) -> (c ≫= f) s = f a s'.
Proof. intros Hc. unfold mbind, M_bind. by rewrite Hc. Qed.

Lemma bind_reply {A B} (c : M S A) (f : A -> M S B) s s' code msg :
  c s = (s', Reply code msg) -> (c ≫= f) s = (s', Reply code msg).
Proof. intros Hc. unfold mbind, M_bind. by rewrite Hc. Qed.

Lemma bind_throw {A B} (c : M S A) (f : A -> M S B) s s' e :
  c s = (s', Throw e) -> (c ≫= f) s = (s', Throw e).
Proof. intros Hc. unfold mbind, M_bind. by rewrite Hc. Qed.

Lemma bind_get {A} (f : S -> M S A) s : (get_state ≫= f) s = f s s.
Proof. reflexivity. Qed.

(** Inversion of a successful bind: both parts succeeded. *)
Lemma bind_done_inv {A B} (c : M S A) (f : A -> M S B) s s'' b :
  (c ≫= f) s = (s'', Done b) ->
  exists s' a, c s = (s', Done a) /\ f a s' = (s'', Done b).
Proof.
  unfold mbind, M_bind. destruct (c s) as [s' []]; try discriminate.
  eauto.
Qed.

(** A property of the state that every step keeps holds after a
    sequence of them, whatever each step answers. *)
Lemma bind_preserves {A B} (P : S -> Prop) (c : M S A) (f : A -> M S B) s :
  (forall s, P s -> P (fst (c s))) -> (forall a s, P s -> P (fst (f a s))) ->
  P s -> P (fst ((c ≫= f) s)).
Proof.
  intros Hc Hf Hs. unfold mbind, M_bind. specialize (Hc s Hs).
  destruct (c s) as [s' []]; simpl in *; auto.
Qed.

(** A handler that never throws is unchanged by [catch_500]. *)
Lemma catch_500_no_throw {A} msg (c : M S A) s :
  (forall s' e, c s <> (s', Throw e)) -> catch_500 msg c s = c s.
Proof.
  intros Hn. unfold catch_500. destruct (c s) as [s' []] eqn:E; auto.
  exfalso. by eapply Hn.
Qed.
End monad_laws.

(** Unfold the monad's plumbing and the branches it decides. *)
Ltac run_m :=
  repeat (unfold mbind, M_bind, mret, M_ret, guard, reply, throw,
            get_state, put_state in *; simpl in *).

(** Split the [if]s and option [match]es that block a handler's run
    on a symbolic store. *)
Ltac split_branches :=
  repeat (match goal with
          | |- context [if ?b then _ else _] => destruct b eqn:?
          | |- context [match ?x with Some _ => _ | None => _ end] => destruct x eqn:?
          end; simpl in *).

(** Turn the boolean tests of the code, once decided, into the
    propositions they decide. *)
Ltac bool_facts :=
  repeat match goal with
  | H : negb _ = true |- _ => apply negb_true_iff in H
  | H : negb _ = false |- _ => apply negb_false_iff in H
  | H : bool_decide _ = true |- _ => apply bool_decide_eq_true in H
  | H : bool_decide _ = false |- _ => apply bool_decide_eq_false in H
  | H : (_ && _)%bool = true |- _ => apply andb_true_iff in H as [? ?]
  end.

(** ** Integers *)

(** Sum of a list of integers ([SUM(col)] over the selected rows). *)
Fixpoint sumZ (l : list Z) : Z :=
  match l with
  | [] => 0
  | x :: l' => x + sumZ l'
  end.

Lemma sumZ_app l1 l2 : sumZ (l1 ++ l2) = sumZ l1 + sumZ l2.
Proof. induction l1; simpl; lia. Qed.

#[export] Instance sumZ_perm : Proper ((≡ₚ) ==> (=)) sumZ.
Proof. induction 1; simpl; lia. Qed.

(** Every element in [lo, hi] bounds the sum by [lo*n] and [hi*n]. *)
Lemma sumZ_bounds lo hi l :
  Forall (fun x => lo <= x <= hi) l ->
  lo * Z.of_nat (length l) <= sumZ l <= hi * Z.of_nat (length l).
Proof. induction 1; simpl; lia. Qed.

Lemma sumZ_nonneg l : Forall (fun x => 0 <= x) l -> 0 <= sumZ l.
Proof. induction 1; simpl; lia. Qed.

(** Division rounded half up, for [0 <= a] and [0 < b]: MySQL's rounding
    of a non-negative DECIMAL quotient to a fixed scale. *)
Definition div_round (a b : Z) : Z := (2 * a + b) / (2 * b).

Example div_round_half : div_round 5 2 = 3 /\ div_round 7 4 = 2 /\ div_round 5 4 = 1.
Proof. repeat split; reflexivity. Qed.

(** Rounding stays between two integer bounds of the exact quotient. *)
Lemma div_round_bounds a b lo hi :
  0 < b -> lo * b <= a <= hi * b -> lo <= div_round a b <= hi.
Proof.
  intros Hb [Hlo Hhi]. unfold div_round. split.
  - apply Z.div_le_lower_bound; nia.
  - assert ((2 * a + b) / (2 * b) < hi + 1); [|lia].
    apply Z.div_lt_upper_bound; nia.
Qed.

Lemma div_round_exact q b : 0 < b -> div_round (q * b) b = q.
Proof.
  intros Hb. unfold div_round.
  replace (2 * (q * b) + b) with (q * (2 * b) + b) by lia.
  rewrite Z.div_add_l by lia. rewrite (Z.div_small b) by lia. lia.
Qed.

#[export] Hint Resolve sumZ_nonneg div_round_bounds : wavv.
#[export] Hint Rewrite sumZ_app div_round_exact using lia : wavv_rw.

(** ** Maps *)

(** An [UPDATE] through [alter] keeps a row property that its change
    of fields keeps. *)
Lemma map_Forall_alter_keep {A} (P : Z -> A -> Prop) (f : A -> A) (i : Z) (m : gmap Z A) :
  (forall k x, m !! k = Some x -> P k x -> P k (f x)) -> map_Forall P m -> map_Forall P (alter f i m).
Proof.
  intros Hf Hm k x. rewrite lookup_alter_Some.
  intros [(<- & y & Hy & ->) | [_ Hk]]; [apply Hf, Hm|apply Hm]; done.
Qed.

(** A [DELETE ... WHERE] keeps every row property. *)
Lemma map_Forall_filter_keep {A} (P : Z -> A -> Prop) (Q : Z * A -> Prop) `{!∀ x, Decision (Q x)}
    (m : gmap Z A) :
  map_Forall P m -> map_Forall P (filter Q m).
Proof. intros Hm k x [Hk _]%map_lookup_filter_Some. by apply Hm. Qed.
