(* ===== verification/Schema.v ===== *)
(** * Schema: the MySQL store of [src/server/config/database.js]

    The five tables created by [initializeDatabase] as finite maps from
    the AUTO_INCREMENT id to the row, with the id counter of each
    table; the enums of the DDL as inductives; the statements the
    handlers issue (INSERT with the constraint checks the DDL declares,
    UPDATE and DELETE by id, SELECT ... WHERE as [filter]) and the
    aggregates (COUNT, SUM, AVG) over a selection.  DECIMAL columns are
    integers in hundredths. *)

From stdpp Require Import sorting.
From Stdlib Require Import Ascii.
From S2P Require Import Prelude.

(** ** Enumerations of the DDL *)

(** [role ENUM('user', 'admin') DEFAULT 'user'] *)
Inductive role := RoleUser | RoleAdmin.

(** [status ENUM('pending', 'confirmed', 'cancelled') DEFAULT 'pending'] *)
Inductive booking_status := Pending | Confirmed | Cancelled.

#[export] Instance role_eq_dec : EqDecision role.
Proof. solve_decision. Defined.
#[export] Instance booking_status_eq_dec : EqDecision booking_status.
Proof. solve_decision. Defined.

(** [['pending', 'confirmed', 'cancelled'].includes(status)], with
    [None] for a missing [status] field. *)
Definition parse_status (s : option string) : option booking_status :=
  match s with
  | Some "pending" => Some Pending
  | Some "confirmed" => Some Confirmed
  | Some "cancelled" => Some Cancelled
  | _ => None
  end%string.

(** [['user', 'admin'].includes(role)] *)
(** The ENUM value as MySQL returns it. *)
Definition status_string (s : booking_status) : string :=
  match s with Pending => "pending" | Confirmed => "confirmed" | Cancelled => "cancelled" end%string.

Definition parse_role (s : option string) : option role :=
  match s with
  | Some "user" => Some RoleUser
  | Some "admin" => Some RoleAdmin
  | _ => None
  end%string.

(** ** Rows *)

Record user_row := {
  user_name : string;
  user_email : string;
  user_password : string;   (* the bcrypt hash *)
  user_role : role
}.

Record package_row := {
  pkg_title : string;
  pkg_destination : string;
  pkg_description : string;
  pkg_price : Z;            (* DECIMAL(10,2), hundredths *)
  pkg_duration : string;
  pkg_image_url : string;
  pkg_rating : Z;           (* DECIMAL(3,2) DEFAULT 0.00, hundredths *)
  pkg_total_reviews : Z     (* INT DEFAULT 0 *)
}.

Record booking_row := {
  bk_user_id : Z;
  bk_package_id : Z;
  bk_date : Z;              (* DATE, as a day number *)
  bk_guests : Z;
  bk_rooms : Z;
  bk_total_amount : Z;      (* DECIMAL(10,2), hundredths *)
  bk_status : booking_status
}.

Record review_row := {
  rv_user_id : Z;
  rv_package_id : Z;
  rv_rating : Z;            (* INT CHECK (rating >= 1 AND rating <= 5) *)
  rv_comment : string
}.

Record contact_row := {
  ct_name : string;
  ct_email : string;
  ct_phone : string;
  ct_date : Z;
  ct_status : booking_status
}.

#[export] Instance user_row_eq_dec : EqDecision user_row.
Proof. solve_decision. Defined.
#[export] Instance package_row_eq_dec : EqDecision package_row.
Proof. solve_decision. Defined.
#[export] Instance booking_row_eq_dec : EqDecision booking_row.
Proof. solve_decision. Defined.
#[export] Instance review_row_eq_dec : EqDecision review_row.
Proof. solve_decision. Defined.
#[export] Instance contact_row_eq_dec : EqDecision contact_row.
Proof. solve_decision. Defined.

(** [req.user]: the row [SELECT id, name, email, role FROM users] that
    [authenticateToken] attaches to the request. *)
Record auth_user := {
  au_id : Z;
  au_name : string;
  au_email : string;
  au_role : role
}.

(** A table: its rows by id and the next AUTO_INCREMENT value. *)
Record table (R : Type) := mk_table { rows : gmap Z R; next_id : Z }.
Arguments mk_table {R} rows next_id.
Arguments rows {R} t.
Arguments next_id {R} t.

Definition empty_table {R} : table R := mk_table ∅ 1.

Record db := mk_db {
  users : table user_row;
  packages : table package_row;
  bookings : table booking_row;
  reviews : table review_row;
  booking_contacts : table contact_row
}.

Definition empty_db : db :=
  mk_db empty_table empty_table empty_table empty_table empty_table.

Definition set_users (t : table user_row) (d : db) : db :=
  mk_db t (packages d) (bookings d) (reviews d) (booking_contacts d).
Definition set_packages (t : table package_row) (d : db) : db :=
  mk_db (users d) t (bookings d) (reviews d) (booking_contacts d).
Definition set_bookings (t : table booking_row) (d : db) : db :=
  mk_db (users d) (packages d) t (reviews d) (booking_contacts d).
Definition set_reviews (t : table review_row) (d : db) : db :=
  mk_db (users d) (packages d) (bookings d) t (booking_contacts d).
Definition set_contacts (t : table contact_row) (d : db) : db :=
  mk_db (users d) (packages d) (bookings d) (reviews d) t.

(** ** Generic statements on one table *)

Section table_ops.
Context {R : Type}.
Implicit Types (t : table R) (r : R).

(** [INSERT INTO t ...]: the row gets the next id ([result.insertId]). *)
Definition table_insert r t : Z * table R :=
  (next_id t, mk_table (<[next_id t := r]> (rows t)) (next_id t + 1)).

(** [UPDATE t SET ... WHERE id = ?]: the row is changed in place;
    [affectedRows] is 1 when the id exists, 0 otherwise. *)
Definition table_update (id : Z) (f : R -> R) t : table R :=
  mk_table (alter f id (rows t)) (next_id t).

Definition affected_rows (id : Z) t : Z :=
  if rows t !! id is Some _ then 1 else 0.

(** [DELETE FROM t WHERE id = ?] *)
Definition table_delete (id : Z) t : table R :=
  mk_table (delete id (rows t)) (next_id t).

(** Rows whose id is below the counter: inserts never overwrite. *)
Definition table_wf t : Prop :=
  0 < next_id t /\ map_Forall (fun id _ => 0 < id < next_id t) (rows t).

#[export] Instance table_wf_dec t : Decision (table_wf t).
Proof. unfold table_wf. apply _. Defined.

Lemma table_insert_fresh r t :
  table_wf t -> rows t !! next_id t = None.
Proof.
  intros [_ Hwf]. destruct (rows t !! next_id t) eqn:E; [|done].
  apply Hwf in E. lia.
Qed.

Lemma table_insert_wf r t : table_wf t -> table_wf (table_insert r t).2.
Proof.
  intros [Hpos Hwf]. split; simpl; [lia|].
  intros id r'. rewrite lookup_insert.
  case_decide; [intros; simplify_eq; lia|].
  intros Hr. apply Hwf in Hr. lia.
Qed.

Lemma table_update_wf i f t : table_wf t -> table_wf (table_update i f t).
Proof.
  intros [Hpos Hwf]. split; [done|]. intros j r. simpl.
  rewrite lookup_alter. case_decide as Hij; [subst j|eauto].
  destruct (rows t !! i) eqn:E; simpl; [|done]. intros _. eauto.
Qed.

Lemma table_delete_wf id t : table_wf t -> table_wf (table_delete id t).
Proof.
  intros [Hpos Hwf]. split; [done|]. intros id' r. simpl.
  rewrite lookup_delete. case_decide; [done|]. eauto.
Qed.

(** [DELETE FROM t WHERE ...] of many rows keeps the counter. *)
Lemma table_wf_filter (P : Z * R -> Prop) `{!∀ x, Decision (P x)} t :
  table_wf t -> table_wf (mk_table (filter P (rows t)) (next_id t)).
Proof. intros [Hpos Hwf]. split; [done|]. by apply map_Forall_filter_keep. Qed.

Lemma table_delete_idem id t : table_delete id (table_delete id t) = table_delete id t.
Proof. unfold table_delete. simpl. by rewrite delete_delete_eq. Qed.

Lemma table_insert_lookup r t :
  rows (table_insert r t).2 !! (table_insert r t).1 = Some r.
Proof. apply lookup_insert_eq. Qed.
End table_ops.

#[export] Hint Resolve table_insert_wf table_update_wf table_delete_wf : wavv.

(** ** Aggregates over a selection *)

(** [SELECT ... WHERE package_id = ?] on reviews. *)
Definition package_reviews (pid : Z) (d : db) : gmap Z review_row :=
  filter (fun kv => rv_package_id kv.2 = pid) (rows (reviews d)).

(** The [rating] column of a selection of reviews, in id order. *)
Definition ratings (m : gmap Z review_row) : list Z :=
  rv_rating <$> (map_to_list m).*2.

(** [COUNT( * )] *)
Definition sql_count {R} (m : gmap Z R) : Z := Z.of_nat (size m).

(** [AVG(rating)] over INT values: NULL on no rows, otherwise the
    quotient with four decimals (MySQL's [div_precision_increment]),
    rounded half up; the result is in ten-thousandths. *)
Definition sql_avg (rs : list Z) : option Z :=
  match rs with
  | [] => None
  | _ => Some (div_round (10000 * sumZ rs) (Z.of_nat (length rs)))
  end.

(** The range of DECIMAL(p,2), in hundredths. *)
Definition decimal_max (precision : Z) : Z := 10 ^ precision - 1.

Definition fits_decimal (precision x : Z) : bool :=
  bool_decide (- decimal_max precision <= x <= decimal_max precision).

(** Storing a four-decimal value into a DECIMAL(_,2) column rounds it
    half up to hundredths. *)
Definition to_hundredths (x4 : Z) : Z := div_round x4 100.

Lemma ratings_length m : length (ratings m) = size m.
Proof.
  unfold ratings. rewrite length_fmap, length_fmap.
  by rewrite length_map_to_list.
Qed.

Lemma ratings_bounds (m : gmap Z review_row) :
  map_Forall (fun _ r => 1 <= rv_rating r <= 5) m ->
  Forall (fun x => 1 <= x <= 5) (ratings m).
Proof.
  intros Hm. unfold ratings. apply Forall_fmap, Forall_fmap.
  apply Forall_forall. intros [k r] Hin.
  apply elem_of_map_to_list in Hin. by apply (Hm k).
Qed.

Lemma ratings_empty : ratings ∅ = [].
Proof. by unfold ratings; rewrite map_to_list_empty. Qed.

Lemma sql_avg_None rs : sql_avg rs = None <-> rs = [].
Proof. destruct rs; simpl; split; congruence. Qed.

(** [AVG] does not depend on the order of the rows. *)
#[export] Instance sql_avg_perm : Proper ((≡ₚ) ==> (=)) sql_avg.
Proof.
  intros l1 l2 Hp. destruct l1 as [|x l1], l2 as [|y l2];
    try (apply Permutation_length in Hp; discriminate); [done|].
  unfold sql_avg. by rewrite Hp.
Qed.

#[export] Hint Resolve ratings_bounds : wavv.

(** ** The statements of the handlers, with the DDL's constraints *)

(** [INSERT INTO tbl ...] without constraint checks. *)
Definition sql_insert {R} (tbl : db -> table R) (set : table R -> db -> db) (r : R) : M db Z :=
  fun d => let '(id, t) := table_insert r (tbl d) in (set t d, Done id).

(** [UPDATE tbl SET ... WHERE id = ?] *)
Definition sql_update {R} (tbl : db -> table R) (set : table R -> db -> db)
    (id : Z) (f : R -> R) : M db unit :=
  fun d => (set (table_update id f (tbl d)) d, Done tt).

(** [DELETE FROM tbl WHERE id = ?] *)
Definition sql_delete {R} (tbl : db -> table R) (set : table R -> db -> db) (id : Z) : M db unit :=
  fun d => (set (table_delete id (tbl d)) d, Done tt).

Definition user_exists (d : db) (uid : Z) : bool := bool_decide (is_Some (rows (users d) !! uid)).
Definition package_exists (d : db) (pid : Z) : bool := bool_decide (is_Some (rows (packages d) !! pid)).

(** [INSERT INTO bookings]: both foreign keys are checked and
    [total_amount DECIMAL(10,2)] must hold the value (strict mode). *)
Definition insert_booking (b : booking_row) : M db Z :=
  d ← get_state;
  if negb (fits_decimal 10 (bk_total_amount b)) then throw ER_WARN_DATA_OUT_OF_RANGE
  else if negb (user_exists d (bk_user_id b) && package_exists d (bk_package_id b))
  then throw ER_NO_REFERENCED_ROW_2
  else sql_insert bookings set_bookings b.

(** [SELECT ... FROM bookings WHERE user_id = ? AND package_id = ?] *)
Definition bookings_of (d : db) (uid pid : Z) : gmap Z booking_row :=
  filter (fun kv => bk_user_id kv.2 = uid /\ bk_package_id kv.2 = pid) (rows (bookings d)).

(** [SELECT ... FROM reviews WHERE user_id = ? AND package_id = ?] *)
Definition reviews_of (d : db) (uid pid : Z) : gmap Z review_row :=
  filter (fun kv => rv_user_id kv.2 = uid /\ rv_package_id kv.2 = pid) (rows (reviews d)).

(** [INSERT INTO reviews]: the CHECK on [rating], the unique key
    [(user_id, package_id)] and both foreign keys. *)
Definition insert_review (r : review_row) : M db Z :=
  d ← get_state;
  if negb (bool_decide (1 <= rv_rating r <= 5)) then throw ER_CHECK_CONSTRAINT_VIOLATED
  else if bool_decide (reviews_of d (rv_user_id r) (rv_package_id r) <> ∅) then throw ER_DUP_ENTRY
  else if negb (user_exists d (rv_user_id r) && package_exists d (rv_package_id r))
  then throw ER_NO_REFERENCED_ROW_2
  else sql_insert reviews set_reviews r.

(** [SELECT b.*, p.* FROM bookings b JOIN packages p ON b.package_id = p.id
    WHERE b.id = ?]: the joined row the handlers send back. *)
Definition booking_join (d : db) (id : Z) : option (Z * booking_row * package_row) :=
  b ← rows (bookings d) !! id;
  p ← rows (packages d) !! bk_package_id b;
  Some (id, b, p).

(** ** Prepared statements, LIKE patterns and pagination *)

(** A bound parameter of [pool.execute(sql, params)]. *)
Inductive sql_param := PStr (s : string) | PNum (z : Z).

(** [pool.execute] checks the number of bound values against the
    number of [?] placeholders of the statement. *)
Definition check_params (placeholders : nat) (params : list sql_param) : M db unit :=
  if bool_decide (length params = placeholders) then mret tt else throw ER_WRONG_ARGUMENTS.

(** [params.slice(0, -2)] *)
Definition js_slice_drop2 {A} (l : list A) : list A := take (length l - 2) l.

(** [LIMIT l OFFSET o] written into the SQL text: a negative value is a
    syntax error. *)
Definition check_limit_offset (l o : Z) : M db unit :=
  if (0 <=? l) && (0 <=? o) then mret tt else throw ER_PARSE_ERROR.

(** [.slice] of a result set: [LIMIT limit OFFSET (page - 1) * limit]. *)
Definition paginate {A} (page limit : Z) (xs : list A) : list A :=
  take (Z.to_nat limit) (drop (Z.to_nat ((page - 1) * limit)) xs).

(** [Math.ceil(total / limit)] for a positive limit. *)
Definition page_count (total limit : Z) : Z := (total + limit - 1) / limit.

(** The [pagination] object of the listings' responses. *)
Record pagination := { pg_page : Z; pg_limit : Z; pg_total : Z; pg_pages : Z }.

(** The ASCII letters compare case-insensitively under MySQL's default
    collation. *)
Definition ascii_lower (c : Ascii.ascii) : Ascii.ascii :=
  let n := Ascii.nat_of_ascii c in
  if (65 <=? n)%nat && (n <=? 90)%nat then Ascii.ascii_of_nat (n + 32) else c.

Definition ci_eq (c1 c2 : Ascii.ascii) : bool := bool_decide (ascii_lower c1 = ascii_lower c2).

(** [s LIKE p]: [%] matches any run, [_] one character, a backslash
    escapes the next pattern character. *)
Fixpoint like_match (p s : list Ascii.ascii) {struct p} : bool :=
  match p with
  | [] => match s with [] => true | _ => false end
  | c :: p' =>
      if bool_decide (c = "%"%char) then
        (fix any (s : list Ascii.ascii) : bool :=
           like_match p' s || match s with [] => false | _ :: s' => any s' end) s
      else if bool_decide (c = "_"%char) then
        match s with [] => false | _ :: s' => like_match p' s' end
      else if bool_decide (c = "\"%char) then
        match p' with
        | d :: p'' => match s with [] => false | c' :: s' => ci_eq d c' && like_match p'' s' end
        | [] => match s with [c'] => ci_eq c c' | _ => false end
        end
      else match s with [] => false | c' :: s' => ci_eq c c' && like_match p' s' end
  end.

(** String equality under the case-insensitive collation (the UNIQUE
    key on [users.email] and [WHERE email = ?] use it). *)
Definition str_lower (s : string) : string :=
  String.string_of_list_ascii (ascii_lower <$> String.list_ascii_of_string s).

Definition ci_str_eq (a b : string) : bool := bool_decide (str_lower a = str_lower b).

(** [col LIKE '%term%'] with the term bound as a parameter. *)
Definition like_contains (col term : string) : bool :=
  like_match (String.list_ascii_of_string ("%" ++ term ++ "%")) (String.list_ascii_of_string col).

Example like_contains_examples :
  like_contains "Italian Adventure" "adven" = true /\
  like_contains "Italian Adventure" "a_v" = true /\
  like_contains "Italian Adventure" "spain" = false.
Proof. repeat split; reflexivity. Qed.

(** Rows newest first: [ORDER BY created_at DESC], AUTO_INCREMENT ids
    growing with insertion time. *)
Definition id_desc {R} (a b : Z * R) : Prop := b.1 <= a.1.

#[export] Instance id_desc_dec {R} : RelDecision (@id_desc R).
Proof. intros a b. unfold id_desc. apply _. Defined.

Definition rows_desc {R} (m : gmap Z R) : list (Z * R) :=
  merge_sort id_desc (map_to_list m).

(** [SELECT r.*, u.name FROM reviews r JOIN users u ... WHERE r.package_id = ?
    ORDER BY r.created_at DESC] *)
Definition package_review_rows (pid : Z) (d : db) : list (Z * review_row * string) :=
  omap (fun kv => u ← rows (users d) !! rv_user_id kv.2; Some (kv.1, kv.2, user_name u))
       (rows_desc (package_reviews pid d)).

(** Rows in primary-key order, the order of a SELECT without ORDER BY. *)
Definition id_asc {R} (a b : Z * R) : Prop := a.1 <= b.1.

#[export] Instance id_asc_dec {R} : RelDecision (@id_asc R).
Proof. intros a b. unfold id_asc. apply _. Defined.

Definition rows_asc {R} (m : gmap Z R) : list (Z * R) :=
  merge_sort id_asc (map_to_list m).

(** [SELECT ... FROM users WHERE email = ?] *)
Definition users_with_email (d : db) (email : string) : gmap Z user_row :=
  filter (fun kv => ci_str_eq (user_email kv.2) email = true) (rows (users d)).

(** [INSERT INTO users]: the UNIQUE key on [email]. *)
Definition insert_user (u : user_row) : M db Z :=
  d ← get_state;
  if bool_decide (users_with_email d (user_email u) <> ∅) then throw ER_DUP_ENTRY
  else sql_insert users set_users u.

Lemma insert_user_fresh u d :
  users_with_email d (user_email u) = ∅ ->
  insert_user u d = (set_users (table_insert u (users d)).2 d, Done (next_id (users d))).
Proof.
  intros He. unfold insert_user. run_m. rewrite He.
  by rewrite bool_decide_false by (intros Hn; by apply Hn).
Qed.

Lemma insert_user_dup u d :
  users_with_email d (user_email u) <> ∅ -> insert_user u d = (d, Throw ER_DUP_ENTRY).
Proof. intros He. unfold insert_user. run_m. by rewrite bool_decide_true. Qed.

Lemma js_slice_drop2_length {A} (l : list A) : length (js_slice_drop2 l) = (length l - 2)%nat.
Proof. unfold js_slice_drop2. rewrite length_take. lia. Qed.

Lemma filter_all_true {A} (l : list A) : filter (fun _ => true = true) l = l.
Proof. induction l as [|x l IH]; [done|]. rewrite filter_cons_True by done. by f_equal. Qed.

(** The count query binds as many values as it has placeholders only
    when no value was pushed. *)
Lemma count_query_params_ok (params : list sql_param) :
  bool_decide (length (js_slice_drop2 params) = length params) = bool_decide (params = []).
Proof.
  apply bool_decide_ext. rewrite js_slice_drop2_length.
  destruct params; simpl; split; (done || lia).
Qed.

(** ** Pagination covers the listing *)

Lemma pages_concat {A} (xs : list A) (L : nat) m k :
  (0 < L)%nat -> (length (drop (k * L) xs) <= m * L)%nat ->
  concat ((fun j => take L (drop (j * L) xs)) <$> seq k m) = drop (k * L) xs.
Proof.
  intros HL. revert k. induction m as [|m IH]; intros k Hlen.
  - simpl. symmetry. apply nil_length_inv. lia.
  - change (seq k (S m)) with (k :: seq (S k) m). rewrite fmap_cons. cbn [concat].
    assert (Hd : drop (S k * L) xs = drop L (drop (k * L) xs)).
    { rewrite drop_drop. f_equal. lia. }
    rewrite IH, Hd; [apply take_drop|].
    rewrite Hd, !length_drop. rewrite length_drop in Hlen. nia.
Qed.

Lemma page_count_cover (n limit : Z) :
  0 < limit -> 0 <= n -> n <= page_count n limit * limit.
Proof.
  intros Hl Hn. unfold page_count.
  pose proof (Z.div_mod (n + limit - 1) limit ltac:(lia)).
  pose proof (Z.mod_pos_bound (n + limit - 1) limit Hl). nia.
Qed.

(** The pages a listing endpoint serves ([LIMIT limit OFFSET
    (page - 1) * limit] for page = 1 .. [Math.ceil(total / limit)])
    concatenate back to the whole result, in order: no row is skipped or
    served twice. *)
Theorem paginate_pages_cover {A} (xs : list A) (limit : Z) :
  0 < limit ->
  concat ((fun k : nat => paginate (Z.of_nat k + 1) limit xs) <$>
            seq 0 (Z.to_nat (page_count (Z.of_nat (length xs)) limit))) = xs.
Proof.
  intros Hl. set (L := Z.to_nat limit).
  transitivity (concat ((fun j => take L (drop (j * L) xs)) <$>
                          seq 0 (Z.to_nat (page_count (Z.of_nat (length xs)) limit)))).
  - f_equal. apply list_fmap_ext. intros _ j _. unfold paginate, L. do 2 f_equal.
    apply Nat2Z.inj. rewrite Nat2Z.inj_mul, !Z2Nat.id; nia.
  - rewrite pages_concat; [done | lia |].
    pose proof (page_count_cover (Z.of_nat (length xs)) limit Hl ltac:(lia)).
    assert (0 <= page_count (Z.of_nat (length xs)) limit).
    { unfold page_count. apply Z.div_pos; lia. }
    rewrite length_drop. unfold L. nia.
Qed.

Lemma paginate_pages_cover_witness :
  0 < 2 /\
  concat ((fun k : nat => paginate (Z.of_nat k + 1) 2 [1; 2; 3; 4; 5]) <$>
            seq 0 (Z.to_nat (page_count (Z.of_nat (length [1; 2; 3; 4; 5])) 2))) = [1; 2; 3; 4; 5].
Proof. split; [lia|]. apply paginate_pages_cover. lia. Defined.

(** ** The seeding of [initializeDatabase] (database.js lines 149-230)

    Its effect on the store as a function: [Store.initializeDatabase],
    the statement-by-statement handler, is proved to compute it. *)

Definition sample_package (title destination description : string) (price : Z)
    (duration image_url : string) : package_row :=
  {| pkg_title := title; pkg_destination := destination; pkg_description := description;
     pkg_price := price; pkg_duration := duration; pkg_image_url := image_url;
     pkg_rating := 0; pkg_total_reviews := 0 |}.

Definition samplePackages : list package_row := [
  sample_package "Italian Adventure" "Italy"
    "Explore the beautiful cities of Rome, Florence, and Venice with guided tours and authentic experiences."
    240000 "7 days" "/uploads/italy.jpg";
  sample_package "Mexican Beach Getaway" "Mexico"
    "Discover ancient ruins and pristine beaches with all-inclusive luxury accommodations."
    98000 "5 days" "/uploads/mexico.jpg";
  sample_package "French Romance" "France"
    "Experience the romance of Paris and French countryside with wine tasting and cultural tours."
    120000 "6 days" "/uploads/france.jpg";
  sample_package "Turkish Delight" "Turkey"
    "Visit historic Istanbul and stunning Cappadocia with hot air balloon rides."
    50000 "4 days" "/uploads/turkey.jpg";
  sample_package "Indian Heritage" "India"
    "Journey through diverse cultures and landscapes from the Taj Mahal to the Himalayas."
    80000 "8 days" "/uploads/india.jpg";
  sample_package "Spanish Fiesta" "Spain"
    "Enjoy vibrant cities and Mediterranean coast with flamenco shows and tapas tours."
    199900 "9 days" "/uploads/spain.jpg" ]%string.

(** The admin account and the sample packages, each inserted only when
    absent; [admin_hash] stands for [bcrypt.hash('admin123', 12)]. *)
Definition admin_row (admin_hash : string) : user_row :=
  {| user_name := "Admin User"; user_email := "admin@wavv.com";
     user_password := admin_hash; user_role := RoleAdmin |}%string.

Definition initializeDatabase_seed (admin_hash : string) (d : db) : db :=
  let d1 :=
    if bool_decide (users_with_email d "admin@wavv.com"%string = ∅)
    then set_users (table_insert (admin_row admin_hash) (users d)).2 d
    else d in
  if bool_decide (rows (packages d1) = ∅)
  then set_packages (foldl (fun t p => (table_insert p t).2) (packages d1) samplePackages) d1
  else d1.

(** ** Concrete stores for the examples *)

(** The store right after [initializeDatabase]: the admin (user 1) and
    the six sample packages (ids 1 to 6). *)
Definition seed_store : db := initializeDatabase_seed "h"%string empty_db.

(** The seeded store with one confirmed booking of the admin for
    package 1 (2 guests, 1 room, 4800.00). *)
Definition demo_store : db :=
  set_bookings (table_insert {| bk_user_id := 1; bk_package_id := 1; bk_date := 20400;
                                bk_guests := 2; bk_rooms := 1; bk_total_amount := 480000;
                                bk_status := Confirmed |} (bookings seed_store)).2 seed_store.
