(* ===== verification/Like.v ===== *)
(** * Like: the LIKE matcher against its relational specification

    [Schema.like_match] is the executable matcher the listings use for
    [col LIKE ?]: it walks the pattern, and for [%] tries every suffix of
    the subject.  [like_rel] states MySQL's semantics rule by rule, as an
    inductive relation: [%] matches any run (empty or one more
    character), [_] one character, a backslash makes the next pattern
    character literal (a trailing backslash is itself literal), and any
    other character matches itself up to the case-insensitive collation.
    The two agree on every pattern and subject.

    [like_contains col term], the [%term%] pattern of the search
    filters, is a case-insensitive substring test ([infix_ci]) when the
    term has no special character, and matches everything when the
    term is [%]. *)

From Stdlib Require Import Ascii.
From S2P Require Import Prelude Schema.

Definition like_special (c : ascii) : Prop := c = "%"%char \/ c = "_"%char \/ c = "\"%char.

Inductive like_rel : list ascii -> list ascii -> Prop :=
  | like_nil : like_rel [] []
  | like_pct_stop p s : like_rel p s -> like_rel ("%"%char :: p) s
  | like_pct_skip p c s : like_rel ("%"%char :: p) s -> like_rel ("%"%char :: p) (c :: s)
  | like_one p c s : like_rel p s -> like_rel ("_"%char :: p) (c :: s)
  | like_escaped d p c s : ci_eq d c = true -> like_rel p s -> like_rel ("\"%char :: d :: p) (c :: s)
  | like_trailing_escape c : ci_eq "\"%char c = true -> like_rel ["\"%char] [c]
  | like_literal a p c s : ¬ like_special a -> ci_eq a c = true -> like_rel p s -> like_rel (a :: p) (c :: s).

#[export] Hint Constructors like_rel : wavv.

(** The reference substring test: [t] occurs in [s] up to the collation. *)
Fixpoint prefix_ci (t s : list ascii) : bool :=
  match t, s with
  | [], _ => true
  | a :: t', c :: s' => ci_eq a c && prefix_ci t' s'
  | _ :: _, [] => false
  end.

Fixpoint infix_ci (t s : list ascii) : bool :=
  prefix_ci t s || match s with [] => false | _ :: s' => infix_ci t s' end.

(** The [%] case of the matcher, one character at a time. *)
Lemma like_match_pct p s :
  like_match ("%"%char :: p) s =
    like_match p s || match s with [] => false | _ :: s' => like_match ("%"%char :: p) s' end.
Proof. destruct s; reflexivity. Qed.

Lemma like_match_special_free a p s :
  ¬ like_special a ->
  like_match (a :: p) s = match s with [] => false | c :: s' => ci_eq a c && like_match p s' end.
Proof.
  intros Ha. unfold like_special in Ha. simpl.
  rewrite !bool_decide_false by naive_solver. done.
Qed.

Lemma like_rel_match p s : like_rel p s -> like_match p s = true.
Proof.
  induction 1 as [| p s _ IH | p c s _ IH | p c s _ IH | d p c s Hd _ IH | c Hc
                  | a p c s Ha Hc _ IH].
  - done.
  - by rewrite like_match_pct, IH.
  - by rewrite like_match_pct, IH, orb_true_r.
  - done.
  - simpl. by rewrite Hd, IH.
  - done.
  - by rewrite like_match_special_free, Hc, IH.
Qed.

Lemma like_match_rel_len n p s : (length p < n)%nat -> like_match p s = true -> like_rel p s.
Proof.
  revert p s. induction n as [|n IHn]; intros p s Hlen; [lia|].
  destruct p as [|c p].
  - destruct s; [constructor | discriminate].
  - destruct (decide (like_special c)) as [Hc|Hc].
    + destruct Hc as [-> | [-> | ->]].
      * induction s as [|x s IHs]; rewrite like_match_pct; intros Hm.
        -- apply like_pct_stop, IHn; [simpl in *; lia | by apply orb_true_iff in Hm as [?|?]].
        -- apply orb_true_iff in Hm as [Hm|Hm].
           ++ apply like_pct_stop, IHn; [simpl in *; lia | done].
           ++ by apply like_pct_skip, IHs.
      * destruct s as [|x s]; [discriminate|]. intros Hm. apply like_one, IHn; [simpl in *; lia | done].
      * destruct p as [|d p]; destruct s as [|x [|y s]]; simpl; try discriminate.
        -- intros Hm. by apply like_trailing_escape.
        -- intros Hm. apply andb_true_iff in Hm as [Hd Hm].
           apply like_escaped; [done | apply IHn; [simpl in *; lia | done]].
        -- intros Hm. apply andb_true_iff in Hm as [Hd Hm].
           apply like_escaped; [done | apply IHn; [simpl in *; lia | done]].
    + rewrite like_match_special_free by done. destruct s as [|x s]; [discriminate|].
      intros Hm. apply andb_true_iff in Hm as [Hx Hm].
      apply like_literal; [done | done | apply IHn; [simpl in *; lia | done]].
Qed.


(** ** [%term%] *)

Lemma like_match_pct_end s : like_match ["%"%char] s = true.
Proof. induction s as [|c s IH]; [done|]. by rewrite like_match_pct, IH, orb_true_r. Qed.

Lemma like_match_prefix t s :
  Forall (fun c => ¬ like_special c) t -> like_match (t ++ ["%"%char]) s = prefix_ci t s.
Proof.
  intros Ht. revert s. induction Ht as [|a t Ha _ IH]; intros s.
  - by rewrite like_match_pct_end; destruct s.
  - rewrite <- app_comm_cons, like_match_special_free by done.
    destruct s as [|c s]; [done|]. simpl. by rewrite IH.
Qed.

(** The search pattern of a term without special characters is the
    case-insensitive substring test. *)
Lemma like_contains_infix col term :
  Forall (fun c => ¬ like_special c) (String.list_ascii_of_string term) ->
  like_contains col term = infix_ci (String.list_ascii_of_string term) (String.list_ascii_of_string col).
Proof.
  intros Ht. unfold like_contains.
  change ("%" ++ term ++ "%")%string with (String "%" (term ++ "%")).
  cbn [String.list_ascii_of_string]. rewrite list_ascii_of_string_app.
  cbn [String.list_ascii_of_string].
  induction (String.list_ascii_of_string col) as [|c s IH].
  - rewrite like_match_pct, like_match_prefix by done. cbn [infix_ci]. by rewrite !orb_false_r.
  - rewrite like_match_pct, like_match_prefix, IH by done. reflexivity.
Qed.

(** The term [%] matches every value. *)
Lemma like_contains_pct col : like_contains col "%" = true.
Proof.
  unfold like_contains.
  change (String.list_ascii_of_string ("%" ++ "%" ++ "%")) with ["%"%char; "%"%char; "%"%char].
  induction (String.list_ascii_of_string col) as [|c s IH]; [done|].
  by rewrite like_match_pct, IH, orb_true_r.
Qed.
