(* ===== verification/Validation.v ===== *)
(** * Validation: the express-validator chains of
    [src/server/middleware/validation.js]

    A chain is a list of rules run in order; each failing rule records
    its [withMessage] text, and [handleValidationErrors] answers 400
    with the first recorded message.  Sanitizers ([trim]) rewrite the
    field the handler later reads, so a chain returns the sanitized
    input the handler receives.  JSON field values are abstracted to
    what the rules observe: an integer (a number or a numeric string),
    another value, or a missing field; strings are ASCII. *)

From Stdlib Require Import Ascii.
From S2P Require Import Prelude Schema.

(** ** Field values and the primitive validators *)

(** A JSON body field as the validators see it. *)
Inductive jvalue :=
  | JMissing                 (* undefined *)
  | JInt (z : Z)             (* a number or string that isInt accepts *)
  | JOther.                  (* anything isInt rejects: 2.5, "abc", null, true *)

#[export] Instance jvalue_eq_dec : EqDecision jvalue.
Proof. solve_decision. Defined.

(** [isInt({ min, max })] *)
Definition is_int (lo hi : option Z) (v : jvalue) : option Z :=
  match v with
  | JInt z =>
      if (match lo with Some l => l <=? z | None => true end) &&
         (match hi with Some h => z <=? h | None => true end)
      then Some z else None
  | _ => None
  end.

(** The characters [String.prototype.trim] removes (ASCII part). *)
Definition is_js_space (c : Ascii.ascii) : bool :=
  match Ascii.nat_of_ascii c with
  | 9 | 10 | 11 | 12 | 13 | 32 => true
  | _ => false
  end%nat.

Fixpoint trim_left (s : string) : string :=
  match s with
  | String c s' => if is_js_space c then trim_left s' else s
  | EmptyString => EmptyString
  end.

Definition string_rev (s : string) : string :=
  String.string_of_list_ascii (rev (String.list_ascii_of_string s)).

(** [.trim()]: an absent field sanitizes to the empty string. *)
Definition js_trim (s : option string) : string :=
  match s with
  | Some s => string_rev (trim_left (string_rev (trim_left s)))
  | None => EmptyString
  end.

(** [isLength({ min, max })] on the (sanitized) string. *)
Definition is_length (lo hi : nat) (s : string) : bool :=
  bool_decide (lo <= String.length s <= hi)%nat.

(** [handleValidationErrors]: the first failing rule's message. *)
Fixpoint first_error (errs : list (option string)) : option string :=
  match errs with
  | [] => None
  | Some msg :: _ => Some msg
  | None :: rest => first_error rest
  end.

Definition rule (ok : bool) (msg : string) : option string :=
  if ok then None else Some msg.

Definition handleValidationErrors {S} (errs : list (option string)) : M S unit :=
  match first_error errs with
  | Some msg => reply 400 msg
  | None => mret tt
  end.

(** ** Dates

    [new Date("YYYY-MM-DD")] is midnight UTC of that day; [today] is
    [new Date()] with [setHours(0, 0, 0, 0)], midnight in the server's
    local time zone.  Instants are minutes since the epoch, a date is
    its day number, and the zone is its offset east of UTC in minutes. *)
Record clock := { now_minutes : Z; tz_offset : Z }.

Definition minutes_per_day : Z := 1440.

Definition local_midnight (c : clock) : Z :=
  (now_minutes c + tz_offset c) / minutes_per_day * minutes_per_day - tz_offset c.

(** The local calendar day of the server at [now]. *)
Definition local_today (c : clock) : Z :=
  (now_minutes c + tz_offset c) / minutes_per_day.

(** The [custom] rule: [bookingDate < today] throws. *)
Definition booking_date_in_past (c : clock) (day : Z) : bool :=
  bool_decide (day * minutes_per_day < local_midnight c).

(** ** [validateBooking] *)

Record booking_body := {
  body_packageId : jvalue;
  body_bookingDate : option Z;   (* None: not an ISO 8601 date *)
  body_guests : jvalue;
  body_rooms : jvalue
}.

(** What the handler reads from [req.body] once the chain passed. *)
Record booking_input := {
  in_packageId : Z;
  in_bookingDate : Z;
  in_guests : Z;
  in_rooms : Z
}.

Definition booking_errors (c : clock) (b : booking_body) : list (option string) :=
  [ rule (bool_decide (is_Some (is_int (Some 1) None (body_packageId b))))
      "Package ID must be a positive integer";
    rule (bool_decide (is_Some (body_bookingDate b)))
      "Booking date must be a valid date";
    (match body_bookingDate b with
     | Some day => rule (negb (booking_date_in_past c day))
                     "Booking date cannot be in the past"
     | None => None
     end);
    rule (bool_decide (is_Some (is_int (Some 1) (Some 10) (body_guests b))))
      "Number of guests must be between 1 and 10";
    rule (bool_decide (is_Some (is_int (Some 1) (Some 5) (body_rooms b))))
      "Number of rooms must be between 1 and 5" ]%string.

Definition validateBooking {S} (c : clock) (b : booking_body) : M S booking_input :=
  handleValidationErrors (booking_errors c b) ;;
  match is_int (Some 1) None (body_packageId b), body_bookingDate b,
        is_int (Some 1) (Some 10) (body_guests b),
        is_int (Some 1) (Some 5) (body_rooms b) with
  | Some p, Some d, Some g, Some r =>
      mret {| in_packageId := p; in_bookingDate := d; in_guests := g; in_rooms := r |}
  | _, _, _, _ => reply 400 "Validation failed"
  end.

(** ** [validateReview] *)

Record review_body := {
  body_rv_packageId : jvalue;
  body_rating : jvalue;
  body_comment : option string
}.

Record review_input := {
  in_rv_packageId : Z;
  in_rating : Z;
  in_comment : string      (* trimmed by the chain *)
}.

Definition review_errors (b : review_body) : list (option string) :=
  [ rule (bool_decide (is_Some (is_int (Some 1) None (body_rv_packageId b))))
      "Package ID must be a positive integer";
    rule (bool_decide (is_Some (is_int (Some 1) (Some 5) (body_rating b))))
      "Rating must be between 1 and 5";
    rule (is_length 10 500 (js_trim (body_comment b)))
      "Comment must be between 10 and 500 characters" ]%string.

Definition validateReview {S} (b : review_body) : M S review_input :=
  handleValidationErrors (review_errors b) ;;
  match is_int (Some 1) None (body_rv_packageId b),
        is_int (Some 1) (Some 5) (body_rating b) with
  | Some p, Some r =>
      mret {| in_rv_packageId := p; in_rating := r;
              in_comment := js_trim (body_comment b) |}
  | _, _ => reply 400 "Validation failed"
  end.

(** ** [validateId] on the [:id] route parameter *)

Definition validateId {S} (id : jvalue) : M S Z :=
  handleValidationErrors
    [rule (bool_decide (is_Some (is_int (Some 1) None id)))
       "ID must be a positive integer"%string] ;;
  match is_int (Some 1) None id with
  | Some i => mret i
  | None => reply 400 "Validation failed"
  end.

(** ** Properties of the chains *)

Lemma first_error_None errs : first_error errs = None <-> Forall (fun e => e = None) errs.
Proof.
  induction errs as [|[m|] errs IH]; simpl.
  - split; constructor.
  - split; [discriminate|]. intros H. by inversion H.
  - rewrite IH. split; [by constructor|]. by inversion 1.
Qed.

Lemma rule_None ok msg : rule ok msg = None <-> ok = true.
Proof. unfold rule. destruct ok; split; congruence. Qed.

Lemma is_int_Some lo hi v z :
  is_int lo hi v = Some z ->
  v = JInt z /\ (forall l, lo = Some l -> l <= z) /\ (forall h, hi = Some h -> z <= h).
Proof.
  destruct v as [|z'|]; simpl; try discriminate.
  destruct lo as [l|], hi as [h|]; simpl;
    repeat case_match; intros; simplify_eq; repeat split;
    intros; simplify_eq; lia.
Qed.

Lemma handleValidationErrors_ok {S} errs (s s' : S) u :
  handleValidationErrors errs s = (s', Done u) -> s' = s /\ first_error errs = None.
Proof.
  unfold handleValidationErrors. destruct (first_error errs); run_m; by inversion 1.
Qed.

#[export] Hint Resolve first_error_None rule_None : wavv.

Lemma is_int_lo lo hi v z : is_int (Some lo) hi v = Some z -> lo <= z.
Proof. intros H. apply is_int_Some in H as (_ & H & _). eauto. Qed.

Lemma is_int_hi lo hi v z : is_int lo (Some hi) v = Some z -> z <= hi.
Proof. intros H. apply is_int_Some in H as (_ & _ & H). eauto. Qed.

(** A passing [validateBooking] reads each field through its rule and
    leaves the store alone. *)
Lemma validateBooking_Done {S} c b (s s' : S) i :
  validateBooking c b s = (s', Done i) ->
  s' = s /\
  is_int (Some 1) None (body_packageId b) = Some (in_packageId i) /\
  body_bookingDate b = Some (in_bookingDate i) /\
  booking_date_in_past c (in_bookingDate i) = false /\
  is_int (Some 1) (Some 10) (body_guests b) = Some (in_guests i) /\
  is_int (Some 1) (Some 5) (body_rooms b) = Some (in_rooms i).
Proof.
  unfold validateBooking. intros H.
  apply bind_done_inv in H as (s1 & [] & Hv & Hk).
  apply handleValidationErrors_ok in Hv as [-> Hnone].
  unfold booking_errors in Hnone. apply first_error_None in Hnone.
  rewrite !Forall_cons in Hnone. destruct Hnone as (_ & _ & Hd & _).
  destruct (is_int _ None (body_packageId b)) eqn:Ep,
    (body_bookingDate b) as [d|] eqn:Ed,
    (is_int _ (Some 10) _) eqn:Eg, (is_int _ (Some 5) _) eqn:Er;
    run_m; simplify_eq.
  apply rule_None, negb_true_iff in Hd.
  simpl. auto 10.
Qed.

(** The chain passes only inputs within the validated ranges, and does
    not touch the store. *)
Lemma validateBooking_ranges {S} c b (s s' : S) i :
  validateBooking c b s = (s', Done i) ->
  s' = s /\ 1 <= in_packageId i /\ 1 <= in_guests i <= 10 /\ 1 <= in_rooms i <= 5 /\
  booking_date_in_past c (in_bookingDate i) = false.
Proof.
  intros H. apply validateBooking_Done in H as (-> & Hp & _ & Hd & Hg & Hr).
  repeat split; eauto using is_int_lo, is_int_hi.
Qed.

(** C39: the [custom] date rule, for a server zone within a day of UTC,
    rejects every day before the server's local calendar day, accepts
    every later day, and rejects the local day itself exactly when the
    zone is west of UTC ([new Date("YYYY-MM-DD")] is UTC midnight, which
    is before local midnight there). *)
Theorem booking_date_in_past_spec c d :
  -1440 < tz_offset c < 1440 ->
  booking_date_in_past c d =
  bool_decide (d < local_today c \/ (d = local_today c /\ tz_offset c < 0)).
Proof.
  intros Hoff. unfold booking_date_in_past, local_midnight, local_today, minutes_per_day.
  apply bool_decide_ext.
  set (D := (now_minutes c + tz_offset c) / 1440). lia.
Qed.

Lemma booking_date_in_past_spec_witness :
  let c := {| now_minutes := 29000000; tz_offset := -300 |} in
  (-1440 < tz_offset c < 1440) /\
  booking_date_in_past c (local_today c) = true.
Proof.
  intros c. split; [simpl; lia|].
  rewrite (booking_date_in_past_spec c (local_today c)) by (simpl; lia).
  vm_compute. reflexivity.
Defined.

(** ** [validatePackage] (lines 51-77) *)

(** A numeric field as [isFloat({ min: 0 })] sees it: absent, a decimal
    number (its value in hundredths), or anything else. *)
Inductive qnum := QAbsent | QNum (cents : Z) | QBad.

#[export] Instance qnum_eq_dec : EqDecision qnum.
Proof. solve_decision. Defined.

Definition is_float_nonneg (v : qnum) : option Z :=
  match v with
  | QNum c => if 0 <=? c then Some c else None
  | _ => None
  end.

Record package_body := {
  body_title : option string;
  body_destination : option string;
  body_description : option string;
  body_price : qnum;
  body_duration : option string;
  body_image_url : option string    (* not validated; None is undefined *)
}.

Record package_input := {
  in_title : string;
  in_destination : string;
  in_description : string;
  in_price : Z;
  in_duration : string;
  in_image_url : option string
}.

Definition package_errors (b : package_body) : list (option string) :=
  [ rule (is_length 3 255 (js_trim (body_title b)))
      "Title must be between 3 and 255 characters";
    rule (is_length 2 255 (js_trim (body_destination b)))
      "Destination must be between 2 and 255 characters";
    rule (is_length 10 1000 (js_trim (body_description b)))
      "Description must be between 10 and 1000 characters";
    rule (bool_decide (is_Some (is_float_nonneg (body_price b))))
      "Price must be a positive number";
    rule (is_length 2 100 (js_trim (body_duration b)))
      "Duration must be between 2 and 100 characters" ]%string.

Definition validatePackage {S} (b : package_body) : M S package_input :=
  handleValidationErrors (package_errors b) ;;
  match is_float_nonneg (body_price b) with
  | Some c =>
      mret {| in_title := js_trim (body_title b);
              in_destination := js_trim (body_destination b);
              in_description := js_trim (body_description b);
              in_price := c; in_duration := js_trim (body_duration b);
              in_image_url := body_image_url b |}
  | None => reply 400 "Validation failed"
  end.

(** ** [validateSearch] (lines 138-172): every rule is [optional()] *)

Record search_query := {
  q_search : option string;
  q_destination : option string;
  q_minPrice : qnum;
  q_maxPrice : qnum;
  q_page : jvalue;
  q_limit : jvalue
}.

Record search_input := {
  s_search : option string;        (* trimmed *)
  s_destination : option string;   (* trimmed *)
  s_minPrice : option Z;
  s_maxPrice : option Z;
  s_page : Z;                      (* [page = 1] default of the handler *)
  s_limit : Z                      (* [limit = 10] default of the handler *)
}.

Definition optional_rule {A} (v : option A) (ok : A -> bool) (msg : string) : option string :=
  match v with
  | None => None
  | Some a => rule (ok a) msg
  end.

Definition optional_num_rule (v : qnum) (msg : string) : option string :=
  match v with
  | QAbsent => None
  | _ => rule (bool_decide (is_Some (is_float_nonneg v))) msg
  end.

Definition optional_int_rule (lo : Z) (hi : option Z) (v : jvalue) (msg : string) : option string :=
  match v with
  | JMissing => None
  | _ => rule (bool_decide (is_Some (is_int (Some lo) hi v))) msg
  end.

Definition search_errors (q : search_query) : list (option string) :=
  [ optional_rule (q_search q) (fun s => is_length 2 100 (js_trim (Some s)))
      "Search term must be between 2 and 100 characters";
    optional_rule (q_destination q) (fun s => is_length 2 100 (js_trim (Some s)))
      "Destination filter must be between 2 and 100 characters";
    optional_num_rule (q_minPrice q) "Minimum price must be a positive number";
    optional_num_rule (q_maxPrice q) "Maximum price must be a positive number";
    optional_int_rule 1 None (q_page q) "Page must be a positive integer";
    optional_int_rule 1 (Some 100) (q_limit q) "Limit must be between 1 and 100" ]%string.

Definition int_or_default (dflt : Z) (v : jvalue) : Z :=
  match v with JInt z => z | _ => dflt end.

Definition validateSearch {S} (q : search_query) : M S search_input :=
  handleValidationErrors (search_errors q) ;;
  mret {| s_search := (fun s => js_trim (Some s)) <$> q_search q;
          s_destination := (fun s => js_trim (Some s)) <$> q_destination q;
          s_minPrice := is_float_nonneg (q_minPrice q);
          s_maxPrice := is_float_nonneg (q_maxPrice q);
          s_page := int_or_default 1 (q_page q);
          s_limit := int_or_default 10 (q_limit q) |}.

(** ** Query-string values read without a validation chain *)

(** [if (s)] on an optional string: [undefined] and [""] are falsy. *)
Definition truthy_str (s : option string) : option string :=
  match s with
  | None | Some EmptyString => None
  | Some t => Some t
  end.

Definition is_digit (c : Ascii.ascii) : bool :=
  (48 <=? Ascii.nat_of_ascii c)%nat && (Ascii.nat_of_ascii c <=? 57)%nat.

(** The leading run of decimal digits. *)
Fixpoint leading_digits (l : list Ascii.ascii) : list Ascii.ascii :=
  match l with
  | c :: l' => if is_digit c then c :: leading_digits l' else []
  | [] => []
  end.

Definition digits_value (ds : list Ascii.ascii) : Z :=
  foldl (fun acc c => acc * 10 + Z.of_nat (Ascii.nat_of_ascii c - 48)) 0 ds.

(** [parseInt(s)] in base 10: leading white space, an optional sign,
    then the longest run of digits; [None] is [NaN]. *)
Definition js_parseInt (s : string) : option Z :=
  let l := String.list_ascii_of_string (trim_left s) in
  let '(sign, rest) :=
    match l with
    | "-"%char :: r => (-1, r)
    | "+"%char :: r => (1, r)
    | _ => (1, l)
    end in
  match leading_digits rest with
  | [] => None
  | ds => Some (sign * digits_value ds)
  end.

(** [const { page = dflt } = req.query; parseInt(page)] *)
Definition query_int (q : option string) (dflt : Z) : option Z :=
  match q with None => Some dflt | Some s => js_parseInt s end.

(** [LIMIT] and [OFFSET] from [parseInt(page)] and [parseInt(limit)]. *)
Definition limit_offset (page limit : option string) : M db (Z * Z) :=
  match query_int page 1, query_int limit 10 with
  | Some p, Some l => check_limit_offset l ((p - 1) * l);; mret (p, l)
  | _, _ => throw ER_PARSE_ERROR
  end.

Lemma limit_offset_ok page limit p l d :
  query_int page 1 = Some p -> query_int limit 10 = Some l -> 0 <= l -> 0 <= (p - 1) * l ->
  limit_offset page limit d = (d, Done (p, l)).
Proof.
  intros Hp Hl Hl0 Ho. unfold limit_offset, check_limit_offset. rewrite Hp, Hl.
  rewrite (proj2 (Z.leb_le _ _) Hl0), (proj2 (Z.leb_le _ _) Ho). reflexivity.
Qed.

Lemma limit_offset_nan page limit d :
  query_int page 1 = None \/ query_int limit 10 = None ->
  limit_offset page limit d = (d, Throw ER_PARSE_ERROR).
Proof.
  unfold limit_offset. intros [-> | ->]; [done|]. by destruct (query_int page 1).
Qed.

Lemma limit_offset_cases page limit d :
  (exists p l, limit_offset page limit d = (d, Done (p, l))) \/
  limit_offset page limit d = (d, Throw ER_PARSE_ERROR).
Proof.
  unfold limit_offset, check_limit_offset.
  destruct (query_int page 1), (query_int limit 10); try by right.
  run_m. destruct (_ && _); simpl; [left; eauto | by right].
Qed.

Example js_parseInt_examples :
  js_parseInt "42" = Some 42 /\ js_parseInt "  -7px" = Some (-7) /\
  js_parseInt "abc" = None /\ js_parseInt "" = None /\ js_parseInt "3.9" = Some 3.
Proof. repeat split; reflexivity. Qed.
