(* ===== verification/Auth.v ===== *)
(** * Auth: [src/server/middleware/auth.js] and [src/server/routes/auth.js]

    The two libraries the code only calls are interfaces: [JwtScheme]
    ([jwt.sign] / [jwt.verify] with the law that a token verifies to the
    user id it was signed for until it expires) and [PasswordHasher]
    ([bcrypt.hash] / [bcrypt.compare] with the law that a password
    matches its own hash).  [EmailRules] stands for the [isEmail] and
    [normalizeEmail] rules of express-validator.  The middleware and the
    routes are proved against these interfaces; [toy_jwt], [toy_bcrypt]
    and [toy_email] are executable instances used only by the concrete
    examples. *)

From stdpp Require Import sorting.
From Stdlib Require Import Ascii.
From S2P Require Import Prelude Schema Validation.

(** ** Interfaces *)

Inductive jwt_result :=
  | JwtOk (userId : Z)
  | JsonWebTokenError
  | TokenExpiredError
  | JwtOtherError.

Class JwtScheme := {
  (** [jwt.sign({ userId }, JWT_SECRET, { expiresIn })]: the user id and
      the expiry instant (seconds). *)
  jwt_sign : Z -> Z -> string;
  (** [jwt.verify(token, JWT_SECRET)] at instant [now]. *)
  jwt_verify : Z -> string -> jwt_result
}.

(** A string without the space character (a JWT is three base64url
    segments joined by dots). *)
Definition no_space (s : string) : Prop :=
  Forall (fun c => c <> " "%char) (String.list_ascii_of_string s).

Class JwtSchemeLaws (J : JwtScheme) := {
  jwt_verify_sign uid exp now : now < exp -> jwt_verify now (jwt_sign uid exp) = JwtOk uid;
  jwt_verify_expired uid exp now : exp <= now -> jwt_verify now (jwt_sign uid exp) = TokenExpiredError;
  jwt_sign_shape uid exp : jwt_sign uid exp <> EmptyString /\ no_space (jwt_sign uid exp)
}.

Class PasswordHasher := {
  (** [bcrypt.hash(password, saltRounds)]; the salt is not modelled. *)
  bcrypt_hash : string -> string;
  (** [bcrypt.compare(password, hash)] *)
  bcrypt_compare : string -> string -> bool
}.

Class PasswordHasherLaws (H : PasswordHasher) := {
  bcrypt_compare_hash pw : bcrypt_compare pw (bcrypt_hash pw) = true
}.

Class EmailRules := {
  is_email : string -> bool;            (* isEmail() *)
  normalize_email : string -> string    (* normalizeEmail() *)
}.

(** ** [authenticateToken] (lines 5-47) *)

(** [String.prototype.split(' ')] *)
Fixpoint js_split_space (s : string) : list string :=
  match s with
  | EmptyString => [EmptyString]
  | String c s' =>
      let rest := js_split_space s' in
      if bool_decide (c = " "%char) then EmptyString :: rest
      else match rest with
           | r :: rs => String c r :: rs
           | [] => [String c EmptyString]
           end
  end.

(** [const token = authHeader && authHeader.split(' ')[1]], [None] when
    the result is falsy (undefined or empty). *)
Definition bearer_token (authHeader : option string) : option string :=
  match authHeader with
  | None | Some EmptyString => None
  | Some h =>
      match js_split_space h !! 1%nat with
      | Some EmptyString | None => None
      | Some t => Some t
      end
  end.

Example bearer_token_examples :
  bearer_token (Some "Bearer abc") = Some "abc" /\
  bearer_token (Some "Bearer") = None /\
  bearer_token (Some "Bearer  abc") = None /\
  bearer_token (Some "Basic abc") = Some "abc".
Proof. repeat split; reflexivity. Qed.

(** [SELECT id, name, email, role FROM users WHERE id = ?] *)
Definition load_user (d : db) (uid : Z) : option auth_user :=
  u ← rows (users d) !! uid;
  Some {| au_id := uid; au_name := user_name u; au_email := user_email u;
          au_role := user_role u |}.

Section middleware.
Context `{JwtScheme}.

Definition authenticateToken (now : Z) (authHeader : option string) : M db auth_user :=
  match bearer_token authHeader with
  | None => reply 401 "Access denied. No token provided."
  | Some token =>
      match jwt_verify now token with
      | JsonWebTokenError => reply 401 "Invalid token."
      | TokenExpiredError => reply 401 "Token expired."
      | JwtOtherError => reply 500 "Token verification failed."
      | JwtOk uid =>
          d ← get_state;
          match load_user d uid with
          | None => reply 401 "Invalid token. User not found."
          | Some u => mret u
          end
      end
  end%string.

(** [optionalAuth] (lines 73-101): never answers; [req.user] is null on
    any failure. *)
Definition optionalAuth (now : Z) (authHeader : option string) : M db (option auth_user) :=
  match bearer_token authHeader with
  | None => mret None
  | Some token =>
      match jwt_verify now token with
      | JwtOk uid => d ← get_state; mret (load_user d uid)
      | _ => mret None
      end
  end.
End middleware.

(** [requireAdmin] (lines 50-57) *)
Definition requireAdmin (u : auth_user) : M db unit :=
  guard (bool_decide (au_role u <> RoleAdmin)) 403
    "Access denied. Admin privileges required."%string.

(** [requireOwnerOrAdmin] (lines 60-70): [parseInt(req.params.userId ||
    req.body.userId)], [None] for NaN. *)
Definition requireOwnerOrAdmin (u : auth_user) (userId : option Z) : M db unit :=
  if bool_decide (au_role u = RoleAdmin) || bool_decide (Some (au_id u) = userId) then mret tt
  else reply 403 "Access denied. You can only access your own resources."%string.

(** ** [validateRegister] and [validateLogin]
    ([middleware/validation.js], lines 16-48) *)

(** [/^[a-zA-Z\s]+$/] on the trimmed name (ASCII part of [\s]). *)
Definition name_chars_ok (s : string) : bool :=
  bool_decide (s <> EmptyString) &&
  forallb (fun c => let n := nat_of_ascii c in
                    ((65 <=? n) && (n <=? 90)) || ((97 <=? n) && (n <=? 122)) || is_js_space c)%nat
          (String.list_ascii_of_string s).

Record register_body := { rb_name : option string; rb_email : option string; rb_password : option string }.
Record register_input := { r_name : string; r_email : string; r_password : string }.
Record login_body := { lb_email : option string; lb_password : option string }.
Record login_input := { l_email : string; l_password : string }.

Section validation_with_email.
Context `{EmailRules}.

Definition register_errors (b : register_body) : list (option string) :=
  [ rule (is_length 2 50 (js_trim (rb_name b))) "Name must be between 2 and 50 characters";
    rule (name_chars_ok (js_trim (rb_name b))) "Name can only contain letters and spaces";
    rule (is_email (default EmptyString (rb_email b))) "Please provide a valid email address";
    rule (bool_decide (6 <= String.length (default EmptyString (rb_password b)))%nat)
      "Password must be at least 6 characters long" ]%string.

Definition validateRegister (b : register_body) : M db register_input :=
  handleValidationErrors (register_errors b);;
  mret {| r_name := js_trim (rb_name b);
          r_email := normalize_email (default EmptyString (rb_email b));
          r_password := default EmptyString (rb_password b) |}.

Definition login_errors (b : login_body) : list (option string) :=
  [ rule (is_email (default EmptyString (lb_email b))) "Please provide a valid email address";
    rule (bool_decide (default EmptyString (lb_password b) <> EmptyString)) "Password is required" ]%string.

Definition validateLogin (b : login_body) : M db login_input :=
  handleValidationErrors (login_errors b);;
  mret {| l_email := normalize_email (default EmptyString (lb_email b));
          l_password := default EmptyString (lb_password b) |}.
End validation_with_email.

(** ** The routes of [routes/auth.js] *)

(** [JWT_EXPIRES_IN || '7d'], in seconds. *)
Definition token_lifetime : Z := 7 * 24 * 3600.

(** The first row of a selection, in primary-key order ([users[0]]). *)
Definition first_user (m : gmap Z user_row) : option (Z * user_row) := head (rows_asc m).

Section routes.
Context `{JwtScheme} `{PasswordHasher}.

(** POST /register (lines 11-62), as its two statement groups: the
    existence check, then the insert, reload and token. *)
Definition register_lookup (i : register_input) : M db unit :=
  d ← get_state;
  guard (bool_decide (users_with_email d (r_email i) <> ∅)) 400
    "User with this email already exists"%string.

Definition register_create (now : Z) (i : register_input) : M db (Z * (auth_user * string)) :=
  id ← insert_user {| user_name := r_name i; user_email := r_email i;
                      user_password := bcrypt_hash (r_password i); user_role := RoleUser |};
  d ← get_state;
  match load_user d id with
  | Some u => mret (201, (u, jwt_sign (au_id u) (now + token_lifetime)))
  | None => throw ER_WRONG_ARGUMENTS     (* newUser[0].id on an empty result *)
  end.

Definition register (now : Z) (i : register_input) : M db (Z * (auth_user * string)) :=
  catch_500 "Registration failed. Please try again." (register_lookup i;; register_create now i).

(** POST /login (lines 65-117) *)
Definition login (now : Z) (i : login_input) : M db (Z * (auth_user * string)) :=
  catch_500 "Login failed. Please try again." (
    d ← get_state;
    match first_user (users_with_email d (l_email i)) with
    | None => reply 401 "Invalid email or password"
    | Some (uid, u) =>
        if negb (bcrypt_compare (l_password i) (user_password u))
        then reply 401 "Invalid email or password"
        else mret (200, ({| au_id := uid; au_name := user_name u; au_email := user_email u;
                            au_role := user_role u |}, jwt_sign uid (now + token_lifetime)))
    end)%string.

(** GET /profile (lines 120-143) *)
Definition getProfile (u : auth_user) : M db (Z * auth_user) :=
  catch_500 "Failed to fetch profile" (
    d ← get_state;
    match load_user d (au_id u) with
    | None => reply 404 "User not found"
    | Some v => mret (200, v)
    end)%string.

Definition set_user_profile (name email : string) (u : user_row) : user_row :=
  {| user_name := name; user_email := email; user_password := user_password u;
     user_role := user_role u |}.

(** [SELECT id FROM users WHERE email = ? AND id != ?] *)
Definition other_users_with_email (d : db) (email : string) (uid : Z) : gmap Z user_row :=
  filter (fun kv => kv.1 <> uid) (users_with_email d email).

(** PUT /profile (lines 146-192): no validation chain; the new email is
    stored as sent, not normalized. *)
Definition updateProfile (u : auth_user) (name email : option string) : M db (Z * option auth_user) :=
  catch_500 "Failed to update profile" (
    match name, email with
    | Some n, Some e =>
        if bool_decide (n = EmptyString) || bool_decide (e = EmptyString)
        then reply 400 "Name and email are required"
        else
          d ← get_state;
          guard (bool_decide (other_users_with_email d e (au_id u) <> ∅)) 400 "Email is already taken";;
          sql_update users set_users (au_id u) (set_user_profile n e);;
          d' ← get_state;
          mret (200, load_user d' (au_id u))
    | _, _ => reply 400 "Name and email are required"
    end)%string.

Definition set_user_password (h : string) (u : user_row) : user_row :=
  {| user_name := user_name u; user_email := user_email u; user_password := h;
     user_role := user_role u |}.

(** PUT /change-password (lines 195-246) *)
Definition changePassword (u : auth_user) (current new : option string) : M db (Z * unit) :=
  catch_500 "Failed to change password" (
    match current, new with
    | Some c, Some n =>
        if bool_decide (c = EmptyString) || bool_decide (n = EmptyString)
        then reply 400 "Current password and new password are required"
        else
          d ← get_state;
          match rows (users d) !! au_id u with
          | None => reply 404 "User not found"
          | Some row =>
              if negb (bcrypt_compare c (user_password row))
              then reply 401 "Current password is incorrect"
              else sql_update users set_users (au_id u) (set_user_password (bcrypt_hash n));;
                   mret (200, tt)
          end
    | _, _ => reply 400 "Current password and new password are required"
    end)%string.

(** The protected routes: [authenticateToken] first. *)
Definition route_getProfile (now : Z) (authHeader : option string) : M db (Z * auth_user) :=
  u ← authenticateToken now authHeader; getProfile u.

Definition route_updateProfile (now : Z) (authHeader : option string) (name email : option string)
    : M db (Z * option auth_user) :=
  u ← authenticateToken now authHeader; updateProfile u name email.

Definition route_changePassword (now : Z) (authHeader : option string) (current new : option string)
    : M db (Z * unit) :=
  u ← authenticateToken now authHeader; changePassword u current new.

(** POST /logout (lines 249-253): the token is only checked; nothing
    is revoked on the server. *)
Definition route_logout (now : Z) (authHeader : option string) : M db (Z * string) :=
  authenticateToken now authHeader;; mret (200, "Logged out successfully"%string).

(** The public routes run their validation chain first. *)
Definition route_register `{EmailRules} (now : Z) (b : register_body) : M db (Z * (auth_user * string)) :=
  i ← validateRegister b; register now i.

Definition route_login `{EmailRules} (now : Z) (b : login_body) : M db (Z * (auth_user * string)) :=
  i ← validateLogin b; login now i.
End routes.

(** ** Properties *)

Lemma js_split_space_no_space t : no_space t -> js_split_space t = [t].
Proof.
  induction t as [|c t IH]; [done|]. unfold no_space. simpl.
  intros Hf. apply Forall_cons in Hf as [Hc Ht].
  rewrite IH by done. by rewrite bool_decide_false.
Qed.

(** The header the client sends ([`Bearer ${token}`]) yields the token. *)
Lemma bearer_token_bearer t :
  t <> EmptyString -> no_space t -> bearer_token (Some ("Bearer " ++ t)%string) = Some t.
Proof.
  intros Hne Hns. unfold bearer_token. simpl. rewrite js_split_space_no_space by done.
  simpl. by destruct t.
Qed.

Lemma ci_str_eq_refl e : ci_str_eq e e = true.
Proof. by apply bool_decide_eq_true. Qed.

(** No two users have emails equal under the collation (the UNIQUE
    key, as a property of the store). *)
Definition emails_unique (d : db) : Prop :=
  forall i j u v, rows (users d) !! i = Some u -> rows (users d) !! j = Some v ->
    ci_str_eq (user_email u) (user_email v) = true -> i = j.

Lemma emails_unique_alt d :
  emails_unique d <->
  map_Forall (fun i u => map_Forall (fun j v =>
    ci_str_eq (user_email u) (user_email v) = true -> i = j) (rows (users d))) (rows (users d)).
Proof. unfold emails_unique, map_Forall. naive_solver. Qed.

#[export] Instance emails_unique_dec d : Decision (emails_unique d).
Proof.
  refine (cast_if (decide (map_Forall (fun i u => map_Forall (fun j v =>
    ci_str_eq (user_email u) (user_email v) = true -> i = j) (rows (users d))) (rows (users d)))));
  by rewrite emails_unique_alt.
Defined.

Lemma users_with_email_empty d e :
  users_with_email d e = ∅ ->
  forall i u, rows (users d) !! i = Some u -> ci_str_eq (user_email u) e = false.
Proof.
  intros He i u Hi. apply map_empty_filter_1 in He. specialize (He i u Hi). simpl in He.
  by destruct (ci_str_eq (user_email u) e).
Qed.

Lemma ci_str_eq_sym a b : ci_str_eq a b = ci_str_eq b a.
Proof. unfold ci_str_eq. apply bool_decide_ext. split; congruence. Qed.

Lemma ci_str_eq_trans a b c : ci_str_eq a b = true -> ci_str_eq b c = true -> ci_str_eq a c = true.
Proof. unfold ci_str_eq. rewrite !bool_decide_eq_true. congruence. Qed.

Lemma users_with_email_insert_fresh d row :
  table_wf (users d) -> users_with_email d (user_email row) = ∅ ->
  users_with_email (set_users (table_insert row (users d)).2 d) (user_email row) =
    {[next_id (users d) := row]}.
Proof.
  intros Hwf He. unfold users_with_email. simpl.
  rewrite map_filter_insert_True by (simpl; apply ci_str_eq_refl).
  unfold users_with_email in He. rewrite He. by rewrite insert_empty.
Qed.

#[export] Hint Resolve ci_str_eq_refl : wavv.

Section auth_props.
Context `{JwtScheme} `{PasswordHasher}.
Implicit Types (d : db) (i : register_input).

Definition registered_row i : user_row :=
  {| user_name := r_name i; user_email := r_email i;
     user_password := bcrypt_hash (r_password i); user_role := RoleUser |}.

Definition registered_user d i : auth_user :=
  {| au_id := next_id (users d); au_name := r_name i; au_email := r_email i;
     au_role := RoleUser |}.

Definition registered_store d i : db := set_users (table_insert (registered_row i) (users d)).2 d.

Lemma register_lookup_fresh i d :
  users_with_email d (r_email i) = ∅ -> register_lookup i d = (d, Done tt).
Proof.
  intros He. unfold register_lookup. run_m. rewrite He.
  by rewrite bool_decide_false by (intros Hn; by apply Hn).
Qed.

Lemma register_create_fresh now i d :
  users_with_email d (r_email i) = ∅ ->
  register_create now i d =
    (registered_store d i,
     Done (201, (registered_user d i, jwt_sign (next_id (users d)) (now + token_lifetime)))).
Proof.
  intros He. unfold register_create. unfold mbind at 1, M_bind at 1.
  rewrite (insert_user_fresh (registered_row i)) by done. run_m.
  unfold load_user, set_users. simpl. by rewrite lookup_insert_eq.
Qed.

Lemma register_spec now i d :
  users_with_email d (r_email i) = ∅ ->
  register now i d =
    (registered_store d i,
     Done (201, (registered_user d i, jwt_sign (next_id (users d)) (now + token_lifetime)))).
Proof.
  intros He. unfold register, catch_500. unfold mbind, M_bind.
  rewrite register_lookup_fresh by done. simpl. by rewrite register_create_fresh.
Qed.

Lemma users_with_email_ci d e1 e2 :
  ci_str_eq e1 e2 = true -> users_with_email d e1 = users_with_email d e2.
Proof.
  unfold users_with_email, ci_str_eq. rewrite bool_decide_eq_true. intros He.
  apply map_filter_ext. intros k u _. simpl. rewrite !bool_decide_eq_true. split; congruence.
Qed.

Lemma first_user_singleton k row : first_user {[k := row]} = Some (k, row).
Proof. unfold first_user, rows_asc. by rewrite map_to_list_singleton. Qed.

Lemma users_with_email_registered d i :
  table_wf (users d) -> users_with_email d (r_email i) = ∅ ->
  users_with_email (registered_store d i) (r_email i) = {[next_id (users d) := registered_row i]}.
Proof. apply (users_with_email_insert_fresh d (registered_row i)). Qed.

Lemma login_registered `{!PasswordHasherLaws _} now' i d :
  table_wf (users d) -> users_with_email d (r_email i) = ∅ ->
  login now' {| l_email := r_email i; l_password := r_password i |} (registered_store d i) =
    (registered_store d i,
     Done (200, (registered_user d i, jwt_sign (next_id (users d)) (now' + token_lifetime)))).
Proof.
  intros Hwf He. unfold login, catch_500. run_m.
  rewrite users_with_email_registered by done.
  rewrite first_user_singleton. simpl. by rewrite bcrypt_compare_hash.
Qed.

(** C11: the scenario of the spec: registering a fresh email answers 201
    with the new user (role [user], the next id) and a token; logging in
    with the same credentials answers 200 with the same user; and until
    that token expires, GET /auth/profile with [Bearer token] answers 200
    with that user, whose name is the registered name. *)
Theorem register_login_profile `{!JwtSchemeLaws _} `{!PasswordHasherLaws _} now now' i d :
  table_wf (users d) -> users_with_email d (r_email i) = ∅ ->
  let d1 := registered_store d i in
  let tok := jwt_sign (next_id (users d)) (now' + token_lifetime) in
  register now i d =
    (d1, Done (201, (registered_user d i, jwt_sign (next_id (users d)) (now + token_lifetime)))) /\
  login now' {| l_email := r_email i; l_password := r_password i |} d1 =
    (d1, Done (200, (registered_user d i, tok))) /\
  (forall t, t < now' + token_lifetime ->
     route_getProfile t (Some ("Bearer " ++ tok)%string) d1 = (d1, Done (200, registered_user d i))) /\
  au_name (registered_user d i) = r_name i.
Proof.
  intros Hwf He. cbv zeta. split_and!; [by apply register_spec | by apply login_registered | | done].
  intros t Ht. destruct (jwt_sign_shape (next_id (users d)) (now' + token_lifetime)) as [Hne Hns].
  unfold route_getProfile, authenticateToken. rewrite bearer_token_bearer by done.
  rewrite jwt_verify_sign by done. unfold getProfile, catch_500, load_user. run_m.
  unfold registered_store, set_users. simpl. repeat (rewrite lookup_insert_eq; simpl). reflexivity.
Qed.

(** Registering an email that a user already has (equal under the
    case-insensitive collation) answers 400 "User with this email already
    exists" and writes nothing. *)
Theorem register_duplicate now i d :
  users_with_email d (r_email i) <> ∅ ->
  register now i d = (d, Reply 400 "User with this email already exists"%string).
Proof.
  intros He. unfold register, catch_500, register_lookup. run_m. by rewrite bool_decide_true.
Qed.

(** C37: two registrations of the same email whose existence checks both
    run before either INSERT (the handlers interleave at their [await]s):
    the first answers 201, the second INSERT hits the UNIQUE key and the
    handler's [catch] answers 500 "Registration failed", not the 400 the
    spec gives for a duplicate email. *)
Theorem register_race now1 now2 i1 i2 d :
  table_wf (users d) -> users_with_email d (r_email i1) = ∅ -> ci_str_eq (r_email i1) (r_email i2) = true ->
  let '(d1, o1) := (register_lookup i1;; register_lookup i2;; register_create now1 i1) d in
  o1 = Done (201, (registered_user d i1, jwt_sign (next_id (users d)) (now1 + token_lifetime))) /\
  catch_500 "Registration failed. Please try again."%string (register_create now2 i2) d1 =
    (d1, Reply 500 "Registration failed. Please try again."%string).
Proof.
  intros Hwf He Heq. pose proof (users_with_email_ci d _ _ Heq) as Hci.
  unfold mbind, M_bind. rewrite !register_lookup_fresh by congruence. simpl.
  rewrite register_create_fresh by done. split; [done|].
  unfold catch_500, register_create, mbind at 1, M_bind at 1.
  rewrite insert_user_dup; [done|]. simpl.
  rewrite <- (users_with_email_ci _ _ _ Heq), users_with_email_registered by done.
  apply map_non_empty_singleton.
Qed.

(** a token whose user no longer exists answers 401 "Invalid token.
    User not found." while it is unexpired, and any expired token answers
    401 "Token expired.", on every protected route. *)
Theorem authenticateToken_rejects `{!JwtSchemeLaws _} now uid exp d :
  (now < exp -> rows (users d) !! uid = None ->
   authenticateToken now (Some ("Bearer " ++ jwt_sign uid exp)%string) d =
     (d, Reply 401 "Invalid token. User not found."%string)) /\
  (exp <= now ->
   authenticateToken now (Some ("Bearer " ++ jwt_sign uid exp)%string) d =
     (d, Reply 401 "Token expired."%string)).
Proof.
  destruct (jwt_sign_shape uid exp) as [Hne Hns].
  unfold authenticateToken. rewrite bearer_token_bearer by done. split.
  - intros Hnow Hu. rewrite jwt_verify_sign by done. run_m. unfold load_user. by rewrite Hu.
  - intros Hexp. by rewrite jwt_verify_expired.
Qed.

Lemma emails_unique_insert d row :
  emails_unique d -> table_wf (users d) -> users_with_email d (user_email row) = ∅ ->
  emails_unique (set_users (table_insert row (users d)).2 d).
Proof.
  intros Hu Hwf He i j u v. pose proof (users_with_email_empty d _ He) as Hf. simpl.
  rewrite !lookup_insert. intros Hi Hj Hc.
  repeat case_decide; simplify_eq; try done;
    [by erewrite Hf in Hc | rewrite ci_str_eq_sym in Hc; by erewrite Hf in Hc | eauto].
Qed.

Lemma other_users_with_email_empty d e uid j v :
  other_users_with_email d e uid = ∅ -> rows (users d) !! j = Some v -> j <> uid ->
  ci_str_eq (user_email v) e = false.
Proof.
  intros He Hj Hne. destruct (ci_str_eq (user_email v) e) eqn:E; [|done].
  assert (Hin : other_users_with_email d e uid !! j = Some v).
  { apply map_lookup_filter_Some. split; [|done]. by apply map_lookup_filter_Some. }
  by rewrite He in Hin.
Qed.

Lemma emails_unique_update d uid n e :
  emails_unique d -> other_users_with_email d e uid = ∅ ->
  emails_unique (set_users (table_update uid (set_user_profile n e) (users d)) d).
Proof.
  intros Hu He i j u v. pose proof (other_users_with_email_empty d e uid) as Hf. simpl.
  rewrite !lookup_alter. intros Hi Hj Hc.
  repeat case_decide; subst; try done;
    repeat match goal with H : _ <$> _ = Some _ |- _ => apply fmap_Some in H as [? [? ->]] end;
    simpl in Hc;
    [by erewrite Hf in Hc | rewrite ci_str_eq_sym in Hc; by erewrite Hf in Hc | eauto].
Qed.

(** C12: no two users have emails equal under the collation, and
    registration and PUT /auth/profile keep it so, on every branch. *)
Theorem emails_unique_preserved now i u n e d :
  emails_unique d -> table_wf (users d) ->
  emails_unique (fst (register now i d)) /\ emails_unique (fst (updateProfile u n e d)).
Proof.
  intros Hu Hwf. split.
  - destruct (decide (users_with_email d (r_email i) = ∅)).
    + rewrite register_spec by done. by apply (emails_unique_insert d (registered_row i)).
    + by rewrite register_duplicate.
  - unfold updateProfile, catch_500. destruct n as [n|], e as [e|]; run_m; try done.
    split_branches; bool_facts; try done.
    apply emails_unique_update; [done|]. by apply dec_stable.
Qed.
End auth_props.

Section login_props.
Context `{JwtScheme} `{PasswordHasher}.

Lemma first_user_empty : first_user ∅ = None.
Proof. unfold first_user, rows_asc. by rewrite map_to_list_empty. Qed.

Lemma first_user_Some m k u : first_user m = Some (k, u) -> m !! k = Some u.
Proof.
  unfold first_user, rows_asc. intros Hh.
  assert (Hin : (k, u) ∈ merge_sort id_asc (map_to_list m)).
  { destruct (merge_sort id_asc (map_to_list m)); simplify_eq/=. left. }
  rewrite (merge_sort_Permutation id_asc (map_to_list m)) in Hin.
  by apply elem_of_map_to_list.
Qed.

(** A failed login does not say why: an unknown email and a wrong
    password both answer 401 "Invalid email or password", and nothing is
    written. *)
Theorem login_failure_uniform now li d :
  (users_with_email d (l_email li) = ∅ \/
   exists uid u, first_user (users_with_email d (l_email li)) = Some (uid, u) /\
                 bcrypt_compare (l_password li) (user_password u) = false) ->
  login now li d = (d, Reply 401 "Invalid email or password"%string).
Proof.
  unfold login, catch_500. run_m. intros [He | (uid & u & Hf & Hc)].
  - by rewrite He, first_user_empty.
  - by rewrite Hf, Hc.
Qed.

(** C40: PUT /auth/profile stores the email as sent, while POST
    /auth/login looks the user up by [normalizeEmail] of the email sent.
    An address that normalization changes beyond letter case is stored,
    answering 200, and its owner can then no longer log in with it: every
    password answers 401. *)
Theorem updateProfile_email_not_normalized `{EmailRules} now u n e pw d row :
  rows (users d) !! au_id u = Some row -> n <> EmptyString -> e <> EmptyString ->
  is_email e = true -> pw <> EmptyString ->
  other_users_with_email d e (au_id u) = ∅ ->
  other_users_with_email d (normalize_email e) (au_id u) = ∅ ->
  ci_str_eq e (normalize_email e) = false ->
  let d' := fst (updateProfile u (Some n) (Some e) d) in
  snd (updateProfile u (Some n) (Some e) d) =
    Done (200, Some {| au_id := au_id u; au_name := n; au_email := e; au_role := user_role row |}) /\
  route_login now {| lb_email := Some e; lb_password := Some pw |} d' =
    (d', Reply 401 "Invalid email or password"%string).
Proof.
  intros Hrow Hn He Hemail Hpw Hother Hnorm Hci.
  unfold updateProfile, catch_500. run_m.
  rewrite !bool_decide_false by done. simpl. rewrite Hother.
  rewrite bool_decide_false by (intros Hx; by apply Hx). simpl.
  unfold load_user. simpl. rewrite lookup_alter_eq, Hrow. simpl. split; [done|].
  unfold route_login, validateLogin, login_errors. run_m.
  rewrite Hemail, bool_decide_true by done. simpl.
  rewrite login_failure_uniform; [done|]. left.
  apply map_empty_filter_2. intros k v Hk. simpl.
  simpl in Hk. rewrite lookup_alter in Hk. case_decide as Hkid; simplify_eq/=.
  - rewrite Hrow in Hk. simplify_eq/=. by rewrite Hci.
  - by rewrite (other_users_with_email_empty d _ (au_id u) k v).
Qed.
End login_props.

(** ** Concrete instances of the interfaces

    A token scheme, a hash and an email normalizer that meet the laws,
    used to evaluate the theorems on closed stores. The token is the
    user id and the expiry in a self-delimiting binary code; the hash is
    the password behind a bcrypt-like prefix; the email rules are the
    part of [validator]'s [normalizeEmail] defaults that concern Gmail
    (lower-casing, dots and [+tag] removed in the local part,
    [googlemail.com] read as [gmail.com]). *)
Module Instances.

Fixpoint enc_pos (p : positive) : string :=
  match p with
  | xH => "."
  | xO q => String "0" (enc_pos q)
  | xI q => String "1" (enc_pos q)
  end.

Fixpoint parse_pos (s : string) : option (positive * string) :=
  match s with
  | String c r =>
      if bool_decide (c = "."%char) then Some (xH, r)
      else if bool_decide (c = "0"%char) then '(q, r') ← parse_pos r; Some (xO q, r')
      else if bool_decide (c = "1"%char) then '(q, r') ← parse_pos r; Some (xI q, r')
      else None
  | EmptyString => None
  end.

Definition enc_z (z : Z) : string :=
  match z with
  | Z0 => "z"
  | Zpos p => String "p" (enc_pos p)
  | Zneg p => String "n" (enc_pos p)
  end.

Definition parse_z (s : string) : option (Z * string) :=
  match s with
  | String c r =>
      if bool_decide (c = "z"%char) then Some (Z0, r)
      else if bool_decide (c = "p"%char) then '(p, r') ← parse_pos r; Some (Zpos p, r')
      else if bool_decide (c = "n"%char) then '(p, r') ← parse_pos r; Some (Zneg p, r')
      else None
  | EmptyString => None
  end.

Definition token_sign (uid exp : Z) : string := (enc_z uid ++ enc_z exp)%string.

Definition token_verify (now : Z) (tok : string) : jwt_result :=
  match parse_z tok with
  | Some (uid, r) =>
      match parse_z r with
      | Some (exp, EmptyString) => if bool_decide (now < exp) then JwtOk uid else TokenExpiredError
      | _ => JsonWebTokenError
      end
  | None => JsonWebTokenError
  end.

#[export] Instance token_scheme : JwtScheme := {| jwt_sign := token_sign; jwt_verify := token_verify |}.

Lemma parse_enc_pos p r : parse_pos (enc_pos p ++ r) = Some (p, r).
Proof. induction p; simpl; rewrite ?string_app_cons; simpl; rewrite ?IHp; reflexivity. Qed.

Lemma parse_enc_z z r : parse_z (enc_z z ++ r) = Some (z, r).
Proof. destruct z; simpl; rewrite ?string_app_cons; simpl; rewrite ?parse_enc_pos; reflexivity. Qed.

Lemma no_space_cons c s : c <> " "%char -> no_space s -> no_space (String c s).
Proof. by constructor. Qed.

Lemma no_space_app a b : no_space a -> no_space b -> no_space (a ++ b).
Proof.
  induction a as [|c a IH]; [done|]. rewrite string_app_cons.
  intros Ha Hb. inversion Ha. apply no_space_cons; [done|]. by apply IH.
Qed.

Lemma no_space_enc_pos p : no_space (enc_pos p).
Proof. induction p; apply no_space_cons; try done. constructor. Qed.

Lemma no_space_enc_z z : no_space (enc_z z).
Proof. destruct z; apply no_space_cons; try done; [constructor | apply no_space_enc_pos..]. Qed.

#[export] Instance token_scheme_laws : JwtSchemeLaws token_scheme.
Proof.
  split; simpl; unfold token_sign, token_verify.
  - intros uid exp now Hlt. rewrite parse_enc_z, <- (string_app_empty (enc_z exp)).
    rewrite parse_enc_z. by rewrite bool_decide_true.
  - intros uid exp now Hle. rewrite parse_enc_z, <- (string_app_empty (enc_z exp)).
    rewrite parse_enc_z. rewrite bool_decide_false by lia. done.
  - intros uid exp. split; [by destruct uid|]. apply no_space_app; apply no_space_enc_z.
Qed.

Definition hash_prefix : string := "$2a$10$".

#[export] Instance prefix_hasher : PasswordHasher :=
  {| bcrypt_hash pw := (hash_prefix ++ pw)%string;
     bcrypt_compare pw h := bool_decide (h = hash_prefix ++ pw)%string |}.

#[export] Instance prefix_hasher_laws : PasswordHasherLaws prefix_hasher.
Proof. split. intros pw. simpl. by apply bool_decide_true. Qed.

Fixpoint split_at_char (c : ascii) (s : string) : string * option string :=
  match s with
  | EmptyString => (EmptyString, None)
  | String x r =>
      if bool_decide (x = c) then (EmptyString, Some r)
      else let '(a, b) := split_at_char c r in (String x a, b)
  end.

Definition remove_dots (s : string) : string :=
  String.string_of_list_ascii (filter (fun x => x <> "."%char) (String.list_ascii_of_string s)).

Definition gmail_normalize (e : string) : string :=
  let e' := str_lower e in
  match split_at_char "@" e' with
  | (local, Some dom) =>
      if bool_decide (dom = "gmail.com" \/ dom = "googlemail.com")%string
      then (remove_dots (fst (split_at_char "+" local)) ++ "@gmail.com")%string
      else e'
  | _ => e'
  end.

Definition simple_is_email (e : string) : bool :=
  match split_at_char "@" e with
  | (local, Some dom) =>
      bool_decide (local <> EmptyString) &&
      negb (bool_decide ("@"%char ∈ String.list_ascii_of_string dom)) &&
      bool_decide ("."%char ∈ String.list_ascii_of_string dom)
  | _ => false
  end.

#[export] Instance gmail_rules : EmailRules :=
  {| is_email := simple_is_email; normalize_email := gmail_normalize |}.

End Instances.

(** ** The theorems at closed inputs *)
Section witnesses.
Import Instances.

Definition ann : register_input :=
  {| r_name := "Ann Lee"; r_email := "ann@mail.com"; r_password := "secret1" |}%string.

Definition seed_admin_user : auth_user :=
  {| au_id := 1; au_name := "Admin User"; au_email := "admin@wavv.com"; au_role := RoleAdmin |}%string.

Lemma register_login_profile_witness :
  table_wf (users seed_store) /\ users_with_email seed_store (r_email ann) = ∅ /\
  route_getProfile 1000 (Some ("Bearer " ++ jwt_sign 2 (500 + token_lifetime))%string)
    (registered_store seed_store ann) =
    (registered_store seed_store ann, Done (200, registered_user seed_store ann)).
Proof.
  assert (Hwf : table_wf (users seed_store)) by (apply (bool_decide_eq_true_1 _); vm_compute; reflexivity).
  assert (He : users_with_email seed_store (r_email ann) = ∅) by (vm_compute; reflexivity).
  split_and!; [exact Hwf | exact He |].
  destruct (register_login_profile 0 500 ann seed_store Hwf He) as (_ & _ & Hp & _).
  apply Hp. vm_compute. reflexivity.
Defined.

Lemma register_duplicate_witness :
  register 0 {| r_name := "Eve"; r_email := "admin@wavv.com"; r_password := "secret1" |}%string
    seed_store = (seed_store, Reply 400 "User with this email already exists"%string).
Proof. apply register_duplicate. vm_compute. discriminate. Defined.

Lemma register_race_witness :
  let i2 := {| r_name := "Ann Other"; r_email := "ANN@mail.com"; r_password := "secret2" |}%string in
  let '(d1, o1) := (register_lookup ann;; register_lookup i2;; register_create 0 ann) seed_store in
  o1 = Done (201, (registered_user seed_store ann, jwt_sign (next_id (users seed_store)) (0 + token_lifetime))) /\
  catch_500 "Registration failed. Please try again."%string (register_create 5 i2) d1 =
    (d1, Reply 500 "Registration failed. Please try again."%string).
Proof.
  intros i2. apply (register_race 0 5 ann i2 seed_store); [apply (bool_decide_eq_true_1 _); vm_compute; reflexivity
                                 | vm_compute; reflexivity | reflexivity].
Defined.

Lemma authenticateToken_rejects_witness :
  authenticateToken 10 (Some ("Bearer " ++ jwt_sign 5 100)%string) seed_store =
    (seed_store, Reply 401 "Invalid token. User not found."%string) /\
  authenticateToken 200 (Some ("Bearer " ++ jwt_sign 1 100)%string) seed_store =
    (seed_store, Reply 401 "Token expired."%string).
Proof.
  split.
  - apply (proj1 (authenticateToken_rejects 10 5 100 seed_store)); [lia | vm_compute; reflexivity].
  - apply (proj2 (authenticateToken_rejects 200 1 100 seed_store)). lia.
Defined.

Lemma emails_unique_preserved_witness :
  emails_unique (fst (register 0 ann seed_store)) /\
  emails_unique (fst (updateProfile seed_admin_user (Some "Admin") (Some "ann@mail.com") seed_store))%string.
Proof.
  apply emails_unique_preserved; apply (bool_decide_eq_true_1 _); vm_compute; reflexivity.
Defined.

Lemma login_failure_uniform_witness :
  login 0 {| l_email := "nobody@mail.com"; l_password := "x" |}%string seed_store =
    (seed_store, Reply 401 "Invalid email or password"%string) /\
  login 0 {| l_email := "admin@wavv.com"; l_password := "wrong" |}%string seed_store =
    (seed_store, Reply 401 "Invalid email or password"%string).
Proof.
  split; apply login_failure_uniform; [left; vm_compute; reflexivity|].
  right. eexists _, _. split; [vm_compute; reflexivity | reflexivity].
Defined.

Definition seed_admin_row : user_row :=
  {| user_name := "Admin User"; user_email := "admin@wavv.com"; user_password := "h";
     user_role := RoleAdmin |}%string.

Lemma updateProfile_email_not_normalized_witness :
  let d' := fst (updateProfile seed_admin_user (Some "Admin") (Some "Ann.Lee@gmail.com") seed_store)%string in
  snd (updateProfile seed_admin_user (Some "Admin") (Some "Ann.Lee@gmail.com") seed_store)%string =
    Done (200, Some {| au_id := 1; au_name := "Admin"; au_email := "Ann.Lee@gmail.com";
                       au_role := RoleAdmin |})%string /\
  route_login 0 {| lb_email := Some "Ann.Lee@gmail.com"; lb_password := Some "h" |}%string d' =
    (d', Reply 401 "Invalid email or password"%string).
Proof.
  apply (updateProfile_email_not_normalized 0 seed_admin_user "Admin" "Ann.Lee@gmail.com" "h"
           seed_store seed_admin_row);
    first [vm_compute; reflexivity | discriminate].
Defined.
End witnesses.
