(* ===== verification/Bookings.v ===== *)
(** * Bookings: the handlers of [src/server/routes/bookings.js]

    Each handler is the body of one [router.*] callback, in the handler
    monad over the store: its early returns are [reply], its statements
    are the [Schema] statements, and its [try/catch] is [catch_500].
    The route itself composes [authenticateToken]'s [req.user], the
    validation chain and the handler; the handlers here take the
    authenticated user and the validated input. *)

From S2P Require Import Prelude Schema Validation.

(** ** POST / : create a booking (lines 74-119) *)

Definition booking_total (price guests rooms : Z) : Z := price * guests * rooms.

Definition createBooking (u : auth_user) (i : booking_input)
    : M db (Z * option (Z * booking_row * package_row)) :=
  catch_500 "Failed to create booking" (
    d ← get_state;
    match rows (packages d) !! in_packageId i with
    | None => reply 404 "Package not found"
    | Some p =>
        let totalAmount := booking_total (pkg_price p) (in_guests i) (in_rooms i) in
        id ← insert_booking
               {| bk_user_id := au_id u; bk_package_id := in_packageId i;
                  bk_date := in_bookingDate i; bk_guests := in_guests i;
                  bk_rooms := in_rooms i; bk_total_amount := totalAmount;
                  bk_status := Pending |};
        d' ← get_state;
        mret (201, booking_join d' id)
    end)%string.

(** The route: [router.post('/', authenticateToken, validateBooking, ...)],
    for an already authenticated user. *)
Definition route_createBooking (c : clock) (u : auth_user) (b : booking_body)
    : M db (Z * option (Z * booking_row * package_row)) :=
  i ← validateBooking c b; createBooking u i.

(** ** [SELECT * FROM bookings WHERE id = ? AND user_id = ?] *)

Definition owned_booking (d : db) (id uid : Z) : option booking_row :=
  b ← rows (bookings d) !! id;
  if bool_decide (bk_user_id b = uid) then Some b else None.

Definition set_booking_status (st : booking_status) (b : booking_row) : booking_row :=
  {| bk_user_id := bk_user_id b; bk_package_id := bk_package_id b;
     bk_date := bk_date b; bk_guests := bk_guests b; bk_rooms := bk_rooms b;
     bk_total_amount := bk_total_amount b; bk_status := st |}.

(** [UPDATE bookings SET status = ? WHERE id = ?] *)
Definition update_booking_status (id : Z) (st : booking_status) : M db unit :=
  sql_update bookings set_bookings id (set_booking_status st).

(** ** PATCH /:id/status (lines 216-274) *)

Definition updateBookingStatus (u : auth_user) (id : Z) (status : option string)
    : M db (Z * option (Z * booking_row * package_row)) :=
  catch_500 "Failed to update booking status" (
    match parse_status status with
    | None => reply 400 "Invalid status. Must be pending, confirmed, or cancelled"
    | Some st =>
        d ← get_state;
        match owned_booking d id (au_id u) with
        | None => reply 404 "Booking not found"
        | Some _ =>
            guard (bool_decide (st = Confirmed) && bool_decide (au_role u <> RoleAdmin))
              403 "Only admins can confirm bookings";;
            update_booking_status id st;;
            d' ← get_state;
            mret (200, booking_join d' id)
        end
    end)%string.

(** ** POST /:id/cancel (lines 277-318) *)

Definition cancelBooking (u : auth_user) (id : Z) : M db (Z * unit) :=
  catch_500 "Failed to cancel booking" (
    d ← get_state;
    match owned_booking d id (au_id u) with
    | None => reply 404 "Booking not found"
    | Some b =>
        guard (bool_decide (bk_status b = Cancelled)) 400 "Booking is already cancelled";;
        update_booking_status id Cancelled;;
        mret (200, tt)
    end)%string.

(** ** GET /:id (lines 185-213) *)

Definition getBooking (u : auth_user) (id : Z) : M db (Z * (Z * booking_row * package_row)) :=
  catch_500 "Failed to fetch booking" (
    d ← get_state;
    match owned_booking d id (au_id u) ≫= fun _ => booking_join d id with
    | None => reply 404 "Booking not found"
    | Some v => mret (200, v)
    end)%string.

(** ** Properties *)

Section booking_props.
Implicit Types (d : db) (u : auth_user) (i : booking_input).

(** The row [createBooking] inserts. *)
Definition new_booking u i (p : package_row) : booking_row :=
  {| bk_user_id := au_id u; bk_package_id := in_packageId i;
     bk_date := in_bookingDate i; bk_guests := in_guests i;
     bk_rooms := in_rooms i;
     bk_total_amount := booking_total (pkg_price p) (in_guests i) (in_rooms i);
     bk_status := Pending |}.

(** C9: creating a booking for an existing package inserts, under the
    next id, a [pending] row whose [total_amount] is the package price
    times guests times rooms, and answers 201 with the row joined to
    its package; nothing else of the store changes. *)
Theorem createBooking_spec u i d p :
  rows (packages d) !! in_packageId i = Some p ->
  user_exists d (au_id u) = true ->
  fits_decimal 10 (booking_total (pkg_price p) (in_guests i) (in_rooms i)) = true ->
  createBooking u i d =
    (set_bookings (table_insert (new_booking u i p) (bookings d)).2 d,
     Done (201, Some (next_id (bookings d), new_booking u i p, p))).
Proof.
  intros Hp Hu Hfit. unfold createBooking, catch_500, insert_booking, sql_insert.
  run_m. rewrite Hp. simpl. rewrite Hfit, Hu. unfold package_exists.
  rewrite Hp. simpl. unfold booking_join. simpl.
  rewrite lookup_insert_eq. simpl. by rewrite Hp.
Qed.

(** the error branches of [createBooking]: an unknown package
    answers 404, and a total that DECIMAL(10,2) cannot hold makes the
    INSERT throw, which the handler answers with 500; the store is
    unchanged in both cases. *)
Theorem createBooking_errors u i d :
  (rows (packages d) !! in_packageId i = None ->
   createBooking u i d = (d, Reply 404 "Package not found"%string)) /\
  (forall p, rows (packages d) !! in_packageId i = Some p ->
   fits_decimal 10 (booking_total (pkg_price p) (in_guests i) (in_rooms i)) = false ->
   createBooking u i d = (d, Reply 500 "Failed to create booking"%string)).
Proof.
  split.
  - intros Hp. unfold createBooking, catch_500. run_m. by rewrite Hp.
  - intros p Hp Hfit. unfold createBooking, catch_500, insert_booking. run_m.
    rewrite Hp. simpl. by rewrite Hfit.
Qed.

(** with the validated counts (1-10 guests, 1-5 rooms) the total of
    a booking fits DECIMAL(10,2) for every price up to 1,999,999.99,
    and the bound is tight: one cent more, booked for 10 guests and 5
    rooms, overflows the column, so the INSERT fails. *)
Theorem booking_total_fits_bound :
  (forall price g r, 0 <= price <= decimal_max 10 / 50 ->
     1 <= g <= 10 -> 1 <= r <= 5 ->
     fits_decimal 10 (booking_total price g r) = true) /\
  fits_decimal 10 (booking_total (decimal_max 10 / 50 + 1) 10 5) = false.
Proof.
  split; [|reflexivity].
  intros price g r Hp Hg Hr. unfold fits_decimal, booking_total.
  apply bool_decide_eq_true.
  replace (decimal_max 10 / 50) with 199999999 in Hp by reflexivity.
  replace (decimal_max 10) with 9999999999 by reflexivity.
  assert (0 <= price * g <= 199999999 * 10) by nia. nia.
Qed.

Lemma booking_total_fits_bound_witness :
  fits_decimal 10 (booking_total 240000 2 1) = true.
Proof.
  apply (proj1 booking_total_fits_bound); [split; [lia | apply Z.leb_le; reflexivity] | lia | lia].
Defined.

Lemma owned_booking_Some d id uid b :
  owned_booking d id uid = Some b <-> rows (bookings d) !! id = Some b /\ bk_user_id b = uid.
Proof.
  unfold owned_booking. destruct (rows (bookings d) !! id) eqn:E; simpl.
  - case_bool_decide; split; intros; destruct_and?; simplify_eq; auto.
  - split; [discriminate|]. intros []; discriminate.
Qed.

(** The store after [UPDATE bookings SET status = ? WHERE id = ?]. *)
Definition with_status d id st : db :=
  set_bookings (table_update id (set_booking_status st) (bookings d)) d.

(** the PATCH /:id/status handler on a booking the caller owns,
    with a status the caller may set (anything but [confirmed] for a
    non-admin), sets the status of that row only and answers 200 with
    the updated row joined to its package. *)
Theorem updateBookingStatus_spec u id status st d b :
  parse_status status = Some st ->
  owned_booking d id (au_id u) = Some b ->
  (st = Confirmed -> au_role u = RoleAdmin) ->
  updateBookingStatus u id status d =
    (with_status d id st, Done (200, booking_join (with_status d id st) id)).
Proof.
  intros Hst Hown Hrole. unfold updateBookingStatus, catch_500.
  rewrite Hst. run_m. rewrite Hown.
  destruct (decide (st = Confirmed)) as [->|Hne].
  - rewrite (Hrole eq_refl). reflexivity.
  - rewrite bool_decide_false by done. reflexivity.
Qed.

(** C10: a caller who is not an admin never confirms a booking through
    PATCH /:id/status: on a booking of their own the handler answers
    403, on any other id 404, and the store is unchanged. *)
Theorem updateBookingStatus_user_cannot_confirm u id d :
  au_role u = RoleUser ->
  updateBookingStatus u id (Some "confirmed"%string) d =
    (d, if owned_booking d id (au_id u) is Some _
        then Reply 403 "Only admins can confirm bookings"%string
        else Reply 404 "Booking not found"%string).
Proof.
  intros Hrole. unfold updateBookingStatus, catch_500. run_m.
  destruct (owned_booking d id (au_id u)); [|reflexivity].
  by rewrite Hrole.
Qed.

Lemma updateBookingStatus_user_cannot_confirm_witness :
  let u := {| au_id := 2; au_name := "Jane"; au_email := "jane@x.com";
              au_role := RoleUser |}%string in
  au_role u = RoleUser /\
  updateBookingStatus u 7 (Some "confirmed"%string) empty_db =
    (empty_db, Reply 404 "Booking not found"%string).
Proof.
  intros u. split; [reflexivity|].
  by rewrite (updateBookingStatus_user_cannot_confirm u 7 empty_db eq_refl).
Defined.
(** Concrete runs on the seeded store: the admin (user 1) books the
    Italian Adventure (package 1, 2400.00) for two guests in one room. *)
Definition seed_admin : auth_user :=
  {| au_id := 1; au_name := "Admin User"; au_email := "admin@wavv.com";
     au_role := RoleAdmin |}%string.

Definition seed_booking : booking_input :=
  {| in_packageId := 1; in_bookingDate := 20400; in_guests := 2; in_rooms := 1 |}.

Definition seed_pkg1 : package_row :=
  default (sample_package "" "" "" 0 "" "") (head samplePackages).

Lemma createBooking_spec_witness :
  rows (packages seed_store) !! 1 = Some seed_pkg1 /\
  createBooking seed_admin seed_booking seed_store =
    (set_bookings (table_insert (new_booking seed_admin seed_booking seed_pkg1)
                     (bookings seed_store)).2 seed_store,
     Done (201, Some (1, new_booking seed_admin seed_booking seed_pkg1, seed_pkg1))).
Proof.
  split; [vm_compute; reflexivity|].
  apply createBooking_spec; vm_compute; reflexivity.
Defined.

Example createBooking_total_480000 :
  bk_total_amount (new_booking seed_admin seed_booking seed_pkg1) = 480000.
Proof. reflexivity. Qed.

Lemma createBooking_errors_witness :
  createBooking seed_admin {| in_packageId := 99; in_bookingDate := 20400;
                              in_guests := 2; in_rooms := 1 |} seed_store =
    (seed_store, Reply 404 "Package not found"%string).
Proof. apply createBooking_errors. vm_compute. reflexivity. Defined.

Definition booked_store : db :=
  fst (createBooking seed_admin seed_booking seed_store).

Lemma updateBookingStatus_spec_witness :
  owned_booking booked_store 1 1 = Some (new_booking seed_admin seed_booking seed_pkg1) /\
  updateBookingStatus seed_admin 1 (Some "confirmed"%string) booked_store =
    (with_status booked_store 1 Confirmed,
     Done (200, booking_join (with_status booked_store 1 Confirmed) 1)).
Proof.
  split; [vm_compute; reflexivity|].
  apply (updateBookingStatus_spec seed_admin 1 _ Confirmed booked_store
           (new_booking seed_admin seed_booking seed_pkg1)).
  - reflexivity.
  - vm_compute; reflexivity.
  - reflexivity.
Defined.
End booking_props.

(** ** GET /my-bookings (lines 122-182) *)

(** [JOIN packages p ON b.package_id = p.id] *)
Definition booking_with_package (d : db) (kv : Z * booking_row) : option (Z * booking_row * package_row) :=
  p ← rows (packages d) !! bk_package_id kv.2;
  Some (kv.1, kv.2, p).

(** [WHERE b.user_id = ? [AND b.status = ?]]: the ENUM compared with the
    string under the case-insensitive collation. *)
Definition my_booking_holds (uid : Z) (status : option string) (b : booking_row) : bool :=
  bool_decide (bk_user_id b = uid) &&
  match truthy_str status with
  | Some s => ci_str_eq (status_string (bk_status b)) s
  | None => true
  end.

Definition my_bookings (uid : Z) (status : option string) (d : db) : list (Z * booking_row) :=
  filter (fun kv => my_booking_holds uid status kv.2 = true) (rows_desc (rows (bookings d))).

Definition getMyBookings (u : auth_user) (page limit status : option string)
    : M db (Z * (list (Z * booking_row * package_row) * pagination)) :=
  catch_500 "Failed to fetch bookings" (
    '(p, l) ← limit_offset page limit;
    let params := PNum (au_id u) :: match truthy_str status with Some s => [PStr s] | None => [] end in
    check_params (length params) params;;
    d ← get_state;
    let found := my_bookings (au_id u) status d in
    check_params (length params) params;;
    let total := Z.of_nat (length found) in
    mret (200, (omap (booking_with_package d) (paginate p l found),
                {| pg_page := p; pg_limit := l; pg_total := total;
                   pg_pages := page_count total l |})))%string.

(** ** GET /stats/user (lines 321-346) *)

Definition with_status_in (m : gmap Z booking_row) (st : booking_status) : gmap Z booking_row :=
  filter (fun kv => bk_status kv.2 = st) m.

Record user_stats := {
  total_bookings_of : Z;
  confirmed_bookings : Z;
  pending_bookings : Z;
  cancelled_bookings : Z;
  total_spent : option Z    (* SUM over no rows is NULL *)
}.

Definition stats_of (uid : Z) (d : db) : user_stats :=
  let mine := filter (fun kv => bk_user_id kv.2 = uid) (rows (bookings d)) in
  {| total_bookings_of := sql_count mine;
     confirmed_bookings := sql_count (with_status_in mine Confirmed);
     pending_bookings := sql_count (with_status_in mine Pending);
     cancelled_bookings := sql_count (with_status_in mine Cancelled);
     total_spent := if bool_decide (mine = ∅) then None
                    else Some (sumZ (bk_total_amount <$> (map_to_list mine).*2)) |}.

Definition getUserStats (u : auth_user) : M db (Z * user_stats) :=
  catch_500 "Failed to fetch booking statistics" (d ← get_state; mret (200, stats_of (au_id u) d))%string.

(** ** The booking-contact routes (lines 10-71), unauthenticated *)

(** [booking_date] as sent: missing or empty, a value MySQL's DATE
    accepts (a day number), or any other text. *)
Inductive jdate := DMissing | DDate (day : Z) | DBad.

Record contact_body := {
  cb_name : option string; cb_email : option string; cb_phone : option string; cb_date : jdate
}.

(** POST /contacts (lines 55-71) *)
Definition createContact (b : contact_body) : M db Z :=
  catch_500 "Failed to save booking contact" (
    match truthy_str (cb_name b), truthy_str (cb_email b), truthy_str (cb_phone b), cb_date b with
    | Some n, Some e, Some ph, DDate day =>
        _ ← sql_insert booking_contacts set_contacts
              {| ct_name := n; ct_email := e; ct_phone := ph; ct_date := day; ct_status := Pending |};
        mret 201
    | Some _, Some _, Some _, DBad => throw ER_TRUNCATED_WRONG_VALUE_FOR_FIELD
    | _, _, _, _ => reply 400 "All fields (name, email, phone, booking_date) are required."
    end)%string.

Definition set_contact_status (st : booking_status) (c : contact_row) : contact_row :=
  {| ct_name := ct_name c; ct_email := ct_email c; ct_phone := ct_phone c;
     ct_date := ct_date c; ct_status := st |}.

(** PATCH /contacts/:id/status (lines 11-27): [affectedRows] counts the
    matched row (the driver's FOUND_ROWS default). *)
Definition updateContactStatus (id : Z) (status : option string) : M db Z :=
  catch_500 "Failed to update status" (
    match parse_status status with
    | None => reply 400 "Invalid status"
    | Some st =>
        d ← get_state;
        let n := affected_rows id (booking_contacts d) in
        sql_update booking_contacts set_contacts id (set_contact_status st);;
        guard (bool_decide (n = 0)) 404 "Booking contact not found";;
        mret 200
    end)%string.

(** DELETE /contacts/:id (lines 29-41) *)
Definition deleteContact (id : Z) : M db Z :=
  catch_500 "Failed to delete booking contact" (
    d ← get_state;
    let n := affected_rows id (booking_contacts d) in
    sql_delete booking_contacts set_contacts id;;
    guard (bool_decide (n = 0)) 404 "Booking contact not found";;
    mret 200)%string.

(** GET /contacts/all (lines 44-52) *)
Definition getContacts : M db (Z * list (Z * contact_row)) :=
  catch_500 "Failed to fetch booking contacts" (
    d ← get_state; mret (200, rows_desc (rows (booking_contacts d))))%string.

(** ** Properties of the listings and statistics *)

Lemma size_filter_insert_fresh (P : Z * booking_row -> Prop) `{!∀ x, Decision (P x)}
    (m : gmap Z booking_row) k b :
  m !! k = None ->
  size (filter P (<[k:=b]> m)) = (if decide (P (k, b)) then S (size (filter P m)) else size (filter P m))%nat.
Proof.
  intros Hk. rewrite map_filter_insert. case_decide.
  - rewrite map_size_insert_None; [done|]. by apply map_lookup_filter_None_2; left.
  - by rewrite delete_id.
Qed.

(** Every booking has exactly one of the three statuses. *)
Lemma status_partition (m : gmap Z booking_row) :
  (size (with_status_in m Pending) + size (with_status_in m Confirmed) +
   size (with_status_in m Cancelled) = size m)%nat.
Proof.
  unfold with_status_in. induction m as [|k b m Hk IH] using map_ind.
  - by rewrite !map_filter_empty, map_size_empty.
  - rewrite !size_filter_insert_fresh, map_size_insert_None by done. simpl.
    destruct (bk_status b); repeat case_decide; simplify_eq; lia.
Qed.

Lemma Forall_booking_with_package d uid (xs : list (Z * booking_row)) :
  Forall (fun kv => bk_user_id kv.2 = uid) xs ->
  Forall (fun r => bk_user_id r.1.2 = uid) (omap (booking_with_package d) xs).
Proof.
  induction 1 as [|[k b] xs Hb _ IH]; simpl; [constructor|].
  unfold booking_with_package at 1. simpl.
  destruct (rows (packages d) !! bk_package_id b); simpl; [constructor|]; auto.
Qed.

Lemma my_bookings_own uid status d :
  Forall (fun kv => bk_user_id kv.2 = uid) (my_bookings uid status d).
Proof.
  apply Forall_forall. intros [k b] Hx. apply list_elem_of_filter in Hx as [Hh _].
  unfold my_booking_holds in Hh. apply andb_prop in Hh as [Hh _]. by apply bool_decide_eq_true in Hh.
Qed.

(** GET /bookings/my-bookings shows a user only their own bookings:
    every row of the answered page has the caller as [user_id], whatever
    the paging and status filter, and the store is not changed. *)
Theorem getMyBookings_own u page limit status d :
  fst (getMyBookings u page limit status d) = d /\
  match snd (getMyBookings u page limit status d) with
  | Done (_, (rs, _)) => Forall (fun r => bk_user_id r.1.2 = au_id u) rs
  | _ => True
  end.
Proof.
  unfold getMyBookings, catch_500.
  destruct (limit_offset_cases page limit d) as [(p & l & Hlo) | Hlo].
  - rewrite (bind_done _ _ _ _ _ Hlo). unfold check_params. run_m.
    rewrite !bool_decide_true by done. simpl. split; [done|].
    apply Forall_booking_with_package. unfold paginate.
    apply Forall_take, Forall_drop, my_bookings_own.
  - by rewrite (bind_throw _ _ _ _ _ Hlo).
Qed.

(** the statistics of GET /bookings/stats/user partition the
    caller's bookings: the confirmed, pending and cancelled counts add up
    to the total, and [total_spent] is NULL exactly when there is no
    booking; otherwise it is the sum of [total_amount] over all of the
    caller's bookings, cancelled ones included. *)
Theorem stats_of_spec uid d :
  let s := stats_of uid d in
  confirmed_bookings s + pending_bookings s + cancelled_bookings s = total_bookings_of s /\
  (total_spent s = None <-> total_bookings_of s = 0) /\
  (total_bookings_of s <> 0 ->
   total_spent s = Some (sumZ (bk_total_amount <$>
     (map_to_list (filter (fun kv => bk_user_id kv.2 = uid) (rows (bookings d)))).*2))).
Proof.
  cbv zeta. unfold stats_of, sql_count. simpl.
  pose proof (status_partition (filter (fun kv => bk_user_id kv.2 = uid) (rows (bookings d)))) as Hp.
  split; [lia|]. case_bool_decide as He.
  - rewrite He, map_size_empty. split; [done | lia].
  - assert (size (filter (fun kv => bk_user_id kv.2 = uid) (rows (bookings d))) <> 0%nat)
      by (by rewrite map_size_ne_0_lookup; apply map_choose in He as (k & v & ?); eauto).
    split; [split; [done | lia] | done].
Qed.

Definition new_contact n e ph day : contact_row :=
  {| ct_name := n; ct_email := e; ct_phone := ph; ct_date := day; ct_status := Pending |}.

Lemma createContact_complete b n e ph day d :
  truthy_str (cb_name b) = Some n -> truthy_str (cb_email b) = Some e ->
  truthy_str (cb_phone b) = Some ph -> cb_date b = DDate day ->
  createContact b d =
    (set_contacts (table_insert (new_contact n e ph day) (booking_contacts d)).2 d, Done 201).
Proof. intros Hn He Hph Hd. unfold createContact, catch_500. by rewrite Hn, He, Hph, Hd. Qed.

Lemma updateContactStatus_found id s st c d :
  parse_status (Some s) = Some st -> rows (booking_contacts d) !! id = Some c ->
  updateContactStatus id (Some s) d =
    (set_contacts (table_update id (set_contact_status st) (booking_contacts d)) d, Done 200).
Proof.
  intros Hs Hc. unfold updateContactStatus, catch_500. rewrite Hs.
  unfold mbind, M_bind, get_state, affected_rows. rewrite Hc. reflexivity.
Qed.

Lemma deleteContact_found id c d :
  rows (booking_contacts d) !! id = Some c ->
  deleteContact id d = (set_contacts (table_delete id (booking_contacts d)) d, Done 200).
Proof.
  intros Hc. unfold deleteContact, catch_500, mbind, M_bind, get_state, affected_rows.
  rewrite Hc. reflexivity.
Qed.

Lemma deleteContact_missing id d :
  rows (booking_contacts d) !! id = None ->
  deleteContact id d = (set_contacts (table_delete id (booking_contacts d)) d,
                        Reply 404 "Booking contact not found"%string).
Proof.
  intros Hc. unfold deleteContact, catch_500, mbind, M_bind, get_state, affected_rows.
  rewrite Hc. reflexivity.
Qed.

(** The unauthenticated booking-contact routes behave as a small
    record store: a complete form is saved as a [pending] contact under
    the next id (201); PATCH with a valid status sets that status (200);
    DELETE removes it (200), and a second DELETE answers 404. *)
Theorem contact_lifecycle b n e ph day s st d :
  truthy_str (cb_name b) = Some n -> truthy_str (cb_email b) = Some e ->
  truthy_str (cb_phone b) = Some ph -> cb_date b = DDate day ->
  parse_status (Some s) = Some st ->
  let id := next_id (booking_contacts d) in
  let c := new_contact n e ph day in
  let d1 := fst (createContact b d) in
  let d2 := fst (updateContactStatus id (Some s) d1) in
  let d3 := fst (deleteContact id d2) in
  snd (createContact b d) = Done 201 /\ rows (booking_contacts d1) !! id = Some c /\
  snd (updateContactStatus id (Some s) d1) = Done 200 /\
  rows (booking_contacts d2) !! id = Some (set_contact_status st c) /\
  snd (deleteContact id d2) = Done 200 /\ rows (booking_contacts d3) !! id = None /\
  snd (deleteContact id d3) = Reply 404 "Booking contact not found"%string.
Proof.
  intros Hn He Hph Hd Hs. cbv zeta.
  rewrite (createContact_complete b n e ph day d) by done. cbn [fst snd].
  set (d1 := set_contacts _ d).
  assert (H1 : rows (booking_contacts d1) !! next_id (booking_contacts d) = Some (new_contact n e ph day))
    by apply lookup_insert_eq.
  rewrite (updateContactStatus_found _ _ _ _ _ Hs H1). cbn [fst snd].
  set (d2 := set_contacts _ d1).
  assert (H2 : rows (booking_contacts d2) !! next_id (booking_contacts d) =
               Some (set_contact_status st (new_contact n e ph day)))
    by (unfold d2; cbn [booking_contacts set_contacts rows table_update]; rewrite lookup_alter_eq, H1; reflexivity).
  rewrite (deleteContact_found _ _ _ H2). cbn [fst snd].
  assert (H3 : rows (booking_contacts (set_contacts (table_delete (next_id (booking_contacts d))
                 (booking_contacts d2)) d2)) !! next_id (booking_contacts d) = None)
    by apply lookup_delete_eq.
  rewrite (deleteContact_missing _ _ H3). split_and!; done.
Qed.

(** The admin's booking of [demo_store], once cancelled, still counts
    in [total_spent]. *)
Lemma stats_of_spec_witness :
  total_bookings_of (stats_of 1 (with_status demo_store 1 Cancelled)) <> 0 /\
  total_spent (stats_of 1 (with_status demo_store 1 Cancelled)) = Some 480000 /\
  cancelled_bookings (stats_of 1 (with_status demo_store 1 Cancelled)) = 1.
Proof.
  assert (Hn : total_bookings_of (stats_of 1 (with_status demo_store 1 Cancelled)) <> 0)
    by (vm_compute; discriminate).
  split_and!; [exact Hn | | vm_compute; reflexivity].
  destruct (stats_of_spec 1 (with_status demo_store 1 Cancelled)) as (_ & _ & Hs).
  rewrite (Hs Hn). vm_compute. reflexivity.
Defined.

Lemma contact_lifecycle_witness :
  let b := {| cb_name := Some "Ann"; cb_email := Some "ann@mail.com"; cb_phone := Some "555";
              cb_date := DDate 20400 |}%string in
  let d1 := fst (createContact b seed_store) in
  let d2 := fst (updateContactStatus 1 (Some "confirmed"%string) d1) in
  let d3 := fst (deleteContact 1 d2) in
  snd (createContact b seed_store) = Done 201 /\
  snd (deleteContact 1 d3) = Reply 404 "Booking contact not found"%string.
Proof.
  cbv zeta.
  destruct (contact_lifecycle
              {| cb_name := Some "Ann"; cb_email := Some "ann@mail.com"; cb_phone := Some "555";
                 cb_date := DDate 20400 |}%string "Ann" "ann@mail.com" "555" 20400
              "confirmed" Confirmed seed_store) as (H1 & _ & _ & _ & _ & _ & H7);
    try reflexivity.
  split; [exact H1 | exact H7].
Defined.
