(* ===== verification/Reviews.v ===== *)
(** * Reviews: the handlers of [src/server/routes/reviews.js]

    [createReview], [updateReview] and [deleteReview] write the reviews
    table and then call [updatePackageRating], which recomputes
    [AVG(rating)] and [COUNT( * )] over the package's reviews and stores
    them in the package row (its own [try/catch] logs and swallows any
    error).  The file proves that the cache is right after every one of
    these handlers and that the cached rating stays within [1.00, 5.00]
    whenever the package has reviews. *)

From S2P Require Import Prelude Schema Validation.

(** ** updatePackageRating (lines 329-346) *)

(** [averageRating = AVG(rating) || 0], as the DECIMAL(3,2) column
    stores it. *)
Definition stored_rating (rs : list Z) : Z :=
  match sql_avg rs with
  | None => 0
  | Some avg4 => to_hundredths avg4
  end.

Definition set_pkg_rating (rating total : Z) (p : package_row) : package_row :=
  {| pkg_title := pkg_title p; pkg_destination := pkg_destination p;
     pkg_description := pkg_description p; pkg_price := pkg_price p;
     pkg_duration := pkg_duration p; pkg_image_url := pkg_image_url p;
     pkg_rating := rating; pkg_total_reviews := total |}.

(** [UPDATE packages SET rating = ?, total_reviews = ? WHERE id = ?]:
    the rating must fit DECIMAL(3,2). *)
Definition update_package_rating (pid rating total : Z) : M db unit :=
  if negb (fits_decimal 3 rating) then throw ER_WARN_DATA_OUT_OF_RANGE
  else sql_update packages set_packages pid (set_pkg_rating rating total).

Definition updatePackageRating (pid : Z) : M db unit :=
  swallow (
    d ← get_state;
    let sel := package_reviews pid d in
    update_package_rating pid (stored_rating (ratings sel)) (sql_count sel)).

(** [SELECT r.*, u.name as user_name FROM reviews r JOIN users u
    ON r.user_id = u.id WHERE r.id = ?] *)
Definition review_join (d : db) (id : Z) : option (Z * review_row * string) :=
  r ← rows (reviews d) !! id;
  usr ← rows (users d) !! rv_user_id r;
  Some (id, r, user_name usr).

(** [SELECT id FROM bookings WHERE user_id = ? AND package_id = ?
    AND status = "confirmed"] *)
Definition confirmed_bookings_of (d : db) (uid pid : Z) : gmap Z booking_row :=
  filter (fun kv => bk_status kv.2 = Confirmed) (bookings_of d uid pid).

(** ** POST / : create a review (lines 9-78) *)

Definition createReview (u : auth_user) (i : review_input)
    : M db (Z * option (Z * review_row * string)) :=
  catch_500 "Failed to create review" (
    d ← get_state;
    guard (negb (package_exists d (in_rv_packageId i))) 404 "Package not found";;
    guard (bool_decide (reviews_of d (au_id u) (in_rv_packageId i) <> ∅))
      400 "You have already reviewed this package";;
    guard (bool_decide (confirmed_bookings_of d (au_id u) (in_rv_packageId i) = ∅))
      403 "You can only review packages you have booked and completed";;
    id ← insert_review {| rv_user_id := au_id u; rv_package_id := in_rv_packageId i;
                          rv_rating := in_rating i; rv_comment := in_comment i |};
    updatePackageRating (in_rv_packageId i);;
    d' ← get_state;
    mret (201, review_join d' id))%string.

Definition route_createReview (u : auth_user) (b : review_body)
    : M db (Z * option (Z * review_row * string)) :=
  i ← validateReview b; createReview u i.

(** ** PUT /:id : update a review (lines 213-288) *)

(** The JavaScript truthiness of the [rating] field and the guard
    [rating && (rating < 1 || rating > 5)]. *)
Definition js_truthy (v : jvalue) : bool :=
  match v with
  | JMissing => false
  | JInt z => negb (z =? 0)
  | JOther => true
  end.

Definition rating_guard_rejects (v : jvalue) : bool :=
  js_truthy v &&
  match v with
  | JInt z => (z <? 1) || (5 <? z)
  | _ => false          (* NaN comparisons are false *)
  end.

Definition owned_review (d : db) (id uid : Z) : option review_row :=
  r ← rows (reviews d) !! id;
  if bool_decide (rv_user_id r = uid) then Some r else None.

Definition set_review_fields (rating : option Z) (comment : option string)
    (r : review_row) : review_row :=
  {| rv_user_id := rv_user_id r; rv_package_id := rv_package_id r;
     rv_rating := default (rv_rating r) rating;
     rv_comment := default (rv_comment r) comment |}.

(** [UPDATE reviews SET rating = ?, comment = ? WHERE id = ?] with the
    fields that were sent; the rating goes through the INT column and
    its CHECK. *)
Definition update_review (id : Z) (rating : jvalue) (comment : option string) : M db unit :=
  match rating with
  | JOther => throw ER_TRUNCATED_WRONG_VALUE_FOR_FIELD
  | JInt z =>
      if negb (bool_decide (1 <= z <= 5)) then throw ER_CHECK_CONSTRAINT_VIOLATED
      else sql_update reviews set_reviews id (set_review_fields (Some z) comment)
  | JMissing => sql_update reviews set_reviews id (set_review_fields None comment)
  end.

Definition updateReview (u : auth_user) (id : Z) (rating : jvalue) (comment : option string)
    : M db (Z * option (Z * review_row * string)) :=
  catch_500 "Failed to update review" (
    guard (rating_guard_rejects rating) 400 "Rating must be between 1 and 5";;
    d ← get_state;
    match owned_review d id (au_id u) with
    | None => reply 404 "Review not found"
    | Some r =>
        guard (bool_decide (rating = JMissing) && bool_decide (comment = None))
          400 "No fields to update";;
        update_review id rating comment;;
        updatePackageRating (rv_package_id r);;
        d' ← get_state;
        mret (200, review_join d' id)
    end)%string.

(** ** DELETE /:id : delete a review (lines 291-326) *)

Definition deleteReview (u : auth_user) (id : Z) : M db (Z * unit) :=
  catch_500 "Failed to delete review" (
    d ← get_state;
    match owned_review d id (au_id u) with
    | None => reply 404 "Review not found"
    | Some r =>
        sql_delete reviews set_reviews id;;
        updatePackageRating (rv_package_id r);;
        mret (200, tt)
    end)%string.

(** ** The rating cache *)

(** The cached columns of package [pid] agree with its reviews. *)
Definition rating_cache_ok (d : db) (pid : Z) (p : package_row) : Prop :=
  pkg_rating p = stored_rating (ratings (package_reviews pid d)) /\
  pkg_total_reviews p = sql_count (package_reviews pid d).

Definition cache_consistent (d : db) : Prop :=
  map_Forall (rating_cache_ok d) (rows (packages d)).

(** The CHECK constraint of the reviews table, as a property of the
    store. *)
Definition reviews_in_range (d : db) : Prop :=
  map_Forall (fun _ r => 1 <= rv_rating r <= 5) (rows (reviews d)).

Lemma stored_rating_nil : stored_rating [] = 0.
Proof. reflexivity. Qed.

#[export] Instance stored_rating_perm : Proper ((≡ₚ) ==> (=)) stored_rating.
Proof. intros l1 l2 Hp. unfold stored_rating. by rewrite Hp. Qed.

(** Ratings in [1, 5] give a stored average in [1.00, 5.00]. *)
Lemma stored_rating_bounds rs :
  Forall (fun x => 1 <= x <= 5) rs -> rs <> [] -> 100 <= stored_rating rs <= 500.
Proof.
  intros Hr Hne. unfold stored_rating, sql_avg.
  destruct rs as [|x rs']; [done|]. set (rs := x :: rs') in *.
  pose proof (sumZ_bounds 1 5 rs Hr) as Hs.
  assert (0 < Z.of_nat (length rs)) by (simpl; lia).
  unfold to_hundredths. apply div_round_bounds; [lia|].
  pose proof (div_round_bounds (10000 * sumZ rs) (Z.of_nat (length rs)) 10000 50000) as Hb.
  lia.
Qed.

Lemma stored_rating_range rs :
  Forall (fun x => 1 <= x <= 5) rs -> 0 <= stored_rating rs <= 500.
Proof.
  intros Hr. destruct rs as [|x rs]; [rewrite stored_rating_nil; lia|].
  pose proof (stored_rating_bounds (x :: rs) Hr ltac:(done)). lia.
Qed.

Lemma package_reviews_in_range d pid :
  reviews_in_range d -> map_Forall (fun _ r => 1 <= rv_rating r <= 5) (package_reviews pid d).
Proof.
  intros H k r Hk. apply map_lookup_filter_Some in Hk as [Hk _]. by apply (H k).
Qed.

(** The store after the cache refresh of package [pid]. *)
Definition refreshed (d : db) (pid : Z) : db :=
  let sel := package_reviews pid d in
  set_packages (table_update pid (set_pkg_rating (stored_rating (ratings sel)) (sql_count sel))
                  (packages d)) d.

(** With in-range ratings the UPDATE of [updatePackageRating] cannot
    fail: the refresh always happens. *)
Lemma updatePackageRating_run d pid :
  reviews_in_range d -> updatePackageRating pid d = (refreshed d pid, Done tt).
Proof.
  intros Hr. unfold updatePackageRating, swallow, update_package_rating. run_m.
  pose proof (stored_rating_range _ (ratings_bounds _ (package_reviews_in_range d pid Hr))).
  unfold fits_decimal. rewrite bool_decide_true; [reflexivity|].
  unfold decimal_max. simpl. lia.
Qed.

Lemma package_reviews_refreshed d pid q :
  package_reviews q (refreshed d pid) = package_reviews q d.
Proof. reflexivity. Qed.

(** After the refresh the cache of [pid] is right, whatever it was. *)
Lemma refreshed_cache_self d pid p :
  rows (packages (refreshed d pid)) !! pid = Some p -> rating_cache_ok (refreshed d pid) pid p.
Proof.
  simpl. rewrite lookup_alter_eq. destruct (rows (packages d) !! pid); simpl; [|done].
  intros [= <-]. unfold rating_cache_ok, package_reviews. simpl. done.
Qed.

(** A write to the reviews table that leaves every other package's
    reviews alone, followed by the refresh of [pid], keeps the cache
    consistent. *)
Lemma refresh_restores_cache d d1 pid :
  cache_consistent d -> packages d1 = packages d ->
  (forall q, q <> pid -> package_reviews q d1 = package_reviews q d) ->
  cache_consistent (refreshed d1 pid).
Proof.
  intros Hc Hp Hq q p Hl.
  destruct (decide (q = pid)) as [->|Hne]; [by apply refreshed_cache_self|].
  simpl in Hl. rewrite lookup_alter_ne in Hl by done. rewrite Hp in Hl.
  destruct (Hc q p Hl) as [Hr Ht]. unfold rating_cache_ok.
  by rewrite package_reviews_refreshed, Hq.
Qed.

#[export] Hint Resolve stored_rating_range package_reviews_in_range : wavv.

Section handler_effects.
Implicit Types (d : db) (u : auth_user).

(** [updatePackageRating] never throws: its own [catch] swallows. *)
Lemma updatePackageRating_shape pid d :
  exists d', updatePackageRating pid d = (d', Done tt).
Proof.
  unfold updatePackageRating, swallow, update_package_rating, sql_update. run_m.
  split_branches; eauto.
Qed.

(** The only writes of [createReview]: none, or the insertion of a
    review of the caller for the requested package with an in-range
    rating, followed by the refresh of that package. *)
Lemma createReview_effect u i d d' o :
  createReview u i d = (d', o) ->
  d' = d \/
  exists r, rv_package_id r = in_rv_packageId i /\ rv_user_id r = au_id u /\
    1 <= rv_rating r <= 5 /\
    reviews_of d (au_id u) (in_rv_packageId i) = ∅ /\
    confirmed_bookings_of d (au_id u) (in_rv_packageId i) <> ∅ /\
    d' = fst (updatePackageRating (in_rv_packageId i)
                (set_reviews (table_insert r (reviews d)).2 d)).
Proof.
  unfold createReview, catch_500, insert_review, sql_insert. run_m.
  split_branches; try (intros [= <- _]; by left).
  match goal with |- context [updatePackageRating ?p ?s] =>
    destruct (updatePackageRating_shape p s) as [d2 E]; rewrite E end.
  intros [= <- _]. bool_facts. right.
  exists {| rv_user_id := au_id u; rv_package_id := in_rv_packageId i;
            rv_rating := in_rating i; rv_comment := in_comment i |}.
  split_and!; [done | done | simpl; lia | simpl; lia | | done | ].
  - match goal with H : ¬ (?m ≠ ∅) |- _ => destruct (decide (m = ∅)) end; done.
  - unfold table_insert. cbn [snd]. by rewrite E.
Qed.

Lemma owned_review_Some d id uid r :
  owned_review d id uid = Some r <-> rows (reviews d) !! id = Some r /\ rv_user_id r = uid.
Proof.
  unfold owned_review. destruct (rows (reviews d) !! id) eqn:E; simpl.
  - case_bool_decide; split; intros; destruct_and?; simplify_eq; auto.
  - split; [discriminate|]. intros []; discriminate.
Qed.

(** The only writes of [updateReview]: none, or the update of the
    caller's review [id] with an in-range rating (or none) and the
    refresh of that review's package. *)
Lemma updateReview_effect u id rating comment d d' o :
  updateReview u id rating comment d = (d', o) ->
  d' = d \/
  exists r zo, owned_review d id (au_id u) = Some r /\
    (forall z, zo = Some z -> 1 <= z <= 5) /\
    d' = fst (updatePackageRating (rv_package_id r)
                (set_reviews (table_update id (set_review_fields zo comment) (reviews d)) d)).
Proof.
  unfold updateReview, catch_500, update_review, sql_update. run_m.
  split_branches; try (intros [= <- _]; by left);
  destruct rating as [|z|]; simpl; try (intros [= <- _]; by left);
  try (destruct (negb (bool_decide (1 <= z <= 5))) eqn:Hz; simpl;
       [intros [= <- _]; by left|]);
  match goal with |- context [updatePackageRating ?p ?s] =>
    destruct (updatePackageRating_shape p s) as [d2 E]; rewrite E end;
  intros [= <- _]; bool_facts; right; eexists _, _;
    (split_and!; [done | | by rewrite E]).
  - by intros.
  - intros ? [= <-]. lia.
Qed.

(** The only writes of [deleteReview]: none, or the deletion of the
    caller's review [id] and the refresh of its package. *)
Lemma deleteReview_effect u id d d' o :
  deleteReview u id d = (d', o) ->
  d' = d \/
  exists r, owned_review d id (au_id u) = Some r /\
    d' = fst (updatePackageRating (rv_package_id r)
                (set_reviews (table_delete id (reviews d)) d)).
Proof.
  unfold deleteReview, catch_500, sql_delete. run_m.
  split_branches; try (intros [= <- _]; by left).
  match goal with |- context [updatePackageRating ?p ?s] =>
    destruct (updatePackageRating_shape p s) as [d2 E]; rewrite E end.
  intros [= <- _]. right. eexists; split; [done|]. by rewrite E.
Qed.
End handler_effects.

(** ** The cache invariant through the review handlers *)

(** What the reviews handlers need of the store and keep: the cache is
    right, the CHECK holds, and the id counter is ahead of every row. *)
Definition review_store_ok (d : db) : Prop :=
  cache_consistent d /\ reviews_in_range d /\ table_wf (reviews d).

Section cache_preservation.
Implicit Types (d : db) (u : auth_user).

Lemma package_reviews_insert_other d r q :
  table_wf (reviews d) -> rv_package_id r <> q ->
  package_reviews q (set_reviews (table_insert r (reviews d)).2 d) = package_reviews q d.
Proof.
  intros Hwf Hne. unfold package_reviews. simpl.
  apply map_filter_insert_not'; simpl; [done|].
  intros y Hy. by rewrite (table_insert_fresh r _ Hwf) in Hy.
Qed.

Lemma package_reviews_update_other d id f r q :
  rows (reviews d) !! id = Some r ->
  rv_package_id (f r) = rv_package_id r -> rv_package_id r <> q ->
  package_reviews q (set_reviews (table_update id f (reviews d)) d) = package_reviews q d.
Proof.
  intros Hr Hf Hne. unfold package_reviews. simpl.
  rewrite (alter_alt_Some _ _ _ _ Hr), map_filter_insert_False by (simpl; congruence).
  apply map_filter_delete_not. simpl. congruence.
Qed.

Lemma package_reviews_delete_other d id r q :
  rows (reviews d) !! id = Some r -> rv_package_id r <> q ->
  package_reviews q (set_reviews (table_delete id (reviews d)) d) = package_reviews q d.
Proof.
  intros Hr Hne. unfold package_reviews. simpl.
  apply map_filter_delete_not. simpl. congruence.
Qed.

Lemma review_store_ok_refresh d d1 pid :
  review_store_ok d -> reviews_in_range d1 -> table_wf (reviews d1) ->
  packages d1 = packages d ->
  (forall q, q <> pid -> package_reviews q d1 = package_reviews q d) ->
  review_store_ok (fst (updatePackageRating pid d1)).
Proof.
  intros (Hc & _ & _) Hr Hwf Hp Hq. rewrite updatePackageRating_run by done.
  split_and!; [by eapply refresh_restores_cache | done | done].
Qed.

Lemma createReview_store_ok u i d d' o :
  review_store_ok d -> createReview u i d = (d', o) -> review_store_ok d'.
Proof.
  intros Hok Hrun. apply createReview_effect in Hrun
    as [-> | (r & Hpid & _ & Hrng & _ & _ & ->)]; [done|].
  pose proof Hok as (Hc & Hr & Hwf).
  apply (review_store_ok_refresh d); [done | | by apply table_insert_wf | done |].
  - apply map_Forall_insert_2; done.
  - intros q Hq. apply package_reviews_insert_other; congruence.
Qed.

(** C2: creating a review keeps the package rating cache equal to the
    aggregate of every package's reviews (and keeps the ratings in
    [1, 5]), whatever the handler answers. *)
Theorem createReview_keeps_cache u i d d' o :
  review_store_ok d -> createReview u i d = (d', o) -> review_store_ok d'.
Proof. apply createReview_store_ok. Qed.

Lemma updateReview_store_ok u id rating comment d d' o :
  review_store_ok d -> updateReview u id rating comment d = (d', o) -> review_store_ok d'.
Proof.
  intros Hok Hrun. apply updateReview_effect in Hrun as [-> | (r & zo & Hown & Hz & ->)]; [done|].
  apply owned_review_Some in Hown as [Hl _].
  pose proof Hok as (Hc & Hr & Hwf).
  apply (review_store_ok_refresh d); [done | | by apply table_update_wf | done |].
  - intros k x. simpl. rewrite lookup_alter_Some.
    intros [(<- & r' & Hr' & ->) | [_ Hk]]; [|by eapply Hr].
    rewrite Hl in Hr'. simplify_eq. destruct zo as [z|]; simpl; [by apply Hz|by eapply Hr].
  - intros q Hq. by apply (package_reviews_update_other d id _ r).
Qed.

(** C3: updating a review keeps the rating cache right. *)
Theorem updateReview_keeps_cache u id rating comment d d' o :
  review_store_ok d -> updateReview u id rating comment d = (d', o) -> review_store_ok d'.
Proof. apply updateReview_store_ok. Qed.

Lemma deleteReview_store_ok u id d d' o :
  review_store_ok d -> deleteReview u id d = (d', o) -> review_store_ok d'.
Proof.
  intros Hok Hrun. apply deleteReview_effect in Hrun as [-> | (r & Hown & ->)]; [done|].
  apply owned_review_Some in Hown as [Hl _].
  pose proof Hok as (Hc & Hr & Hwf).
  apply (review_store_ok_refresh d); [done | by apply map_Forall_delete
                                | by apply table_delete_wf | done |].
  intros q Hq. by apply (package_reviews_delete_other d id r).
Qed.

(** C4: deleting a review keeps the rating cache right. *)
Theorem deleteReview_keeps_cache u id d d' o :
  review_store_ok d -> deleteReview u id d = (d', o) -> review_store_ok d'.
Proof. apply deleteReview_store_ok. Qed.
End cache_preservation.

Section review_props.
Implicit Types (d : db) (u : auth_user).

(** in a store whose cache is consistent and whose ratings are in
    [1, 5], a package with at least one review has a cached rating in
    [1.00, 5.00] (100 to 500 hundredths). *)
Theorem cached_rating_bounds d pid p :
  review_store_ok d -> rows (packages d) !! pid = Some p -> 0 < pkg_total_reviews p ->
  100 <= pkg_rating p <= 500.
Proof.
  intros (Hc & Hr & _) Hp Htot. destruct (Hc pid p Hp) as [-> Hcnt].
  apply stored_rating_bounds; [by eauto with wavv|].
  intros Hnil. apply (f_equal length) in Hnil.
  rewrite ratings_length in Hnil. unfold sql_count in Hcnt. simpl in Hnil. lia.
Qed.

(** C15: the early answers of [createReview], in the code's order: an
    unknown package is 404, an existing review of the caller for the
    package is 400, and no confirmed booking of the caller for the
    package is 403; the store is unchanged in each case. *)
Theorem createReview_errors u i d :
  let pid := in_rv_packageId i in
  (package_exists d pid = false ->
     createReview u i d = (d, Reply 404 "Package not found"%string)) /\
  (package_exists d pid = true -> reviews_of d (au_id u) pid <> ∅ ->
     createReview u i d = (d, Reply 400 "You have already reviewed this package"%string)) /\
  (package_exists d pid = true -> reviews_of d (au_id u) pid = ∅ ->
   confirmed_bookings_of d (au_id u) pid = ∅ ->
     createReview u i d =
       (d, Reply 403 "You can only review packages you have booked and completed"%string)).
Proof.
  intros pid. subst pid. unfold createReview, catch_500. split_and!.
  - intros Hp. run_m. by rewrite Hp.
  - intros Hp Hr. run_m. rewrite Hp. simpl. by rewrite bool_decide_true.
  - intros Hp Hr Hb. run_m. rewrite Hp. simpl.
    rewrite bool_decide_false by auto. simpl. by rewrite bool_decide_true.
Qed.

(** C38: the 400 guard of PUT /reviews/:id is [rating && (rating < 1 ||
    rating > 5)], and 0 is falsy: a rating of 0 on the caller's review
    passes the guard, reaches the UPDATE, violates the CHECK, and the
    handler answers 500 (not 400), leaving the store unchanged. *)
Theorem updateReview_zero_rating u id comment d r :
  owned_review d id (au_id u) = Some r ->
  updateReview u id (JInt 0) comment d = (d, Reply 500 "Failed to update review"%string).
Proof.
  intros Hown. unfold updateReview, catch_500. run_m. by rewrite Hown.
Qed.
End review_props.

(** ** Concrete runs *)

#[export] Instance rating_cache_ok_dec d pid p : Decision (rating_cache_ok d pid p).
Proof. unfold rating_cache_ok. apply _. Defined.
#[export] Instance review_store_ok_dec d : Decision (review_store_ok d).
Proof. unfold review_store_ok, cache_consistent, reviews_in_range. apply _. Defined.

Definition demo_admin : auth_user :=
  {| au_id := 1; au_name := "Admin User"; au_email := "admin@wavv.com"; au_role := RoleAdmin |}%string.

Definition demo_review : review_input :=
  {| in_rv_packageId := 1; in_rating := 4; in_comment := "Lovely trip to Rome"%string |}.

Example demo_store_ok : review_store_ok demo_store.
Proof. apply (bool_decide_eq_true_1 _). vm_compute. reflexivity. Qed.

(** The store after the admin reviewed package 1 with 4 stars: the
    cache of package 1 now reads 4.00 over one review. *)
Definition demo_reviewed : db := fst (createReview demo_admin demo_review demo_store).

Definition demo_pkg1 : package_row :=
  set_pkg_rating 400 1 (default (sample_package "" "" "" 0 "" "") (head samplePackages)).

Example demo_createReview :
  snd (createReview demo_admin demo_review demo_store) =
    Done (201, Some (1, {| rv_user_id := 1; rv_package_id := 1; rv_rating := 4;
                           rv_comment := "Lovely trip to Rome"%string |}, "Admin User"%string)) /\
  rows (packages demo_reviewed) !! 1 = Some demo_pkg1.
Proof. split; vm_compute; reflexivity. Qed.

Lemma createReview_keeps_cache_witness :
  review_store_ok demo_store /\ review_store_ok demo_reviewed.
Proof.
  split; [apply (bool_decide_eq_true_1 _); vm_compute; reflexivity|].
  apply (createReview_keeps_cache demo_admin demo_review demo_store _
           (snd (createReview demo_admin demo_review demo_store))).
  - apply (bool_decide_eq_true_1 _); vm_compute; reflexivity.
  - apply surjective_pairing.
Defined.

Lemma updateReview_keeps_cache_witness :
  review_store_ok demo_reviewed /\
  review_store_ok (fst (updateReview demo_admin 1 (JInt 5) None demo_reviewed)).
Proof.
  split; [apply (bool_decide_eq_true_1 _); vm_compute; reflexivity|].
  apply (updateReview_keeps_cache demo_admin 1 (JInt 5) None demo_reviewed _
           (snd (updateReview demo_admin 1 (JInt 5) None demo_reviewed))).
  - apply (bool_decide_eq_true_1 _); vm_compute; reflexivity.
  - apply surjective_pairing.
Defined.

Lemma deleteReview_keeps_cache_witness :
  review_store_ok demo_reviewed /\ review_store_ok (fst (deleteReview demo_admin 1 demo_reviewed)).
Proof.
  split; [apply (bool_decide_eq_true_1 _); vm_compute; reflexivity|].
  apply (deleteReview_keeps_cache demo_admin 1 demo_reviewed _
           (snd (deleteReview demo_admin 1 demo_reviewed))).
  - apply (bool_decide_eq_true_1 _); vm_compute; reflexivity.
  - apply surjective_pairing.
Defined.

Lemma cached_rating_bounds_witness :
  rows (packages demo_reviewed) !! 1 = Some demo_pkg1 /\ 100 <= pkg_rating demo_pkg1 <= 500.
Proof.
  split; [vm_compute; reflexivity|].
  apply (cached_rating_bounds demo_reviewed 1 demo_pkg1).
  - apply (bool_decide_eq_true_1 _); vm_compute; reflexivity.
  - vm_compute; reflexivity.
  - vm_compute; reflexivity.
Defined.

Lemma createReview_errors_witness :
  let d := initializeDatabase_seed "h"%string empty_db in
  createReview demo_admin demo_review d =
    (d, Reply 403 "You can only review packages you have booked and completed"%string).
Proof.
  intros d. apply (createReview_errors demo_admin demo_review d); vm_compute; reflexivity.
Defined.

Lemma updateReview_zero_rating_witness :
  owned_review demo_reviewed 1 1 = Some {| rv_user_id := 1; rv_package_id := 1; rv_rating := 4;
                                           rv_comment := "Lovely trip to Rome"%string |} /\
  updateReview demo_admin 1 (JInt 0) None demo_reviewed =
    (demo_reviewed, Reply 500 "Failed to update review"%string).
Proof.
  split; [vm_compute; reflexivity|].
  apply (updateReview_zero_rating demo_admin 1 None demo_reviewed
    {| rv_user_id := 1; rv_package_id := 1; rv_rating := 4;
       rv_comment := "Lovely trip to Rome"%string |}).
  vm_compute; reflexivity.
Defined.
