(* ===== verification/Packages.v ===== *)
(** * Packages: the handlers of [src/server/routes/packages.js]

    The public listing with its filters and its count query, the lookup
    of one package with its reviews, and the admin-only create, update
    and delete.  The listing's count query binds [params.slice(0, -2)]
    (meant to drop LIMIT and OFFSET values, which are written into the
    SQL text and never bound): as soon as a filter is present it binds
    fewer values than the statement has placeholders, and the handler
    answers 500.  The rounding of [toFixed(1)] on the average is not
    modelled: the listing returns MySQL's four-decimal average. *)

From stdpp Require Import sorting.
From S2P Require Import Prelude Schema Validation.

(** ** GET / : listing (lines 9-92) *)

(** The WHERE conditions the handler pushes, in order. *)
Inductive condition :=
  | CSearch (term : string)      (* (p.title LIKE ? OR p.description LIKE ? OR p.destination LIKE ?) *)
  | CDestination (term : string) (* p.destination LIKE ? *)
  | CMinPrice (c : Z)            (* p.price >= ? *)
  | CMaxPrice (c : Z).           (* p.price <= ? *)

Definition search_conditions (q : search_input) : list condition :=
  (match truthy_str (s_search q) with Some t => [CSearch t] | None => [] end) ++
  (match truthy_str (s_destination q) with Some t => [CDestination t] | None => [] end) ++
  (match s_minPrice q with Some c => [CMinPrice c] | None => [] end) ++
  (match s_maxPrice q with Some c => [CMaxPrice c] | None => [] end).

(** The values [params.push] adds for a condition. *)
Definition condition_params (c : condition) : list sql_param :=
  match c with
  | CSearch t => let pat := ("%" ++ t ++ "%")%string in [PStr pat; PStr pat; PStr pat]
  | CDestination t => [PStr ("%" ++ t ++ "%")%string]
  | CMinPrice v => [PNum v]
  | CMaxPrice v => [PNum v]
  end.

Definition search_params (cs : list condition) : list sql_param :=
  concat (condition_params <$> cs).

Definition condition_holds (c : condition) (p : package_row) : bool :=
  match c with
  | CSearch t => like_contains (pkg_title p) t || like_contains (pkg_description p) t ||
                 like_contains (pkg_destination p) t
  | CDestination t => like_contains (pkg_destination p) t
  | CMinPrice v => v <=? pkg_price p
  | CMaxPrice v => pkg_price p <=? v
  end.

(** A row of the listing: the package, [COUNT(r.id)] and
    [COALESCE(AVG(r.rating), 0)] over its reviews. *)
Definition listing_row (d : db) (kv : Z * package_row) : Z * package_row * Z * Z :=
  let sel := package_reviews kv.1 d in
  (kv.1, kv.2, sql_count sel, default 0 (sql_avg (ratings sel))).

Definition matching_packages (cs : list condition) (d : db) : list (Z * package_row) :=
  filter (fun kv => forallb (fun c => condition_holds c kv.2) cs = true)
         (rows_desc (rows (packages d))).

Definition getPackages (q : search_input)
    : M db (Z * (list (Z * package_row * Z * Z) * pagination)) :=
  catch_500 "Failed to fetch packages" (
    let cs := search_conditions q in
    let params := search_params cs in
    check_limit_offset (s_limit q) ((s_page q - 1) * s_limit q);;
    check_params (length params) params;;
    d ← get_state;
    let found := matching_packages cs d in
    let page := listing_row d <$> paginate (s_page q) (s_limit q) found in
    check_params (length params) (js_slice_drop2 params);;
    let total := Z.of_nat (length found) in
    mret (200, (page, {| pg_page := s_page q; pg_limit := s_limit q; pg_total := total;
                         pg_pages := page_count total (s_limit q) |})))%string.

Definition route_getPackages (q : search_query)
    : M db (Z * (list (Z * package_row * Z * Z) * pagination)) :=
  i ← validateSearch q; getPackages i.

(** ** GET /:id (lines 166-216) *)

Definition getPackage (id : Z)
    : M db (Z * (Z * package_row * Z * Z * list (Z * review_row * string))) :=
  catch_500 "Failed to fetch package" (
    d ← get_state;
    match rows (packages d) !! id with
    | None => reply 404 "Package not found"
    | Some p =>
        let '(pid, row, cnt, avg) := listing_row d (id, p) in
        mret (200, (pid, row, cnt, avg, package_review_rows id d))
    end)%string.

(** ** POST / : create (lines 219-244) *)

Definition new_package (i : package_input) (img : string) : package_row :=
  {| pkg_title := in_title i; pkg_destination := in_destination i;
     pkg_description := in_description i; pkg_price := in_price i;
     pkg_duration := in_duration i; pkg_image_url := img;
     pkg_rating := 0; pkg_total_reviews := 0 |}.

(** [INSERT INTO packages (title, ..., image_url)]: an undefined
    [image_url] is refused by the driver; the price must fit
    DECIMAL(10,2). *)
Definition insert_package (i : package_input) : M db Z :=
  match in_image_url i with
  | None => throw BIND_UNDEFINED
  | Some img =>
      if negb (fits_decimal 10 (in_price i)) then throw ER_WARN_DATA_OUT_OF_RANGE
      else sql_insert packages set_packages (new_package i img)
  end.

Definition createPackage (i : package_input) : M db (Z * option package_row) :=
  catch_500 "Failed to create package" (
    id ← insert_package i;
    d ← get_state;
    mret (201, rows (packages d) !! id))%string.

(** ** PUT /:id : update (lines 247-288) *)

Definition set_package_fields (i : package_input) (img : string) (p : package_row) : package_row :=
  {| pkg_title := in_title i; pkg_destination := in_destination i;
     pkg_description := in_description i; pkg_price := in_price i;
     pkg_duration := in_duration i; pkg_image_url := img;
     pkg_rating := pkg_rating p; pkg_total_reviews := pkg_total_reviews p |}.

Definition updatePackage (id : Z) (i : package_input) : M db (Z * option package_row) :=
  catch_500 "Failed to update package" (
    d ← get_state;
    guard (negb (package_exists d id)) 404 "Package not found";;
    match in_image_url i with
    | None => throw BIND_UNDEFINED
    | Some img =>
        if negb (fits_decimal 10 (in_price i)) then throw ER_WARN_DATA_OUT_OF_RANGE
        else sql_update packages set_packages id (set_package_fields i img)
    end;;
    d' ← get_state;
    mret (200, rows (packages d') !! id))%string.

(** ** DELETE /:id (lines 291-332) *)

(** [SELECT id FROM bookings WHERE package_id = ?] *)
Definition package_bookings (d : db) (pid : Z) : gmap Z booking_row :=
  filter (fun kv => bk_package_id kv.2 = pid) (rows (bookings d)).

(** [DELETE FROM packages WHERE id = ?] with [ON DELETE CASCADE] on the
    bookings and reviews that reference the package. *)
Definition delete_package_cascade (pid : Z) : M db unit :=
  fun d =>
    (mk_db (users d)
       (table_delete pid (packages d))
       (mk_table (filter (fun kv => bk_package_id kv.2 <> pid) (rows (bookings d)))
                 (next_id (bookings d)))
       (mk_table (filter (fun kv => rv_package_id kv.2 <> pid) (rows (reviews d)))
                 (next_id (reviews d)))
       (booking_contacts d), Done tt).

Definition deletePackage (id : Z) : M db (Z * unit) :=
  catch_500 "Failed to delete package" (
    d ← get_state;
    guard (negb (package_exists d id)) 404 "Package not found";;
    guard (bool_decide (package_bookings d id <> ∅))
      400 "Cannot delete package with existing bookings";;
    delete_package_cascade id;;
    mret (200, tt))%string.

(** ** Properties *)

Lemma condition_params_nonempty c : condition_params c <> [].
Proof. by destruct c. Qed.

Lemma search_params_nil cs : search_params cs = [] <-> cs = [].
Proof.
  split; [|by intros ->].
  destruct cs as [|c cs]; [done|]. unfold search_params. simpl.
  intros H. apply app_eq_nil in H as [H _]. by apply condition_params_nonempty in H.
Qed.

(** C16: GET /packages succeeds only without filters: for validated
    paging values, the handler answers 500 "Failed to fetch packages"
    exactly when a search, destination or price filter is present (the
    count query binds [params.slice(0, -2)], fewer values than its
    placeholders), and otherwise answers 200 with the requested page of
    all packages, newest first, and the total number of packages. *)
Theorem getPackages_spec q d :
  0 <= s_limit q -> 0 <= (s_page q - 1) * s_limit q ->
  getPackages q d =
    if bool_decide (search_conditions q = [])
    then (d, Done (200, (listing_row d <$> paginate (s_page q) (s_limit q)
                                            (rows_desc (rows (packages d))),
                         {| pg_page := s_page q; pg_limit := s_limit q;
                            pg_total := Z.of_nat (size (rows (packages d)));
                            pg_pages := page_count (Z.of_nat (size (rows (packages d)))) (s_limit q) |})))
    else (d, Reply 500 "Failed to fetch packages"%string).
Proof.
  intros Hl Ho. unfold getPackages, catch_500, check_limit_offset, check_params.
  rewrite (proj2 (Z.leb_le _ _) Hl), (proj2 (Z.leb_le _ _) Ho). run_m.
  rewrite bool_decide_true by done. simpl. rewrite count_query_params_ok.
  destruct (decide (search_conditions q = [])) as [Hc|Hc].
  - rewrite Hc. simpl. unfold matching_packages. simpl.
    rewrite filter_all_true. unfold rows_desc.
    rewrite (Permutation_length (merge_sort_Permutation _ _)).
    by rewrite length_map_to_list.
  - rewrite (bool_decide_false (search_params _ = [])) by (by rewrite search_params_nil).
    by rewrite bool_decide_false.
Qed.

Lemma getPackages_spec_witness :
  let q := {| s_search := Some "Italy"%string; s_destination := None; s_minPrice := None;
              s_maxPrice := None; s_page := 1; s_limit := 10 |} in
  let d := initializeDatabase_seed "h"%string empty_db in
  (0 <= s_limit q /\ 0 <= (s_page q - 1) * s_limit q) /\
  getPackages q d = (d, Reply 500 "Failed to fetch packages"%string).
Proof.
  intros q d. split; [simpl; lia|].
  rewrite (getPackages_spec q d) by (simpl; lia). reflexivity.
Defined.

(** a package that has bookings is never deleted: DELETE
    /packages/:id answers 400 and the package row, its bookings and its
    reviews all stay. *)
Theorem deletePackage_bookings_guard id d :
  package_exists d id = true -> package_bookings d id <> ∅ ->
  deletePackage id d = (d, Reply 400 "Cannot delete package with existing bookings"%string).
Proof.
  intros He Hb. unfold deletePackage, catch_500. run_m. rewrite He. simpl.
  by rewrite bool_decide_true.
Qed.

(** Deleting a package without bookings removes the package row,
    leaves the bookings table as it was, and leaves the reviews of every
    other package as they were (the ON DELETE CASCADE only reaches the
    package's own reviews). *)
Theorem deletePackage_removes id d :
  package_exists d id = true -> package_bookings d id = ∅ ->
  exists d', deletePackage id d = (d', Done (200, tt)) /\
    rows (packages d') !! id = None /\ bookings d' = bookings d /\
    (forall q, q <> id -> package_reviews q d' = package_reviews q d).
Proof.
  intros He Hb. unfold deletePackage, catch_500. run_m. rewrite He. simpl.
  rewrite bool_decide_false by (by intros []). simpl.
  eexists; split_and!; [reflexivity | apply lookup_delete_eq | | ].
  - destruct d as [u p [bs n] r c]. simpl. f_equal. apply map_filter_id.
    intros k b Hk Hpid. apply map_empty_filter_1 in Hb. by apply (Hb k b).
  - intros q Hq. unfold package_reviews. simpl. rewrite map_filter_filter.
    apply map_filter_ext. intros k r _. simpl. split; [by intros []|]. intros ->. done.
Qed.

Lemma deletePackage_bookings_guard_witness :
  deletePackage 1 demo_store =
    (demo_store, Reply 400 "Cannot delete package with existing bookings"%string).
Proof. apply deletePackage_bookings_guard; vm_compute; [reflexivity | discriminate]. Defined.

Lemma deletePackage_removes_witness :
  exists d', deletePackage 2 demo_store = (d', Done (200, tt)) /\
    rows (packages d') !! 2 = None /\ bookings d' = bookings demo_store /\
    (forall q, q <> 2 -> package_reviews q d' = package_reviews q demo_store).
Proof. apply deletePackage_removes; vm_compute; reflexivity. Defined.
