(* ===== verification/PackageQueries.v ===== *)
(** * PackageQueries: the two read-only listings of [routes/packages.js]

    [GET /popular/:limit] joins every package with its bookings and its
    reviews ([LEFT JOIN bookings ... LEFT JOIN reviews ...]) in one
    statement: the join has one row per (booking, review) pair of the
    package, so the handler counts with [COUNT(DISTINCT ...)].  The
    join is modelled as that product ([left_join]); the theorems show
    that the distinct counts and the average over the product are the
    per-table aggregates.  The listing is ordered by booking count,
    then average, both descending; MySQL leaves the order of ties
    unspecified, and the model keeps them in [GROUP BY p.id] order.
    The limit is [parseInt(req.params.limit) || 6] written into the SQL
    text: a negative value is a syntax error (500).

    [GET /by-destination/:destination] binds [%destination%] to
    [p.destination LIKE ?]: the term is not escaped, so [%] and [_] in
    it are wildcards.

    As in [Packages], the [toFixed(1)] rounding of the average is not
    modelled: the rows carry MySQL's four-decimal average. *)

From stdpp Require Import sorting.
From S2P Require Import Prelude Schema Like Validation Packages.

(** ** GET /popular/:limit (lines 95-129) *)

(** [FROM p LEFT JOIN xs LEFT JOIN ys]: every pair, a missing side
    contributing one NULL row. *)
Definition or_null {A} (xs : list A) : list (option A) :=
  match xs with [] => [None] | _ => Some <$> xs end.

Definition left_join {A B} (xs : list A) (ys : list B) : list (option A * option B) :=
  or_null xs ≫= fun x => (fun y => (x, y)) <$> or_null ys.

(** [COUNT(DISTINCT col)] over the non-NULL values. *)
Definition count_distinct (l : list Z) : Z := Z.of_nat (length (remove_dups l)).

(** The joined rows of one package. *)
Definition popular_join (d : db) (pid : Z) : list (option (Z * booking_row) * option (Z * review_row)) :=
  left_join (map_to_list (package_bookings d pid)) (map_to_list (package_reviews pid d)).

(** A row: the package, [booking_count], [review_count] and
    [COALESCE(AVG(r.rating), 0)] (in ten-thousandths). *)
Definition popular_row (d : db) (kv : Z * package_row) : Z * package_row * Z * Z * Z :=
  let js := popular_join d kv.1 in
  (kv.1, kv.2,
   count_distinct (omap (fun j => fst <$> j.1) js),
   count_distinct (omap (fun j => fst <$> j.2) js),
   default 0 (sql_avg (omap (fun j => (rv_rating ∘ snd) <$> j.2) js))).

(** [ORDER BY booking_count DESC, average_rating DESC], as the
    "comes first" relation of a stable sort. *)
Definition popular_first (a b : Z * package_row * Z * Z * Z) : Prop :=
  b.1.1.2 < a.1.1.2 \/ (b.1.1.2 = a.1.1.2 /\ b.2 <= a.2).

#[export] Instance popular_first_dec : RelDecision popular_first.
Proof. intros a b. unfold popular_first. apply _. Defined.

(** [parseInt(req.params.limit) || 6]: NaN and 0 are falsy. *)
Definition popular_limit (limit : string) : Z :=
  match js_parseInt limit with
  | Some n => if n =? 0 then 6 else n
  | None => 6
  end.

(** The largest LIMIT MySQL accepts (BIGINT UNSIGNED). *)
Definition limit_max : Z := 18446744073709551615.

Definition getPopularPackages (limit : string) : M db (Z * list (Z * package_row * Z * Z * Z)) :=
  catch_500 "Failed to fetch popular packages" (
    let l := popular_limit limit in
    if ((l <? 0) || (limit_max <? l))%Z then throw ER_PARSE_ERROR
    else
      d ← get_state;
      mret (200, take (Z.to_nat l)
                   (merge_sort popular_first (popular_row d <$> rows_asc (rows (packages d))))))%string.

(** ** GET /by-destination/:destination (lines 132-163) *)

Definition getPackagesByDestination (destination : string)
    : M db (Z * list (Z * package_row * Z * Z)) :=
  catch_500 "Failed to fetch packages by destination" (
    d ← get_state;
    mret (200, listing_row d <$>
                 filter (fun kv => like_contains (pkg_destination kv.2) destination = true)
                        (rows_desc (rows (packages d)))))%string.

(** ** The aggregates over the join *)

Section join.
Context {A B : Type}.
Implicit Types (xs : list A) (ys : list B).

Lemma or_null_inhabited {C} (l : list C) : exists o, o ∈ or_null l.
Proof. destruct l as [|c l]; [exists None | exists (Some c)]; simpl; left. Qed.

Lemma elem_of_or_null {C} (l : list C) c : Some c ∈ or_null l <-> c ∈ l.
Proof.
  destruct l as [|c' l]; cbn [or_null].
  - rewrite list_elem_of_singleton. split; [discriminate | by intros ?%not_elem_of_nil].
  - rewrite list_elem_of_fmap. split; [by intros (? & [= ->] & ?) | eauto].
Qed.

Lemma elem_of_left_join xs ys x y :
  (x, y) ∈ left_join xs ys <-> x ∈ or_null xs /\ y ∈ or_null ys.
Proof.
  unfold left_join. rewrite list_elem_of_bind. split.
  - intros (x' & (y' & [= -> ->] & Hy)%list_elem_of_fmap & Hx). by split.
  - intros [Hx Hy]. exists x. split; [|done]. apply list_elem_of_fmap. by exists y.
Qed.

(** Whatever the other side, the left key values of the join are the
    keys of the left rows. *)
Lemma left_keys (g : A -> Z) xs ys k :
  k ∈ omap (fun j => g <$> j.1) (left_join xs ys) <-> k ∈ g <$> xs.
Proof.
  rewrite list_elem_of_omap, list_elem_of_fmap. split.
  - intros ([[x|] y] & Hj & E); [|discriminate]. simplify_eq/=.
    apply elem_of_left_join, proj1 in Hj. apply (proj1 (elem_of_or_null _ _)) in Hj. by exists x.
  - intros (x & -> & Hx). destruct (or_null_inhabited ys) as [y Hy].
    exists (Some x, y). split; [apply elem_of_left_join; split; [by apply elem_of_or_null|done] | done].
Qed.

Lemma right_keys (g : B -> Z) xs ys k :
  k ∈ omap (fun j => g <$> j.2) (left_join xs ys) <-> k ∈ g <$> ys.
Proof.
  rewrite list_elem_of_omap, list_elem_of_fmap. split.
  - intros ([x [y|]] & Hj & E); [|discriminate]. simplify_eq/=.
    apply elem_of_left_join, proj2 in Hj. apply (proj1 (elem_of_or_null _ _)) in Hj. by exists y.
  - intros (y & -> & Hy). destruct (or_null_inhabited xs) as [x Hx].
    exists (x, Some y). split; [apply elem_of_left_join; split; [done|by apply elem_of_or_null] | done].
Qed.

Lemma omap_snd_pair {C} (g : B -> C) (x : option A) (l : list (option B)) :
  omap (fun j => g <$> j.2) ((fun y => (x, y)) <$> l) = omap (fun y => g <$> y) l.
Proof. induction l as [|y l IH]; [done|]. simpl. destruct (g <$> y); [f_equal|]; apply IH. Qed.

(** The right values of the join: those of the right rows, once per
    left row. *)
Lemma right_values {C} (g : B -> C) xs ys :
  omap (fun j => g <$> j.2) (left_join xs ys) = concat (replicate (length (or_null xs)) (g <$> ys)).
Proof.
  assert (Hy : omap (fun y => g <$> y) (or_null ys) = g <$> ys).
  { destruct ys as [|y ys]; [done|]. simpl. f_equal.
    induction ys as [|y' ys IH]; [done|]. simpl. by f_equal. }
  unfold left_join. induction (or_null xs) as [|x xs' IH]; [done|].
  rewrite bind_cons, omap_app, IH, <- Hy, omap_snd_pair. done.
Qed.

Lemma or_null_length xs : (1 <= length (or_null xs))%nat.
Proof. destruct xs; simpl; [lia|]. rewrite length_fmap. simpl. lia. Qed.
End join.

(** [COUNT(DISTINCT id)] of rows with distinct ids is their number. *)
Lemma count_distinct_ids {R} (l : list Z) (m : gmap Z R) :
  (forall k, k ∈ l <-> k ∈ (map_to_list m).*1) -> count_distinct l = sql_count m.
Proof.
  intros Hl. unfold count_distinct, sql_count. f_equal.
  rewrite <- length_map_to_list, <- (length_fmap fst).
  apply Permutation_length, NoDup_Permutation;
    [apply NoDup_remove_dups | apply NoDup_fst_map_to_list |].
  intros k. by rewrite elem_of_remove_dups.
Qed.

Lemma sumZ_concat_replicate (k : nat) (l : list Z) :
  sumZ (concat (replicate k l)) = Z.of_nat k * sumZ l.
Proof. induction k as [|k IH]; [done|]. simpl. rewrite sumZ_app, IH. lia. Qed.

Lemma length_concat_replicate {C} (k : nat) (l : list C) :
  length (concat (replicate k l)) = (k * length l)%nat.
Proof. induction k as [|k IH]; [done|]. simpl. rewrite length_app, IH. lia. Qed.

Lemma div_round_scale (k a b : Z) : 0 < k -> 0 < b -> div_round (k * a) (k * b) = div_round a b.
Proof.
  intros Hk Hb. unfold div_round.
  replace (2 * (k * a) + k * b) with (k * (2 * a + b)) by lia.
  replace (2 * (k * b)) with (k * (2 * b)) by lia.
  apply Z.div_mul_cancel_l; lia.
Qed.

(** [AVG] over each row repeated [k >= 1] times is the average of the rows. *)
Lemma sql_avg_replicate (k : nat) (l : list Z) :
  (1 <= k)%nat -> sql_avg (concat (replicate k l)) = sql_avg l.
Proof.
  intros Hk. destruct l as [|x l].
  - assert (E : concat (replicate k (@nil Z)) = []).
    { apply length_zero_iff_nil. rewrite length_concat_replicate. simpl. lia. }
    by rewrite E.
  - destruct k as [|k]; [lia|].
    change (concat (replicate (S k) (x :: l))) with (x :: (l ++ concat (replicate k (x :: l)))).
    unfold sql_avg. cbv beta iota.
    change (x :: (l ++ concat (replicate k (x :: l)))) with (concat (replicate (S k) (x :: l))).
    rewrite sumZ_concat_replicate, length_concat_replicate. f_equal.
    rewrite Nat2Z.inj_mul, Z.mul_assoc, (Z.mul_comm 10000), <- Z.mul_assoc.
    apply div_round_scale; simpl; lia.
Qed.

#[export] Instance popular_first_total : Total popular_first.
Proof. intros a b. unfold popular_first. lia. Qed.

#[export] Instance popular_first_trans : Transitive popular_first.
Proof. intros a b c. unfold popular_first. lia. Qed.

Lemma rows_asc_lookup {R} (m : gmap Z R) kv : kv ∈ rows_asc m -> m !! kv.1 = Some kv.2.
Proof.
  unfold rows_asc. rewrite merge_sort_Permutation. destruct kv as [k x].
  apply elem_of_map_to_list.
Qed.

Lemma length_rows_asc {R} (m : gmap Z R) : length (rows_asc m) = size m.
Proof. unfold rows_asc. by rewrite merge_sort_Permutation, length_map_to_list. Qed.

(** ** Properties *)

(** C18: equivalence of the popular listing's aggregates with the
    per-table ones: although the package is joined with its bookings
    and its reviews at once (one row per pair), [COUNT(DISTINCT b.id)]
    is the number of its bookings, [COUNT(DISTINCT r.id)] the number of
    its reviews, and [AVG(r.rating)] over the product is the average of
    its reviews' ratings. *)
Theorem popular_row_spec d kv :
  popular_row d kv =
    (kv.1, kv.2, sql_count (package_bookings d kv.1), sql_count (package_reviews kv.1 d),
     default 0 (sql_avg (ratings (package_reviews kv.1 d)))).
Proof.
  unfold popular_row, popular_join.
  rewrite (count_distinct_ids _ (package_bookings d kv.1)) by (intros k; by rewrite left_keys).
  rewrite (count_distinct_ids _ (package_reviews kv.1 d)) by (intros k; by rewrite right_keys).
  rewrite right_values, sql_avg_replicate by apply or_null_length.
  unfold ratings. by rewrite list_fmap_compose.
Qed.


(** GET /packages/by-destination/:destination never writes and
    lists, newest first and each with its live review count and
    average, exactly the packages whose destination contains the term
    up to letter case, when the term has no LIKE special character; the
    term is not escaped, so [%] lists every package. *)
Theorem getPackagesByDestination_spec dest d :
  fst (getPackagesByDestination dest d) = d /\
  (Forall (fun c => ¬ like_special c) (String.list_ascii_of_string dest) ->
   snd (getPackagesByDestination dest d) =
     Done (200, listing_row d <$>
                  filter (fun kv => infix_ci (String.list_ascii_of_string dest)
                                      (String.list_ascii_of_string (pkg_destination kv.2)) = true)
                         (rows_desc (rows (packages d))))) /\
  snd (getPackagesByDestination "%" d) = Done (200, listing_row d <$> rows_desc (rows (packages d))).
Proof.
  unfold getPackagesByDestination, catch_500. run_m. split_and!; [done | |].
  - intros Hs. do 3 f_equal. apply list_filter_iff. intros kv. by rewrite like_contains_infix.
  - do 3 f_equal. rewrite (list_filter_iff _ (fun _ => true = true)); [apply filter_all_true|].
    intros kv. split; [done|]. intros _. apply like_contains_pct.
Qed.


Lemma getPackagesByDestination_spec_witness :
  let found := filter (fun kv => infix_ci (String.list_ascii_of_string "ital")
                                   (String.list_ascii_of_string (pkg_destination kv.2)) = true)
                      (rows_desc (rows (packages seed_store))) in
  snd (getPackagesByDestination "ital" seed_store) = Done (200, listing_row seed_store <$> found) /\
  length found = 1%nat.
Proof.
  split; [|vm_compute; reflexivity].
  apply (proj1 (proj2 (getPackagesByDestination_spec "ital" seed_store))).
  repeat constructor; unfold like_special; intros [E|[E|E]]; discriminate.
Defined.
