(* ===== verification/ReviewQueries.v ===== *)
(** * ReviewQueries: the read-only review routes of [src/server/routes/reviews.js]

    The listing of a package's reviews (lines 81-142), the caller's own
    reviews (lines 145-184) and the public list of recent reviews (lines
    187-210).  The package listing is mounted behind [validateId], which
    reads [req.params.id]; the route's parameter is [:packageId], so the
    rule always sees [undefined] and the route answers 400 before its
    handler runs.

    The package listing and the recent list bind LIMIT and OFFSET as
    statement parameters ([LIMIT ? OFFSET ?]); the caller's list writes
    them into the SQL text.  Either way a [NaN] or negative value fails
    the statement and the handler answers 500.  [toFixed(1)] of the
    average is not modelled: the listing returns MySQL's four-decimal
    average (in ten-thousandths), 0 for a package without reviews. *)

From stdpp Require Import sorting.
From S2P Require Import Prelude Schema Validation Auth.

(** [LIMIT ? OFFSET ?] bound to [parseInt(limit)] and the offset. *)
Definition bind_limit_offset (page limit : option string) : M db (Z * Z) :=
  match query_int page 1, query_int limit 10 with
  | Some p, Some l =>
      if (0 <=? l) && (0 <=? (p - 1) * l) then mret (p, l) else throw ER_WRONG_ARGUMENTS
  | _, _ => throw ER_WRONG_ARGUMENTS
  end.

(** ** GET /package/:packageId (lines 81-142) *)

Record package_reviews_page := {
  pr_reviews : list (Z * review_row * string);
  pr_average : Z;          (* [AVG(rating) || 0], in ten-thousandths *)
  pr_total : Z;
  pr_pagination : pagination
}.

Definition getPackageReviews (pid : Z) (page limit : option string)
    : M db (Z * package_reviews_page) :=
  catch_500 "Failed to fetch reviews" (
    d ← get_state;
    guard (negb (package_exists d pid)) 404 "Package not found";;
    '(p, l) ← bind_limit_offset page limit;
    let sel := package_reviews pid d in
    let total := sql_count sel in
    mret (200, {| pr_reviews := paginate p l (package_review_rows pid d);
                  pr_average := default 0 (sql_avg (ratings sel));
                  pr_total := total;
                  pr_pagination := {| pg_page := p; pg_limit := l; pg_total := total;
                                      pg_pages := page_count total l |} |}))%string.

(** The route: [validateId] reads [req.params.id], absent on this path. *)
Definition route_getPackageReviews (packageId : Z) (page limit : option string)
    : M db (Z * package_reviews_page) :=
  _ ← validateId JMissing; getPackageReviews packageId page limit.

(** ** GET /my-reviews (lines 145-184) *)

Definition my_review_rows (uid : Z) (d : db) : list (Z * review_row * package_row) :=
  omap (fun kv => p ← rows (packages d) !! rv_package_id kv.2; Some (kv.1, kv.2, p))
       (rows_desc (filter (fun kv => rv_user_id kv.2 = uid) (rows (reviews d)))).

Definition getMyReviews (u : auth_user) (page limit : option string)
    : M db (Z * (list (Z * review_row * package_row) * pagination)) :=
  catch_500 "Failed to fetch reviews" (
    '(p, l) ← limit_offset page limit;
    d ← get_state;
    let total := sql_count (filter (fun kv => rv_user_id kv.2 = au_id u) (rows (reviews d))) in
    mret (200, (paginate p l (my_review_rows (au_id u) d),
                {| pg_page := p; pg_limit := l; pg_total := total;
                   pg_pages := page_count total l |})))%string.

Definition route_getMyReviews `{JwtScheme} (now : Z) (authHeader : option string)
    (page limit : option string) : M db (Z * (list (Z * review_row * package_row) * pagination)) :=
  u ← authenticateToken now authHeader; getMyReviews u page limit.

(** ** GET /recent/:limit (lines 187-210) *)

Definition recent_review_rows (d : db) : list (Z * review_row * string * package_row) :=
  omap (fun kv => u ← rows (users d) !! rv_user_id kv.2;
                  p ← rows (packages d) !! rv_package_id kv.2;
                  Some (kv.1, kv.2, user_name u, p))
       (rows_desc (rows (reviews d))).

Definition getRecentReviews (limit : string) : M db (Z * list (Z * review_row * string * package_row)) :=
  catch_500 "Failed to fetch recent reviews" (
    match js_parseInt limit with
    | Some l =>
        if (0 <=? l)%Z then d ← get_state; mret (200, take (Z.to_nat l) (recent_review_rows d))
        else throw ER_WRONG_ARGUMENTS
    | None => throw ER_WRONG_ARGUMENTS
    end)%string.

(** ** Properties *)


Lemma Forall_my_review_rows uid d :
  Forall (fun r => rv_user_id r.1.2 = uid) (my_review_rows uid d).
Proof.
  unfold my_review_rows, rows_desc.
  assert (Hf : Forall (fun kv => rv_user_id kv.2 = uid)
                 (map_to_list (filter (fun kv => rv_user_id kv.2 = uid) (rows (reviews d))))).
  { apply Forall_forall. intros [k r] Hx. apply elem_of_map_to_list in Hx.
    by apply map_lookup_filter_Some in Hx as [_ ?]. }
  eapply Permutation_Forall in Hf; [|symmetry; apply (merge_sort_Permutation id_desc)].
  induction Hf as [|[k r] xs Hr _ IH]; simpl; [constructor|].
  destruct (rows (packages d) !! rv_package_id r); simpl; [constructor|]; auto.
Qed.

(** GET /reviews/my-reviews lists only the caller's reviews: every
    row of the answered page has the caller as [user_id], for every
    paging value, and the store is not changed. *)
Theorem getMyReviews_own u page limit d :
  fst (getMyReviews u page limit d) = d /\
  match snd (getMyReviews u page limit d) with
  | Done (_, (rs, _)) => Forall (fun r => rv_user_id r.1.2 = au_id u) rs
  | _ => True
  end.
Proof.
  unfold getMyReviews, catch_500.
  destruct (limit_offset_cases page limit d) as [(p & l & Hlo) | Hlo].
  - rewrite (bind_done _ _ _ _ _ Hlo). run_m. split; [done|].
    unfold paginate. apply Forall_take, Forall_drop, Forall_my_review_rows.
  - by rewrite (bind_throw _ _ _ _ _ Hlo).
Qed.
