(* ===== verification/Admin.v ===== *)
(** * Admin: the handlers of [src/server/routes/admin.js]

    Every route of the file runs behind [router.use(authenticateToken,
    requireAdmin)]; [admin_route] composes that prefix with a handler.
    The handlers list users and bookings with pagination, set any status
    on any booking, compute the dashboard aggregates, delete a user and
    change a user's role.  The bookings listing repeats the count-query
    defect of the package listing ([params.slice(0, -2)] on values that
    never included LIMIT and OFFSET), so any filter makes it answer 500.

    Query-string values are read with [parseInt] and written into the
    SQL text ([LIMIT ${parseInt(limit)} OFFSET ${offset}]): [NaN] or a
    negative value is a syntax error ([ER_PARSE_ERROR]) and the handler
    answers 500.  [ORDER BY created_at DESC] is newest-first by id, as
    ids grow with insertion time.  MySQL leaves the order of rows with
    equal [booking_count] unspecified; [popular_packages] keeps them in
    id order (a stable sort), one of the orders MySQL may return. *)

From stdpp Require Import sorting.
From S2P Require Import Prelude Schema Validation Auth Bookings.

(** [router.use(authenticateToken, requireAdmin)] before the handler. *)
Definition admin_route `{JwtScheme} {A} (now : Z) (authHeader : option string) (h : M db A) : M db A :=
  u ← authenticateToken now authHeader; requireAdmin u;; h.

(** ** GET /users (lines 11-62) *)

(** [(SELECT COUNT( * ) FROM bookings WHERE user_id = users.id)] *)
Definition user_bookings (d : db) (uid : Z) : gmap Z booking_row :=
  filter (fun kv => bk_user_id kv.2 = uid) (rows (bookings d)).

(** [name LIKE ? OR email LIKE ?] with [%search%] *)
Definition user_matches (term : string) (u : user_row) : bool :=
  like_contains (user_name u) term || like_contains (user_email u) term.

Definition admin_user_row (d : db) (kv : Z * user_row) : Z * user_row * Z :=
  (kv.1, kv.2, sql_count (user_bookings d kv.1)).

Definition matching_users (search : option string) (d : db) : list (Z * user_row) :=
  match truthy_str search with
  | None => rows_desc (rows (users d))
  | Some t => filter (fun kv => user_matches t kv.2 = true) (rows_desc (rows (users d)))
  end.

Definition getUsers (page limit search : option string)
    : M db (Z * (list (Z * user_row * Z) * pagination)) :=
  catch_500 "Failed to fetch users" (
    '(p, l) ← limit_offset page limit;
    let params := match truthy_str search with
                  | Some t => let pat := ("%" ++ t ++ "%")%string in [PStr pat; PStr pat]
                  | None => [] end in
    check_params (length params) params;;
    d ← get_state;
    let found := matching_users search d in
    check_params (length params) params;;
    let total := Z.of_nat (length found) in
    mret (200, (admin_user_row d <$> paginate p l found,
                {| pg_page := p; pg_limit := l; pg_total := total;
                   pg_pages := page_count total l |})))%string.

(** ** GET /bookings (lines 65-132) *)

Inductive booking_filter :=
  | FStatus (s : string)   (* b.status = ? *)
  | FUser (s : string).    (* b.user_id = ? *)

Definition booking_filters (status userId : option string) : list booking_filter :=
  (match truthy_str status with Some s => [FStatus s] | None => [] end) ++
  (match truthy_str userId with Some s => [FUser s] | None => [] end).

(** An ENUM compared with a string under the case-insensitive
    collation; an INT compared with a string converts the string's
    numeric prefix (0 when there is none). *)
Definition filter_holds (f : booking_filter) (b : booking_row) : bool :=
  match f with
  | FStatus s => ci_str_eq (status_string (bk_status b)) s
  | FUser s => bool_decide (bk_user_id b = default 0 (js_parseInt s))
  end.

(** [JOIN packages p ... JOIN users u ...]: the row with its package and
    its user. *)
Definition admin_booking_row (d : db) (kv : Z * booking_row)
    : option (Z * booking_row * package_row * user_row) :=
  p ← rows (packages d) !! bk_package_id kv.2;
  u ← rows (users d) !! bk_user_id kv.2;
  Some (kv.1, kv.2, p, u).

Definition matching_bookings (fs : list booking_filter) (d : db)
    : list (Z * booking_row * package_row * user_row) :=
  omap (admin_booking_row d)
    (filter (fun kv => forallb (fun f => filter_holds f kv.2) fs = true)
            (rows_desc (rows (bookings d)))).

Definition getBookings (page limit status userId : option string)
    : M db (Z * (list (Z * booking_row * package_row * user_row) * pagination)) :=
  catch_500 "Failed to fetch bookings" (
    '(p, l) ← limit_offset page limit;
    let fs := booking_filters status userId in
    let params := (fun f => match f with FStatus s | FUser s => PStr s end) <$> fs in
    check_params (length params) params;;
    d ← get_state;
    let found := matching_bookings fs d in
    check_params (length params) (js_slice_drop2 params);;
    let total := Z.of_nat (length found) in
    mret (200, (paginate p l found,
                {| pg_page := p; pg_limit := l; pg_total := total;
                   pg_pages := page_count total l |})))%string.

(** ** PATCH /bookings/:id/status (lines 135-184): any transition *)

Definition adminUpdateBookingStatus (id : Z) (status : option string)
    : M db (Z * option (Z * booking_row * package_row)) :=
  catch_500 "Failed to update booking status" (
    match parse_status status with
    | None => reply 400 "Invalid status. Must be pending, confirmed, or cancelled"
    | Some st =>
        d ← get_state;
        match rows (bookings d) !! id with
        | None => reply 404 "Booking not found"
        | Some _ =>
            update_booking_status id st;;
            d' ← get_state;
            mret (200, booking_join d' id)
        end
    end)%string.

(** ** GET /dashboard (lines 187-250) *)

Record dashboard := {
  total_users : Z;                                   (* role = "user" *)
  total_packages : Z;
  total_bookings : Z;
  total_revenue : Z;                                 (* SUM over confirmed, [|| 0] *)
  recent_bookings : list (Z * booking_row * package_row * user_row);
  popular_packages : list (Z * package_row * Z);
  status_distribution : list (booking_status * Z)
}.

Definition bookings_with_status (d : db) (st : booking_status) : gmap Z booking_row :=
  with_status_in (rows (bookings d)) st.

(** [SUM(total_amount) ... WHERE status = 'confirmed'], [NULL || 0]. *)
Definition confirmed_revenue (d : db) : Z :=
  sumZ (bk_total_amount <$> (map_to_list (bookings_with_status d Confirmed)).*2).

(** [COUNT(b.id)] of the LEFT JOIN: the bookings of the package. *)
Definition package_booking_count (d : db) (pid : Z) : Z :=
  sql_count (filter (fun kv => bk_package_id kv.2 = pid) (rows (bookings d))).

Definition count_desc (a b : Z * package_row * Z) : Prop := b.2 <= a.2.

#[export] Instance count_desc_dec : RelDecision count_desc.
Proof. intros a b. unfold count_desc. apply _. Defined.

Definition popular (d : db) : list (Z * package_row * Z) :=
  take 5 (merge_sort count_desc
            ((fun kv => (kv.1, kv.2, package_booking_count d kv.1)) <$> rows_asc (rows (packages d)))).

(** [GROUP BY status]: one row per status that occurs. *)
Definition distribution (d : db) : list (booking_status * Z) :=
  filter (fun sc => 0 < sc.2)
    ((fun st => (st, sql_count (bookings_with_status d st))) <$> [Pending; Confirmed; Cancelled]).

Definition dashboard_of (d : db) : dashboard :=
  {| total_users := sql_count (filter (fun kv => user_role kv.2 = RoleUser) (rows (users d)));
     total_packages := sql_count (rows (packages d));
     total_bookings := sql_count (rows (bookings d));
     total_revenue := confirmed_revenue d;
     recent_bookings := take 5 (omap (admin_booking_row d) (rows_desc (rows (bookings d))));
     popular_packages := popular d;
     status_distribution := distribution d |}.

Definition getDashboard : M db (Z * dashboard) :=
  catch_500 "Failed to fetch dashboard data" (d ← get_state; mret (200, dashboard_of d))%string.

(** ** DELETE /users/:id (lines 253-301) *)

(** [DELETE FROM users WHERE id = ?] with [ON DELETE CASCADE] on the
    bookings and the reviews of the user. *)
Definition delete_user_cascade (uid : Z) : M db unit :=
  fun d =>
    (mk_db (table_delete uid (users d)) (packages d)
       (mk_table (filter (fun kv => bk_user_id kv.2 <> uid) (rows (bookings d)))
                 (next_id (bookings d)))
       (mk_table (filter (fun kv => rv_user_id kv.2 <> uid) (rows (reviews d)))
                 (next_id (reviews d)))
       (booking_contacts d), Done tt).

Definition deleteUser (id : Z) : M db (Z * unit) :=
  catch_500 "Failed to delete user" (
    d ← get_state;
    match rows (users d) !! id with
    | None => reply 404 "User not found"
    | Some u =>
        guard (bool_decide (user_role u = RoleAdmin)) 403 "Cannot delete admin users";;
        guard (bool_decide (user_bookings d id <> ∅)) 400 "Cannot delete user with existing bookings";;
        delete_user_cascade id;;
        mret (200, tt)
    end)%string.

(** ** PATCH /users/:id/role (lines 304-343) *)

Definition set_user_role (r : role) (u : user_row) : user_row :=
  {| user_name := user_name u; user_email := user_email u; user_password := user_password u;
     user_role := r |}.

Definition updateUserRole (id : Z) (r : option string) : M db (Z * unit) :=
  catch_500 "Failed to update user role" (
    match parse_role r with
    | None => reply 400 "Invalid role. Must be user or admin"
    | Some rl =>
        d ← get_state;
        match rows (users d) !! id with
        | None => reply 404 "User not found"
        | Some _ => sql_update users set_users id (set_user_role rl);; mret (200, tt)
        end
    end)%string.

(** ** Properties *)

Lemma fmap_nil_decide {A B} (f : A -> B) (l : list A) :
  bool_decide (f <$> l = []) = bool_decide (l = []).
Proof. apply bool_decide_ext. split; [apply fmap_nil_inv | by intros ->]. Qed.

(** GET /admin/bookings succeeds only without filters: with a page
    and limit that [parseInt] reads as non-negative paging values, it
    answers 500 whenever a status or userId filter is given (the count
    query binds [params.slice(0, -2)]), and otherwise 200 with the page
    of all bookings, newest first, joined with their package and user;
    a [page] or [limit] that [parseInt] reads as [NaN] answers 500. *)
Theorem getBookings_spec page limit status userId p l d :
  (query_int page 1 = Some p -> query_int limit 10 = Some l -> 0 <= l -> 0 <= (p - 1) * l ->
   getBookings page limit status userId d =
     if bool_decide (booking_filters status userId = [])
     then (d, Done (200, (paginate p l (matching_bookings [] d),
                          {| pg_page := p; pg_limit := l;
                             pg_total := Z.of_nat (length (matching_bookings [] d));
                             pg_pages := page_count (Z.of_nat (length (matching_bookings [] d))) l |})))
     else (d, Reply 500 "Failed to fetch bookings"%string)) /\
  (query_int page 1 = None \/ query_int limit 10 = None ->
   getBookings page limit status userId d = (d, Reply 500 "Failed to fetch bookings"%string)).
Proof.
  split.
  - intros Hp Hl Hl0 Ho. unfold getBookings, catch_500. unfold mbind at 1, M_bind at 1.
    rewrite (limit_offset_ok page limit p l d) by done. unfold check_params. run_m.
    rewrite bool_decide_true by done. simpl. rewrite count_query_params_ok, fmap_nil_decide.
    destruct (decide (booking_filters status userId = [])) as [Hf|Hf].
    + rewrite Hf. by rewrite bool_decide_true.
    + by rewrite !bool_decide_false.
  - intros Hnan. unfold getBookings, catch_500. unfold mbind at 1, M_bind at 1.
    by rewrite limit_offset_nan.
Qed.

Lemma owned_booking_other d id uid b :
  rows (bookings d) !! id = Some b -> bk_user_id b <> uid -> owned_booking d id uid = None.
Proof. intros Hb Hne. unfold owned_booking. rewrite Hb. simpl. by rewrite bool_decide_false. Qed.

(** C19: the spec gives admins any status transition on any booking.
    PATCH /admin/bookings/:id/status does that: for an existing booking
    and a valid status it sets the status and answers 200 with the
    updated row.  PATCH /bookings/:id/status, the route the spec names,
    looks the booking up by id and caller, and answers an admin 404 on a
    booking of another user, with the store unchanged. *)
Theorem admin_status_update_routes u id b s st d :
  au_role u = RoleAdmin -> rows (bookings d) !! id = Some b -> bk_user_id b <> au_id u ->
  parse_status (Some s) = Some st ->
  adminUpdateBookingStatus id (Some s) d =
    (with_status d id st, Done (200, booking_join (with_status d id st) id)) /\
  updateBookingStatus u id (Some s) d = (d, Reply 404 "Booking not found"%string).
Proof.
  intros Hadm Hb Hne Hst. split.
  - unfold adminUpdateBookingStatus, catch_500. rewrite Hst. run_m. by rewrite Hb.
  - unfold updateBookingStatus, catch_500. rewrite Hst. run_m.
    by rewrite (owned_booking_other d id (au_id u) b).
Qed.

(** The dashboard's status histogram accounts for every booking: the
    counts of [status_distribution] add up to [total_bookings], and each
    count is that of the bookings with that status. *)
Theorem dashboard_distribution_total d :
  sumZ (snd <$> status_distribution (dashboard_of d)) = total_bookings (dashboard_of d) /\
  Forall (fun sc => sc.2 = sql_count (bookings_with_status d sc.1)) (status_distribution (dashboard_of d)).
Proof.
  pose proof (status_partition (rows (bookings d))) as Hp.
  simpl. unfold distribution, sql_count, bookings_with_status. split.
  - simpl. rewrite !filter_cons, filter_nil. repeat case_decide; simpl in *; lia.
  - simpl. rewrite !filter_cons, filter_nil. repeat case_decide; repeat constructor.
Qed.

Lemma filter_none_match {R} (P : Z * R -> Prop) `{!∀ x, Decision (P x)} (m : gmap Z R) :
  filter (fun kv => ¬ P kv) m = m <-> filter P m = ∅.
Proof.
  split.
  - intros Hm. apply map_empty_filter_2. intros k x Hk HP.
    rewrite <- Hm in Hk. apply map_lookup_filter_Some in Hk as [_ Hn]. done.
  - intros He. apply map_filter_id. intros k x Hk HP.
    pose proof (map_empty_filter_1 _ _ He k x Hk). done.
Qed.

(** C20: DELETE /admin/users/:id never removes an admin (403) nor a user
    who has bookings (400), and then writes nothing; when it answers 200
    the user is gone, none of their reviews remain, and the bookings and
    packages are those of before: no booking is left without its user. *)
Theorem deleteUser_safe id d :
  let '(d', o) := deleteUser id d in
  (forall u, rows (users d) !! id = Some u -> user_role u = RoleAdmin ->
     d' = d /\ o = Reply 403 "Cannot delete admin users"%string) /\
  (user_bookings d id <> ∅ -> d' = d) /\
  (o = Done (200, tt) ->
     rows (users d') !! id = None /\ bookings d' = bookings d /\ packages d' = packages d /\
     map_Forall (fun _ r => rv_user_id r <> id) (rows (reviews d'))).
Proof.
  unfold deleteUser, catch_500. run_m.
  destruct (rows (users d) !! id) as [u|] eqn:Hu; simpl; [|split_and!; done || congruence].
  case_bool_decide as Hadm; simpl.
  { split_and!; [intros ? [= <-]; done | done | done]. }
  case_bool_decide as Hb; simpl.
  { split_and!; [intros ? [= <-]; done | done | done]. }
  split_and!; [intros ? [= <-]; done | done |]. intros _.
  split_and!.
  - apply lookup_delete_eq.
  - destruct d as [us ps [bs n] rs cs]. simpl. f_equal.
    by apply (filter_none_match (fun kv => bk_user_id kv.2 = id)).
  - done.
  - intros k r. rewrite map_lookup_filter_Some. naive_solver.
Qed.

(** ** The theorems at closed inputs *)

Definition bob : user_row :=
  {| user_name := "Bob"; user_email := "bob@mail.com"; user_password := "h"; user_role := RoleUser |}%string.

Definition carol : user_row :=
  {| user_name := "Carol"; user_email := "carol@mail.com"; user_password := "h"; user_role := RoleUser |}%string.

(** [demo_store] with Bob (user 2), who has a pending booking of package
    2, and Carol (user 3), who has none. *)
Definition admin_store : db :=
  let d1 := set_users (table_insert bob (users demo_store)).2 demo_store in
  let d2 := set_users (table_insert carol (users d1)).2 d1 in
  set_bookings (table_insert {| bk_user_id := 2; bk_package_id := 2; bk_date := 20500;
                                bk_guests := 1; bk_rooms := 1; bk_total_amount := 150000;
                                bk_status := Pending |} (bookings d2)).2 d2.

Definition admin_user : auth_user :=
  {| au_id := 1; au_name := "Admin User"; au_email := "admin@wavv.com"; au_role := RoleAdmin |}%string.

Lemma getBookings_spec_witness :
  getBookings None None (Some "confirmed"%string) None admin_store =
    (admin_store, Reply 500 "Failed to fetch bookings"%string) /\
  getBookings None None None None admin_store =
    (admin_store, Done (200, (paginate 1 10 (matching_bookings [] admin_store),
                              {| pg_page := 1; pg_limit := 10; pg_total := 2; pg_pages := 1 |}))).
Proof.
  split; rewrite (proj1 (getBookings_spec _ _ _ _ 1 10 admin_store)) by (reflexivity || lia);
    reflexivity.
Defined.

Lemma admin_status_update_routes_witness :
  adminUpdateBookingStatus 2 (Some "confirmed"%string) admin_store =
    (with_status admin_store 2 Confirmed,
     Done (200, booking_join (with_status admin_store 2 Confirmed) 2)) /\
  updateBookingStatus admin_user 2 (Some "confirmed"%string) admin_store =
    (admin_store, Reply 404 "Booking not found"%string).
Proof.
  eapply (admin_status_update_routes admin_user 2); [reflexivity | vm_compute; reflexivity
                                                   | simpl; lia | reflexivity].
Defined.

Example dashboard_distribution_total_example :
  status_distribution (dashboard_of admin_store) = [(Pending, 1); (Confirmed, 1)] /\
  total_revenue (dashboard_of admin_store) = 480000.
Proof. split; vm_compute; reflexivity. Qed.

Lemma deleteUser_safe_witness :
  fst (deleteUser 2 admin_store) = admin_store /\
  fst (deleteUser 1 admin_store) = admin_store /\
  snd (deleteUser 3 admin_store) = Done (200, tt) /\
  rows (users (fst (deleteUser 3 admin_store))) !! 3 = None.
Proof.
  pose proof (deleteUser_safe 2 admin_store) as H2.
  pose proof (deleteUser_safe 1 admin_store) as H1.
  pose proof (deleteUser_safe 3 admin_store) as H3.
  destruct (deleteUser 2 admin_store) as [d2 o2] eqn:E2.
  destruct (deleteUser 1 admin_store) as [d1 o1] eqn:E1.
  destruct (deleteUser 3 admin_store) as [d3 o3] eqn:E3.
  destruct H2 as (_ & H2 & _). destruct H1 as (H1 & _). destruct H3 as (_ & _ & H3).
  assert (Ho3 : o3 = Done (200, tt)) by (vm_compute in E3; congruence).
  simpl. split_and!.
  - apply H2. vm_compute. discriminate.
  - apply (H1 seed_admin_row); [vm_compute; reflexivity | reflexivity].
  - exact Ho3.
  - by apply H3.
Defined.
