(* ===== verification/Server.v ===== *)
(** * Server: the contact route, the error handler and the start-up

    [routes/contact.js] validates a contact form with its own chain and
    acknowledges it without touching the store.  [middleware/validation.js]
    also exports [validateContact] and [validateNewsletter], which no
    route mounts.  [middleware/errorHandler.js] turns an error that
    escapes a route into a status and a message; every route catches its
    own errors, so only errors raised outside the handlers (the body
    parsers) reach it.  [server.js]'s [startServer] probes the database
    ([testConnection] and [checkTables] of [config/database.js]) and
    listens only when the five tables exist.

    The [require] of [./routes/payment] at line 19 of [server.js] names
    a module that is not in the repository: loading [server.js] stops
    there, before [startServer] runs.  [startServer] is modelled as if
    that line loaded. *)

From S2P Require Import Prelude Schema Validation Auth.

(** ** POST /api/contact (contact.js lines 6-53) *)

Record contact_form := {
  cf_name : option string; cf_email : option string; cf_subject : option string; cf_message : option string
}.

(** [isLength({ min })] *)
Definition is_min_length (lo : nat) (s : string) : bool := bool_decide (lo <= String.length s)%nat.

Section contact.
Context `{EmailRules}.

Definition contactValidation (f : contact_form) : list (option string) :=
  [ rule (is_min_length 2 (js_trim (cf_name f))) "Name must be at least 2 characters long";
    rule (is_email (default EmptyString (cf_email f))) "Please enter a valid email address";
    rule (is_min_length 5 (js_trim (cf_subject f))) "Subject must be at least 5 characters long";
    rule (is_min_length 10 (js_trim (cf_message f))) "Message must be at least 10 characters long" ]%string.

(** The handler answers the first failing rule's message, or the
    acknowledgment; the form is only logged. *)
Definition postContact {S} (f : contact_form) : M S (Z * string) :=
  match first_error (contactValidation f) with
  | Some msg => reply 400 msg
  | None => mret (200, "Contact message received successfully. We will get back to you soon!"%string)
  end.

(** [validateContact] (validation.js lines 175-197), not mounted. *)
Definition validateContact_errors (f : contact_form) : list (option string) :=
  [ rule (is_length 2 50 (js_trim (cf_name f))) "Name must be between 2 and 50 characters";
    rule (is_email (default EmptyString (cf_email f))) "Please provide a valid email address";
    rule (is_length 5 100 (js_trim (cf_subject f))) "Subject must be between 5 and 100 characters";
    rule (is_length 10 1000 (js_trim (cf_message f))) "Message must be between 10 and 1000 characters" ]%string.

Definition validateContact {S} (f : contact_form) : M S unit :=
  handleValidationErrors (validateContact_errors f).

(** [validateNewsletter] (validation.js lines 200-207), not mounted. *)
Definition validateNewsletter {S} (email : option string) : M S string :=
  handleValidationErrors
    [rule (is_email (default EmptyString email)) "Please provide a valid email address"%string];;
  mret (normalize_email (default EmptyString email)).
End contact.

(** ** [errorHandler] (errorHandler.js lines 1-67) *)

(** The fields of a thrown [Error] the handler reads. *)
Record js_error := {
  err_code : option string; err_name : option string; err_message : option string; err_status : option Z
}.

Definition errorHandler (e : js_error) : Z * string :=
  let base := (match err_status e with Some s => if s =? 0 then 500 else s | None => 500 end,
               default "Internal Server Error"%string (truthy_str (err_message e))) in
  let over (cond : bool) (r : Z * string) (acc : Z * string) := if cond then r else acc in
  let is_code c := bool_decide (err_code e = Some c) in
  let is_name n := bool_decide (err_name e = Some n) in
  over (is_code "LIMIT_UNEXPECTED_FILE") (400, "Unexpected file field.")
  (over (is_code "LIMIT_FILE_SIZE") (400, "File too large. Maximum size is 5MB.")
  (over (is_name "CastError") (400, "Invalid ID format.")
  (over (is_name "TokenExpiredError") (401, "Token expired.")
  (over (is_name "JsonWebTokenError") (401, "Invalid token.")
  (over (is_name "ValidationError") (400, default EmptyString (err_message e))
  (over (is_code "ER_ROW_IS_REFERENCED_2")
        (400, "Cannot delete this record as it is referenced by other records.")
  (over (is_code "ER_NO_REFERENCED_ROW_2") (400, "Referenced record does not exist.")
  (over (is_code "ER_DUP_ENTRY") (400, "Duplicate entry. This record already exists.")
   base))))))))%string.

(** The driver's error for a failed statement: its [code], the name
    [Error], no [status]. *)
Definition sql_error_code (e : sql_error) : string :=
  match e with
  | ER_DUP_ENTRY => "ER_DUP_ENTRY"
  | ER_NO_REFERENCED_ROW_2 => "ER_NO_REFERENCED_ROW_2"
  | ER_ROW_IS_REFERENCED_2 => "ER_ROW_IS_REFERENCED_2"
  | ER_WARN_DATA_OUT_OF_RANGE => "ER_WARN_DATA_OUT_OF_RANGE"
  | ER_CHECK_CONSTRAINT_VIOLATED => "ER_CHECK_CONSTRAINT_VIOLATED"
  | ER_WRONG_ARGUMENTS => "ER_WRONG_ARGUMENTS"
  | ER_TRUNCATED_WRONG_VALUE_FOR_FIELD => "ER_TRUNCATED_WRONG_VALUE_FOR_FIELD"
  | ER_PARSE_ERROR => "ER_PARSE_ERROR"
  | BIND_UNDEFINED => "ERR_BIND_UNDEFINED"
  end%string.

Definition driver_error (e : sql_error) (message : string) : js_error :=
  {| err_code := Some (sql_error_code e); err_name := Some "Error"%string;
     err_message := Some message; err_status := None |}.

(** ** Start-up (server.js lines 119-153, database.js lines 23-65) *)

Inductive startup := Listening | Exit (code : Z).

Definition required_tables : list string :=
  ["users"; "packages"; "bookings"; "reviews"; "booking_contacts"]%string.

(** [checkTables]: the rows of INFORMATION_SCHEMA.TABLES naming a
    required table; fewer than five means a table is missing. *)
Definition checkTables (existing : list string) : bool :=
  negb (length (filter (fun t => t ∈ existing) required_tables) <? 5)%nat.

(** [testConnection] exits the process with 1 when no connection can be
    made; [startServer] exits with 1 when a table is missing. *)
Definition startServer (connects : bool) (existing : list string) : startup :=
  if negb connects then Exit 1
  else if negb (checkTables existing) then Exit 1
  else Listening.

(** ** Properties *)

(** POST /api/contact is a stateless acknowledgment: it never
    changes the store, and it answers 200 exactly when every rule of its
    chain passes, otherwise 400 with the first failing rule's message. *)
Theorem postContact_stateless `{EmailRules} {S} (f : contact_form) (s : S) :
  fst (postContact f s) = s /\
  (snd (postContact f s) =
     Done (200, "Contact message received successfully. We will get back to you soon!"%string) <->
   first_error (contactValidation f) = None) /\
  (forall msg, first_error (contactValidation f) = Some msg -> snd (postContact f s) = Reply 400 msg).
Proof.
  unfold postContact. destruct (first_error (contactValidation f)); simpl; naive_solver.
Qed.

(** what [errorHandler] answers for an error of the MySQL driver:
    400 with a fixed text for the duplicate-key and the two
    foreign-key codes, and 500 with the driver's own message (the SQL
    error text) for every other code. *)
Theorem errorHandler_driver_errors e m :
  errorHandler (driver_error e m) =
    match e with
    | ER_DUP_ENTRY => (400, "Duplicate entry. This record already exists.")
    | ER_NO_REFERENCED_ROW_2 => (400, "Referenced record does not exist.")
    | ER_ROW_IS_REFERENCED_2 => (400, "Cannot delete this record as it is referenced by other records.")
    | _ => (500, default "Internal Server Error" (truthy_str (Some m)))
    end%string.
Proof. destruct e; reflexivity. Qed.

(** [startServer] listens exactly when the database answers and
    all five tables exist; otherwise the process exits with code 1. *)
Theorem startServer_spec connects existing :
  (startServer connects existing = Listening <->
   connects = true /\ Forall (fun t => t ∈ existing) required_tables) /\
  (startServer connects existing <> Listening -> startServer connects existing = Exit 1).
Proof.
  unfold startServer, checkTables, required_tables. rewrite !Forall_cons.
  destruct connects; simpl; [|naive_solver].
  rewrite !filter_cons, filter_nil. repeat case_decide; simpl; naive_solver.
Qed.

Lemma startServer_spec_witness :
  startServer true ["users"; "packages"; "bookings"; "reviews"]%string = Exit 1 /\
  startServer true required_tables = Listening.
Proof.
  split.
  - reflexivity.
  - apply (proj1 (startServer_spec true _)). split; [done|].
    apply Forall_forall. intros t Ht. exact Ht.
Defined.

Section contact_witness.
Import Instances.

Lemma postContact_stateless_witness :
  let f := {| cf_name := Some "A"; cf_email := Some "ann@mail.com"; cf_subject := Some "Hello there";
              cf_message := Some "Tell me about Bali." |}%string in
  fst (postContact f empty_db) = empty_db /\
  snd (postContact f empty_db) = Reply 400 "Name must be at least 2 characters long"%string.
Proof.
  intros f. destruct (postContact_stateless f empty_db) as (H1 & _ & H3).
  split; [exact H1 | apply H3; reflexivity].
Defined.
End contact_witness.
