(* ===== verification/Client.v ===== *)
(** * Client: the API services of [src/client/src/services]

    [api.js] keeps the token in [localStorage], adds it to every request
    as [Authorization: Bearer <token>] and turns a response whose status
    is outside 200..299 into [Error(data.error || 'API request failed')].
    The services build endpoints; the listing services serialize their
    truthy filters with [URLSearchParams] (the
    application/x-www-form-urlencoded serializer: the bytes of the UTF-8
    encoding, [*-._], digits and letters kept, space as [+], every other
    byte as [%XX] with upper-case hex).

    The server splits the URL at its first [?] and parses the query with
    the form-urlencoded parser: sequences split at [&], empty ones
    skipped, name and value split at the first [=], [+] read as space,
    [%XX] read as a byte, the bytes read as UTF-8.  Strings here are
    sequences of code points below 256 ([ascii]); the decoder emits [?]
    for each byte of a malformed sequence or of a code point above
    U+00FF (WHATWG emits U+FFFD), which the serializer never produces.
    The nesting syntax of the [qs] parser ([a[b]=c]) is not modelled: the
    services' keys are plain names. *)

From Stdlib Require Import Ascii.
From S2P Require Import Prelude Schema Validation Auth.

(** ** [localStorage] and the headers (api.js lines 3-24) *)

(** The [token] entry of [localStorage]. *)
Definition storage := option string.

Definition getAuthToken (s : storage) : option string := s.

(** [if (token) setItem('token', token) else removeItem('token')] *)
Definition setAuthToken (token : option string) (s : storage) : storage := truthy_str token.

(** [{ 'Content-Type': ..., ...(token && { Authorization: `Bearer ${token}` }) }] *)
Definition getAuthHeaders (s : storage) : list (string * string) :=
  ("Content-Type", "application/json")%string ::
  match truthy_str (getAuthToken s) with
  | Some t => [("Authorization", "Bearer " ++ t)%string]
  | None => []
  end.

(** [req.headers['authorization']]: header names compare without case. *)
Definition header_lookup (name : string) (hs : list (string * string)) : option string :=
  (fun ih : nat * (string * string) => ih.2.2) <$> list_find (fun h => ci_str_eq h.1 name = true) hs.

(** ** [apiRequest] (api.js lines 27-47) *)

Inductive api_result (A : Type) := ApiOk (data : A) | ApiError (message : string).
Arguments ApiOk {A} data.
Arguments ApiError {A} message.

(** The answer of the server as the client reads it: the status, the
    body's data when the request succeeded, and the body's [error]. *)
Record http_response (A : Type) := { http_status : Z; http_data : option A; http_error : option string }.
Arguments http_status {A}. Arguments http_data {A}. Arguments http_error {A}.

Definition apiRequest {A} (r : http_response A) : api_result (option A) :=
  if (http_status r <? 200) || (300 <=? http_status r)
  then ApiError (default "API request failed"%string (truthy_str (http_error r)))
  else ApiOk (http_data r).

(** [res.status(code).json(...)] of a handler's outcome; an error that
    escapes a handler would reach [errorHandler] as a 500. *)
Definition respond {A} (o : outcome (Z * A)) : http_response A :=
  match o with
  | Done (code, a) => {| http_status := code; http_data := Some a; http_error := None |}
  | Reply code msg => {| http_status := code; http_data := None; http_error := Some msg |}
  | Throw _ => {| http_status := 500; http_data := None; http_error := Some "Internal Server Error"%string |}
  end.

(** ** The form-urlencoded serializer ([URLSearchParams.toString]) *)

Local Open Scope nat_scope.

Definition hex_digit (n : nat) : ascii :=
  ascii_of_nat (if (n <? 10)%nat then 48 + n else 55 + n)%nat.

Definition hex_value (c : ascii) : option nat :=
  let n := nat_of_ascii c in
  if (48 <=? n) && (n <=? 57) then Some (n - 48)
  else if (65 <=? n) && (n <=? 70) then Some (n - 55)
  else if (97 <=? n) && (n <=? 102) then Some (n - 87)
  else None.

(** The UTF-8 bytes of a code point below 256. *)
Definition utf8_bytes (c : ascii) : list nat :=
  let n := nat_of_ascii c in
  if (n <? 128)%nat then [n] else [192 + n / 64; 128 + n mod 64]%nat.

Definition form_unreserved (b : nat) : bool :=
  (b =? 42) || (b =? 45) || (b =? 46) || ((48 <=? b) && (b <=? 57)) ||
  ((65 <=? b) && (b <=? 90)) || (b =? 95) || ((97 <=? b) && (b <=? 122)).

Definition encode_byte (b : nat) : list ascii :=
  if (b =? 32)%nat then ["+"%char]
  else if form_unreserved b then [ascii_of_nat b]
  else ["%"%char; hex_digit (b / 16); hex_digit (b mod 16)].

Definition encode_char (c : ascii) : list ascii := concat (encode_byte <$> utf8_bytes c).

Definition form_encode (s : string) : list ascii :=
  concat (encode_char <$> String.list_ascii_of_string s).

Definition serialize_pair (kv : string * string) : list ascii :=
  form_encode kv.1 ++ "="%char :: form_encode kv.2.

Fixpoint serialize_params (ps : list (string * string)) : list ascii :=
  match ps with
  | [] => []
  | [kv] => serialize_pair kv
  | kv :: ps' => serialize_pair kv ++ "&"%char :: serialize_params ps'
  end.

(** ** The form-urlencoded parser of the server *)

Fixpoint split_on (sep : ascii) (l : list ascii) : list (list ascii) :=
  match l with
  | [] => [[]]
  | c :: r =>
      if bool_decide (c = sep) then [] :: split_on sep r
      else match split_on sep r with
           | x :: xs => (c :: x) :: xs
           | [] => [[c]]
           end
  end.

(** The name and the value of a sequence: split at its first [=]. *)
Fixpoint split_first (sep : ascii) (l : list ascii) : list ascii * list ascii :=
  match l with
  | [] => ([], [])
  | c :: r => if bool_decide (c = sep) then ([], r) else let '(a, b) := split_first sep r in (c :: a, b)
  end.

Definition plus_to_space (l : list ascii) : list ascii :=
  (fun c => if bool_decide (c = "+"%char) then " "%char else c) <$> l.

Fixpoint percent_decode (l : list ascii) : list nat :=
  match l with
  | [] => []
  | c :: t =>
      if bool_decide (c = "%"%char) then
        match t with
        | h1 :: h2 :: r =>
            match hex_value h1, hex_value h2 with
            | Some a, Some b => (16 * a + b)%nat :: percent_decode r
            | _, _ => 37%nat :: percent_decode t
            end
        | _ => 37%nat :: percent_decode t
        end
      else nat_of_ascii c :: percent_decode t
  end.

Fixpoint utf8_decode (bs : list nat) : list ascii :=
  match bs with
  | [] => []
  | b :: r =>
      if (b <? 128)%nat then ascii_of_nat b :: utf8_decode r
      else if (194 <=? b) && (b <=? 195) then
        match r with
        | b2 :: r' =>
            if (128 <=? b2) && (b2 <? 192)
            then ascii_of_nat ((b - 192) * 64 + (b2 - 128)) :: utf8_decode r'
            else "?"%char :: utf8_decode r
        | [] => ["?"%char]
        end
      else "?"%char :: utf8_decode r
  end%nat.

Definition form_decode (l : list ascii) : string :=
  String.string_of_list_ascii (utf8_decode (percent_decode (plus_to_space l))).

Definition parse_params (q : list ascii) : list (string * string) :=
  (fun sq => let '(n, v) := split_first "="%char sq in (form_decode n, form_decode v)) <$>
  filter (fun sq => sq <> []) (split_on "&"%char q).

Local Close Scope nat_scope.

(** Express: [req.path] and the parsed [req.query] of a URL. *)
Definition request_target (url : string) : string * list (string * string) :=
  let '(path, q) := split_first "?"%char (String.list_ascii_of_string url) in
  (String.string_of_list_ascii path, parse_params q).

(** ** The services *)

(** [Object.keys(filters).forEach(key => { if (filters[key]) params.append(key, filters[key]) })] *)
Definition truthy_filters (filters : list (string * option string)) : list (string * string) :=
  omap (fun kf => (fun v => (kf.1, v)) <$> truthy_str kf.2) filters.

(** [queryString ? `${base}?${queryString}` : base] *)
Definition with_query (base : string) (filters : list (string * option string)) : string :=
  match serialize_params (truthy_filters filters) with
  | [] => base
  | q => (base ++ "?" ++ String.string_of_list_ascii q)%string
  end.

(** packageService.getPackages (packageService.js lines 5-17) *)
Definition packages_endpoint (filters : list (string * option string)) : string :=
  with_query "/packages" filters.

(** bookingService.getMyBookings (bookingService.js lines 10-21) *)
Definition my_bookings_endpoint (filters : list (string * option string)) : string :=
  with_query "/bookings/my-bookings" filters.

(** reviewService.getMyReviews (reviewService.js lines 24-35) *)
Definition my_reviews_endpoint (filters : list (string * option string)) : string :=
  with_query "/reviews/my-reviews" filters.

(** authService.login and register (authService.js lines 5-20): the
    token of the answer, when truthy, is stored. *)
Definition store_login_token {A} (r : api_result (option (A * string))) (s : storage) : storage :=
  match r with
  | ApiOk (Some (_, tok)) => match truthy_str (Some tok) with Some t => setAuthToken (Some t) s | None => s end
  | _ => s
  end.

(** authService.logout and isAuthenticated (lines 23-45) *)
Definition logout (s : storage) : storage := setAuthToken None s.

Definition isAuthenticated (s : storage) : bool := bool_decide (is_Some (truthy_str s)).

(** ** The query string round trip *)

Lemma plus_to_space_app l r : plus_to_space (l ++ r) = plus_to_space l ++ plus_to_space r.
Proof. apply fmap_app. Qed.

(** Each code point decodes from its encoding, whatever follows. *)
Lemma decode_encode_char c r :
  utf8_decode (percent_decode (plus_to_space (encode_char c ++ r))) =
  c :: utf8_decode (percent_decode (plus_to_space r)).
Proof. destruct c as [[] [] [] [] [] [] [] []]; reflexivity. Qed.

Lemma form_encode_cons c s : form_encode (String c s) = encode_char c ++ form_encode s.
Proof. reflexivity. Qed.

Lemma decode_form_encode s r :
  utf8_decode (percent_decode (plus_to_space (form_encode s ++ r))) =
  String.list_ascii_of_string s ++ utf8_decode (percent_decode (plus_to_space r)).
Proof.
  induction s as [|c s IH]; [done|].
  rewrite form_encode_cons, <- app_assoc, decode_encode_char, IH. done.
Qed.

(** [form_decode] inverts [form_encode]. *)
Lemma form_decode_encode s : form_decode (form_encode s) = s.
Proof.
  unfold form_decode. rewrite <- (app_nil_r (form_encode s)), decode_form_encode.
  rewrite app_nil_r. apply String.string_of_list_ascii_of_string.
Qed.

(** The encoding of a code point holds none of the separators. *)
Lemma encode_char_separators c :
  "&"%char ∉ encode_char c /\ "="%char ∉ encode_char c /\ "?"%char ∉ encode_char c.
Proof. destruct c as [[] [] [] [] [] [] [] []]; apply (bool_decide_eq_true_1 _); reflexivity. Qed.

Lemma form_encode_separators s :
  "&"%char ∉ form_encode s /\ "="%char ∉ form_encode s /\ "?"%char ∉ form_encode s.
Proof.
  induction s as [|c s IH]; [set_solver|]. rewrite form_encode_cons.
  pose proof (encode_char_separators c). rewrite !not_elem_of_app. naive_solver.
Qed.

Lemma split_on_free sep x : sep ∉ x -> split_on sep x = [x].
Proof.
  induction x as [|c x IH]; [done|]. rewrite not_elem_of_cons. intros [Hc Hx]. simpl.
  rewrite bool_decide_false by done. by rewrite IH.
Qed.

Lemma split_on_app sep x r : sep ∉ x -> split_on sep (x ++ sep :: r) = x :: split_on sep r.
Proof.
  induction x as [|c x IH]; simpl; [by rewrite bool_decide_true|].
  rewrite not_elem_of_cons. intros [Hc Hx]. rewrite bool_decide_false by done. by rewrite IH.
Qed.

Lemma split_first_app sep x r : sep ∉ x -> split_first sep (x ++ sep :: r) = (x, r).
Proof.
  induction x as [|c x IH]; simpl; [by rewrite bool_decide_true|].
  rewrite not_elem_of_cons. intros [Hc Hx]. rewrite bool_decide_false by done. by rewrite IH.
Qed.

Lemma serialize_pair_separators kv : "&"%char ∉ serialize_pair kv.
Proof.
  unfold serialize_pair. pose proof (form_encode_separators kv.1). pose proof (form_encode_separators kv.2).
  rewrite not_elem_of_app, not_elem_of_cons. naive_solver.
Qed.

Lemma split_serialize ps : ps <> [] -> split_on "&"%char (serialize_params ps) = serialize_pair <$> ps.
Proof.
  induction ps as [|kv [|kv' ps] IH]; intros Hne; [done| |].
  - simpl. by rewrite split_on_free by apply serialize_pair_separators.
  - change (serialize_params (kv :: kv' :: ps)) with (serialize_pair kv ++ "&"%char :: serialize_params (kv' :: ps)).
    rewrite split_on_app by apply serialize_pair_separators. rewrite IH by done. done.
Qed.

Lemma decode_serialize_pair kv :
  (let '(n, v) := split_first "="%char (serialize_pair kv) in (form_decode n, form_decode v)) = kv.
Proof.
  destruct kv as [k v]. unfold serialize_pair. simpl.
  rewrite split_first_app by apply form_encode_separators. by rewrite !form_decode_encode.
Qed.

Lemma serialize_params_nil ps : serialize_params ps = [] <-> ps = [].
Proof.
  split; [|by intros ->].
  destruct ps as [|kv [|kv' ps]]; simpl; [done| |]; unfold serialize_pair;
    [|rewrite <- app_assoc]; intros H; apply app_eq_nil in H as [_ H]; discriminate.
Qed.

Lemma serialize_pair_nonempty kv : serialize_pair kv <> [].
Proof. unfold serialize_pair. intros H. apply app_eq_nil in H as [_ H]. discriminate. Qed.

Lemma filter_serialize_pairs (P : list ascii -> Prop) `{!∀ x, Decision (P x)}
    (ps : list (string * string)) :
  (forall kv, P (serialize_pair kv)) -> filter P (serialize_pair <$> ps) = serialize_pair <$> ps.
Proof.
  intros HP. induction ps as [|kv ps IH]; [done|].
  rewrite fmap_cons, filter_cons_True by apply HP. by rewrite IH.
Qed.

(** The form-urlencoded parser reads back exactly the pairs the
    serializer wrote, in order. *)
Lemma parse_params_serialize ps : parse_params (serialize_params ps) = ps.
Proof.
  destruct (decide (ps = [])) as [->|Hne]; [done|].
  unfold parse_params. rewrite split_serialize, filter_serialize_pairs by (done || apply serialize_pair_nonempty).
  rewrite <- list_fmap_compose. etrans; [|apply list_fmap_id].
  apply list_fmap_ext. intros _ kv _. apply decode_serialize_pair.
Qed.

Lemma split_first_free sep x : sep ∉ x -> split_first sep x = (x, []).
Proof.
  induction x as [|c x IH]; [done|]. rewrite not_elem_of_cons. intros [Hc Hx]. simpl.
  rewrite bool_decide_false by done. by rewrite IH.
Qed.



(** ** A session: login, requests with the stored token, logout *)

Section session.
Context `{JwtScheme} `{PasswordHasher}.

Lemma login_Done now i d d' c u tok :
  login now i d = (d', Done (c, (u, tok))) ->
  d' = d /\ tok = jwt_sign (au_id u) (now + token_lifetime) /\ load_user d (au_id u) = Some u.
Proof.
  unfold login, catch_500. run_m.
  destruct (first_user (users_with_email d (l_email i))) as [[uid row]|] eqn:Hf; simpl; [|discriminate].
  destruct (negb _); simpl; [discriminate|]. intros [= <- _ <- <-]. split_and!; [done..|].
  apply first_user_Some, map_lookup_filter_Some in Hf as [Hrow _].
  unfold load_user. simpl. by rewrite Hrow.
Qed.

Lemma header_lookup_authorization t :
  header_lookup "authorization" (getAuthHeaders (Some t)) =
    match truthy_str (Some t) with Some t' => Some ("Bearer " ++ t')%string | None => None end.
Proof. destruct t; reflexivity. Qed.

(** C31: a client session across the client and the server: after a
    successful login, [authService.login] stores the token, every later
    request carries it as [Authorization: Bearer <token>], and the
    server's [authenticateToken] resolves it to the logged-in user until
    it expires; after [authService.logout] the client is no longer
    authenticated and requests carry no token, which the server answers
    401 "Access denied. No token provided.". *)
Theorem client_session `{!JwtSchemeLaws _} now now' i d u tok s :
  login now i d = (d, Done (200, (u, tok))) -> now' < now + token_lifetime ->
  let s' := store_login_token (apiRequest (respond (Done (200, (u, tok))))) s in
  isAuthenticated s' = true /\
  authenticateToken now' (header_lookup "authorization" (getAuthHeaders s')) d = (d, Done u) /\
  isAuthenticated (logout s') = false /\
  authenticateToken now' (header_lookup "authorization" (getAuthHeaders (logout s'))) d =
    (d, Reply 401 "Access denied. No token provided."%string).
Proof.
  intros Hl Hnow. apply login_Done in Hl as (_ & -> & Hu).
  destruct (jwt_sign_shape (au_id u) (now + token_lifetime)) as [Hne Hns].
  cbv zeta. unfold store_login_token, apiRequest, respond. simpl.
  destruct (jwt_sign (au_id u) (now + token_lifetime)) as [|c t] eqn:Ht; [done|]. simpl.
  split_and!; try done.
  rewrite <- Ht. unfold authenticateToken. rewrite header_lookup_authorization, Ht. cbn [truthy_str].
  rewrite <- Ht. rewrite <- Ht in Hne, Hns.
  rewrite bearer_token_bearer by done. rewrite jwt_verify_sign by done.
  run_m. by rewrite Hu.
Qed.
End session.

Section session_witness.
Import Instances.

Lemma client_session_witness :
  let d := registered_store seed_store ann in
  let li := {| l_email := r_email ann; l_password := r_password ann |} in
  let tok := jwt_sign (next_id (users seed_store)) (0 + token_lifetime) in
  login 0 li d = (d, Done (200, (registered_user seed_store ann, tok))) /\
  authenticateToken 100 (header_lookup "authorization"
    (getAuthHeaders (store_login_token (apiRequest (respond (Done (200, (registered_user seed_store ann, tok))))) None)))
    d = (d, Done (registered_user seed_store ann)).
Proof.
  cbv zeta.
  assert (Hl : login 0 {| l_email := r_email ann; l_password := r_password ann |} (registered_store seed_store ann) =
    (registered_store seed_store ann, Done (200, (registered_user seed_store ann,
      jwt_sign (next_id (users seed_store)) (0 + token_lifetime))))) by (vm_compute; reflexivity).
  split; [exact Hl|].
  destruct (client_session 0 100 _ _ _ _ None Hl) as (_ & H2 & _); [vm_compute; reflexivity|].
  exact H2.
Defined.
End session_witness.
