(* ===== verification/Numbers.v ===== *)
(** * Numbers: [`${n}`] and its reading by [parseInt] and [isInt]

    The client writes ids and limits into URLs with template literals:
    [`${n}`] is the decimal form of the number, with a [-] when it is
    negative.  [decimal] computes it the way the conversion does, digit
    by digit from the least significant one, in a loop bounded by a
    fuel of one step per binary digit of [n]; [decimal_ref] is the same
    loop by well-founded recursion on [n] (Equations), without fuel.
    The theorems show that the fuel never stops the loop early (the
    fuelled and the well-founded loops agree, whatever fuel is added)
    and that the server reads the string back: [parseInt] (the [:limit]
    parameters) and validator's [isInt] on the [:id] parameters. *)

From Stdlib Require Import Ascii.
From Equations Require Import Equations.
From S2P Require Import Prelude Validation.

(** ** The decimal form of a number *)

Local Open Scope nat_scope.

Definition digit_char (n : Z) : ascii := ascii_of_nat (48 + Z.to_nat n).

(** The decimal digits of [n >= 0], least significant first; [fuel]
    bounds the number of digits. *)
Fixpoint digits_rev (fuel : nat) (n : Z) : list ascii :=
  match fuel with
  | O => []
  | S f => digit_char (n mod 10) :: (if (n <? 10)%Z then [] else digits_rev f (n / 10))
  end.

(** The decimal form of [n >= 0]: as many digits as binary digits is
    enough fuel ([decimal_value]). *)
Definition decimal (n : Z) : list ascii := rev (digits_rev (S (Z.to_nat (Z.log2 n))) n).

Local Close Scope nat_scope.

(** [`${n}`] for an integer [n] (exact for |n| < 2^53, which every id
    and count of the store is). *)
Definition js_number_string (n : Z) : string :=
  String.string_of_list_ascii (if n <? 0 then "-"%char :: decimal (- n) else decimal n).

Lemma digit_char_value k : 0 <= k <= 9 -> Ascii.nat_of_ascii (digit_char k) = (48 + Z.to_nat k)%nat.
Proof. intros Hk. unfold digit_char. apply nat_ascii_embedding. lia. Qed.

Lemma digits_rev_digits f n : 0 <= n -> Forall (fun c => is_digit c = true) (digits_rev f n).
Proof.
  revert n. induction f as [|f IH]; intros n Hn; [constructor|]. simpl. constructor.
  - unfold is_digit. rewrite digit_char_value by (pose proof (Z.mod_pos_bound n 10); lia).
    apply andb_true_iff. split; apply Nat.leb_le; pose proof (Z.mod_pos_bound n 10); lia.
  - destruct (n <? 10); [constructor|]. apply IH. apply Z.div_pos; lia.
Qed.

Lemma digits_value_snoc l c :
  digits_value (l ++ [c]) = digits_value l * 10 + Z.of_nat (Ascii.nat_of_ascii c - 48).
Proof. unfold digits_value. by rewrite foldl_app. Qed.

Lemma digits_rev_value f n : 0 <= n < 10 ^ Z.of_nat f -> digits_value (rev (digits_rev f n)) = n.
Proof.
  revert n. induction f as [|f IH]; intros n Hn; [change (10 ^ Z.of_nat 0) with 1 in Hn; unfold digits_value; simpl; lia|].
  pose proof (Z.mod_pos_bound n 10). simpl. rewrite digits_value_snoc.
  rewrite digit_char_value by lia. replace (48 + Z.to_nat (n mod 10) - 48)%nat with (Z.to_nat (n mod 10)) by lia.
  rewrite Z2Nat.id by lia.
  destruct (n <? 10) eqn:E.
  - apply Z.ltb_lt in E. rewrite Z.mod_small by lia. unfold digits_value. simpl. lia.
  - apply Z.ltb_ge in E. rewrite IH.
    + pose proof (Z.div_mod n 10). lia.
    + rewrite Nat2Z.inj_succ, Z.pow_succ_r in Hn by lia. split; [apply Z.div_pos; lia|].
      apply Z.div_lt_upper_bound; lia.
Qed.

(** The fuel of [decimal] is enough. *)
Lemma decimal_value n : 0 <= n -> digits_value (decimal n) = n.
Proof.
  intros Hn. apply digits_rev_value. split; [done|].
  destruct (Z.eq_dec n 0) as [->|Hn0]; [simpl; lia|].
  pose proof (Z.log2_spec n ltac:(lia)) as [_ Hlt].
  eapply Z.lt_le_trans; [exact Hlt|]. rewrite Nat2Z.inj_succ, Z2Nat.id by apply Z.log2_nonneg.
  apply Z.pow_le_mono_l. lia.
Qed.

Lemma decimal_digits n : 0 <= n -> Forall (fun c => is_digit c = true) (decimal n).
Proof. intros Hn. unfold decimal. apply Forall_rev, digits_rev_digits, Hn. Qed.

Lemma decimal_nonempty n : decimal n <> [].
Proof. unfold decimal. simpl. destruct (_ <? 10); simpl; [done|]. destruct (rev _); discriminate. Qed.

Lemma leading_digits_all l : Forall (fun c => is_digit c = true) l -> leading_digits l = l.
Proof. induction 1 as [|c l Hc _ IH]; [done|]. simpl. by rewrite Hc, IH. Qed.

Lemma digit_not_space c : is_digit c = true -> is_js_space c = false.
Proof.
  unfold is_digit, is_js_space. intros [H1 H2]%andb_true_iff.
  apply Nat.leb_le in H1, H2. destruct (Ascii.nat_of_ascii c) as [|n]; [lia|].
  do 33 (destruct n as [|n]; [lia|]). done.
Qed.

Lemma trim_left_nospace c s : is_js_space c = false -> trim_left (String c s) = String c s.
Proof. intros Hc. simpl. by rewrite Hc. Qed.

Lemma js_parseInt_digits l :
  l <> [] -> Forall (fun c => is_digit c = true) l ->
  js_parseInt (String.string_of_list_ascii l) = Some (digits_value l).
Proof.
  destruct l as [|c l]; [done|]. intros _ Hl. pose proof Hl as Hl'. inversion Hl' as [|? ? Hc Hr]; subst.
  unfold js_parseInt. change (String.string_of_list_ascii (c :: l)) with (String c (String.string_of_list_ascii l)).
  rewrite trim_left_nospace by (by apply digit_not_space). cbn [String.list_ascii_of_string].
  rewrite String.list_ascii_of_string_of_list_ascii.
  assert (Hs : leading_digits (c :: l) = c :: l) by (apply leading_digits_all; by constructor).
  destruct c as [[] [] [] [] [] [] [] []]; try discriminate Hc;
    cbv beta iota zeta; rewrite Hs; by rewrite Z.mul_1_l.
Qed.

Lemma js_parseInt_minus_digits l :
  l <> [] -> Forall (fun c => is_digit c = true) l ->
  js_parseInt (String.string_of_list_ascii ("-"%char :: l)) = Some (- digits_value l).
Proof.
  intros Hne Hl. unfold js_parseInt.
  change (String.string_of_list_ascii ("-"%char :: l)) with (String "-" (String.string_of_list_ascii l)).
  rewrite trim_left_nospace by reflexivity. cbn [String.list_ascii_of_string].
  rewrite String.list_ascii_of_string_of_list_ascii. cbn beta iota.
  rewrite leading_digits_all by done. destruct l; [done|]. now f_equal.
Qed.

(** [param('id').isInt({ min: 1 })] reads the route parameter as a
    string: validator's [isInt] accepts [^[-+]?[0-9]+$] (leading zeros
    allowed by default) and compares its value with the bounds. *)
Definition int_param (s : string) : jvalue :=
  let l := String.list_ascii_of_string s in
  let '(sign, ds) :=
    match l with
    | "-"%char :: r => (-1, r)
    | "+"%char :: r => (1, r)
    | _ => (1, l)
    end in
  if bool_decide (ds <> []) && forallb is_digit ds then JInt (sign * digits_value ds) else JOther.

Lemma forallb_digits l : Forall (fun c => is_digit c = true) l -> forallb is_digit l = true.
Proof. induction 1 as [|c l Hc _ IH]; [done|]. simpl. by rewrite Hc, IH. Qed.

Lemma int_param_digits l :
  l <> [] -> Forall (fun c => is_digit c = true) l -> int_param (String.string_of_list_ascii l) = JInt (digits_value l).
Proof.
  destruct l as [|c l]; [done|]. intros _ Hl. pose proof Hl as Hl'. inversion Hl' as [|? ? Hc Hr]; subst.
  unfold int_param. rewrite String.list_ascii_of_string_of_list_ascii.
  assert (Hf : forallb is_digit (c :: l) = true) by (apply forallb_digits, Hl).
  destruct c as [[] [] [] [] [] [] [] []]; try discriminate Hc; cbv beta iota zeta; rewrite Hf, bool_decide_eq_true_2 by done; simpl; by rewrite Z.mul_1_l.
Qed.

Lemma int_param_minus_digits l :
  l <> [] -> Forall (fun c => is_digit c = true) l ->
  int_param (String.string_of_list_ascii ("-"%char :: l)) = JInt (- digits_value l).
Proof.
  intros Hne Hl. unfold int_param. rewrite String.list_ascii_of_string_of_list_ascii. cbv beta iota zeta.
  assert (Hf : forallb is_digit l = true) by (apply forallb_digits, Hl).
  rewrite Hf, bool_decide_eq_true_2 by done. simpl. destruct l; [done|]. now f_equal.
Qed.

(** [`${n}`] parsed back by [parseInt] and by the [isInt] reading of
    a route parameter. *)
Lemma js_number_string_parse n :
  js_parseInt (js_number_string n) = Some n /\ int_param (js_number_string n) = JInt n.
Proof.
  unfold js_number_string. destruct (n <? 0) eqn:E.
  - apply Z.ltb_lt in E. pose proof (decimal_digits (- n) ltac:(lia)).
    rewrite js_parseInt_minus_digits, int_param_minus_digits, decimal_value
      by (lia || apply decimal_nonempty || done).
    split; f_equal; lia.
  - apply Z.ltb_ge in E. pose proof (decimal_digits n E).
    rewrite js_parseInt_digits, int_param_digits, decimal_value by (lia || apply decimal_nonempty || done).
    done.
Qed.

Lemma validateId_number {S} n (s : S) :
  validateId (int_param (js_number_string n)) s =
    (s, if 1 <=? n then Done n else Reply 400 "ID must be a positive integer"%string).
Proof.
  rewrite (proj2 (js_number_string_parse n)).
  unfold validateId, handleValidationErrors. simpl. destruct (1 <=? n); reflexivity.
Qed.



(** ** The loop without fuel *)

Definition inspect {A} (a : A) : {b | a = b} := exist _ a eq_refl.

(** The digits of [n >= 0], most significant first: the last digit is
    [n mod 10], the others those of [n / 10] until [n < 10]. *)
Equations decimal_ref (n : Z) : list ascii by wf (Z.to_nat n) lt :=
  decimal_ref n with inspect (n <? 10) := {
    | exist _ true _ => [digit_char (n mod 10)]
    | exist _ false H => decimal_ref (n / 10) ++ [digit_char (n mod 10)] }.
Next Obligation.
  intros n H _. cbv beta in H. apply Z.ltb_ge in H.
  assert (0 <= n / 10 < n) by (split; [apply Z.div_pos | apply Z.div_lt]; lia). lia.
Qed.

Lemma decimal_ref_eq n :
  decimal_ref n = if n <? 10 then [digit_char (n mod 10)] else decimal_ref (n / 10) ++ [digit_char (n mod 10)].
Proof. rewrite decimal_ref_equation_1. destruct (inspect (n <? 10)) as [[] E]; simpl; by rewrite E. Qed.

(** With fuel [S f] and [n < 10^(S f)] the fuelled loop runs to its end. *)
Lemma digits_rev_ref f n : 0 <= n < 10 ^ Z.of_nat (S f) -> digits_rev (S f) n = rev (decimal_ref n).
Proof.
  revert n. induction f as [|f IH]; intros n Hn; rewrite decimal_ref_eq; cbn [digits_rev].
  - replace (n <? 10) with true by (symmetry; apply Z.ltb_lt; simpl in Hn; lia). done.
  - destruct (n <? 10) eqn:E; [done|]. apply Z.ltb_ge in E.
    rewrite rev_app_distr. simpl. f_equal. apply IH.
    rewrite Nat2Z.inj_succ, Z.pow_succ_r in Hn by lia. split; [apply Z.div_pos; lia|].
    apply Z.div_lt_upper_bound; lia.
Qed.

Lemma decimal_fuel_bound n : 0 <= n -> n < 10 ^ Z.of_nat (S (Z.to_nat (Z.log2 n))).
Proof.
  intros Hn. destruct (Z.eq_dec n 0) as [->|Hn0]; [simpl; lia|].
  pose proof (Z.log2_spec n ltac:(lia)) as [_ Hlt].
  eapply Z.lt_le_trans; [exact Hlt|]. rewrite Nat2Z.inj_succ, Z2Nat.id by apply Z.log2_nonneg.
  apply Z.pow_le_mono_l. lia.
Qed.


