(* ===== verification/Routes.v ===== *)
(** * Routes: the URLs the client requests and the routes the server mounts

    [server.js] mounts each router under [/api/<name>]; a router tries
    its routes in declaration order and the first whose method and
    path pattern match handles the request ([:param] matches one
    non-empty segment); a request no route matches falls through to the
    [app.use('*')] handler, which answers 404 "Route not found".
    [dispatch] computes the handling route of a method and a path.

    The client builds its URLs with template literals: the services
    prefix [/api] ([api.js]) to an endpoint, the pages write the full
    path; numbers are written in decimal ([Numbers.js_number_string]).
    The theorems show that every service method reaches the route it
    is written for and which page requests reach no route. *)

From stdpp Require Import sorting.
From Stdlib Require Import Ascii.
From S2P Require Import Prelude Schema Validation Client Bookings Numbers.

(** ** The routes *)

Inductive http_method := GET | POST | PUT | PATCH | DELETE.

#[export] Instance http_method_eq_dec : EqDecision http_method.
Proof. solve_decision. Defined.

Definition method_name (m : http_method) : string :=
  match m with GET => "GET" | POST => "POST" | PUT => "PUT" | PATCH => "PATCH" | DELETE => "DELETE" end.

(** A segment of a path pattern: a literal or a [:param]. *)
Inductive seg := Lit (s : string) | Param.

(** The handlers, by the route that reaches them. *)
Inductive endpoint :=
  | EApiInfo | EHealth
  | ERegister | ELogin | EGetProfile | EUpdateProfile | EChangePassword | ELogout
  | EGetPackages | EPopularPackages | EPackagesByDestination | EGetPackage
  | ECreatePackage | EUpdatePackage | EDeletePackage
  | EContactStatus | EContactDelete | EContactsAll | EContactCreate
  | ECreateBooking | EMyBookings | EGetBooking | EBookingStatus | ECancelBooking | EBookingStats
  | ECreateReview | EPackageReviews | EMyReviews | ERecentReviews | EUpdateReview | EDeleteReview
  | EAdminUsers | EAdminBookings | EAdminBookingStatus | EAdminDashboard
  | EAdminDeleteUser | EAdminUserRole
  | EPostContact.

#[export] Instance endpoint_eq_dec : EqDecision endpoint.
Proof. solve_decision. Defined.

Record route := { route_method : http_method; route_path : list seg; route_endpoint : endpoint }.

Definition mk_route m p e : route := {| route_method := m; route_path := p; route_endpoint := e |}.

(** [server.js]: [app.get('/api', ...)] and [app.get('/api/health', ...)]. *)
Definition app_get_api : route := mk_route GET [Lit "api"] EApiInfo.
Definition app_get_health : route := mk_route GET [Lit "api"; Lit "health"] EHealth.

(** [routes/auth.js] *)
Definition auth_post_register : route := mk_route POST [Lit "register"] ERegister.
Definition auth_post_login : route := mk_route POST [Lit "login"] ELogin.
Definition auth_get_profile : route := mk_route GET [Lit "profile"] EGetProfile.
Definition auth_put_profile : route := mk_route PUT [Lit "profile"] EUpdateProfile.
Definition auth_put_change_password : route := mk_route PUT [Lit "change-password"] EChangePassword.
Definition auth_post_logout : route := mk_route POST [Lit "logout"] ELogout.

(** [routes/packages.js] *)
Definition packages_get_root : route := mk_route GET [] EGetPackages.
Definition packages_get_popular : route := mk_route GET [Lit "popular"; Param] EPopularPackages.
Definition packages_get_by_destination : route := mk_route GET [Lit "by-destination"; Param] EPackagesByDestination.
Definition packages_get_id : route := mk_route GET [Param] EGetPackage.
Definition packages_post_root : route := mk_route POST [] ECreatePackage.
Definition packages_put_id : route := mk_route PUT [Param] EUpdatePackage.
Definition packages_delete_id : route := mk_route DELETE [Param] EDeletePackage.

(** [routes/bookings.js] *)
Definition bookings_patch_contact_status : route := mk_route PATCH [Lit "contacts"; Param; Lit "status"] EContactStatus.
Definition bookings_delete_contact : route := mk_route DELETE [Lit "contacts"; Param] EContactDelete.
Definition bookings_get_contacts_all : route := mk_route GET [Lit "contacts"; Lit "all"] EContactsAll.
Definition bookings_post_contacts : route := mk_route POST [Lit "contacts"] EContactCreate.
Definition bookings_post_root : route := mk_route POST [] ECreateBooking.
Definition bookings_get_my_bookings : route := mk_route GET [Lit "my-bookings"] EMyBookings.
Definition bookings_get_id : route := mk_route GET [Param] EGetBooking.
Definition bookings_patch_status : route := mk_route PATCH [Param; Lit "status"] EBookingStatus.
Definition bookings_post_cancel : route := mk_route POST [Param; Lit "cancel"] ECancelBooking.
Definition bookings_get_stats_user : route := mk_route GET [Lit "stats"; Lit "user"] EBookingStats.

(** [routes/reviews.js] *)
Definition reviews_post_root : route := mk_route POST [] ECreateReview.
Definition reviews_get_package : route := mk_route GET [Lit "package"; Param] EPackageReviews.
Definition reviews_get_my_reviews : route := mk_route GET [Lit "my-reviews"] EMyReviews.
Definition reviews_get_recent : route := mk_route GET [Lit "recent"; Param] ERecentReviews.
Definition reviews_put_id : route := mk_route PUT [Param] EUpdateReview.
Definition reviews_delete_id : route := mk_route DELETE [Param] EDeleteReview.

(** [routes/admin.js] *)
Definition admin_get_users : route := mk_route GET [Lit "users"] EAdminUsers.
Definition admin_get_bookings : route := mk_route GET [Lit "bookings"] EAdminBookings.
Definition admin_patch_booking_status : route := mk_route PATCH [Lit "bookings"; Param; Lit "status"] EAdminBookingStatus.
Definition admin_get_dashboard : route := mk_route GET [Lit "dashboard"] EAdminDashboard.
Definition admin_delete_user : route := mk_route DELETE [Lit "users"; Param] EAdminDeleteUser.
Definition admin_patch_user_role : route := mk_route PATCH [Lit "users"; Param; Lit "role"] EAdminUserRole.

(** [routes/contact.js] *)
Definition contact_post_root : route := mk_route POST [] EPostContact.

(** A router: its routes in declaration order, and whether a
    [router.use(authenticateToken, requireAdmin)] runs before them. *)
Record router := { router_guarded : bool; router_routes : list route }.

Definition auth_router : router :=
  {| router_guarded := false;
     router_routes := [auth_post_register; auth_post_login; auth_get_profile; auth_put_profile;
                       auth_put_change_password; auth_post_logout] |}.
Definition packages_router : router :=
  {| router_guarded := false;
     router_routes := [packages_get_root; packages_get_popular; packages_get_by_destination; packages_get_id;
                       packages_post_root; packages_put_id; packages_delete_id] |}.
Definition bookings_router : router :=
  {| router_guarded := false;
     router_routes := [bookings_patch_contact_status; bookings_delete_contact; bookings_get_contacts_all;
                       bookings_post_contacts; bookings_post_root; bookings_get_my_bookings; bookings_get_id;
                       bookings_patch_status; bookings_post_cancel; bookings_get_stats_user] |}.
Definition reviews_router : router :=
  {| router_guarded := false;
     router_routes := [reviews_post_root; reviews_get_package; reviews_get_my_reviews; reviews_get_recent;
                       reviews_put_id; reviews_delete_id] |}.
Definition admin_router : router :=
  {| router_guarded := true;
     router_routes := [admin_get_users; admin_get_bookings; admin_patch_booking_status; admin_get_dashboard;
                       admin_delete_user; admin_patch_user_role] |}.
Definition contact_router : router :=
  {| router_guarded := false; router_routes := [contact_post_root] |}.
(** [routes/payment.js] is not in the repository: no route of it is known. *)
Definition payment_router : router := {| router_guarded := false; router_routes := [] |}.

(** [server.js] lines 69-103: the two [app.get] routes, then the mounts in order. *)
Definition app_routes : list route := [app_get_api; app_get_health].

Definition app_mounts : list (string * router) :=
  [("auth", auth_router); ("packages", packages_router); ("bookings", bookings_router);
   ("reviews", reviews_router); ("admin", admin_router); ("contact", contact_router);
   ("payment", payment_router)].

(** ** Dispatch

    Express matches paths without case ([caseSensitive] is off) and
    accepts one trailing slash ([strict] is off); a [:param] matches a
    non-empty segment.  A path that does not start with [/], or with an
    empty segment other than the trailing one, matches no route. *)

Definition lit_eqb (lit x : string) : bool := ci_str_eq lit x.
Arguments lit_eqb : simpl never.

Definition nonempty_seg (x : string) : bool := bool_decide (x <> ""%string).
Arguments nonempty_seg : simpl never.

Fixpoint match_segs (p : list seg) (xs : list string) : option (list string) :=
  match p, xs with
  | [], [] => Some []
  | Lit l :: p', x :: xs' => if lit_eqb l x then match_segs p' xs' else None
  | Param :: p', x :: xs' => if nonempty_seg x then cons x <$> match_segs p' xs' else None
  | _, _ => None
  end.

(** The segments of [req.path]: [/a/b/] and [/a/b] are [[a; b]]. *)
Definition path_segments (path : string) : option (list string) :=
  match split_on "/"%char (String.list_ascii_of_string path) with
  | [] :: segs =>
      Some (String.string_of_list_ascii <$>
              (if bool_decide (last segs = Some []) then removelast segs else segs))
  | _ => None
  end.

(** A route handles a request of its method whose segments match its
    pattern; the values of its parameters are [req.params]. *)
Definition route_match (m : http_method) (xs : list string) (r : route) : option (endpoint * list string) :=
  if bool_decide (route_method r = m) then pair (route_endpoint r) <$> match_segs (route_path r) xs else None.

(** The first route of a list that handles the request. *)
Definition first_route (m : http_method) (xs : list string) (rs : list route) : option (endpoint * list string) :=
  head (omap (route_match m xs) rs).

(** Where a request ends: the handler of a route, or the 404 handler;
    [guarded] records that the admin router's [authenticateToken] and
    [requireAdmin] ran (and passed) on the way. *)
Inductive handled :=
  | HandledBy (guarded : bool) (e : endpoint) (params : list string)
  | RouteNotFound (guarded : bool).

(** [app.use('/api/<name>', router)]: the mount path matches the first
    segments; the router sees the rest.  A router in which no route
    matches passes the request on to the next mount. *)
Definition strip_mount (name : string) (xs : list string) : option (list string) :=
  match xs with
  | a :: n :: rest => if lit_eqb "api" a && lit_eqb name n then Some rest else None
  | _ => None
  end.

Fixpoint mount_dispatch (m : http_method) (xs : list string) (ms : list (string * router))
    (guarded : bool) : handled :=
  match ms with
  | [] => RouteNotFound guarded
  | (name, r) :: ms' =>
      match strip_mount name xs with
      | Some rest =>
          let g := guarded || router_guarded r in
          match first_route m rest (router_routes r) with
          | Some (e, ps) => HandledBy g e ps
          | None => mount_dispatch m xs ms' g
          end
      | None => mount_dispatch m xs ms' guarded
      end
  end.

(** The application: [app.get] routes first, then the mounts, then
    [app.use('*')]. *)
Definition dispatch_segments (m : http_method) (xs : list string) : handled :=
  match first_route m xs app_routes with
  | Some (e, ps) => HandledBy false e ps
  | None => mount_dispatch m xs app_mounts false
  end.

Definition dispatch (m : http_method) (url : string) : handled :=
  match path_segments (request_target url).1 with
  | None => RouteNotFound false
  | Some xs => dispatch_segments m xs
  end.

(** [app.use('*')] (server.js lines 106-111): status, [error] and [message]. *)
Definition not_found_response (m : http_method) (url : string) : Z * string * string :=
  (404, "Route not found", "Cannot " ++ method_name m ++ " " ++ url)%string.

(** ** Paths *)

(** [/x1/x2/.../xn] *)
Fixpoint join_path (xs : list string) : string :=
  match xs with
  | [] => ""
  | [x] => "/" ++ x
  | x :: xs' => "/" ++ x ++ join_path xs'
  end%string.

(** A segment the client writes and the server reads back as is. *)
Definition path_seg_ok (x : string) : Prop :=
  x <> ""%string /\ ("/"%char ∉ String.list_ascii_of_string x) /\ ("?"%char ∉ String.list_ascii_of_string x).

Lemma join_path_cons x xs : join_path (x :: xs) = ("/" ++ x ++ join_path xs)%string.
Proof. destruct xs; [|done]. simpl. by rewrite string_app_empty. Qed.

Lemma split_join xs :
  xs <> [] -> Forall (fun x => "/"%char ∉ String.list_ascii_of_string x) xs ->
  split_on "/"%char (String.list_ascii_of_string (join_path xs)) = [] :: (String.list_ascii_of_string <$> xs).
Proof.
  induction xs as [|x xs IH]; [done|]. intros _ Hall. inversion Hall as [|? ? Hx Hxs]; subst.
  rewrite join_path_cons, list_ascii_of_string_app. cbn [String.list_ascii_of_string String.append].
  rewrite list_ascii_of_string_app. simpl split_on. f_equal.
  destruct xs as [|y ys].
  - simpl. rewrite app_nil_r. by rewrite split_on_free.
  - specialize (IH ltac:(done) Hxs). rewrite join_path_cons, list_ascii_of_string_app in IH |- *.
    cbn [String.list_ascii_of_string String.append] in IH |- *.
    cbn [app] in IH |- *. rewrite split_on_app by done. simpl split_on in IH.
    injection IH as IH. by rewrite IH.
Qed.

Lemma last_fmap {A B} (f : A -> B) (l : list A) : last (f <$> l) = f <$> last l.
Proof. induction l as [|x [|y l] IH]; [done..|]. simpl in *. done. Qed.

Lemma path_segments_join xs : xs <> [] -> Forall path_seg_ok xs -> path_segments (join_path xs) = Some xs.
Proof.
  intros Hne Hall. unfold path_segments.
  rewrite split_join by (done || (eapply Forall_impl; [exact Hall|]; intros ? (_ & ? & _); done)).
  rewrite bool_decide_false.
  - f_equal. rewrite <- list_fmap_compose. rewrite <- (list_fmap_id xs) at 2. apply list_fmap_ext.
    intros _ x _. apply String.string_of_list_ascii_of_string.
  - rewrite last_fmap. destruct (last xs) as [x|] eqn:Hl; [|done]. intros [= Hx].
    apply last_Some_elem_of, (proj1 (Forall_forall _ _) Hall) in Hl as [Hx' _].
    apply Hx'. destruct x; done.
Qed.

Lemma join_path_no_query xs : Forall path_seg_ok xs -> "?"%char ∉ String.list_ascii_of_string (join_path xs).
Proof.
  induction 1 as [|x xs (_ & _ & Hq) _ IH]; [apply not_elem_of_nil|].
  rewrite join_path_cons, !list_ascii_of_string_app. simpl. rewrite not_elem_of_cons, !not_elem_of_app. done.
Qed.

Lemma request_target_path u : "?"%char ∉ String.list_ascii_of_string u -> (request_target u).1 = u.
Proof.
  intros Hq. unfold request_target. rewrite split_first_free by done. simpl.
  apply String.string_of_list_ascii_of_string.
Qed.

Lemma request_target_query u q :
  "?"%char ∉ String.list_ascii_of_string u -> (request_target (u ++ "?" ++ q)).1 = u.
Proof.
  intros Hq. unfold request_target. rewrite list_ascii_of_string_app. simpl.
  rewrite split_first_app by done. simpl. apply String.string_of_list_ascii_of_string.
Qed.

Lemma request_target_with_query xs filters :
  Forall path_seg_ok xs -> (request_target (with_query (join_path xs) filters)).1 = join_path xs.
Proof.
  intros Hall. pose proof (join_path_no_query xs Hall). unfold with_query.
  destruct (serialize_params _); [by apply request_target_path|]. by apply request_target_query.
Qed.

(** The characters of [`${n}`]: a sign and digits. *)
Definition number_char (c : ascii) : Prop := c = "-"%char \/ is_digit c = true.

Lemma js_number_string_chars n :
  exists c r, String.list_ascii_of_string (js_number_string n) = c :: r /\ Forall number_char (c :: r).
Proof.
  unfold js_number_string. rewrite String.list_ascii_of_string_of_list_ascii.
  destruct (n <? 0) eqn:E.
  - exists "-"%char, (decimal (- n)). split; [done|]. constructor; [by left|].
    apply Z.ltb_lt in E. eapply Forall_impl; [apply decimal_digits; lia|]. by right.
  - apply Z.ltb_ge in E. pose proof (decimal_nonempty n). pose proof (decimal_digits n E).
    destruct (decimal n) as [|c r]; [done|]. exists c, r. split; [done|].
    eapply Forall_impl; [done|]. by right.
Qed.

Lemma number_char_not c : number_char c -> c <> "/"%char /\ c <> "?"%char.
Proof. intros [->|Hc]; [done|]. split; intros ->; discriminate Hc. Qed.

(** A segment of a sign and digits, as [`${n}`] writes. *)
Definition number_seg (x : string) : Prop :=
  exists c r, String.list_ascii_of_string x = c :: r /\ Forall number_char (c :: r).

Lemma js_number_string_numseg n : number_seg (js_number_string n).
Proof. apply js_number_string_chars. Qed.

Lemma numseg_ok x : number_seg x -> path_seg_ok x.
Proof.
  intros (c & r & Hl & Hall). unfold path_seg_ok. rewrite Hl. split_and!.
  - intros ->. discriminate Hl.
  - intros Hin. apply (proj1 (Forall_forall _ _) Hall) in Hin. by apply number_char_not in Hin as [? _].
  - intros Hin. apply (proj1 (Forall_forall _ _) Hall) in Hin. by apply number_char_not in Hin as [_ ?].
Qed.

Lemma js_number_string_seg n : path_seg_ok (js_number_string n).
Proof. apply numseg_ok, js_number_string_numseg. Qed.

Lemma nonempty_seg_ok x : path_seg_ok x -> nonempty_seg x = true.
Proof. intros [Hx _]. by apply bool_decide_eq_true_2. Qed.

Lemma ascii_lower_number c : number_char c -> ascii_lower c = c.
Proof.
  unfold ascii_lower. intros [->|Hc]; [done|].
  unfold is_digit in Hc. apply andb_true_iff in Hc as [H1 H2]. apply Nat.leb_le in H1, H2.
  destruct ((65 <=? Ascii.nat_of_ascii c)%nat && (Ascii.nat_of_ascii c <=? 90)%nat) eqn:E; [|done].
  apply andb_true_iff in E as [E _]. apply Nat.leb_le in E. lia.
Qed.

(** A literal starting with a lower-case letter is not a number. *)
Definition lower_letter (c : ascii) : bool :=
  (97 <=? Ascii.nat_of_ascii c)%nat && (Ascii.nat_of_ascii c <=? 122)%nat.

Lemma lit_eqb_numseg l s x : lower_letter l = true -> number_seg x -> lit_eqb (String l s) x = false.
Proof.
  intros Hl (c & r & Hs & Hall). inversion Hall as [|? ? Hc _]; subst.
  unfold lit_eqb, ci_str_eq, str_lower. rewrite Hs. apply bool_decide_eq_false_2.
  cbn [String.list_ascii_of_string fmap list_fmap String.string_of_list_ascii]. intros [= Heq _].
  rewrite (ascii_lower_number c) in Heq by done.
  assert (Hl' : ascii_lower l = l).
  { unfold lower_letter in Hl. apply andb_true_iff in Hl as [H1 H2]. apply Nat.leb_le in H1, H2.
    unfold ascii_lower. destruct ((65 <=? _)%nat && _) eqn:E; [|done].
    apply andb_true_iff in E as [_ E]. apply Nat.leb_le in E. lia. }
  rewrite Hl' in Heq. subst c. destruct Hc as [->|Hc]; [discriminate Hl|].
  unfold lower_letter, is_digit in *. apply andb_true_iff in Hl as [H1 _], Hc as [_ H2].
  apply Nat.leb_le in H1, H2. lia.
Qed.

(** ** The requests of the services

    A number is interpolated as [`${n}`] ([js_number_string]); the
    destination of [getPackagesByDestination] is interpolated as is. *)

(** [api.js]: [`${API_BASE_URL}${endpoint}`] with the method of
    [api.get], [api.post], [api.put], [api.delete] or [api.patch]. *)
Definition API_BASE_URL : string := "/api".

Definition api_request (m : http_method) (endpoint : string) : http_method * string :=
  (m, API_BASE_URL ++ endpoint)%string.

Inductive package_call :=
  | PS_getPackages (filters : list (string * option string))
  | PS_getPackage (id : Z)
  | PS_getPopularPackages (limit : Z)
  | PS_getPackagesByDestination (destination : string)
  | PS_createPackage
  | PS_updatePackage (id : Z)
  | PS_deletePackage (id : Z).

Definition packageService (c : package_call) : http_method * string :=
  match c with
  | PS_getPackages f => api_request GET (packages_endpoint f)
  | PS_getPackage id => api_request GET ("/packages/" ++ js_number_string id)
  | PS_getPopularPackages l => api_request GET ("/packages/popular/" ++ js_number_string l)
  | PS_getPackagesByDestination d => api_request GET ("/packages/by-destination/" ++ d)
  | PS_createPackage => api_request POST "/packages"
  | PS_updatePackage id => api_request PUT ("/packages/" ++ js_number_string id)
  | PS_deletePackage id => api_request DELETE ("/packages/" ++ js_number_string id)
  end%string.

Inductive booking_call :=
  | BS_createBooking
  | BS_getMyBookings (filters : list (string * option string))
  | BS_getBooking (id : Z)
  | BS_updateBookingStatus (id : Z)
  | BS_cancelBooking (id : Z)
  | BS_getBookingStats.

Definition bookingService (c : booking_call) : http_method * string :=
  match c with
  | BS_createBooking => api_request POST "/bookings"
  | BS_getMyBookings f => api_request GET (my_bookings_endpoint f)
  | BS_getBooking id => api_request GET ("/bookings/" ++ js_number_string id)
  | BS_updateBookingStatus id => api_request PATCH ("/bookings/" ++ js_number_string id ++ "/status")
  | BS_cancelBooking id => api_request POST ("/bookings/" ++ js_number_string id ++ "/cancel")
  | BS_getBookingStats => api_request GET "/bookings/stats/user"
  end%string.

Inductive review_call :=
  | RS_createReview
  | RS_getPackageReviews (packageId : Z) (filters : list (string * option string))
  | RS_getMyReviews (filters : list (string * option string))
  | RS_getRecentReviews (limit : Z)
  | RS_updateReview (id : Z)
  | RS_deleteReview (id : Z).

Definition reviewService (c : review_call) : http_method * string :=
  match c with
  | RS_createReview => api_request POST "/reviews"
  | RS_getPackageReviews p f => api_request GET (with_query ("/reviews/package/" ++ js_number_string p) f)
  | RS_getMyReviews f => api_request GET (my_reviews_endpoint f)
  | RS_getRecentReviews l => api_request GET ("/reviews/recent/" ++ js_number_string l)
  | RS_updateReview id => api_request PUT ("/reviews/" ++ js_number_string id)
  | RS_deleteReview id => api_request DELETE ("/reviews/" ++ js_number_string id)
  end%string.

(** [authService.logout] and [isAuthenticated] send no request. *)
Inductive auth_call := AS_register | AS_login | AS_getProfile | AS_updateProfile | AS_changePassword.

Definition authService (c : auth_call) : http_method * string :=
  match c with
  | AS_register => api_request POST "/auth/register"
  | AS_login => api_request POST "/auth/login"
  | AS_getProfile => api_request GET "/auth/profile"
  | AS_updateProfile => api_request PUT "/auth/profile"
  | AS_changePassword => api_request PUT "/auth/change-password"
  end.

Inductive service_call :=
  | PackageCall (c : package_call)
  | BookingCall (c : booking_call)
  | ReviewCall (c : review_call)
  | AuthCall (c : auth_call).

Definition service_request (sc : service_call) : http_method * string :=
  match sc with
  | PackageCall c => packageService c
  | BookingCall c => bookingService c
  | ReviewCall c => reviewService c
  | AuthCall c => authService c
  end.

(** ** The requests the pages send with [fetch]

    A page request: method, URL, and whether it carries
    [Authorization: Bearer <token>]. *)
Record page_request := { pr_method : http_method; pr_url : string; pr_token : bool }.

Definition page_fetch (m : http_method) (url : string) (token : bool) : page_request :=
  {| pr_method := m; pr_url := url; pr_token := token |}.

(** [AdminDashboard.loadDashboardData], in the order it sends them. *)
Definition loadDashboardData_requests : list page_request :=
  [page_fetch GET "/api/admin/dashboard" true;
   page_fetch GET "/api/admin/users" true;
   page_fetch GET "/api/admin/bookings" true;
   page_fetch GET "/api/bookings/contacts/all" false;
   page_fetch GET "/api/packages" false].

Definition handleUserRoleUpdate_request (userId : Z) : page_request :=
  page_fetch PATCH ("/api/admin/users/" ++ js_number_string userId ++ "/role") true.

Definition handleBookingStatusUpdate_request (bookingId : Z) : page_request :=
  page_fetch PATCH ("/api/admin/bookings/" ++ js_number_string bookingId ++ "/status") true.

(** The delete buttons and the status select of the admin tables. *)
Definition admin_deleteUser_request (id : Z) : page_request :=
  page_fetch DELETE ("/api/admin/users/" ++ js_number_string id) true.

Definition admin_deleteBooking_request (id : Z) : page_request :=
  page_fetch DELETE ("/api/admin/bookings/" ++ js_number_string id) true.

Definition admin_contactStatus_request (id : Z) : page_request :=
  page_fetch PATCH ("/api/bookings/contacts/" ++ js_number_string id ++ "/status") false.

Definition admin_deleteContact_request (id : Z) : page_request :=
  page_fetch DELETE ("/api/bookings/contacts/" ++ js_number_string id) false.

(** [UserDashboard.loadUserData], in order. *)
Definition loadUserData_requests : list page_request :=
  [page_fetch GET "/api/bookings/my-bookings" true;
   page_fetch GET "/api/reviews/my-reviews" true;
   page_fetch GET "/api/bookings/contacts/all" false].

Definition handleCancelBooking_request (bookingId : Z) : page_request :=
  page_fetch POST ("/api/bookings/" ++ js_number_string bookingId ++ "/cancel") true.

Definition handleDeleteReview_request (reviewId : Z) : page_request :=
  page_fetch DELETE ("/api/reviews/" ++ js_number_string reviewId) true.

(** [Featured.handleBookingSubmit]: the booking form posts a contact. *)
Definition featured_booking_request : page_request :=
  page_fetch POST "/api/bookings/contacts" false.

(** [Contact.handleSubmit]: [api.post('/contact', formData)], with the
    token of [api.js] when one is stored. *)
Definition contact_submit_request (s : storage) : page_request :=
  let '(m, url) := api_request POST "/contact" in
  page_fetch m url (bool_decide (is_Some (truthy_str (getAuthToken s)))).

Definition dispatch_request (r : page_request) : handled := dispatch (pr_method r) (pr_url r).

(** ** Every service method reaches its route *)

(** What each service method is written for (its comment in the
    service file): the handler and the parameters it passes. *)
Definition service_target (sc : service_call) : endpoint * list string :=
  match sc with
  | PackageCall c =>
      match c with
      | PS_getPackages _ => (EGetPackages, [])
      | PS_getPackage id => (EGetPackage, [js_number_string id])
      | PS_getPopularPackages l => (EPopularPackages, [js_number_string l])
      | PS_getPackagesByDestination d => (EPackagesByDestination, [d])
      | PS_createPackage => (ECreatePackage, [])
      | PS_updatePackage id => (EUpdatePackage, [js_number_string id])
      | PS_deletePackage id => (EDeletePackage, [js_number_string id])
      end
  | BookingCall c =>
      match c with
      | BS_createBooking => (ECreateBooking, [])
      | BS_getMyBookings _ => (EMyBookings, [])
      | BS_getBooking id => (EGetBooking, [js_number_string id])
      | BS_updateBookingStatus id => (EBookingStatus, [js_number_string id])
      | BS_cancelBooking id => (ECancelBooking, [js_number_string id])
      | BS_getBookingStats => (EBookingStats, [])
      end
  | ReviewCall c =>
      match c with
      | RS_createReview => (ECreateReview, [])
      | RS_getPackageReviews p _ => (EPackageReviews, [js_number_string p])
      | RS_getMyReviews _ => (EMyReviews, [])
      | RS_getRecentReviews l => (ERecentReviews, [js_number_string l])
      | RS_updateReview id => (EUpdateReview, [js_number_string id])
      | RS_deleteReview id => (EDeleteReview, [js_number_string id])
      end
  | AuthCall c =>
      match c with
      | AS_register => (ERegister, [])
      | AS_login => (ELogin, [])
      | AS_getProfile => (EGetProfile, [])
      | AS_updateProfile => (EUpdateProfile, [])
      | AS_changePassword => (EChangePassword, [])
      end
  end.

(** A segment the URL parser of [fetch] keeps and Express reads back
    unchanged: unreserved characters only, and not a dot segment. *)
Definition unreserved (c : ascii) : bool :=
  is_digit c || lower_letter c || lower_letter (ascii_lower c) ||
  bool_decide (c ∈ ["-"; "."; "_"; "~"]%char).

Definition plain_segment (d : string) : Prop :=
  d <> ""%string /\ d <> "."%string /\ d <> ".."%string /\
  Forall (fun c => unreserved c = true) (String.list_ascii_of_string d).

Definition service_args_ok (sc : service_call) : Prop :=
  match sc with
  | PackageCall (PS_getPackagesByDestination d) => plain_segment d
  | _ => True
  end.

(** The segments and the filters of each request. *)
Definition service_path (sc : service_call) : list string * list (string * option string) :=
  match sc with
  | PackageCall c =>
      match c with
      | PS_getPackages f => (["api"; "packages"], f)
      | PS_getPackage id | PS_updatePackage id | PS_deletePackage id => (["api"; "packages"; js_number_string id], [])
      | PS_getPopularPackages l => (["api"; "packages"; "popular"; js_number_string l], [])
      | PS_getPackagesByDestination d => (["api"; "packages"; "by-destination"; d], [])
      | PS_createPackage => (["api"; "packages"], [])
      end
  | BookingCall c =>
      match c with
      | BS_createBooking => (["api"; "bookings"], [])
      | BS_getMyBookings f => (["api"; "bookings"; "my-bookings"], f)
      | BS_getBooking id => (["api"; "bookings"; js_number_string id], [])
      | BS_updateBookingStatus id => (["api"; "bookings"; js_number_string id; "status"], [])
      | BS_cancelBooking id => (["api"; "bookings"; js_number_string id; "cancel"], [])
      | BS_getBookingStats => (["api"; "bookings"; "stats"; "user"], [])
      end
  | ReviewCall c =>
      match c with
      | RS_createReview => (["api"; "reviews"], [])
      | RS_getPackageReviews p f => (["api"; "reviews"; "package"; js_number_string p], f)
      | RS_getMyReviews f => (["api"; "reviews"; "my-reviews"], f)
      | RS_getRecentReviews l => (["api"; "reviews"; "recent"; js_number_string l], [])
      | RS_updateReview id | RS_deleteReview id => (["api"; "reviews"; js_number_string id], [])
      end
  | AuthCall c =>
      match c with
      | AS_register => (["api"; "auth"; "register"], [])
      | AS_login => (["api"; "auth"; "login"], [])
      | AS_getProfile | AS_updateProfile => (["api"; "auth"; "profile"], [])
      | AS_changePassword => (["api"; "auth"; "change-password"], [])
      end
  end.

Lemma string_app_assoc (a b c : string) : (a ++ b ++ c)%string = ((a ++ b) ++ c)%string.
Proof. induction a as [|x a IH]; [done|]. rewrite !string_app_cons. by rewrite IH. Qed.

Lemma app_with_query p b f : (p ++ with_query b f)%string = with_query (p ++ b) f.
Proof. unfold with_query. destruct (serialize_params _); [done|]. apply string_app_assoc. Qed.

Lemma service_request_url sc :
  (service_request sc).2 = with_query (join_path (service_path sc).1) (service_path sc).2.
Proof.
  destruct sc as [[]|[]|[]|[]]; simpl; rewrite ?string_app_empty; try reflexivity;
    unfold api_request, packages_endpoint, my_bookings_endpoint, my_reviews_endpoint; simpl;
    by rewrite app_with_query, ?string_app_empty.
Qed.

Lemma lower_letter_not c : lower_letter c = true -> c <> "/"%char /\ c <> "?"%char.
Proof. intros Hc. split; intros ->; discriminate Hc. Qed.

Lemma plain_segment_ok d : plain_segment d -> path_seg_ok d.
Proof.
  intros (Hne & _ & _ & Hall). split; [done|].
  split; intros Hin; apply (proj1 (Forall_forall _ _) Hall) in Hin; vm_compute in Hin; discriminate Hin.
Qed.

Lemma lit_seg_ok (s : string) : bool_decide (path_seg_ok s) = true -> path_seg_ok s.
Proof. apply bool_decide_eq_true_1. Qed.

Lemma service_path_ok sc : service_args_ok sc -> Forall path_seg_ok (service_path sc).1.
Proof.
  destruct sc as [[]|[]|[]|[]]; simpl; intros Hok;
    repeat constructor; first [apply js_number_string_seg | by apply plain_segment_ok
                              | apply lit_seg_ok; vm_compute; reflexivity].
Qed.

Lemma dispatch_with_query m xs f :
  xs <> [] -> Forall path_seg_ok xs -> dispatch m (with_query (join_path xs) f) = dispatch_segments m xs.
Proof.
  intros Hne Hall. unfold dispatch. rewrite request_target_with_query by done.
  by rewrite path_segments_join.
Qed.

(** The comparisons of literals with the segments of a request: with a
    number they are false, between literals they are computed. *)
Ltac route_lits :=
  repeat match goal with
    | H : number_seg ?x |- context [lit_eqb ?a ?x] => rewrite (lit_eqb_numseg _ _ x) by (reflexivity || exact H)
    | H : number_seg ?x |- context [nonempty_seg ?x] => rewrite (nonempty_seg_ok x (numseg_ok x H))
    | H : path_seg_ok ?d |- context [nonempty_seg ?d] => rewrite (nonempty_seg_ok d H)
    | |- context [lit_eqb ?a ?b] =>
        let v := eval vm_compute in (lit_eqb a b) in
        lazymatch v with
        | true => rewrite (eq_refl : lit_eqb a b = true)
        | false => rewrite (eq_refl : lit_eqb a b = false)
        end
    end.

(** Replace the number segments [`${n}`] of the goal by variables. *)
Ltac abstract_numbers :=
  repeat match goal with
    | |- context [js_number_string ?n] =>
        let x := fresh "x" in
        pose proof (js_number_string_numseg n); generalize dependent (js_number_string n); intros x ?
    end.

Ltac route_eval :=
  cbv -[lit_eqb nonempty_seg]; repeat (progress route_lits; cbv -[lit_eqb nonempty_seg]).

(** C8: every request of the client's services reaches the handler it
    is written for, with the parameters it means: the URL built by
    [api.js] and the service, split by Express, is matched first by
    that handler's route among the routes of [server.js] and the
    routers in their declaration order (in particular
    [/bookings/my-bookings] is not taken for a booking [:id]). *)
Theorem services_reach_routes sc :
  service_args_ok sc ->
  dispatch (service_request sc).1 (service_request sc).2 =
    HandledBy false (service_target sc).1 (service_target sc).2.
Proof.
  intros Hok. pose proof (service_path_ok sc Hok) as Hall.
  rewrite service_request_url, dispatch_with_query by (done || by destruct sc as [[]|[]|[]|[]]).
  destruct sc as [[]|[]|[]|[]]; cbv -[lit_eqb nonempty_seg js_number_string plain_segment path_seg_ok] in Hok, Hall |- *;
    try (pose proof (plain_segment_ok _ Hok)); clear Hall; abstract_numbers;
    unfold dispatch_segments; route_eval; reflexivity.
Qed.

Lemma dispatch_join m xs :
  xs <> [] -> Forall path_seg_ok xs -> dispatch m (join_path xs) = dispatch_segments m xs.
Proof. intros Hne Hall. exact (dispatch_with_query m xs [] Hne Hall). Qed.

Ltac segs_ok :=
  first [ done
        | repeat (constructor; [first [by apply numseg_ok | apply lit_seg_ok; vm_compute; reflexivity] |]);
          constructor ].

(** The request of a page, whose URL has the segments [xs] once its
    numbers are abstracted, reaches the route its segments select. *)
Ltac page_unfold :=
  cbv [dispatch_request page_fetch pr_method pr_url handleUserRoleUpdate_request
       handleBookingStatusUpdate_request admin_deleteUser_request admin_deleteBooking_request
       admin_contactStatus_request admin_deleteContact_request handleCancelBooking_request
       handleDeleteReview_request];
  abstract_numbers.

Ltac page_dispatch xs :=
  rewrite (dispatch_join _ xs) by segs_ok;
  unfold dispatch_segments; route_eval; reflexivity.

(** C21: the requests the pages send with [fetch] reach the handlers
    they are written for: the admin dashboard's loads, role and status
    updates and user deletion pass the admin router's guard and reach
    its routes, its contact requests and the user dashboard's reach the
    booking and review routes, and the booking form of [Featured] and
    the message of [Contact] reach the contact handlers. *)
Theorem pages_reach_routes uid bid cid rid s :
  dispatch_request <$> loadDashboardData_requests =
    [HandledBy true EAdminDashboard []; HandledBy true EAdminUsers []; HandledBy true EAdminBookings [];
     HandledBy false EContactsAll []; HandledBy false EGetPackages []] /\
  dispatch_request <$> loadUserData_requests =
    [HandledBy false EMyBookings []; HandledBy false EMyReviews []; HandledBy false EContactsAll []] /\
  dispatch_request (handleUserRoleUpdate_request uid) = HandledBy true EAdminUserRole [js_number_string uid] /\
  dispatch_request (handleBookingStatusUpdate_request bid) =
    HandledBy true EAdminBookingStatus [js_number_string bid] /\
  dispatch_request (admin_deleteUser_request uid) = HandledBy true EAdminDeleteUser [js_number_string uid] /\
  dispatch_request (admin_contactStatus_request cid) = HandledBy false EContactStatus [js_number_string cid] /\
  dispatch_request (admin_deleteContact_request cid) = HandledBy false EContactDelete [js_number_string cid] /\
  dispatch_request (handleCancelBooking_request bid) = HandledBy false ECancelBooking [js_number_string bid] /\
  dispatch_request (handleDeleteReview_request rid) = HandledBy false EDeleteReview [js_number_string rid] /\
  dispatch_request featured_booking_request = HandledBy false EContactCreate [] /\
  dispatch_request (contact_submit_request s) = HandledBy false EPostContact [].
Proof.
  split_and!; [vm_compute; reflexivity | vm_compute; reflexivity | ..].
  - page_unfold. page_dispatch ["api"; "admin"; "users"; x; "role"].
  - page_unfold. page_dispatch ["api"; "admin"; "bookings"; x; "status"].
  - page_unfold. page_dispatch ["api"; "admin"; "users"; x].
  - page_unfold. page_dispatch ["api"; "bookings"; "contacts"; x; "status"].
  - page_unfold. page_dispatch ["api"; "bookings"; "contacts"; x].
  - page_unfold. page_dispatch ["api"; "bookings"; x; "cancel"].
  - page_unfold. page_dispatch ["api"; "reviews"; x].
  - vm_compute. reflexivity.
  - unfold contact_submit_request, dispatch_request. simpl. vm_compute. reflexivity.
Qed.

(** C22: the delete button of the admin bookings table sends
    [DELETE /api/admin/bookings/:id], which no route handles: after the
    admin router's guard the request falls through to [app.use('*')],
    which answers 404 "Route not found", so an admin can never delete a
    booking from the dashboard. *)
Theorem admin_deleteBooking_not_found bid :
  dispatch_request (admin_deleteBooking_request bid) = RouteNotFound true /\
  not_found_response (pr_method (admin_deleteBooking_request bid)) (pr_url (admin_deleteBooking_request bid)) =
    (404, "Route not found", "Cannot DELETE /api/admin/bookings/" ++ js_number_string bid)%string.
Proof. split; [page_unfold; page_dispatch ["api"; "admin"; "bookings"; x] | reflexivity]. Qed.

(** ** The booking modal of [Popular] *)

(** The body [Popular.handleBookingSubmit] posts (Popular.jsx lines
    74-81), as the server reads it: [packageId] is the package's id,
    [guests] and [rooms] are [parseInt] of the form's fields; there is
    no [bookingDate] ([checkIn], [checkOut] and [totalPrice] are not
    read by the server). *)
Definition popular_bookingData (packageId : Z) (guests rooms : jvalue) : booking_body :=
  {| body_packageId := JInt packageId; body_bookingDate := None;
     body_guests := guests; body_rooms := rooms |}.

(** What the modal shows: the error of [createBooking] (the [catch]),
    or the confirmation, after the payment request when "pay now" is
    chosen. *)
Inductive submit_result := BookingError (msg : string) | BookingConfirmed (payment_sent : bool).

Definition handleBookingSubmit {A} (payNow : bool) (r : api_result A) : submit_result :=
  match r with
  | ApiError msg => BookingError (if decide (msg = ""%string) then "Failed to create booking"%string else msg)
  | ApiOk _ => BookingConfirmed payNow
  end.

(** C14: the booking modal of the popular packages never books: the
    body it posts has no [bookingDate], so for every package, guests,
    rooms, clock, user and store, [validateBooking] answers 400
    "Booking date must be a valid date" before the handler runs, the
    store is unchanged, the modal shows that message and the payment
    request is never sent. *)
Theorem popular_booking_rejected c u d packageId guests rooms payNow :
  1 <= packageId ->
  route_createBooking c u (popular_bookingData packageId guests rooms) d =
    (d, Reply 400 "Booking date must be a valid date"%string) /\
  handleBookingSubmit payNow
    (apiRequest (respond (snd (route_createBooking c u (popular_bookingData packageId guests rooms) d)))) =
    BookingError "Booking date must be a valid date".
Proof.
  intros Hp.
  assert (Hr : route_createBooking c u (popular_bookingData packageId guests rooms) d =
                 (d, Reply 400 "Booking date must be a valid date"%string)).
  { unfold route_createBooking, validateBooking, handleValidationErrors, booking_errors.
    cbn [popular_bookingData body_packageId body_bookingDate is_int].
    replace (1 <=? packageId) with true by lia. reflexivity. }
  split; [done|]. rewrite Hr. reflexivity.
Qed.

(** ** Witnesses *)

Lemma services_reach_routes_witness :
  plain_segment "Italy" /\
  dispatch GET "/api/packages/by-destination/Italy" = HandledBy false EPackagesByDestination ["Italy"].
Proof.
  assert (H : plain_segment "Italy") by (split_and!; [discriminate.. | repeat constructor]).
  split; [exact H|].
  exact (services_reach_routes (PackageCall (PS_getPackagesByDestination "Italy")) H).
Defined.

Lemma popular_booking_rejected_witness :
  1 <= 1 /\
  route_createBooking {| now_minutes := 0; tz_offset := 0 |} seed_admin (popular_bookingData 1 (JInt 2) (JInt 1))
    seed_store = (seed_store, Reply 400 "Booking date must be a valid date"%string).
Proof.
  split; [lia|].
  exact (proj1 (popular_booking_rejected {| now_minutes := 0; tz_offset := 0 |} seed_admin seed_store 1
                  (JInt 2) (JInt 1) true ltac:(lia))).
Defined.
