(* ===== verification/ClientForms.v ===== *)
(** * ClientForms: the forms and the contact tables of the React client

    [components/Contact.jsx] checks its form before posting it to
    [POST /api/contact]: four fields required after [trim()], then the
    address against [/^[^\s@]+@[^\s@]+\.[^\s@]+$/]; the server checks
    the same form with its own chain ([Server.contactValidation]).
    [components/Newsletter.jsx] checks an address with the same regular
    expression and then only simulates the subscription: it sends no
    request.  [pages/UserDashboard.jsx] loads [GET
    /api/bookings/contacts/all] and shows the confirmed contacts in one
    table and the pending and cancelled ones in another.

    [email_regex_test] is the regular expression as a function;
    [email_shape] is the language it denotes, and the theorem
    [email_regex_spec] proves them equal.  [\s] is taken on the code
    points below 256 the development's strings have (tab to carriage
    return, space, no-break space).  The timers that clear the messages
    and the rendering are not modelled. *)

From Stdlib Require Import Ascii.
From stdpp Require Import sorting.
From S2P Require Import Prelude Schema Validation Auth Bookings Server Client.

(** ** [/^[^\s@]+@[^\s@]+\.[^\s@]+$/] *)

(** [\s] on the code points below 256. *)
Definition regex_space (c : ascii) : bool :=
  match Ascii.nat_of_ascii c with
  | 9 | 10 | 11 | 12 | 13 | 32 | 160 => true
  | _ => false
  end%nat.

(** [[^\s@]] *)
Definition plain_char (c : ascii) : bool := negb (regex_space c) && negb (bool_decide (c = "@"%char)).

(** After the [@]: a [.] that is neither the first nor the last
    character. *)
Definition inner_dot (b : list ascii) : bool :=
  match b with
  | [] => false
  | _ :: r => bool_decide ("."%char ∈ removelast r)
  end.

(** [emailRegex.test(s)]: the part before the first [@] is non-empty,
    the rest has an inner [.], and no character is [\s] or a second
    [@]. *)
Definition email_regex_test (s : string) : bool :=
  let l := String.list_ascii_of_string s in
  let '(a, b) := split_first "@"%char l in
  bool_decide (a <> []) && forallb plain_char a && forallb plain_char b && inner_dot b.

(** The language of the expression: three non-empty runs of [[^\s@]]
    around the [@] and the [.]. *)
Inductive email_shape : list ascii -> Prop :=
  | email_shape_intro a x y :
      a <> [] -> x <> [] -> y <> [] ->
      Forall (fun c => plain_char c = true) a -> Forall (fun c => plain_char c = true) x ->
      Forall (fun c => plain_char c = true) y ->
      email_shape (a ++ "@"%char :: x ++ "."%char :: y).

Lemma forallb_Forall_true {A} (f : A -> bool) l : forallb f l = true <-> Forall (fun c => f c = true) l.
Proof. induction l as [|x l IH]; simpl; [split; [constructor|done]|]. rewrite andb_true_iff, Forall_cons, IH. done. Qed.

Lemma plain_not_at c : plain_char c = true -> c <> "@"%char.
Proof. unfold plain_char. intros [_ H]%andb_true_iff ->. discriminate H. Qed.

Lemma plain_dot : plain_char "."%char = true.
Proof. reflexivity. Qed.

Lemma Forall_plain_no_at l : Forall (fun c => plain_char c = true) l -> "@"%char ∉ l.
Proof. intros Hl Hin. apply (proj1 (Forall_forall _ _) Hl) in Hin. by apply plain_not_at in Hin. Qed.

Lemma split_first_found sep l a b :
  split_first sep l = (a, b) -> sep ∈ l -> l = a ++ sep :: b /\ sep ∉ a.
Proof.
  revert a b. induction l as [|c l IH]; intros a b Hs Hin; [by apply not_elem_of_nil in Hin|].
  simpl in Hs. case_bool_decide as Hc.
  - injection Hs as <- <-. subst. split; [done | apply not_elem_of_nil].
  - destruct (split_first sep l) as [a' b'] eqn:E. injection Hs as <- <-.
    apply elem_of_cons in Hin as [->|Hin]; [done|]. destruct (IH a' b' eq_refl Hin) as [-> Ha].
    split; [done|]. rewrite not_elem_of_cons. auto.
Qed.

Lemma split_first_absent sep l : sep ∉ l -> split_first sep l = (l, []).
Proof. apply split_first_free. Qed.

Lemma removelast_dot x y : y <> [] -> "."%char ∈ removelast (x ++ "."%char :: y).
Proof.
  intros Hy. rewrite removelast_app by discriminate. apply elem_of_app. right.
  destruct y; [done|]. simpl. apply elem_of_cons. by left.
Qed.

Lemma inner_dot_shape b :
  inner_dot b = true -> exists x y, x <> [] /\ y <> [] /\ b = x ++ "."%char :: y.
Proof.
  destruct b as [|c r]; [discriminate|]. simpl. intros H%bool_decide_eq_true_1.
  apply list_elem_of_split in H as (p & q & Hpq).
  destruct r as [|z r] using rev_ind; [destruct p; discriminate|]. rewrite removelast_last in Hpq. subst r.
  exists (c :: p), (q ++ [z]). split_and!; [done | by destruct q | by rewrite <- app_assoc].
Qed.

(** C30: the executable test of [emailRegex] accepts exactly the
    strings of the regular expression's language: a non-empty run of
    characters other than white space and [@], an [@], a non-empty run,
    a [.], and a non-empty run. *)
Theorem email_regex_spec s :
  email_regex_test s = true <-> email_shape (String.list_ascii_of_string s).
Proof.
  unfold email_regex_test. set (l := String.list_ascii_of_string s).
  destruct (split_first "@"%char l) as [a b] eqn:E. split.
  - intros H. apply andb_true_iff in H as [H Hd]. apply andb_true_iff in H as [H Hb].
    apply andb_true_iff in H as [Ha Hpa]. apply bool_decide_eq_true_1 in Ha.
    apply forallb_Forall_true in Hpa, Hb.
    destruct (decide ("@"%char ∈ l)) as [Hin|Hin].
    + destruct (split_first_found _ _ _ _ E Hin) as [-> _].
      destruct (inner_dot_shape b Hd) as (x & y & Hx & Hy & ->).
      apply Forall_app in Hb as [Hbx Hby]. apply Forall_cons in Hby as [_ Hby].
      by constructor.
    + rewrite split_first_absent in E by done. injection E as _ <-. discriminate Hd.
  - inversion 1 as [a' x y Ha Hx Hy Hpa Hpx Hpy Hl]. rewrite <- Hl in E.
    rewrite split_first_app in E by (by apply Forall_plain_no_at). injection E as <- <-.
    rewrite bool_decide_eq_true_2 by done. rewrite (proj2 (forallb_Forall_true _ _) Hpa).
    rewrite (proj2 (forallb_Forall_true _ _)) by (apply Forall_app; split; [done | by constructor]).
    destruct x as [|c x']; [done|]. simpl. apply bool_decide_eq_true_2, removelast_dot, Hy.
Qed.

(** ** [Contact.jsx] *)

(** [formData]: the four inputs, as typed. *)
Record contact_fields := { fd_name : string; fd_email : string; fd_subject : string; fd_message : string }.

Definition empty_fields : contact_fields :=
  {| fd_name := ""; fd_email := ""; fd_subject := ""; fd_message := "" |}%string.

(** [validateForm] (lines 23-33): the first failing check's message. *)
Definition validateForm (f : contact_fields) : option string :=
  if bool_decide (js_trim (Some (fd_name f)) = "") then Some "Name is required"
  else if bool_decide (js_trim (Some (fd_email f)) = "") then Some "Email is required"
  else if bool_decide (js_trim (Some (fd_subject f)) = "") then Some "Subject is required"
  else if bool_decide (js_trim (Some (fd_message f)) = "") then Some "Message is required"
  else if negb (email_regex_test (fd_email f)) then Some "Please enter a valid email address"
  else None.

(** The body [api.post('/contact', formData)] sends, as the server reads it. *)
Definition contact_body_of (f : contact_fields) : contact_form :=
  {| cf_name := Some (fd_name f); cf_email := Some (fd_email f);
     cf_subject := Some (fd_subject f); cf_message := Some (fd_message f) |}.

(** What the form shows: [submitStatus] with [errorMessage]. *)
Inductive contact_status := ContactSuccess | ContactError (msg : string).

(** [handleSubmit] (lines 35-80): the form's own check, else the
    answer [r] of [api.post]; on success the form is cleared. *)
Definition contact_handleSubmit {A} (f : contact_fields) (r : api_result A) : contact_status * contact_fields :=
  match validateForm f with
  | Some e => (ContactError e, f)
  | None =>
      match r with
      | ApiOk _ => (ContactSuccess, empty_fields)
      | ApiError m =>
          (ContactError (if decide (m = ""%string) then "Failed to send message. Please try again."%string else m), f)
      end
  end%string.

(** ** [Newsletter.jsx] *)

Inductive newsletter_result := NewsletterError (msg : string) | Subscribed.

(** [handleSubmit] (lines 15-48): the subscription is simulated by a
    timer; no request is sent. *)
Definition newsletter_handleSubmit (email : string) : newsletter_result :=
  if bool_decide (email = ""%string) then NewsletterError "Please enter your email address"
  else if negb (email_regex_test email) then NewsletterError "Please enter a valid email address"
  else Subscribed.

(** ** White space and [trim()] *)

Lemma js_space_regex_space c : is_js_space c = true -> regex_space c = true.
Proof.
  unfold is_js_space, regex_space. destruct (Ascii.nat_of_ascii c) as [|n]; [done|].
  do 33 (destruct n as [|n]; [done|]). discriminate.
Qed.

Lemma plain_not_space c : plain_char c = true -> is_js_space c = false.
Proof.
  unfold plain_char. intros [H _]%andb_true_iff. destruct (is_js_space c) eqn:E; [|done].
  apply js_space_regex_space in E. by rewrite E in H.
Qed.

Lemma trim_left_has c s :
  c ∈ String.list_ascii_of_string s -> is_js_space c = false ->
  exists d t, trim_left s = String d t /\ is_js_space d = false.
Proof.
  induction s as [|d s IH]; simpl; [intros Hin; by apply not_elem_of_nil in Hin|].
  intros Hin Hc. destruct (is_js_space d) eqn:Hd.
  - apply IH; [|done]. apply elem_of_cons in Hin as [->|Hin]; [congruence|done].
  - by exists d, s.
Qed.

Lemma string_rev_list s : String.list_ascii_of_string (string_rev s) = rev (String.list_ascii_of_string s).
Proof. apply String.list_ascii_of_string_of_list_ascii. Qed.

(** A string with a character [trim()] keeps trims to a non-empty one. *)
Lemma js_trim_nonempty c s :
  c ∈ String.list_ascii_of_string s -> is_js_space c = false -> js_trim (Some s) <> ""%string.
Proof.
  intros Hin Hc. destruct (trim_left_has c s Hin Hc) as (d & t & Ht & Hd). simpl. rewrite Ht.
  destruct (trim_left_has d (string_rev (String d t))) as (d' & t' & Ht' & _); [|done|].
  - rewrite string_rev_list. simpl. apply elem_of_app. right. by apply list_elem_of_singleton.
  - rewrite Ht'. intros He. apply (f_equal String.list_ascii_of_string) in He.
    rewrite string_rev_list in He. simpl in He. destruct (rev _); discriminate.
Qed.

Lemma email_regex_trim s : email_regex_test s = true -> js_trim (Some s) <> ""%string.
Proof.
  intros H. apply email_regex_spec in H. inversion H as [a x y Ha Hx Hy Hpa Hpx Hpy Hl].
  destruct a as [|c a]; [done|]. inversion Hpa as [|? ? Hc _]; subst.
  apply (js_trim_nonempty c); [rewrite <- Hl; by left | by apply plain_not_space].
Qed.

Lemma min_length_nonempty n s : (1 <= n)%nat -> is_min_length n s = true -> s <> ""%string.
Proof. unfold is_min_length. intros Hn Hl%bool_decide_eq_true_1 ->. simpl in Hl. lia. Qed.

(** ** The contact form against the server's chain *)

Section contact_form.
Context `{EmailRules}.

(** C29: the contact form and [POST /api/contact] together: a form the
    server accepts with an address the regular expression accepts
    passes the page's own check, and a form that passes the page's
    check is posted and the page shows the server's verdict: success
    (and a cleared form) when every rule of the server's chain passes,
    otherwise the first failing rule's message.  The server's minimum
    lengths (2, 5, 10) are stricter than the page's non-empty checks,
    so the page lets through forms the server rejects. *)
Theorem contact_form_outcome {S} f (s : S) :
  (first_error (contactValidation (contact_body_of f)) = None ->
   email_regex_test (fd_email f) = true -> validateForm f = None) /\
  (validateForm f = None ->
   fst (postContact (contact_body_of f) s) = s /\
   contact_handleSubmit f (apiRequest (respond (snd (postContact (contact_body_of f) s)))) =
     match first_error (contactValidation (contact_body_of f)) with
     | Some msg => (ContactError msg, f)
     | None => (ContactSuccess, empty_fields)
     end).
Proof.
  split.
  - unfold contactValidation, rule. cbn [contact_body_of cf_name cf_email cf_subject cf_message default].
    intros Hf He. unfold validateForm.
    destruct (is_min_length 2 _) eqn:Hn; [|discriminate].
    destruct (is_email _); [|discriminate].
    destruct (is_min_length 5 _) eqn:Hs; [|discriminate].
    destruct (is_min_length 10 _) eqn:Hm; [|discriminate].
    rewrite (bool_decide_false (js_trim (Some (fd_name f)) = "")) by (apply (min_length_nonempty 2); [lia|done]).
    rewrite (bool_decide_false (js_trim (Some (fd_email f)) = "")) by (by apply email_regex_trim).
    rewrite (bool_decide_false (js_trim (Some (fd_subject f)) = "")) by (apply (min_length_nonempty 5); [lia|done]).
    rewrite (bool_decide_false (js_trim (Some (fd_message f)) = "")) by (apply (min_length_nonempty 10); [lia|done]).
    by rewrite He.
  - intros Hv. unfold postContact.
    destruct (first_error _) as [msg|] eqn:Hfe; simpl; (split; [done|]);
      unfold contact_handleSubmit; rewrite Hv; [|done].
    assert (Hm : msg <> ""%string)
      by (revert Hfe; unfold contactValidation, rule; simpl; repeat (case_match; simpl); congruence).
    destruct msg as [|c m]; [done|]. unfold apiRequest. simpl. reflexivity.
Qed.
End contact_form.

(** ** The contact tables of [UserDashboard.jsx] *)

(** [setBookingContacts(contactsData.contacts || [])] when the answer
    of [GET /api/bookings/contacts/all] is ok (lines 50-60). *)
Definition loaded_contacts (r : api_result (option (list (Z * contact_row)))) : list (Z * contact_row) :=
  match r with ApiOk (Some cs) => cs | _ => [] end.

(** [bookingContacts.filter(contact => contact.status === 'confirmed')] *)
Definition confirmed_contacts (cs : list (Z * contact_row)) : list (Z * contact_row) :=
  filter (fun c => ct_status c.2 = Confirmed) cs.

(** [bookingContacts.filter(contact => contact.status === 'pending' || contact.status === 'cancelled')] *)
Definition request_contacts (cs : list (Z * contact_row)) : list (Z * contact_row) :=
  filter (fun c => ct_status c.2 = Pending \/ ct_status c.2 = Cancelled) cs.

(** The contacts the dashboard of any visitor shows, from a store. *)
Definition dashboard_contacts (d : db) : list (Z * contact_row) :=
  loaded_contacts (apiRequest (respond (snd (getContacts d)))).

Lemma dashboard_contacts_rows d : dashboard_contacts d = rows_desc (rows (booking_contacts d)).
Proof. reflexivity. Qed.

Lemma contact_tables_partition cs : confirmed_contacts cs ++ request_contacts cs ≡ₚ cs.
Proof.
  unfold confirmed_contacts, request_contacts.
  rewrite <- (filter_app_complement (fun c : Z * contact_row => ct_status c.2 = Confirmed) cs) at 3.
  f_equiv. apply reflexive_eq, list_filter_iff. intros [k c]. simpl. destruct (ct_status c); naive_solver.
Qed.

Lemma createContact_Done b d d' :
  createContact b d = (d', Done 201) ->
  exists n e ph day, truthy_str (cb_name b) = Some n /\ truthy_str (cb_email b) = Some e /\
    truthy_str (cb_phone b) = Some ph /\ cb_date b = DDate day /\
    d' = set_contacts (table_insert {| ct_name := n; ct_email := e; ct_phone := ph; ct_date := day;
                                        ct_status := Pending |} (booking_contacts d)).2 d.
Proof.
  unfold createContact, catch_500, sql_insert. run_m.
  destruct (truthy_str (cb_name b)) as [n|], (truthy_str (cb_email b)) as [e|],
    (truthy_str (cb_phone b)) as [ph|], (cb_date b) as [|day|] eqn:Hd; simpl; try discriminate.
  intros [= <-]. by exists n, e, ph, day.
Qed.

(** C28: the dashboard of every visitor shows every booking contact of
    the store: its two tables (confirmed; pending and cancelled) hold
    together exactly the rows of [booking_contacts], whoever sent them,
    since [GET /api/bookings/contacts/all] checks no token and the page
    filters only by status.  In particular the name, email and phone
    of a contact sent through the booking form of [Featured] appear in
    the "Booking Requests" table of every other user. *)
Theorem dashboard_shows_every_contact d b d' :
  confirmed_contacts (dashboard_contacts d) ++ request_contacts (dashboard_contacts d) ≡ₚ
    map_to_list (rows (booking_contacts d)) /\
  (createContact b d = (d', Done 201) ->
   exists k c, (k, c) ∈ request_contacts (dashboard_contacts d') /\
     truthy_str (cb_name b) = Some (ct_name c) /\ truthy_str (cb_email b) = Some (ct_email c) /\
     truthy_str (cb_phone b) = Some (ct_phone c)).
Proof.
  split.
  - rewrite contact_tables_partition, dashboard_contacts_rows. apply merge_sort_Permutation.
  - intros Hc. apply createContact_Done in Hc as (n & e & ph & day & Hn & He & Hp & _ & ->).
    exists (next_id (booking_contacts d)),
      {| ct_name := n; ct_email := e; ct_phone := ph; ct_date := day; ct_status := Pending |}.
    split; [|done].
    unfold request_contacts. apply list_elem_of_filter. split; [by left|].
    rewrite dashboard_contacts_rows. unfold rows_desc. rewrite merge_sort_Permutation. apply elem_of_map_to_list.
    simpl. apply lookup_insert_eq.
Qed.

(** ** Witnesses *)

Section witnesses.
Import Instances.

Definition short_subject_form : contact_fields :=
  {| fd_name := "Ann"; fd_email := "ann@example.com"; fd_subject := "Hi";
     fd_message := "Hello, is the Bali trip available in May?" |}%string.

Lemma contact_form_outcome_witness :
  validateForm short_subject_form = None /\
  contact_handleSubmit short_subject_form
    (apiRequest (respond (snd (postContact (contact_body_of short_subject_form) tt)))) =
    (ContactError "Subject must be at least 5 characters long", short_subject_form).
Proof.
  assert (Hv : validateForm short_subject_form = None) by (vm_compute; reflexivity).
  split; [exact Hv|].
  rewrite (proj2 (proj2 (contact_form_outcome short_subject_form tt) Hv)). vm_compute. reflexivity.
Defined.

Definition visitor_contact : contact_body :=
  {| cb_name := Some "Visitor"; cb_email := Some "visitor@example.com";
     cb_phone := Some "555-0100"; cb_date := DDate 20500 |}%string.

Lemma dashboard_shows_every_contact_witness :
  createContact visitor_contact seed_store = (fst (createContact visitor_contact seed_store), Done 201) /\
  exists k c, (k, c) ∈ request_contacts (dashboard_contacts (fst (createContact visitor_contact seed_store))) /\
    Some "Visitor"%string = Some (ct_name c) /\ Some "visitor@example.com"%string = Some (ct_email c) /\
    Some "555-0100"%string = Some (ct_phone c).
Proof.
  assert (Hc : createContact visitor_contact seed_store =
                 (fst (createContact visitor_contact seed_store), Done 201)) by reflexivity.
  split; [exact Hc|].
  exact (proj2 (dashboard_shows_every_contact seed_store visitor_contact _) Hc).
Defined.
End witnesses.
