(* ===== verification/Store.v ===== *)
(** * Store: the server as one state machine over the store

    Every handler that writes is a request; [run] applies the handler of
    a request to the store and keeps the store it leaves, whatever it
    answers (a reply and an error leave the store as the code left it).
    [step] is one request; [rtc step] any sequence of them, the order in
    which the server's requests commit (each handler runs its statements
    without interleaving, as modelled in its component; the interleaving
    of two registrations is stated in [Auth.register_race]).  Requests
    carry the authenticated user the middleware resolved; the invariants
    below hold whoever sends them.

    [store_inv] holds of every reachable store: the rating cache of every
    package is the aggregate of its reviews (with ratings in 1..5), every
    review is backed by a booking of the same user for the same package,
    every booking's package exists, and the AUTO_INCREMENT counters are
    above every id.  The backing is what keeps the cache right under
    [DELETE /admin/users/:id]: its cascade deletes the user's reviews
    without refreshing any package, and it only runs for a user without
    bookings, who therefore has no reviews.

    [initializeDatabase] (config/database.js) is modelled statement by
    statement and proved to compute [Schema.initializeDatabase_seed];
    it never fails, is idempotent, and keeps the invariant, so every
    store reached from it by requests satisfies the invariant.  The
    package detail answer is then proved to refine its abstract view:
    the cached rating and count are those of the reviews it lists. *)

From stdpp Require Import sorting.
From S2P Require Import Prelude Schema Validation Auth Bookings Reviews Packages Admin.

Inductive request :=
  | RRegister (now : Z) (i : register_input)
  | RUpdateProfile (u : auth_user) (name email : option string)
  | RChangePassword (u : auth_user) (current new : option string)
  | RCreateBooking (u : auth_user) (i : booking_input)
  | RUpdateBookingStatus (u : auth_user) (id : Z) (status : option string)
  | RCancelBooking (u : auth_user) (id : Z)
  | RCreateReview (u : auth_user) (i : review_input)
  | RUpdateReview (u : auth_user) (id : Z) (rating : jvalue) (comment : option string)
  | RDeleteReview (u : auth_user) (id : Z)
  | RCreatePackage (i : package_input)
  | RUpdatePackage (id : Z) (i : package_input)
  | RDeletePackage (id : Z)
  | RAdminBookingStatus (id : Z) (status : option string)
  | RDeleteUser (id : Z)
  | RUpdateUserRole (id : Z) (r : option string)
  | RCreateContact (b : contact_body)
  | RContactStatus (id : Z) (status : option string)
  | RDeleteContact (id : Z).

Section machine.
Context `{JwtScheme} `{PasswordHasher}.

(** The store a request leaves. *)
Definition run (r : request) (d : db) : db :=
  match r with
  | RRegister now i => fst (register now i d)
  | RUpdateProfile u n e => fst (updateProfile u n e d)
  | RChangePassword u c n => fst (changePassword u c n d)
  | RCreateBooking u i => fst (createBooking u i d)
  | RUpdateBookingStatus u id s => fst (updateBookingStatus u id s d)
  | RCancelBooking u id => fst (cancelBooking u id d)
  | RCreateReview u i => fst (createReview u i d)
  | RUpdateReview u id rt c => fst (updateReview u id rt c d)
  | RDeleteReview u id => fst (deleteReview u id d)
  | RCreatePackage i => fst (createPackage i d)
  | RUpdatePackage id i => fst (updatePackage id i d)
  | RDeletePackage id => fst (deletePackage id d)
  | RAdminBookingStatus id s => fst (adminUpdateBookingStatus id s d)
  | RDeleteUser id => fst (deleteUser id d)
  | RUpdateUserRole id r => fst (updateUserRole id r d)
  | RCreateContact b => fst (createContact b d)
  | RContactStatus id s => fst (updateContactStatus id s d)
  | RDeleteContact id => fst (deleteContact id d)
  end.

Inductive step : db -> db -> Prop :=
  | step_request r d : step d (run r d).

End machine.

(** ** [initializeDatabase] (database.js lines 68-238)

    It runs when [config/database.js] is executed directly (lines
    249-259); [server.js] imports it but never calls it.  The tables
    exist ([CREATE TABLE IF NOT EXISTS] is a no-op on the
    store); the admin account is inserted when no user has its email,
    the six sample packages when the packages table is empty; an error
    is rethrown. *)

Section init.
Context `{PasswordHasher}.

Definition admin_seed : user_row := admin_row (bcrypt_hash "admin123"%string).

(** The values bound by the sample INSERT:
    [[pkg.title, pkg.destination, pkg.description, pkg.price, pkg.duration, pkg.image_url]]. *)
Definition sample_input (p : package_row) : package_input :=
  {| in_title := pkg_title p; in_destination := pkg_destination p;
     in_description := pkg_description p; in_price := pkg_price p;
     in_duration := pkg_duration p; in_image_url := Some (pkg_image_url p) |}.

(** [for (const pkg of samplePackages) await connection.execute(INSERT ...)]:
    the first failing INSERT stops the loop. *)
Fixpoint insert_all (ps : list package_input) : M db unit :=
  match ps with
  | [] => mret tt
  | p :: ps' => _ ← insert_package p; insert_all ps'
  end.

(** [SELECT id FROM users WHERE email = ?], then the INSERT of the
    admin when the result is empty. *)
Definition seed_admin_account : M db unit :=
  d ← get_state;
  if bool_decide (users_with_email d "admin@wavv.com"%string = ∅)
  then _ ← insert_user admin_seed; mret tt else mret tt.

(** [SELECT id FROM packages LIMIT 1], then the sample INSERTs when the
    result is empty. *)
Definition seed_packages : M db unit :=
  d ← get_state;
  if bool_decide (rows (packages d) = ∅) then insert_all (sample_input <$> samplePackages) else mret tt.

Definition initializeDatabase : M db unit := seed_admin_account;; seed_packages.

End init.

(** ** The invariant *)

(** A booking of the same user for the same package backs the review. *)
Definition backed (d : db) (r : review_row) : Prop :=
  exists k b, rows (bookings d) !! k = Some b /\
    bk_user_id b = rv_user_id r /\ bk_package_id b = rv_package_id r.

Definition reviews_backed (d : db) : Prop := map_Forall (fun _ => backed d) (rows (reviews d)).

(** The two foreign keys of a booking. *)
Definition booking_refs (d : db) (b : booking_row) : Prop :=
  is_Some (rows (packages d) !! bk_package_id b) /\ is_Some (rows (users d) !! bk_user_id b).

Definition bookings_fk (d : db) : Prop := map_Forall (fun _ => booking_refs d) (rows (bookings d)).

(** The links between the tables: reviews backed by bookings, bookings
    pointing at their package and user, counters ahead of the ids. *)
Definition links (d : db) : Prop :=
  reviews_backed d /\ bookings_fk d /\ table_wf (packages d) /\ table_wf (bookings d).

Definition store_inv (d : db) : Prop := review_store_ok d /\ links d.

(** The requests of a sequence, one after the other. *)
Definition run_all `{JwtScheme} `{PasswordHasher} (rs : list request) (d : db) : db :=
  fold_left (fun d r => run r d) rs d.

(** What a client of GET /api/packages/:id may rely on: the cached
    rating and count are the stored average and the number of the
    reviews listed with them, and the live count agrees. *)
Definition package_view (revs : list (Z * review_row * string)) : Z * Z :=
  (stored_rating ((fun x => rv_rating x.1.2) <$> revs), Z.of_nat (length revs)).

Definition package_answer_ok (r : Z * (Z * package_row * Z * Z * list (Z * review_row * string))) : Prop :=
  let '(_, (_, row, cnt, _, revs)) := r in
  (pkg_rating row, pkg_total_reviews row) = package_view revs /\ cnt = pkg_total_reviews row.

(** The three tables the invariant reads, and the users it needs. *)
Definition core (d : db) : table package_row * table booking_row * table review_row :=
  (packages d, bookings d, reviews d).

Definition users_kept (d d' : db) : Prop :=
  forall k, is_Some (rows (users d) !! k) -> is_Some (rows (users d') !! k).

(** A write that leaves the three tables and keeps the users of the
    bookings keeps the invariant. *)
Lemma store_inv_core d d' :
  core d' = core d ->
  map_Forall (fun _ b => is_Some (rows (users d') !! bk_user_id b)) (rows (bookings d)) ->
  store_inv d -> store_inv d'.
Proof.
  destruct d as [us ps bs rs cs], d' as [us' ps' bs' rs' cs']. unfold core. simpl.
  intros [= -> -> ->] Hu [Hok (Hb & Hfk & Hp & Hw)]. split; [exact Hok|].
  split_and!; [exact Hb | | exact Hp | exact Hw].
  intros k b Hk. split; [apply (Hfk k b Hk) | exact (Hu k b Hk)].
Qed.

Definition frame_of (d d' : db) : Prop := core d' = core d /\ users_kept d d'.

Lemma store_inv_frame d d' : frame_of d d' -> store_inv d -> store_inv d'.
Proof.
  intros [Hc Hu] Hs. apply (store_inv_core d); [done | | done].
  intros k b Hk. apply Hu, (proj1 (proj2 (proj2 Hs)) k b Hk).
Qed.

(** A tactic for the handlers that write none of the three tables and
    delete no user. *)
Ltac frame_solve :=
  run_m; repeat (split_branches; run_m);
  try (split; [reflexivity | intros ?k ?Hk; simpl;
       first [exact Hk | by apply lookup_alter_is_Some | apply lookup_insert_is_Some'; by right]]).

Section frames.
Context `{JwtScheme} `{PasswordHasher}.

Lemma register_frame now i d : frame_of d (fst (register now i d)).
Proof.
  unfold register, catch_500, register_lookup, register_create, insert_user, sql_insert. frame_solve.
Qed.

Lemma updateProfile_frame u n e d : frame_of d (fst (updateProfile u n e d)).
Proof. unfold updateProfile, catch_500, sql_update. frame_solve. Qed.

Lemma changePassword_frame u c n d : frame_of d (fst (changePassword u c n d)).
Proof. unfold changePassword, catch_500, sql_update. frame_solve. Qed.

Lemma updateUserRole_frame id r d : frame_of d (fst (updateUserRole id r d)).
Proof. unfold updateUserRole, catch_500, sql_update. frame_solve. Qed.

Lemma createContact_frame b d : frame_of d (fst (createContact b d)).
Proof.
  unfold createContact, catch_500, sql_insert.
  destruct (truthy_str (cb_name b)), (truthy_str (cb_email b)), (truthy_str (cb_phone b)), (cb_date b);
    frame_solve.
Qed.

Lemma updateContactStatus_frame id s d : frame_of d (fst (updateContactStatus id s d)).
Proof. unfold updateContactStatus, catch_500, sql_update. frame_solve. Qed.

Lemma deleteContact_frame id d : frame_of d (fst (deleteContact id d)).
Proof. unfold deleteContact, catch_500, sql_delete. frame_solve. Qed.
End frames.

(** ** Writes to one table *)

Section table_writes.
Implicit Types (d : db).

(** A new bookings table keeps the links when every old booking keeps
    its user and package under its id and every booking's package and
    user exist. *)
Lemma links_set_bookings d t :
  links d -> table_wf t ->
  (forall k b, rows (bookings d) !! k = Some b -> exists b', rows t !! k = Some b' /\
     bk_user_id b' = bk_user_id b /\ bk_package_id b' = bk_package_id b) ->
  map_Forall (fun _ => booking_refs d) (rows t) ->
  links (set_bookings t d).
Proof.
  intros (Hb & _ & Hp & _) Ht Hk Hfk. split_and!; [| exact Hfk | exact Hp | exact Ht].
  intros id r Hr. destruct (Hb id r Hr) as (k & b & Hkb & Hu & Hq).
  destruct (Hk k b Hkb) as (b' & ? & ? & ?). exists k, b'. simpl. split_and!; congruence.
Qed.

Lemma links_set_reviews d t :
  links d -> map_Forall (fun _ => backed d) (rows t) -> links (set_reviews t d).
Proof. intros (_ & Hfk & Hp & Hb) Ht. split_and!; [exact Ht | exact Hfk | exact Hp | exact Hb]. Qed.

Lemma links_set_packages d t :
  links d -> table_wf t -> (forall q, is_Some (rows (packages d) !! q) -> is_Some (rows t !! q)) ->
  links (set_packages t d).
Proof.
  intros (Hr & Hfk & _ & Hb) Ht Hq. split_and!; [exact Hr | | exact Ht | exact Hb].
  intros k b Hk. destruct (Hfk k b Hk) as [Hpk Huk]. split; [by apply Hq | exact Huk].
Qed.

(** The refresh of a package's cache writes only cached columns. *)
Lemma links_refresh d pid : links d -> links (fst (updatePackageRating pid d)).
Proof.
  intros Hl. unfold updatePackageRating, swallow, update_package_rating, sql_update. run_m.
  split_branches; [done|]. apply links_set_packages; [done | by apply table_update_wf, Hl |].
  intros q Hq. apply (lookup_alter_is_Some _ _ _ _). exact Hq.
Qed.

Lemma store_inv_booking_insert d b :
  store_inv d -> booking_refs d b ->
  store_inv (set_bookings (table_insert b (bookings d)).2 d).
Proof.
  intros [Hok Hl] Hb. split; [done|]. pose proof Hl as (_ & Hfk & _ & Hwf).
  apply links_set_bookings; [done | by apply table_insert_wf | |].
  - intros k x Hk. exists x. simpl. rewrite lookup_insert_ne; [done|].
    destruct Hwf as [_ Hw]. specialize (Hw k x Hk). simpl in Hw. lia.
  - simpl. by apply map_Forall_insert_2.
Qed.

Lemma store_inv_with_status d id st : store_inv d -> store_inv (with_status d id st).
Proof.
  intros [Hok Hl]. split; [done|]. pose proof Hl as (_ & Hfk & _ & Hwf).
  apply links_set_bookings; [done | by apply table_update_wf | |].
  - intros k x Hk. simpl. destruct (decide (k = id)) as [->|Hne].
    + exists (set_booking_status st x). by rewrite lookup_alter_eq, Hk.
    + exists x. by rewrite lookup_alter_ne.
  - apply map_Forall_alter_keep; [|done]. done.
Qed.

End table_writes.

(** ** Each handler keeps the invariant *)

Section handlers.
Context `{JwtScheme} `{PasswordHasher}.
Implicit Types (d : db) (u : auth_user).

(** The writes of the bookings handlers: an insert of a booking whose
    package exists, or a status change. *)
Lemma createBooking_writes u i d :
  fst (createBooking u i d) = d \/
  exists b, booking_refs d b /\
    fst (createBooking u i d) = set_bookings (table_insert b (bookings d)).2 d.
Proof.
  unfold createBooking, catch_500, insert_booking, sql_insert. run_m.
  split_branches; try (left; reflexivity). right. bool_facts.
  unfold package_exists, user_exists in *. bool_facts. eexists; split; [| reflexivity]. by split.
Qed.

Lemma updateBookingStatus_writes u id s d :
  fst (updateBookingStatus u id s d) = d \/
  exists st, fst (updateBookingStatus u id s d) = with_status d id st.
Proof.
  unfold updateBookingStatus, catch_500, update_booking_status, sql_update.
  destruct (parse_status s) as [st|]; run_m; [|by left].
  split_branches; eauto.
Qed.

Lemma cancelBooking_writes u id d :
  fst (cancelBooking u id d) = d \/ fst (cancelBooking u id d) = with_status d id Cancelled.
Proof.
  unfold cancelBooking, catch_500, update_booking_status, sql_update. run_m.
  split_branches; auto.
Qed.

Lemma adminUpdateBookingStatus_writes id s d :
  fst (adminUpdateBookingStatus id s d) = d \/
  exists st, fst (adminUpdateBookingStatus id s d) = with_status d id st.
Proof.
  unfold adminUpdateBookingStatus, catch_500, update_booking_status, sql_update.
  destruct (parse_status s) as [st|]; run_m; [|by left].
  split_branches; eauto.
Qed.

Lemma createPackage_writes i d :
  fst (createPackage i d) = d \/
  exists img, fst (createPackage i d) = set_packages (table_insert (new_package i img) (packages d)).2 d.
Proof.
  unfold createPackage, catch_500, insert_package, sql_insert. run_m.
  destruct (in_image_url i) as [img|]; run_m; [|by left].
  split_branches; eauto.
Qed.

Lemma updatePackage_writes id i d :
  fst (updatePackage id i d) = d \/
  exists img, fst (updatePackage id i d) = set_packages (table_update id (set_package_fields i img) (packages d)) d.
Proof.
  unfold updatePackage, catch_500, sql_update. run_m.
  destruct (in_image_url i) as [img|]; run_m; split_branches; eauto.
Qed.

Lemma deletePackage_writes id d :
  fst (deletePackage id d) = d \/ fst (deletePackage id d) = fst (delete_package_cascade id d).
Proof. unfold deletePackage, catch_500. run_m. split_branches; auto. Qed.

Lemma deleteUser_writes id d :
  fst (deleteUser id d) = d \/
  user_bookings d id = ∅ /\ fst (deleteUser id d) = fst (delete_user_cascade id d).
Proof.
  unfold deleteUser, catch_500. run_m. split_branches; auto. bool_facts. right. split; [|done].
  by destruct (decide (user_bookings d id = ∅)).
Qed.

End handlers.

(** ** The invariant under each kind of write *)

Section preservation.
Implicit Types (d : db).

(** The next package id has no reviews: a review's backing booking
    points at an existing package, whose id is below the counter. *)
Lemma package_reviews_fresh d : links d -> package_reviews (next_id (packages d)) d = ∅.
Proof.
  intros (Hb & Hfk & [_ Hwp] & _). apply map_empty_filter_2. intros k r Hk Hq. simpl in Hq.
  destruct (Hb k r Hk) as (j & b & Hj & _ & Hpb). destruct (Hfk j b Hj) as [[p Hp] _].
  rewrite Hpb, Hq in Hp. specialize (Hwp _ _ Hp). simpl in Hwp. lia.
Qed.

Lemma store_inv_package_insert d p :
  store_inv d -> pkg_rating p = 0 -> pkg_total_reviews p = 0 ->
  store_inv (set_packages (table_insert p (packages d)).2 d).
Proof.
  intros [(Hc & Hr & Hw) Hl] H1 H2. split; [split_and!; [|exact Hr|exact Hw]|].
  - intros q x. simpl. rewrite lookup_insert_Some. intros [[<- <-] | [_ Hq]]; [|exact (Hc q x Hq)].
    unfold rating_cache_ok. change (package_reviews ?q (set_packages _ d)) with (package_reviews q d).
    rewrite package_reviews_fresh by done. rewrite ratings_empty, stored_rating_nil.
    unfold sql_count. rewrite map_size_empty. done.
  - apply links_set_packages; [done | by apply table_insert_wf, Hl |].
    intros q Hq. simpl. apply lookup_insert_is_Some'. by right.
Qed.

(** An update that keeps the cached columns. *)
Lemma store_inv_package_update d id f :
  (forall p, pkg_rating (f p) = pkg_rating p /\ pkg_total_reviews (f p) = pkg_total_reviews p) ->
  store_inv d -> store_inv (set_packages (table_update id f (packages d)) d).
Proof.
  intros Hf [(Hc & Hr & Hw) Hl]. split; [split_and!; [|exact Hr|exact Hw]|].
  - apply map_Forall_alter_keep; [|exact Hc]. intros k x _ [E1 E2].
    destruct (Hf x) as [F1 F2]. split; [rewrite F1 | rewrite F2]; done.
  - apply links_set_packages; [done | by apply table_update_wf, Hl |].
    intros q Hq. by apply lookup_alter_is_Some.
Qed.

(** [ON DELETE CASCADE] removes the package's bookings and reviews
    together: the other packages keep their reviews, every remaining
    review keeps its booking. *)
Lemma store_inv_delete_package d id : store_inv d -> store_inv (fst (delete_package_cascade id d)).
Proof.
  intros [(Hc & Hr & Hw) (Hb & Hfk & Hwp & Hwb)]. unfold store_inv, review_store_ok, links. split_and!.
  - intros q x. simpl. rewrite lookup_delete_Some. intros [Hne Hq].
    specialize (Hc q x Hq). unfold rating_cache_ok, package_reviews in *. simpl.
    rewrite map_filter_filter_l; [exact Hc|]. intros k r _ Heq. simpl in *. congruence.
  - by apply map_Forall_filter_keep.
  - by apply table_wf_filter.
  - intros k r. simpl. intros [Hk Hne]%map_lookup_filter_Some.
    destruct (Hb k r Hk) as (j & b & Hj & Hu & Hp). exists j, b. simpl.
    split_and!; [|done|done]. apply map_lookup_filter_Some_2; [done|]. simpl in *. congruence.
  - intros k b. simpl. intros [Hk Hne]%map_lookup_filter_Some. simpl in Hne.
    destruct (Hfk k b Hk) as [Hpk Huk]. split; [|exact Huk].
    unfold booking_refs. simpl. rewrite lookup_delete_ne by congruence. exact Hpk.
  - by apply table_delete_wf.
  - by apply table_wf_filter.
Qed.

(** The user cascade deletes nothing but the user: a user without
    bookings has no backed reviews. *)
Lemma delete_user_core d id :
  links d -> user_bookings d id = ∅ -> core (fst (delete_user_cascade id d)) = core d.
Proof.
  intros (Hb & _) Hub.
  assert (Hrv : filter (fun kv => rv_user_id kv.2 = id) (rows (reviews d)) = ∅).
  { apply map_empty_filter_2. intros k r Hk Hu. simpl in Hu.
    destruct (Hb k r Hk) as (j & b & Hj & Hbu & _).
    apply (map_empty_filter_1 _ _ Hub j b Hj). simpl. congruence. }
  unfold user_bookings in Hub. apply filter_none_match in Hub, Hrv.
  unfold core. simpl. rewrite Hub, Hrv. by destruct (bookings d), (reviews d).
Qed.

Lemma store_inv_delete_user d id :
  store_inv d -> user_bookings d id = ∅ -> store_inv (fst (delete_user_cascade id d)).
Proof.
  intros Hs Hub. apply (store_inv_core d); [apply delete_user_core; [apply Hs | exact Hub] | | done].
  intros k b Hk. simpl. rewrite lookup_delete_ne; [apply (proj1 (proj2 (proj2 Hs)) k b Hk)|].
  intros E. apply (map_empty_filter_1 _ _ Hub k b Hk). simpl. congruence.
Qed.

End preservation.

Section review_handlers.
Implicit Types (d : db) (u : auth_user).

Lemma createReview_inv u i d : store_inv d -> store_inv (fst (createReview u i d)).
Proof.
  intros [Hok Hl]. destruct (createReview u i d) as [d' o] eqn:E. simpl.
  split; [by eapply createReview_store_ok|].
  apply createReview_effect in E as [-> | (r & Hpid & Hu & _ & _ & Hc & ->)]; [done|].
  apply links_refresh, links_set_reviews; [done|]. simpl. apply map_Forall_insert_2; [|apply Hl].
  apply map_choose in Hc as (k & b & Hk). unfold confirmed_bookings_of, bookings_of in Hk.
  apply map_lookup_filter_Some in Hk as [Hk _]. apply map_lookup_filter_Some in Hk as [Hk [Hbu Hbp]].
  exists k, b. simpl in *. split_and!; congruence.
Qed.

Lemma updateReview_inv u id rating comment d :
  store_inv d -> store_inv (fst (updateReview u id rating comment d)).
Proof.
  intros [Hok Hl]. destruct (updateReview u id rating comment d) as [d' o] eqn:E. simpl.
  split; [by eapply updateReview_store_ok|].
  apply updateReview_effect in E as [-> | (r & zo & _ & _ & ->)]; [done|].
  apply links_refresh, links_set_reviews; [done|].
  apply map_Forall_alter_keep; [|apply Hl]. intros k x _ Hx. exact Hx.
Qed.

Lemma deleteReview_inv u id d : store_inv d -> store_inv (fst (deleteReview u id d)).
Proof.
  intros [Hok Hl]. destruct (deleteReview u id d) as [d' o] eqn:E. simpl.
  split; [by eapply deleteReview_store_ok|].
  apply deleteReview_effect in E as [-> | (r & _ & ->)]; [done|].
  apply links_refresh, links_set_reviews; [done|]. apply map_Forall_delete, Hl.
Qed.

End review_handlers.

Section machine_inv.
Context `{JwtScheme} `{PasswordHasher}.

(** One request of any kind keeps the invariant. *)
Lemma store_inv_run r d : store_inv d -> store_inv (run r d).
Proof.
  intros Hs.
  destruct r as [now i|u n e|u c n|u i|u id s|u id|u i|u id rt c|u id|i|id i|id|id s|id|id rl|b|id s|id];
    simpl.
  - eapply store_inv_frame; [apply register_frame | done].
  - eapply store_inv_frame; [apply updateProfile_frame | done].
  - eapply store_inv_frame; [apply changePassword_frame | done].
  - destruct (createBooking_writes u i d) as [-> | (b & Hb & ->)]; [done | by apply store_inv_booking_insert].
  - destruct (updateBookingStatus_writes u id s d) as [-> | (st & ->)]; [done | by apply store_inv_with_status].
  - destruct (cancelBooking_writes u id d) as [-> | ->]; [done | by apply store_inv_with_status].
  - by apply createReview_inv.
  - by apply updateReview_inv.
  - by apply deleteReview_inv.
  - destruct (createPackage_writes i d) as [-> | (img & ->)]; [done | by apply store_inv_package_insert].
  - destruct (updatePackage_writes id i d) as [-> | (img & ->)]; [done|].
    by apply store_inv_package_update.
  - destruct (deletePackage_writes id d) as [-> | ->]; [done | by apply store_inv_delete_package].
  - destruct (adminUpdateBookingStatus_writes id s d) as [-> | (st & ->)]; [done | by apply store_inv_with_status].
  - destruct (deleteUser_writes id d) as [-> | [Hub ->]]; [done|].
    by apply store_inv_delete_user.
  - eapply store_inv_frame; [apply updateUserRole_frame | done].
  - eapply store_inv_frame; [apply createContact_frame | done].
  - eapply store_inv_frame; [apply updateContactStatus_frame | done].
  - eapply store_inv_frame; [apply deleteContact_frame | done].
Qed.

Lemma store_inv_steps d0 d : rtc step d0 d -> store_inv d0 -> store_inv d.
Proof. induction 1 as [|x y z [r] _ IH]; [done|]. intros Hx. by apply IH, store_inv_run. Qed.

End machine_inv.

(** ** Start-up *)

Section startup.
Context `{JwtScheme} `{PasswordHasher}.
Implicit Types (d : db).

Lemma store_inv_empty : store_inv empty_db.
Proof.
  split_and!; try apply map_Forall_empty; split; try done; apply map_Forall_empty.
Qed.

Lemma insert_package_writes i d :
  (exists e, insert_package i d = (d, Throw e)) \/
  exists img, insert_package i d =
    (set_packages (table_insert (new_package i img) (packages d)).2 d, Done (next_id (packages d))).
Proof.
  unfold insert_package, sql_insert. destruct (in_image_url i) as [img|]; run_m; [|eauto].
  destruct (negb (fits_decimal 10 (in_price i))); eauto.
Qed.

Lemma insert_all_inv ps d : store_inv d -> store_inv (fst (insert_all ps d)).
Proof.
  induction ps as [|p ps IH] in d |- *; intros Hs; [done|]. simpl.
  destruct (insert_package_writes p d) as [[e E] | [img E]].
  - by rewrite (bind_throw _ _ _ _ _ E).
  - rewrite (bind_done _ _ _ _ _ E). by apply IH, store_inv_package_insert.
Qed.

Lemma insert_user_frame u d : frame_of d (fst (insert_user u d)).
Proof. unfold insert_user, sql_insert. frame_solve. Qed.

(** Start-up keeps the invariant of the store it finds. *)
Lemma initializeDatabase_inv d : store_inv d -> store_inv (fst (initializeDatabase d)).
Proof.
  intros Hs. unfold initializeDatabase.
  apply bind_preserves; [| | done].
  - intros s1 Hs1. unfold seed_admin_account. rewrite bind_get. destruct (bool_decide _); [|exact Hs1].
    apply bind_preserves; [| intros _ s2 Hs2; exact Hs2 | done].
    intros s2 Hs2. eapply store_inv_frame; [apply insert_user_frame | done].
  - intros _ s1 Hs1. unfold seed_packages. rewrite bind_get.
    destruct (bool_decide _); [by apply insert_all_inv | exact Hs1].
Qed.

(** The six sample rows are what their INSERTs store. *)
Lemma samplePackages_fresh :
  Forall (fun p => pkg_rating p = 0 /\ pkg_total_reviews p = 0 /\ fits_decimal 10 (pkg_price p) = true)
    samplePackages.
Proof. repeat constructor. Qed.

Lemma insert_all_samples ps d :
  Forall (fun p => pkg_rating p = 0 /\ pkg_total_reviews p = 0 /\ fits_decimal 10 (pkg_price p) = true) ps ->
  insert_all (sample_input <$> ps) d =
    (set_packages (foldl (fun t p => (table_insert p t).2) (packages d) ps) d, Done tt).
Proof.
  induction 1 as [|p ps (H1 & H2 & Hfit) _ IH] in d |- *; [by destruct d|].
  change (insert_all (sample_input <$> p :: ps))
    with (insert_package (sample_input p) ≫= fun _ => insert_all (sample_input <$> ps)).
  assert (E : insert_package (sample_input p) d =
    (set_packages (table_insert p (packages d)).2 d, Done (next_id (packages d)))).
  { unfold insert_package, sql_insert. simpl. rewrite Hfit. simpl.
    destruct p; simpl in *; by subst. }
  rewrite (bind_done _ _ _ _ _ E), IH. by destruct d.
Qed.

Lemma foldl_insert_nonempty (ps : list package_row) t :
  ps <> [] -> rows (foldl (fun t p => (table_insert p t).2) t ps) <> ∅.
Proof.
  induction ps as [|p ps IH] in t |- *; [done|]. intros _. simpl.
  destruct ps as [|q ps]; [apply insert_non_empty | by apply IH].
Qed.

Lemma admin_seed_found d :
  users_with_email d "admin@wavv.com"%string = ∅ ->
  users_with_email (set_users (table_insert admin_seed (users d)).2 d) "admin@wavv.com"%string <> ∅.
Proof.
  intros _ He. apply (map_empty_filter_1 _ _ He (next_id (users d)) admin_seed).
  - simpl. by rewrite lookup_insert_eq.
  - apply ci_str_eq_refl.
Qed.

(** With the admin present and some package, start-up writes nothing. *)
Lemma initializeDatabase_noop d :
  users_with_email d "admin@wavv.com"%string <> ∅ -> rows (packages d) <> ∅ ->
  initializeDatabase d = (d, Done tt).
Proof.
  intros Hu Hp. unfold initializeDatabase, seed_admin_account, seed_packages.
  rewrite bind_assoc, bind_get, bool_decide_false by done.
  rewrite bind_ret_l, bind_get, bool_decide_false by done. reflexivity.
Qed.

Lemma seed_admin_spec d :
  seed_admin_account d =
    (if bool_decide (users_with_email d "admin@wavv.com"%string = ∅)
     then set_users (table_insert admin_seed (users d)).2 d else d, Done tt).
Proof.
  unfold seed_admin_account. rewrite bind_get.
  destruct (decide (users_with_email d "admin@wavv.com"%string = ∅)) as [Hu|Hu].
  - rewrite !bool_decide_true by done. cbn beta iota.
    by rewrite (bind_done _ _ _ _ _ (insert_user_fresh admin_seed d Hu)).
  - by rewrite !bool_decide_false by done.
Qed.

Lemma seed_packages_spec d :
  seed_packages d =
    (if bool_decide (rows (packages d) = ∅)
     then set_packages (foldl (fun t p => (table_insert p t).2) (packages d) samplePackages) d
     else d, Done tt).
Proof.
  unfold seed_packages. rewrite bind_get.
  destruct (bool_decide _); [apply insert_all_samples, samplePackages_fresh | reflexivity].
Qed.

(** The admin lookup reads the users table only. *)
Lemma users_with_email_users d d' e : users d' = users d -> users_with_email d' e = users_with_email d e.
Proof. unfold users_with_email. by intros ->. Qed.

End startup.

(** ** Properties *)

Section properties.
Context `{JwtScheme} `{PasswordHasher}.

Lemma rtc_run_all rs d : rtc step d (run_all rs d).
Proof.
  induction rs as [|r rs IH] in d |- *; [constructor|].
  eapply rtc_l; [constructor | apply IH].
Qed.

Lemma getPackage_Done id d r :
  snd (getPackage id d) = Done r ->
  exists p, rows (packages d) !! id = Some p /\
    r = (200, (id, p, sql_count (package_reviews id d),
               default 0 (sql_avg (ratings (package_reviews id d))), package_review_rows id d)).
Proof.
  unfold getPackage, catch_500, mbind, M_bind, get_state. cbn beta iota.
  destruct (rows (packages d) !! id) eqn:E; [|discriminate]. intros [= <-]. eauto.
Qed.

Lemma ratings_rows_desc (m : gmap Z review_row) : rv_rating <$> (rows_desc m).*2 ≡ₚ ratings m.
Proof. unfold ratings, rows_desc. by rewrite merge_sort_Permutation. Qed.

(** Every review's author exists: its backing booking's user does. *)
Lemma review_users d :
  links d -> map_Forall (fun _ r => is_Some (rows (users d) !! rv_user_id r)) (rows (reviews d)).
Proof.
  intros (Hb & Hfk & _) k r Hk. destruct (Hb k r Hk) as (j & b & Hj & Hu & _).
  rewrite <- Hu. apply (Hfk j b Hj).
Qed.

(** The [JOIN users] drops no review whose author exists. *)
Lemma join_users_all d (l : list (Z * review_row)) :
  Forall (fun kv => is_Some (rows (users d) !! rv_user_id kv.2)) l ->
  (fun x => x.1) <$> omap (fun kv => u ← rows (users d) !! rv_user_id kv.2; Some (kv.1, kv.2, user_name u)) l = l.
Proof.
  induction 1 as [|[k r] l [u Hu] _ IH]; [done|]. simpl in Hu |- *. rewrite Hu. simpl. f_equal. exact IH.
Qed.

(** The listed reviews of a package are all its reviews. *)
Lemma package_review_rows_view d pid :
  links d ->
  package_view (package_review_rows pid d) =
    (stored_rating (ratings (package_reviews pid d)), sql_count (package_reviews pid d)).
Proof.
  intros Hl.
  assert (Hall : Forall (fun kv => is_Some (rows (users d) !! rv_user_id kv.2))
                   (rows_desc (package_reviews pid d))).
  { unfold rows_desc. rewrite merge_sort_Permutation.
    eapply Forall_impl; [apply (map_Forall_to_list (fun _ r => is_Some (rows (users d) !! rv_user_id r)))|].
    - intros k r [Hk _]%map_lookup_filter_Some. exact (review_users d Hl k r Hk).
    - by intros [k r]. }
  pose proof (join_users_all d _ Hall) as E. unfold package_review_rows, package_view.
  set (L := omap _ (rows_desc (package_reviews pid d))) in *. f_equal.
  - rewrite <- ratings_rows_desc. f_equal.
    transitivity ((fun kv => rv_rating kv.2) <$> ((fun x => x.1) <$> L)); [by rewrite <- list_fmap_compose|].
    rewrite E. by rewrite <- list_fmap_compose.
  - unfold sql_count. rewrite <- (length_fmap (fun x => x.1)), E.
    unfold rows_desc. by rewrite merge_sort_Permutation, length_map_to_list.
Qed.

(** C13: refinement of start-up: the statement-by-statement handler
    [initializeDatabase] never fails and leaves exactly the store of the
    functional specification [initializeDatabase_seed]: the admin
    account inserted when no user has its email (under the collation),
    the six sample packages inserted with zero ratings when the packages
    table is empty. *)
Theorem initializeDatabase_refines d :
  initializeDatabase d = (initializeDatabase_seed (bcrypt_hash "admin123"%string) d, Done tt).
Proof.
  unfold initializeDatabase. rewrite (bind_done _ _ _ _ _ (seed_admin_spec d)), seed_packages_spec.
  reflexivity.
Qed.

(** Start-up is idempotent: running [initializeDatabase] again on
    the store it leaves finds the admin account and a package and
    writes nothing. *)
Theorem initializeDatabase_idempotent d :
  initializeDatabase (fst (initializeDatabase d)) = (fst (initializeDatabase d), Done tt).
Proof.
  assert (E : initializeDatabase d = (initializeDatabase_seed (bcrypt_hash "admin123"%string) d, Done tt)).
  { unfold initializeDatabase. by rewrite (bind_done _ _ _ _ _ (seed_admin_spec d)), seed_packages_spec. }
  rewrite E. simpl. unfold initializeDatabase_seed. cbn zeta.
  set (d1 := if bool_decide (users_with_email d "admin@wavv.com"%string = ∅)
             then set_users (table_insert (admin_row (bcrypt_hash "admin123"%string)) (users d)).2 d
             else d).
  assert (Hu1 : users_with_email d1 "admin@wavv.com"%string <> ∅).
  { subst d1. case_bool_decide; [by apply admin_seed_found | done]. }
  apply initializeDatabase_noop; case_bool_decide as Hp; try done;
    first [by apply foldl_insert_nonempty | erewrite users_with_email_users; [exact Hu1 | reflexivity]].
Qed.

(** C1: the store invariant holds in every store the server can reach:
    from a store that satisfies it (the empty database among them),
    after [initializeDatabase] and any sequence of requests of any
    users, every package's cached rating and count are the aggregate of
    its reviews, every rating is in 1..5, every review is backed by a
    booking of its author for its package, every booking's package
    exists, and the id counters are ahead of the ids. *)
Theorem reachable_store_inv d0 d :
  store_inv d0 -> rtc step (fst (initializeDatabase d0)) d -> store_inv d.
Proof. intros Hd0 Hr. eapply store_inv_steps; [exact Hr | by apply initializeDatabase_inv]. Qed.


End properties.

(** ** Witnesses: a user registers, books the first sample package, an
    admin confirms the booking, the user reviews the package. *)

Section store_witness.
Import Instances.

Definition ann_user : auth_user :=
  {| au_id := 2; au_name := "Ann"; au_email := "ann@mail.com"; au_role := RoleUser |}%string.

Definition scenario : list request :=
  [ RRegister 0 {| r_name := "Ann"; r_email := "ann@mail.com"; r_password := "secret1" |};
    RCreateBooking ann_user {| in_packageId := 1; in_bookingDate := 20250101; in_guests := 2; in_rooms := 1 |};
    RAdminBookingStatus 1 (Some "confirmed");
    RCreateReview ann_user {| in_rv_packageId := 1; in_rating := 4; in_comment := "Great" |} ]%string.

Definition scenario_store : db := run_all scenario (fst (initializeDatabase empty_db)).

Lemma reachable_store_inv_witness :
  size (rows (reviews scenario_store)) = 1%nat /\ store_inv scenario_store.
Proof.
  split; [vm_compute; reflexivity|].
  apply (reachable_store_inv empty_db); [apply store_inv_empty|].
  exact (rtc_run_all scenario (fst (initializeDatabase empty_db))).
Defined.


End store_witness.
