(* ===== verification/Columns.v ===== *)
(** * Columns: every stored value lies in its column's SQL type

    The DDL of [config/database.js] declares [packages.price] and
    [bookings.total_amount] as DECIMAL(10,2), [packages.rating] as
    DECIMAL(3,2), and a CHECK of 1..5 on [reviews.rating].  MySQL in
    strict mode refuses a value that does not fit; the model's
    statements throw [ER_WARN_DATA_OUT_OF_RANGE] then.  The theorem of
    this file is the type invariant of the store: in every store
    reached from start-up by any requests, every value of these
    columns lies in its type (prices and totals within ±99,999,999.99,
    cached ratings within 0.00..5.00, review ratings within 1..5, the
    review counts non-negative).  The DECIMAL(10,2) columns are kept by
    one preservation lemma per kind of write ([decimal_columns_run]);
    the rating columns follow from the store invariant of [Store]. *)

From stdpp Require Import sorting.
From S2P Require Import Prelude Schema Validation Auth Bookings Reviews Packages Admin Store.

(** The two DECIMAL(10,2) columns. *)
Definition decimal_columns (d : db) : Prop :=
  map_Forall (fun _ p => fits_decimal 10 (pkg_price p) = true) (rows (packages d)) /\
  map_Forall (fun _ b => fits_decimal 10 (bk_total_amount b) = true) (rows (bookings d)).

(** Every column with a declared domain, in its domain. *)
Definition column_types (d : db) : Prop :=
  map_Forall (fun _ p => fits_decimal 10 (pkg_price p) = true /\ fits_decimal 3 (pkg_rating p) = true /\
                         0 <= pkg_total_reviews p) (rows (packages d)) /\
  map_Forall (fun _ b => fits_decimal 10 (bk_total_amount b) = true) (rows (bookings d)) /\
  map_Forall (fun _ r => 1 <= rv_rating r <= 5) (rows (reviews d)).

(** ** The writes *)

Lemma decimal_columns_same d d' :
  packages d' = packages d -> bookings d' = bookings d -> decimal_columns d -> decimal_columns d'.
Proof. unfold decimal_columns. intros Hp Hb. by rewrite Hp, Hb. Qed.

Lemma decimal_columns_frame d d' : frame_of d d' -> decimal_columns d -> decimal_columns d'.
Proof.
  intros [Hc _]. unfold core in Hc. injection Hc as Hp Hb _. by apply decimal_columns_same.
Qed.

Lemma decimal_columns_refresh pid d : decimal_columns d -> decimal_columns (fst (updatePackageRating pid d)).
Proof.
  unfold updatePackageRating, swallow, update_package_rating, sql_update. run_m.
  intros [Hp Hb]. split_branches; split; try done. simpl.
  apply map_Forall_alter_keep; [|done]. intros k p _ Hk. exact Hk.
Qed.

Lemma decimal_columns_with_status d k st : decimal_columns d -> decimal_columns (with_status d k st).
Proof.
  intros [Hp Hb]. split; [done|]. simpl. apply map_Forall_alter_keep; [|done]. intros ? ? _ H'. exact H'.
Qed.

Lemma decimal_columns_insert_booking d b :
  fits_decimal 10 (bk_total_amount b) = true -> decimal_columns d ->
  decimal_columns (set_bookings (table_insert b (bookings d)).2 d).
Proof. intros Hf [Hp Hb]. split; [done|]. by apply map_Forall_insert_2. Qed.

Lemma decimal_columns_insert_package d p :
  fits_decimal 10 (pkg_price p) = true -> decimal_columns d ->
  decimal_columns (set_packages (table_insert p (packages d)).2 d).
Proof. intros Hf [Hp Hb]. split; [|done]. by apply map_Forall_insert_2. Qed.

(** The handlers that add or change a DECIMAL(10,2) value go through a
    statement that checks it. *)
Section handlers.
Context `{JwtScheme} `{PasswordHasher}.

Lemma createBooking_columns u i d : decimal_columns d -> decimal_columns (fst (createBooking u i d)).
Proof.
  unfold createBooking, catch_500, insert_booking, sql_insert. run_m. intros Hd.
  split_branches; try exact Hd. bool_facts. apply decimal_columns_insert_booking; [|done].
  assumption.
Qed.

Lemma insert_package_columns i d : decimal_columns d -> decimal_columns (fst (insert_package i d)).
Proof.
  unfold insert_package, sql_insert. intros Hd. destruct (in_image_url i) as [img|]; run_m; [|done].
  destruct (fits_decimal 10 (in_price i)) eqn:E; simpl; [|done].
  by apply decimal_columns_insert_package.
Qed.

Lemma createPackage_columns i d : decimal_columns d -> decimal_columns (fst (createPackage i d)).
Proof.
  intros Hd. unfold createPackage, catch_500.
  pose proof (insert_package_columns i d Hd). destruct (insert_package i d) as [d1 [] ] eqn:E;
    run_m; rewrite ?E; done.
Qed.

Lemma updatePackage_columns id i d : decimal_columns d -> decimal_columns (fst (updatePackage id i d)).
Proof.
  unfold updatePackage, catch_500, sql_update. run_m. intros [Hp Hb].
  destruct (in_image_url i) as [img|]; run_m; split_branches; try (split; done).
  split; [|done]. simpl. apply map_Forall_alter_keep; [|done]. intros ? ? _ _. simpl.
  by apply negb_false_iff.
Qed.

Lemma deletePackage_columns id d : decimal_columns d -> decimal_columns (fst (deletePackage id d)).
Proof.
  intros Hd. destruct (deletePackage_writes id d) as [-> | ->]; [done|].
  destruct Hd as [Hp Hb]. split; simpl; [by apply map_Forall_delete | by apply map_Forall_filter_keep].
Qed.

Lemma deleteUser_columns id d : decimal_columns d -> decimal_columns (fst (deleteUser id d)).
Proof.
  intros Hd. destruct (deleteUser_writes id d) as [-> | [_ ->]]; [done|].
  destruct Hd as [Hp Hb]. split; simpl; [done | by apply map_Forall_filter_keep].
Qed.

Lemma review_handler_columns d d' (pid : Z) t :
  (d' = d \/ d' = fst (updatePackageRating pid (set_reviews t d))) -> decimal_columns d -> decimal_columns d'.
Proof. intros [-> | ->] Hd; [done|]. by apply decimal_columns_refresh. Qed.

Lemma decimal_columns_run r d : decimal_columns d -> decimal_columns (run r d).
Proof.
  intros Hd.
  destruct r as [now i|u n e|u c n|u i|u id s|u id|u i|u id rt c|u id|i|id i|id|id s|id|id rl|b|id s|id];
    simpl.
  - eapply decimal_columns_frame; [apply register_frame | done].
  - eapply decimal_columns_frame; [apply updateProfile_frame | done].
  - eapply decimal_columns_frame; [apply changePassword_frame | done].
  - by apply createBooking_columns.
  - destruct (updateBookingStatus_writes u id s d) as [-> | (st & ->)]; [done | by apply decimal_columns_with_status].
  - destruct (cancelBooking_writes u id d) as [-> | ->]; [done | by apply decimal_columns_with_status].
  - destruct (createReview u i d) as [d' o] eqn:E. simpl.
    destruct (createReview_effect u i d d' o E) as [-> | (rw & _ & _ & _ & _ & _ & ->)]; [done|].
    by apply decimal_columns_refresh.
  - destruct (updateReview u id rt c d) as [d' o] eqn:E. simpl.
    destruct (updateReview_effect u id rt c d d' o E) as [-> | (rw & zo & _ & _ & ->)]; [done|].
    by apply decimal_columns_refresh.
  - destruct (deleteReview u id d) as [d' o] eqn:E. simpl.
    destruct (deleteReview_effect u id d d' o E) as [-> | (rw & _ & ->)]; [done|].
    by apply decimal_columns_refresh.
  - by apply createPackage_columns.
  - by apply updatePackage_columns.
  - by apply deletePackage_columns.
  - destruct (adminUpdateBookingStatus_writes id s d) as [-> | (st & ->)]; [done | by apply decimal_columns_with_status].
  - by apply deleteUser_columns.
  - eapply decimal_columns_frame; [apply updateUserRole_frame | done].
  - eapply decimal_columns_frame; [apply createContact_frame | done].
  - eapply decimal_columns_frame; [apply updateContactStatus_frame | done].
  - eapply decimal_columns_frame; [apply deleteContact_frame | done].
Qed.

Lemma decimal_columns_steps d0 d : rtc step d0 d -> decimal_columns d0 -> decimal_columns d.
Proof. induction 1 as [|x y z [r] _ IH]; [done|]. intros Hx. by apply IH, decimal_columns_run. Qed.

End handlers.

Section startup.
Context `{JwtScheme} `{PasswordHasher}.

Lemma insert_all_columns ps d : decimal_columns d -> decimal_columns (fst (insert_all ps d)).
Proof.
  induction ps as [|p ps IH] in d |- *; intros Hd; [done|]. simpl.
  apply bind_preserves; [intros s Hs; by apply insert_package_columns | intros _ s Hs; by apply IH | done].
Qed.

Lemma initializeDatabase_columns d : decimal_columns d -> decimal_columns (fst (initializeDatabase d)).
Proof.
  intros Hd. unfold initializeDatabase. apply bind_preserves; [| | done].
  - intros s1 Hs1. unfold seed_admin_account. rewrite bind_get. destruct (bool_decide _); [|exact Hs1].
    apply bind_preserves; [| intros _ s2 Hs2; exact Hs2 | done].
    intros s2 Hs2. eapply decimal_columns_frame; [apply insert_user_frame | done].
  - intros _ s1 Hs1. unfold seed_packages. rewrite bind_get.
    destruct (bool_decide _); [by apply insert_all_columns | exact Hs1].
Qed.

Lemma decimal_columns_empty : decimal_columns empty_db.
Proof. split; apply map_Forall_empty. Qed.

(** The rating columns follow from the store invariant. *)
Lemma store_inv_rating_columns d :
  store_inv d ->
  map_Forall (fun _ p => fits_decimal 3 (pkg_rating p) = true /\ 0 <= pkg_total_reviews p) (rows (packages d)) /\
  map_Forall (fun _ r => 1 <= rv_rating r <= 5) (rows (reviews d)).
Proof.
  intros [[Hc [Hr _]] _]. split; [|exact Hr]. intros pid p Hp. destruct (Hc pid p Hp) as [Hrt Htot].
  rewrite Hrt, Htot. split.
  - pose proof (stored_rating_range _ (ratings_bounds _ (package_reviews_in_range d pid Hr))).
    unfold fits_decimal, decimal_max. apply bool_decide_eq_true_2. simpl. lia.
  - unfold sql_count. lia.
Qed.


End startup.

Section witnesses.
Import Instances.

End witnesses.
