(* ===== verification/Dashboards.v ===== *)
(** * Dashboards: what the admin and user dashboards load and show

    [pages/AdminDashboard.jsx] and [pages/UserDashboard.jsx] fetch the
    server's listings with [fetch], keep the parsed JSON bodies in
    React state ([if (response.ok) setX(data.x || [])]) and render
    fields of them by name.  This file models the JSON the handlers
    send ([res.json] of the row objects with the column names of the
    DDL and the aliases of the queries), the loading functions as
    state passing over the store, and the cells the pages render.
    DECIMAL columns are sent by mysql2 as decimal strings ([JDec]),
    DATE columns as dates ([JDate]); the timestamps are not part of
    the store and are omitted from the row objects, as are the
    listing's [rating] and [average_rating], which the handler
    reformats with [toFixed(1)] on doubles.

    The theorems: the admin page's four statistics cards read keys the
    server never sends and stay blank; its tables are the first page
    (ten rows) of each listing; the user page's counters saturate at
    ten. *)

From stdpp Require Import sorting.
From S2P Require Import Prelude Schema Validation Auth Bookings Reviews ReviewQueries Packages Admin Client ClientForms Numbers Store Progress.

(** ** JSON values *)

Inductive json :=
  | JNull
  | JNum (n : Z)                      (* a number: ids, counts *)
  | JDec (hundredths : Z)             (* a DECIMAL(_,2) column, sent as its string *)
  | JDate (day : Z)                   (* a DATE column *)
  | JStr (s : string)
  | JArr (xs : list json)
  | JObj (fields : list (string * json)).

(** [obj.key]: the field of an object, [None] for [undefined]. *)
Fixpoint field (k : string) (fs : list (string * json)) : option json :=
  match fs with
  | [] => None
  | (k', v) :: fs => if String.eqb k' k then Some v else field k fs
  end.

Definition jget (k : string) (j : json) : option json :=
  match j with JObj fs => field k fs | _ => None end.

(** JavaScript truthiness of a parsed JSON value. *)
Definition json_truthy (j : json) : bool :=
  match j with
  | JNull => false
  | JNum n => negb (n =? 0)
  | JStr s => negb (String.eqb s "")
  | _ => true
  end.

(** [x || dflt] *)
Definition js_or (o : option json) (dflt : json) : json :=
  match o with Some j => if json_truthy j then j else dflt | None => dflt end.

(** The elements of an array ([.map] and [.slice] of the pages). *)
Definition jarr (j : json) : list json := match j with JArr xs => xs | _ => [] end.

(** ** The rows as [res.json] sends them *)

Definition role_string (r : role) : string :=
  match r with RoleUser => "user" | RoleAdmin => "admin" end%string.

(** [b.*] of a booking row. *)
Definition booking_fields (id : Z) (b : booking_row) : list (string * json) :=
  [("id", JNum id); ("user_id", JNum (bk_user_id b)); ("package_id", JNum (bk_package_id b));
   ("booking_date", JDate (bk_date b)); ("guests", JNum (bk_guests b)); ("rooms", JNum (bk_rooms b));
   ("total_amount", JDec (bk_total_amount b)); ("status", JStr (status_string (bk_status b)))]%string.

(** [p.*] of a package row. *)
Definition package_fields (id : Z) (p : package_row) : list (string * json) :=
  [("id", JNum id); ("title", JStr (pkg_title p)); ("destination", JStr (pkg_destination p));
   ("description", JStr (pkg_description p)); ("price", JDec (pkg_price p));
   ("duration", JStr (pkg_duration p)); ("image_url", JStr (pkg_image_url p));
   ("total_reviews", JNum (pkg_total_reviews p))]%string.

Definition pagination_json (pg : pagination) : json :=
  JObj [("page", JNum (pg_page pg)); ("limit", JNum (pg_limit pg));
        ("total", JNum (pg_total pg)); ("pages", JNum (pg_pages pg))]%string.

(** GET /admin/users (admin.js lines 15-18, 46-55) *)
Definition admin_user_json (r : Z * user_row * Z) : json :=
  let '(id, u, n) := r in
  JObj [("id", JNum id); ("name", JStr (user_name u)); ("email", JStr (user_email u));
        ("role", JStr (role_string (user_role u))); ("total_bookings", JNum n)]%string.

Definition users_json (a : list (Z * user_row * Z) * pagination) : json :=
  JObj [("users", JArr (admin_user_json <$> a.1)); ("pagination", pagination_json a.2)]%string.

(** GET /admin/bookings (admin.js lines 69-70, 116-125) *)
Definition admin_booking_json (r : Z * booking_row * package_row * user_row) : json :=
  let '(id, b, p, u) := r in
  JObj (booking_fields id b ++
        [("package_title", JStr (pkg_title p)); ("destination", JStr (pkg_destination p));
         ("user_name", JStr (user_name u)); ("user_email", JStr (user_email u))]%string).

Definition admin_bookings_json (a : list (Z * booking_row * package_row * user_row) * pagination) : json :=
  JObj [("bookings", JArr (admin_booking_json <$> a.1)); ("pagination", pagination_json a.2)]%string.

(** GET /admin/dashboard (admin.js lines 187-242): [total_revenue] is
    the SUM, a decimal string, or [NULL || 0] without a confirmed
    booking. *)
Definition revenue_json (d : db) (rev : Z) : json :=
  if bool_decide (bookings_with_status d Confirmed = ∅) then JNum 0 else JDec rev.

Definition dashboard_json (d : db) (s : dashboard) : json :=
  JObj [("stats", JObj [("total_users", JNum (total_users s)); ("total_packages", JNum (total_packages s));
                        ("total_bookings", JNum (total_bookings s));
                        ("total_revenue", revenue_json d (total_revenue s))]);
        ("recent_bookings", JArr ((fun r => let '(id, b, p, u) := r in
                                    JObj (booking_fields id b ++ [("package_title", JStr (pkg_title p));
                                                                  ("user_name", JStr (user_name u))]%string))
                                  <$> recent_bookings s));
        ("popular_packages", JArr ((fun r => let '(id, p, n) := r in
                                     JObj (package_fields id p ++ [("booking_count", JNum n)]%string))
                                   <$> popular_packages s));
        ("status_distribution", JArr ((fun sc => JObj [("status", JStr (status_string sc.1)); ("count", JNum sc.2)])
                                      <$> status_distribution s))]%string.

(** GET /bookings/contacts/all (bookings.js lines 44-47) *)
Definition contact_json (r : Z * contact_row) : json :=
  JObj [("id", JNum r.1); ("name", JStr (ct_name r.2)); ("email", JStr (ct_email r.2));
        ("phone", JStr (ct_phone r.2)); ("booking_date", JDate (ct_date r.2));
        ("status", JStr (status_string (ct_status r.2)))]%string.

Definition contacts_json (cs : list (Z * contact_row)) : json :=
  JObj [("contacts", JArr (contact_json <$> cs))]%string.

(** GET /packages (packages.js lines 14-20, 70-84), without the
    reformatted [rating] and [average_rating]. *)
Definition listing_json (r : Z * package_row * Z * Z) : json :=
  let '(id, p, n, _) := r in JObj (package_fields id p ++ [("review_count", JNum n)]%string).

Definition packages_json (a : list (Z * package_row * Z * Z) * pagination) : json :=
  JObj [("packages", JArr (listing_json <$> a.1)); ("pagination", pagination_json a.2)]%string.

(** GET /bookings/my-bookings (bookings.js lines 127-131, 166-174) *)
Definition my_booking_json (r : Z * booking_row * package_row) : json :=
  let '(id, b, p) := r in
  JObj (booking_fields id b ++
        [("package_title", JStr (pkg_title p)); ("destination", JStr (pkg_destination p));
         ("image_url", JStr (pkg_image_url p)); ("price", JDec (pkg_price p))]%string).

Definition my_bookings_json (a : list (Z * booking_row * package_row) * pagination) : json :=
  JObj [("bookings", JArr (my_booking_json <$> a.1)); ("pagination", pagination_json a.2)]%string.

(** GET /reviews/my-reviews (reviews.js lines 152-176) *)
Definition my_review_json (r : Z * review_row * package_row) : json :=
  let '(id, rv, p) := r in
  JObj [("id", JNum id); ("user_id", JNum (rv_user_id rv)); ("package_id", JNum (rv_package_id rv));
        ("rating", JNum (rv_rating rv)); ("comment", JStr (rv_comment rv));
        ("package_title", JStr (pkg_title p)); ("destination", JStr (pkg_destination p));
        ("image_url", JStr (pkg_image_url p))]%string.

Definition my_reviews_json (a : list (Z * review_row * package_row) * pagination) : json :=
  JObj [("reviews", JArr (my_review_json <$> a.1)); ("pagination", pagination_json a.2)]%string.

(** ** [fetch] *)

(** The status and parsed body of a [fetch] answered by a handler:
    its [res.json], or [{ error }] for an early reply or a 500. *)
Record fetch_response := { fr_status : Z; fr_body : json }.

Definition answer {A} (enc : A -> json) (o : outcome (Z * A)) : fetch_response :=
  match o with
  | Done (code, a) => {| fr_status := code; fr_body := enc a |}
  | Reply code msg => {| fr_status := code; fr_body := JObj [("error", JStr msg)]%string |}
  | Throw _ => {| fr_status := 500; fr_body := JObj [("error", JStr "Internal Server Error")]%string |}
  end.

(** [response.ok] *)
Definition response_ok (r : fetch_response) : bool := (200 <=? fr_status r) && (fr_status r <? 300).

(** [`Bearer ${localStorage.getItem('token')}`]: [null] when no token
    is stored. *)
Definition bearer_header (s : storage) : option string :=
  Some ("Bearer " ++ default "null" (getAuthToken s))%string.

(** [fetch('/api/packages')]: the listing without query parameters. *)
Definition no_query : search_query :=
  {| q_search := None; q_destination := None; q_minPrice := QAbsent; q_maxPrice := QAbsent;
     q_page := JMissing; q_limit := JMissing |}.

(** [fetch(url).then(response => if (response.ok) set(await response.json()))]
    against a handler, threading the store. *)
Definition fetch_into {P A} (h : M db (Z * A)) (enc : A -> json) (on_ok : json -> P -> P)
    (dp : db * P) : db * P :=
  let '(d', o) := h dp.1 in
  let r := answer enc o in
  (d', if response_ok r then on_ok (fr_body r) dp.2 else dp.2).

(** [setX(data.x || [])] *)
Definition list_field (k : string) (body : json) : json := js_or (jget k body) (JArr []).

(** The cells of a table row: [{row.k}] for each column [k];
    [undefined] renders as nothing. *)
Definition cells (ks : list string) (row : json) : list (option json) := (fun k => jget k row) <$> ks.

(** ** [AdminDashboard.jsx] *)

Record admin_page := {
  ap_stats : json; ap_users : json; ap_bookings : json; ap_contacts : json; ap_packages : json
}.

(** The initial state (lines 8-17). *)
Definition admin_page_init : admin_page :=
  {| ap_stats := JObj [("totalUsers", JNum 0); ("totalBookings", JNum 0);
                       ("totalPackages", JNum 0); ("totalRevenue", JNum 0)]%string;
     ap_users := JArr []; ap_bookings := JArr []; ap_contacts := JArr []; ap_packages := JArr [] |}.

Definition set_stats (j : json) (p : admin_page) : admin_page :=
  {| ap_stats := j; ap_users := ap_users p; ap_bookings := ap_bookings p;
     ap_contacts := ap_contacts p; ap_packages := ap_packages p |}.
Definition set_admin_users (j : json) (p : admin_page) : admin_page :=
  {| ap_stats := ap_stats p; ap_users := j; ap_bookings := ap_bookings p;
     ap_contacts := ap_contacts p; ap_packages := ap_packages p |}.
Definition set_admin_bookings (j : json) (p : admin_page) : admin_page :=
  {| ap_stats := ap_stats p; ap_users := ap_users p; ap_bookings := j;
     ap_contacts := ap_contacts p; ap_packages := ap_packages p |}.
Definition set_admin_contacts (j : json) (p : admin_page) : admin_page :=
  {| ap_stats := ap_stats p; ap_users := ap_users p; ap_bookings := ap_bookings p;
     ap_contacts := j; ap_packages := ap_packages p |}.
Definition set_admin_packages (j : json) (p : admin_page) : admin_page :=
  {| ap_stats := ap_stats p; ap_users := ap_users p; ap_bookings := ap_bookings p;
     ap_contacts := ap_contacts p; ap_packages := j |}.

Section admin_page.
Context `{JwtScheme}.

(** [loadDashboardData] (lines 26-86): the five fetches in order;
    [setStats(statsData)] keeps the whole body. *)
Definition loadDashboardData (now : Z) (s : storage) (d : db) (p : admin_page) : db * admin_page :=
  let hdr := bearer_header s in
  let dp := fetch_into (admin_route now hdr getDashboard) (dashboard_json d) set_stats (d, p) in
  let dp := fetch_into (admin_route now hdr (getUsers None None None)) users_json
              (fun b => set_admin_users (list_field "users" b)) dp in
  let dp := fetch_into (admin_route now hdr (getBookings None None None None)) admin_bookings_json
              (fun b => set_admin_bookings (list_field "bookings" b)) dp in
  let dp := fetch_into getContacts contacts_json (fun b => set_admin_contacts (list_field "contacts" b)) dp in
  fetch_into (route_getPackages no_query) packages_json (fun b => set_admin_packages (list_field "packages" b)) dp.
End admin_page.

(** The four statistics cards: [{stats.totalUsers}] ... (lines 240-273). *)
Definition stat_cards (stats : json) : list (option json) :=
  cells ["totalUsers"; "totalBookings"; "totalPackages"; "totalRevenue"]%string stats.

(** "Recent Bookings": [bookings.slice(0, 5)] (lines 283-297). *)
Definition recent_bookings_view (bookings : json) : list (list (option json)) :=
  cells ["user_name"; "package_title"; "total_amount"; "status"]%string <$> take 5 (jarr bookings).

(** The tables of the users, bookings, contacts and packages tabs
    (lines 322-335, 396-414, 454-508, 557-568). *)
Definition users_table (users : json) : list (list (option json)) :=
  cells ["id"; "name"; "email"; "role"]%string <$> jarr users.
Definition bookings_table (bookings : json) : list (list (option json)) :=
  cells ["id"; "user_name"; "package_title"; "booking_date"; "total_amount"; "status"]%string <$> jarr bookings.
Definition contacts_table (contacts : json) : list (list (option json)) :=
  cells ["id"; "name"; "email"; "phone"; "booking_date"; "status"]%string <$> jarr contacts.
Definition packages_table (packages : json) : list (list (option json)) :=
  cells ["id"; "title"; "destination"; "price"]%string <$> jarr packages.

(** ** The listings the pages load *)

Lemma paginate_first {A} l (xs : list A) : paginate 1 l xs = take (Z.to_nat l) xs.
Proof. unfold paginate. by rewrite Z.sub_diag, Z.mul_0_l. Qed.

Lemma getDashboard_answer d : getDashboard d = (d, Done (200, dashboard_of d)).
Proof. reflexivity. Qed.

Lemma getUsers_first_page d : exists pg,
  getUsers None None None d = (d, Done (200, (admin_user_row d <$> take 10 (rows_desc (rows (users d))), pg))).
Proof.
  unfold getUsers, catch_500. rewrite (bind_done _ _ _ d (1, 10)) by (by apply limit_offset_ok).
  unfold check_params. run_m. eexists. reflexivity.
Qed.

Lemma getBookings_first_page d : exists pg,
  getBookings None None None None d = (d, Done (200, (take 10 (matching_bookings [] d), pg))).
Proof.
  unfold getBookings, catch_500. rewrite (bind_done _ _ _ d (1, 10)) by (by apply limit_offset_ok).
  unfold check_params. run_m. eexists. reflexivity.
Qed.

Lemma getPackages_first_page d : exists pg,
  route_getPackages no_query d =
    (d, Done (200, (listing_row d <$> take 10 (rows_desc (rows (packages d))), pg))).
Proof.
  unfold route_getPackages, getPackages, catch_500, check_limit_offset, check_params. run_m.
  unfold matching_packages. simpl. rewrite filter_all_true. eexists. reflexivity.
Qed.

Section admin_answers.
Context `{JwtScheme}.

Lemma admin_route_admin {A} now hdr (h : M db A) d u :
  authenticateToken now hdr d = (d, Done u) -> au_role u = RoleAdmin -> admin_route now hdr h d = h d.
Proof.
  intros Ha Hr. unfold admin_route. rewrite (bind_done _ _ _ _ _ Ha).
  unfold requireAdmin. rewrite bool_decide_false by (rewrite Hr; tauto). reflexivity.
Qed.

Lemma fetch_into_done {P A} (h : M db (Z * A)) enc (on_ok : json -> P -> P) d p a :
  h d = (d, Done (200, a)) -> fetch_into h enc on_ok (d, p) = (d, on_ok (enc a) p).
Proof. intros Hh. unfold fetch_into. simpl. by rewrite Hh. Qed.

(** What the admin's dashboard holds once loaded: the whole dashboard
    body as [stats], and the first page of each listing. *)
Lemma loadDashboardData_admin now s d u p :
  authenticateToken now (bearer_header s) d = (d, Done u) -> au_role u = RoleAdmin ->
  loadDashboardData now s d p =
    (d, {| ap_stats := dashboard_json d (dashboard_of d);
           ap_users := JArr (admin_user_json <$> (admin_user_row d <$> take 10 (rows_desc (rows (users d)))));
           ap_bookings := JArr (admin_booking_json <$> take 10 (matching_bookings [] d));
           ap_contacts := JArr (contact_json <$> rows_desc (rows (booking_contacts d)));
           ap_packages := JArr (listing_json <$> (listing_row d <$> take 10 (rows_desc (rows (packages d))))) |}).
Proof.
  intros Ha Hr. unfold loadDashboardData.
  destruct (getUsers_first_page d) as [pu Hu]. destruct (getBookings_first_page d) as [pb Hb].
  destruct (getPackages_first_page d) as [pp Hp].
  rewrite (fetch_into_done _ _ _ d _ (dashboard_of d)) by (rewrite (admin_route_admin _ _ _ _ u); done).
  rewrite (fetch_into_done _ _ _ d _ _) by (rewrite (admin_route_admin _ _ _ _ u); [exact Hu|done..]).
  rewrite (fetch_into_done _ _ _ d _ _) by (rewrite (admin_route_admin _ _ _ _ u); [exact Hb|done..]).
  rewrite (fetch_into_done _ _ _ d _ _) by reflexivity.
  rewrite (fetch_into_done _ _ _ d _ _) by exact Hp.
  reflexivity.
Qed.
End admin_answers.

Lemma length_rows_desc {R} (m : gmap Z R) : length (rows_desc m) = size m.
Proof. unfold rows_desc. by rewrite (Permutation_length (merge_sort_Permutation _ _)), length_map_to_list. Qed.

(** Rendering a listing: the cells of each encoded row. *)
Tactic Notation "render_rows" simple_intropattern(pat) :=
  rewrite <- ?list_fmap_compose; apply list_fmap_ext; intros ? pat _; reflexivity.

Section admin_claims.
Context `{JwtScheme}.

(** C23: the statistics cards of the admin dashboard are always blank:
    [loadDashboardData] stores the whole body of GET
    /api/admin/dashboard as [stats] and the cards read
    [stats.totalUsers], [stats.totalBookings], [stats.totalPackages]
    and [stats.totalRevenue], which the body does not have; the counts
    it does carry sit under [stats.stats.total_users] and so on.  This
    holds for every store and every admin session. *)
Theorem admin_stat_cards_blank now s d u :
  authenticateToken now (bearer_header s) d = (d, Done u) -> au_role u = RoleAdmin ->
  let p := (loadDashboardData now s d admin_page_init).2 in
  stat_cards (ap_stats p) = [None; None; None; None] /\
  jget "stats" (ap_stats p) =
    Some (JObj [("total_users", JNum (total_users (dashboard_of d)));
                ("total_packages", JNum (total_packages (dashboard_of d)));
                ("total_bookings", JNum (total_bookings (dashboard_of d)));
                ("total_revenue", revenue_json d (confirmed_revenue d))])%string.
Proof. intros Ha Hr. cbv zeta. rewrite (loadDashboardData_admin now s d u admin_page_init Ha Hr). by split. Qed.

(** C24: the tables of the admin dashboard show the first page of each
    listing and nothing more: the ten newest users, the ten newest
    bookings (with the name of their user and the title of their
    package, under the aliases the page reads), every booking contact
    and the ten newest packages; loading reads the store without
    changing it. *)
Theorem admin_tables_first_page now s d u :
  authenticateToken now (bearer_header s) d = (d, Done u) -> au_role u = RoleAdmin ->
  let '(d', p) := loadDashboardData now s d admin_page_init in
  d' = d /\
  users_table (ap_users p) =
    (fun r => [Some (JNum r.1); Some (JStr (user_name r.2)); Some (JStr (user_email r.2));
               Some (JStr (role_string (user_role r.2)))]) <$> take 10 (rows_desc (rows (users d))) /\
  length (users_table (ap_users p)) = Nat.min 10 (size (rows (users d))) /\
  bookings_table (ap_bookings p) =
    (fun r => let '(id, b, pk, us) := r in
              [Some (JNum id); Some (JStr (user_name us)); Some (JStr (pkg_title pk)); Some (JDate (bk_date b));
               Some (JDec (bk_total_amount b)); Some (JStr (status_string (bk_status b)))])
      <$> take 10 (matching_bookings [] d) /\
  contacts_table (ap_contacts p) =
    (fun r => [Some (JNum r.1); Some (JStr (ct_name r.2)); Some (JStr (ct_email r.2)); Some (JStr (ct_phone r.2));
               Some (JDate (ct_date r.2)); Some (JStr (status_string (ct_status r.2)))])
      <$> rows_desc (rows (booking_contacts d)) /\
  packages_table (ap_packages p) =
    (fun r => [Some (JNum r.1); Some (JStr (pkg_title r.2)); Some (JStr (pkg_destination r.2));
               Some (JDec (pkg_price r.2))]) <$> take 10 (rows_desc (rows (packages d))).
Proof.
  intros Ha Hr. rewrite (loadDashboardData_admin now s d u admin_page_init Ha Hr).
  unfold users_table, bookings_table, contacts_table, packages_table.
  cbn [ap_users ap_bookings ap_contacts ap_packages jarr].
  split_and!; [done | | | | |].
  - render_rows [? ?].
  - rewrite !length_fmap, length_take, length_rows_desc. lia.
  - render_rows [[[? ?] ?] ?].
  - render_rows [? ?].
  - render_rows [? ?].
Qed.
End admin_claims.

(** ** [UserDashboard.jsx] *)

Record user_page := { up_bookings : json; up_reviews : json; up_contacts : json; up_favorites : json }.

(** The initial state (lines 12-15); [favorites] is never set. *)
Definition user_page_init : user_page :=
  {| up_bookings := JArr []; up_reviews := JArr []; up_contacts := JArr []; up_favorites := JArr [] |}.

Definition set_my_bookings (j : json) (p : user_page) : user_page :=
  {| up_bookings := j; up_reviews := up_reviews p; up_contacts := up_contacts p; up_favorites := up_favorites p |}.
Definition set_my_reviews (j : json) (p : user_page) : user_page :=
  {| up_bookings := up_bookings p; up_reviews := j; up_contacts := up_contacts p; up_favorites := up_favorites p |}.
Definition set_booking_contacts (j : json) (p : user_page) : user_page :=
  {| up_bookings := up_bookings p; up_reviews := up_reviews p; up_contacts := j; up_favorites := up_favorites p |}.

Section user_page.
Context `{JwtScheme}.

(** [router.get('/my-bookings', authenticateToken, ...)] *)
Definition route_getMyBookings (now : Z) (authHeader : option string) (page limit status : option string)
    : M db (Z * (list (Z * booking_row * package_row) * pagination)) :=
  u ← authenticateToken now authHeader; getMyBookings u page limit status.

(** [loadUserData] (lines 24-65): the three fetches in order. *)
Definition loadUserData (now : Z) (s : storage) (d : db) (p : user_page) : db * user_page :=
  let hdr := bearer_header s in
  let dp := fetch_into (route_getMyBookings now hdr None None None) my_bookings_json
              (fun b => set_my_bookings (list_field "bookings" b)) (d, p) in
  let dp := fetch_into (route_getMyReviews now hdr None None) my_reviews_json
              (fun b => set_my_reviews (list_field "reviews" b)) dp in
  fetch_into getContacts contacts_json (fun b => set_booking_contacts (list_field "contacts" b)) dp.
End user_page.

(** The three counters of the overview: [bookings.length],
    [reviews.length], [favorites.length] (lines 197-219). *)
Definition user_cards (p : user_page) : list Z :=
  (fun j => Z.of_nat (length (jarr j))) <$> [up_bookings p; up_reviews p; up_favorites p].

(** "Recent Bookings" and "Recent Reviews": [.slice(0, 3)] (lines 229-272). *)
Definition recent_user_bookings (p : user_page) : list (list (option json)) :=
  cells ["package_title"; "booking_date"; "total_amount"; "status"]%string <$> take 3 (jarr (up_bookings p)).
Definition recent_user_reviews (p : user_page) : list (list (option json)) :=
  cells ["package_title"; "rating"; "comment"]%string <$> take 3 (jarr (up_reviews p)).

(** ** The user's listings *)

Lemma length_omap_Some {A B} (f : A -> option B) xs :
  Forall (fun x => is_Some (f x)) xs -> length (omap f xs) = length xs.
Proof. induction 1 as [|x xs [y Hy] _ IH]; [done|]. simpl. rewrite Hy. simpl. f_equal. exact IH. Qed.

Lemma getMyBookings_first_page u d : exists pg,
  getMyBookings u None None None d =
    (d, Done (200, (omap (booking_with_package d) (take 10 (my_bookings (au_id u) None d)), pg))).
Proof.
  unfold getMyBookings, catch_500. rewrite (bind_done _ _ _ d (1, 10)) by (by apply limit_offset_ok).
  unfold check_params. run_m. eexists. reflexivity.
Qed.

Lemma getMyReviews_first_page u d : exists pg,
  getMyReviews u None None d = (d, Done (200, (take 10 (my_review_rows (au_id u) d), pg))).
Proof.
  unfold getMyReviews, catch_500. rewrite (bind_done _ _ _ d (1, 10)) by (by apply limit_offset_ok).
  run_m. eexists. reflexivity.
Qed.

(** In a store satisfying the invariant every booking and every review
    joins with its package. *)
Lemma my_bookings_join d uid : store_inv d ->
  length (omap (booking_with_package d) (take 10 (my_bookings uid None d))) = Nat.min 10 (length (my_bookings uid None d)).
Proof.
  intros [_ (_ & Hfk & _)]. rewrite length_omap_Some, length_take; [done|].
  apply Forall_take, Forall_forall. intros [k b] Hx.
  apply list_elem_of_filter in Hx as [_ Hx]. unfold rows_desc in Hx.
  rewrite (elem_of_Permutation_proper _ _ _ (merge_sort_Permutation _ _)), elem_of_map_to_list in Hx.
  destruct (Hfk k b Hx) as [[p Hp] _]. unfold booking_with_package. simpl. by rewrite Hp.
Qed.

Lemma my_review_rows_length d uid : store_inv d ->
  length (my_review_rows uid d) = size (filter (fun kv => rv_user_id kv.2 = uid) (rows (reviews d))).
Proof.
  intros [_ (Hbk & Hfk & _)]. unfold my_review_rows. rewrite length_omap_Some, length_rows_desc; [done|].
  apply Forall_forall. intros [k r] Hx. unfold rows_desc in Hx.
  rewrite (elem_of_Permutation_proper _ _ _ (merge_sort_Permutation _ _)), elem_of_map_to_list in Hx.
  apply map_lookup_filter_Some in Hx as [Hx _].
  destruct (Hbk k r Hx) as (kb & b & Hb & _ & Hpk). destruct (Hfk kb b Hb) as [[p Hp] _].
  simpl. rewrite <- Hpk, Hp. by eexists.
Qed.

Section user_claims.
Context `{JwtScheme}.

Lemma loadUserData_counts now s d u p :
  store_inv d -> authenticateToken now (bearer_header s) d = (d, Done u) ->
  let '(d', p') := loadUserData now s d p in
  d' = d /\
  user_cards p' = [Z.min 10 (Z.of_nat (length (my_bookings (au_id u) None d)));
                   Z.min 10 (sql_count (filter (fun kv => rv_user_id kv.2 = au_id u) (rows (reviews d))));
                   Z.of_nat (length (jarr (up_favorites p)))].
Proof.
  intros Hs Ha. unfold loadUserData.
  destruct (getMyBookings_first_page u d) as [pb Hb]. destruct (getMyReviews_first_page u d) as [pr Hr].
  rewrite (fetch_into_done _ _ _ d _ _) by (unfold route_getMyBookings; by rewrite (bind_done _ _ _ _ _ Ha)).
  rewrite (fetch_into_done _ _ _ d _ _) by (unfold route_getMyReviews; by rewrite (bind_done _ _ _ _ _ Ha)).
  rewrite (fetch_into_done _ _ _ d _ _) by reflexivity.
  split; [done|]. unfold user_cards. cbn [up_bookings up_reviews up_favorites fmap list_fmap].
  cbn -[my_bookings my_review_rows booking_with_package take omap up_favorites]. rewrite !length_fmap.
  rewrite my_bookings_join, length_take, my_review_rows_length by done. unfold sql_count. repeat f_equal; lia.
Qed.

(** C25: the counters of the user dashboard saturate at ten: for a
    signed-in user in a store satisfying the invariant, loading leaves
    the store unchanged and the overview shows min(10, n) bookings and
    min(10, m) reviews, n and m the user's bookings and reviews, since
    the page keeps only the first page of each listing and counts its
    length; the favorites counter is always 0. *)
Theorem user_dashboard_counts now s d u :
  store_inv d -> authenticateToken now (bearer_header s) d = (d, Done u) ->
  let '(d', p) := loadUserData now s d user_page_init in
  d' = d /\
  user_cards p = [Z.min 10 (Z.of_nat (length (my_bookings (au_id u) None d)));
                  Z.min 10 (sql_count (filter (fun kv => rv_user_id kv.2 = au_id u) (rows (reviews d)))); 0].
Proof. intros Hs Ha. exact (loadUserData_counts now s d u user_page_init Hs Ha). Qed.
End user_claims.

(** ** Deleting a review from the dashboard *)

Section delete_review.
Context `{JwtScheme}.

(** [router.delete('/:id', authenticateToken, validateId, ...)]
    (reviews.js lines 291-323). *)
Definition route_deleteReview (now : Z) (authHeader : option string) (id : string) : M db (Z * unit) :=
  u ← authenticateToken now authHeader; i ← validateId (int_param id); deleteReview u i.

(** [handleDeleteReview] (lines 86-100): after [window.confirm], the
    DELETE of [/api/reviews/${reviewId}] and, when it is ok,
    [loadUserData]. *)
Definition handleDeleteReview (now : Z) (s : storage) (confirmed : bool) (reviewId : Z)
    (d : db) (p : user_page) : db * user_page :=
  if confirmed then
    let '(d', o) := route_deleteReview now (bearer_header s) (js_number_string reviewId) d in
    if response_ok (answer (fun _ : unit => JObj [("message", JStr "Review deleted successfully")]%string) o)
    then loadUserData now s d' p else (d', p)
  else (d, p).

(** The token keeps resolving to the same user while the users table
    is unchanged. *)
Lemma authenticateToken_frame now hdr d d' u :
  authenticateToken now hdr d = (d, Done u) -> users d' = users d ->
  authenticateToken now hdr d' = (d', Done u).
Proof.
  unfold authenticateToken, load_user. intros Ha Hu.
  destruct (bearer_token hdr); [|discriminate]. destruct (jwt_verify now _); try discriminate.
  run_m. rewrite Hu. destruct (rows (users d) !! _); simpl in *; congruence.
Qed.

Lemma deleteReview_owned u k r d :
  store_inv d -> rows (reviews d) !! k = Some r -> rv_user_id r = au_id u ->
  exists d', deleteReview u k d = (d', Done (200, tt)) /\ users d' = users d /\
    bookings d' = bookings d /\ reviews d' = table_delete k (reviews d) /\ store_inv d'.
Proof.
  intros Hs Hk Hr. pose proof (deleteReview_inv u k d Hs) as Hs'.
  unfold deleteReview, catch_500 in *. rewrite bind_get in *.
  rewrite (proj2 (owned_review_Some d k (au_id u) r) (conj Hk Hr)) in *.
  unfold sql_delete in *. run_m.
  destruct (updatePackageRating_shape (rv_package_id r) (set_reviews (table_delete k (reviews d)) d)) as [d2 E].
  pose proof (updatePackageRating_reviews (rv_package_id r) (set_reviews (table_delete k (reviews d)) d)) as Hrv.
  rewrite E in Hs', Hrv |- *. simpl in *. exists d2.
  unfold updatePackageRating, swallow, update_package_rating, sql_update in E. run_m.
  split_and!; [done | | | done | done]; repeat case_match; simplify_eq; reflexivity.
Qed.

(** C26: deleting a review from the user dashboard, end to end: for a
    signed-in user in a store satisfying the invariant, confirming the
    deletion of one of their reviews sends [DELETE /api/reviews/:id],
    which passes the token and [validateId], removes exactly that
    review, keeps the invariant (the package's cached rating is
    refreshed) and, the answer being ok, reloads the page, whose
    reviews counter drops by one (below the cap of ten). *)
Theorem dashboard_delete_review now s d u k r p :
  store_inv d -> authenticateToken now (bearer_header s) d = (d, Done u) ->
  rows (reviews d) !! k = Some r -> rv_user_id r = au_id u -> 1 <= k ->
  let '(d', p') := handleDeleteReview now s true k d p in
  store_inv d' /\ rows (reviews d') = delete k (rows (reviews d)) /\
  user_cards p' = [Z.min 10 (Z.of_nat (length (my_bookings (au_id u) None d)));
                   Z.min 10 (sql_count (filter (fun kv => rv_user_id kv.2 = au_id u) (rows (reviews d))) - 1);
                   Z.of_nat (length (jarr (up_favorites p)))].
Proof.
  intros Hs Ha Hk Hr H1.
  destruct (deleteReview_owned u k r d Hs Hk Hr) as (d' & Hdel & Hu & Hb & Hrv & Hs').
  assert (Hh : handleDeleteReview now s true k d p = loadUserData now s d' p).
  { assert (Hv : validateId (int_param (js_number_string k)) d = (d, Done k))
      by (rewrite validateId_number, (proj2 (Z.leb_le _ _) H1); reflexivity).
    unfold handleDeleteReview, route_deleteReview.
    rewrite (bind_done _ _ _ _ _ Ha), (bind_done _ _ _ _ _ Hv), Hdel. reflexivity. }
  rewrite Hh.
  pose proof (loadUserData_counts now s d' u p Hs' (authenticateToken_frame _ _ _ _ _ Ha Hu)) as Hc.
  destruct (loadUserData now s d' p) as [d'' p']. destruct Hc as [-> ->].
  split_and!; [done | by rewrite Hrv |].
  assert (Hm : my_bookings (au_id u) None d' = my_bookings (au_id u) None d) by (unfold my_bookings; by rewrite Hb).
  rewrite Hm, Hrv. simpl. rewrite map_filter_delete. unfold sql_count.
  set (m := filter (fun kv : Z * review_row => rv_user_id kv.2 = au_id u) (rows (reviews d))).
  assert (Hin : m !! k = Some r) by (by apply map_lookup_filter_Some_2).
  assert (Hne : size m <> 0%nat) by (intros Hz; apply map_size_empty_iff in Hz; by rewrite Hz in Hin).
  rewrite map_size_delete_Some by (by eexists). repeat f_equal. lia.
Qed.
End delete_review.

(** ** Witnesses *)

Section witnesses.
Import Instances.

Definition admin_token : storage := Some (jwt_sign 1 100).

Lemma admin_signed_in :
  authenticateToken 0 (bearer_header admin_token) scenario_store = (scenario_store, Done seed_admin).
Proof. vm_compute. reflexivity. Qed.

Lemma admin_stat_cards_blank_witness :
  authenticateToken 0 (bearer_header admin_token) scenario_store = (scenario_store, Done seed_admin) /\
  au_role seed_admin = RoleAdmin /\
  stat_cards (ap_stats (loadDashboardData 0 admin_token scenario_store admin_page_init).2) = [None; None; None; None].
Proof.
  split_and!; [exact admin_signed_in | reflexivity |].
  exact (proj1 (admin_stat_cards_blank 0 admin_token scenario_store seed_admin admin_signed_in eq_refl)).
Defined.

Lemma admin_tables_first_page_witness :
  authenticateToken 0 (bearer_header admin_token) scenario_store = (scenario_store, Done seed_admin) /\
  au_role seed_admin = RoleAdmin /\
  length (users_table (ap_users (loadDashboardData 0 admin_token scenario_store admin_page_init).2)) = 2%nat.
Proof.
  split_and!; [exact admin_signed_in | reflexivity |].
  pose proof (admin_tables_first_page 0 admin_token scenario_store seed_admin admin_signed_in eq_refl) as Ht.
  destruct (loadDashboardData 0 admin_token scenario_store admin_page_init) as [d' p].
  destruct Ht as (_ & _ & Hl & _). cbn [snd]. rewrite Hl. vm_compute. reflexivity.
Defined.

(** Ann registers and books package 1 eleven times. *)
Definition busy_store : db :=
  run_all (RRegister 0 {| r_name := "Ann"; r_email := "ann@mail.com"; r_password := "secret1" |}%string ::
           repeat (RCreateBooking ann_user {| in_packageId := 1; in_bookingDate := 20250101;
                                               in_guests := 2; in_rooms := 1 |}) 11)
          (fst (initializeDatabase empty_db)).

Lemma busy_store_inv : store_inv busy_store.
Proof.
  apply (store_inv_steps (fst (initializeDatabase empty_db))); [apply rtc_run_all|].
  apply initializeDatabase_inv, store_inv_empty.
Qed.

Definition ann_token : storage := Some (jwt_sign 2 100).

Lemma user_dashboard_counts_witness :
  store_inv busy_store /\
  authenticateToken 0 (bearer_header ann_token) busy_store = (busy_store, Done ann_user) /\
  length (my_bookings 2 None busy_store) = 11%nat /\
  user_cards (loadUserData 0 ann_token busy_store user_page_init).2 = [10; 0; 0].
Proof.
  assert (Ha : authenticateToken 0 (bearer_header ann_token) busy_store = (busy_store, Done ann_user))
    by (vm_compute; reflexivity).
  split_and!; [exact busy_store_inv | exact Ha | vm_compute; reflexivity |].
  pose proof (user_dashboard_counts 0 ann_token busy_store ann_user busy_store_inv Ha) as Hc.
  destruct (loadUserData 0 ann_token busy_store user_page_init) as [d' p].
  destruct Hc as [_ Hc]. cbn [snd]. rewrite Hc. vm_compute. reflexivity.
Defined.
Lemma scenario_store_inv : store_inv scenario_store.
Proof.
  apply (store_inv_steps (fst (initializeDatabase empty_db))); [apply rtc_run_all|].
  apply initializeDatabase_inv, store_inv_empty.
Qed.

Definition ann_review : review_row :=
  {| rv_user_id := 2; rv_package_id := 1; rv_rating := 4; rv_comment := "Great" |}%string.

Lemma dashboard_delete_review_witness :
  store_inv scenario_store /\
  authenticateToken 0 (bearer_header ann_token) scenario_store = (scenario_store, Done ann_user) /\
  rows (reviews scenario_store) !! 1 = Some ann_review /\ rv_user_id ann_review = au_id ann_user /\ 1 <= 1 /\
  user_cards (handleDeleteReview 0 ann_token true 1 scenario_store user_page_init).2 = [1; 0; 0].
Proof.
  assert (Ha : authenticateToken 0 (bearer_header ann_token) scenario_store = (scenario_store, Done ann_user))
    by (vm_compute; reflexivity).
  assert (Hk : rows (reviews scenario_store) !! 1 = Some ann_review) by (vm_compute; reflexivity).
  split_and!; [exact scenario_store_inv | exact Ha | exact Hk | reflexivity | lia |].
  pose proof (dashboard_delete_review 0 ann_token scenario_store ann_user 1 ann_review user_page_init
                scenario_store_inv Ha Hk eq_refl ltac:(lia)) as Hc.
  destruct (handleDeleteReview 0 ann_token true 1 scenario_store user_page_init) as [d' p].
  destruct Hc as (_ & _ & Hc). cbn [snd]. rewrite Hc. vm_compute. reflexivity.
Defined.
End witnesses.
