(* ===== verification/Pages.v ===== *)
(** * Pages: the popular packages and the featured booking form

    [components/Popular.jsx] loads [packageService.getPopularPackages(6)]
    through [apiRequest] and renders one card per package; a click opens
    the booking modal for a signed-in visitor only.
    [components/Featured.jsx] posts its modal's four fields to
    [POST /api/bookings/contacts] with [fetch] and alerts the outcome.
    The JSON layer is the one of [Dashboards]. *)

From stdpp Require Import sorting.
From S2P Require Import Prelude Schema Validation Bookings PackageQueries Client Dashboards.

(** ** [apiRequest] over JSON bodies (api.js lines 27-45) *)

(** [throw new Error(data.error || 'API request failed')] outside
    2xx, the parsed body otherwise. *)
Definition api_json (r : fetch_response) : api_result json :=
  if (fr_status r <? 200) || (300 <=? fr_status r) then
    ApiError (match jget "error" (fr_body r) with
              | Some (JStr m) => if String.eqb m "" then "API request failed" else m
              | _ => "API request failed"
              end)%string
  else ApiOk (fr_body r).

(** ** [Popular.jsx] *)

(** A row of GET /packages/popular/:limit (packages.js lines 100-104,
    113-122) without the reformatted [rating] and the four-decimal
    [average_rating]. *)
Definition popular_json (r : Z * package_row * Z * Z * Z) : json :=
  let '(id, p, bookings, reviews, _) := r in
  JObj [("id", JNum id); ("title", JStr (pkg_title p)); ("destination", JStr (pkg_destination p));
        ("description", JStr (pkg_description p)); ("price", JDec (pkg_price p));
        ("duration", JStr (pkg_duration p)); ("image_url", JStr (pkg_image_url p));
        ("booking_count", JNum bookings); ("review_count", JNum reviews)]%string.

Definition popular_body (rs : list (Z * package_row * Z * Z * Z)) : json :=
  JObj [("packages", JArr (popular_json <$> rs))]%string.

Record popular_page := { pp_packages : list json; pp_error : option string }.

Definition popular_page_init : popular_page := {| pp_packages := []; pp_error := None |}.

(** [fetchPopularPackages] (lines 27-52): the packages when the body has
    a truthy [packages], "Invalid response from server" otherwise, and
    "Failed to load popular packages" when the request throws. *)
Definition fetchPopularPackages (d : db) (p : popular_page) : db * popular_page :=
  let '(d', o) := getPopularPackages "6" d in
  (d', match api_json (answer popular_body o) with
       | ApiOk data =>
           match jget "packages" data with
           | Some ps => if json_truthy ps then {| pp_packages := jarr ps; pp_error := pp_error p |}
                        else {| pp_packages := pp_packages p; pp_error := Some "Invalid response from server"%string |}
           | None => {| pp_packages := pp_packages p; pp_error := Some "Invalid response from server"%string |}
           end
       | ApiError _ => {| pp_packages := pp_packages p; pp_error := Some "Failed to load popular packages"%string |}
       end).

(** A card (lines 186-227): title, destination, review count, price and
    description. *)
Definition popular_card (pkg : json) : list (option json) :=
  cells ["title"; "destination"; "review_count"; "price"; "description"]%string pkg.

(** What the section shows: the error, or the cards. *)
Inductive popular_view := PopularError (msg : string) | PopularCards (cards : list (list (option json))).

Definition popular_view_of (p : popular_page) : popular_view :=
  match pp_error p with
  | Some e => PopularError e
  | None => PopularCards (popular_card <$> pp_packages p)
  end.

(** [handlePackageClick] (lines 54-61): the modal opens with the package
    for a signed-in visitor, an alert otherwise. *)
Inductive click_result := LoginAlert | OpenModal (pkg : json).

Definition handlePackageClick (s : storage) (pkg : json) : click_result :=
  if isAuthenticated s then OpenModal pkg else LoginAlert.

(** The details of the modal (lines 275-294): duration, rating and
    category. *)
Definition modal_details (pkg : json) : list (option json) :=
  cells ["duration"; "rating"; "category"]%string pkg.

(** ** [Featured.jsx] *)

(** The four inputs of the modal, all [required]: the browser submits
    only non-empty values, the date as a valid day. *)
Record featured_form := { ff_name : string; ff_email : string; ff_phone : string; ff_day : Z }.

(** [{ name, email, phone, booking_date }] as the server reads it. *)
Definition featured_body (f : featured_form) : contact_body :=
  {| cb_name := Some (ff_name f); cb_email := Some (ff_email f); cb_phone := Some (ff_phone f);
     cb_date := DDate (ff_day f) |}.

(** The answer of a handler that ends in [res.status(code).json({ message })]. *)
Definition message_answer (msg : string) (o : outcome Z) : fetch_response :=
  match o with
  | Done code => {| fr_status := code; fr_body := JObj [("message", JStr msg)]%string |}
  | Reply code e => {| fr_status := code; fr_body := JObj [("error", JStr e)]%string |}
  | Throw _ => {| fr_status := 500; fr_body := JObj [("error", JStr "Internal Server Error")]%string |}
  end.

(** [handleBookingSubmit] (lines 42-71): the alert shown; the modal is
    closed in every case. *)
Definition featured_handleSubmit (f : featured_form) (d : db) : db * string :=
  let '(d', o) := createContact (featured_body f) d in
  let r := message_answer "Booking contact saved successfully." o in
  (d', if response_ok r then "Booking confirmed! You will receive a confirmation email shortly."%string
       else ("Booking failed: " ++ match jget "error" (fr_body r) with
                                   | Some (JStr m) => if String.eqb m "" then "Unknown error" else m
                                   | _ => "Unknown error"
                                   end)%string).

(** ** What the pages show *)

Lemma truthy_str_nonempty s : s <> ""%string -> truthy_str (Some s) = Some s.
Proof. by destruct s. Qed.

Lemma getPopularPackages_six d :
  getPopularPackages "6" d =
    (d, Done (200, take 6 (merge_sort popular_first (popular_row d <$> rows_asc (rows (packages d)))))).
Proof. reflexivity. Qed.

(** C27: the popular section of the home page, for every store: loading
    reads the store without changing it and shows no error, the cards
    are those of the min(6, n) first packages in the order of the
    popular listing (most booked first, then best rated), each with its
    title, destination, review count, price and description defined,
    and the modal's "Category" is undefined for every package, since
    the listing has no such column. *)
Theorem popular_page_cards d :
  let '(d', p) := fetchPopularPackages d popular_page_init in
  d' = d /\
  popular_view_of p =
    PopularCards ((fun r => let '(_, pk, _, reviews, _) := r in
                     [Some (JStr (pkg_title pk)); Some (JStr (pkg_destination pk)); Some (JNum reviews);
                      Some (JDec (pkg_price pk)); Some (JStr (pkg_description pk))])
                  <$> take 6 (merge_sort popular_first (popular_row d <$> rows_asc (rows (packages d))))) /\
  length (pp_packages p) = Nat.min 6 (size (rows (packages d))) /\
  Forall (fun pkg => jget "category" pkg = None) (pp_packages p).
Proof.
  unfold fetchPopularPackages. rewrite getPopularPackages_six. cbn.
  split_and!; [done | | |].
  - f_equal. render_rows [[[[? ?] ?] ?] ?].
  - by rewrite length_fmap, length_take, merge_sort_Permutation, length_fmap, length_rows_asc.
  - apply Forall_fmap, Forall_forall. by intros [[[[? ?] ?] ?] ?] _.
Qed.

(** the booking form of the featured destinations: with its four
    [required] inputs filled in, submitting stores a pending booking
    contact with exactly the name, email, phone and date entered under
    the next id and alerts the confirmation; a blank field, should the
    browser's check be bypassed, is refused by the server with the
    store unchanged and the alert repeats the server's message. *)
Theorem featured_booking_confirms f d :
  (ff_name f <> ""%string -> ff_email f <> ""%string -> ff_phone f <> ""%string ->
   featured_handleSubmit f d =
     (set_contacts (table_insert (new_contact (ff_name f) (ff_email f) (ff_phone f) (ff_day f))
                                 (booking_contacts d)).2 d,
      "Booking confirmed! You will receive a confirmation email shortly."%string)) /\
  (ff_name f = ""%string \/ ff_email f = ""%string \/ ff_phone f = ""%string ->
   featured_handleSubmit f d =
     (d, "Booking failed: All fields (name, email, phone, booking_date) are required."%string)).
Proof.
  split.
  - intros Hn He Hp. unfold featured_handleSubmit.
    rewrite (createContact_complete _ (ff_name f) (ff_email f) (ff_phone f) (ff_day f));
      [reflexivity | by apply truthy_str_nonempty.. | done].
  - intros Hb. unfold featured_handleSubmit, createContact, catch_500, featured_body. cbn [cb_name cb_email cb_phone cb_date].
    destruct Hb as [-> | [-> | ->]]; simpl;
      [| destruct (ff_name f) | destruct (ff_name f), (ff_email f)]; reflexivity.
Qed.

Section witnesses.
Import Auth.Instances.

Lemma featured_booking_confirms_witness :
  let f := {| ff_name := "Bo"; ff_email := "bo@mail.com"; ff_phone := "555"; ff_day := 20400 |}%string in
  ff_name f <> ""%string /\ ff_email f <> ""%string /\ ff_phone f <> ""%string /\
  snd (featured_handleSubmit f seed_store) = "Booking confirmed! You will receive a confirmation email shortly."%string.
Proof.
  intros f. assert (Hn : ff_name f <> ""%string) by discriminate.
  assert (He : ff_email f <> ""%string) by discriminate. assert (Hp : ff_phone f <> ""%string) by discriminate.
  split_and!; [exact Hn | exact He | exact Hp |].
  by rewrite (proj1 (featured_booking_confirms f seed_store) Hn He Hp).
Defined.
End witnesses.
