(* ===== verification/Navigation.v ===== *)
(** * Navigation: the client's routes and the header's links

    [App.jsx] maps five paths to pages with React Router; [Header.jsx]
    scrolls to sections of the home page ([react-scroll]) and links to
    the routed pages, the user menu only for a signed-in user and the
    admin link only for an admin.  The signed-in user comes from
    [contexts/AuthContext.jsx], which is not in the repository: it is
    taken here as the user object of the server's login answer.
    [AdminDashboard.jsx] shows its content and loads its data only for
    an admin. *)

From Stdlib Require Import Ascii.
From S2P Require Import Prelude Schema Auth.

Inductive page := HomePage | TestimonialsPage | UserProfile | AdminDashboard | UserDashboard.

#[export] Instance page_eq_dec : EqDecision page.
Proof. solve_decision. Defined.

(** [<Routes>] (lines 27-75) *)
Definition client_routes : list (string * page) :=
  [("/", HomePage); ("/testimonials", TestimonialsPage); ("/profile", UserProfile);
   ("/admin", AdminDashboard); ("/dashboard", UserDashboard)]%string.

Fixpoint lower_string (s : string) : string :=
  match s with
  | EmptyString => EmptyString
  | String c r => String (ascii_lower c) (lower_string r)
  end.

(** React Router compares static paths ignoring letter case and one
    trailing slash. *)
Definition normalize_path (s : string) : string :=
  match rev (String.list_ascii_of_string (lower_string s)) with
  | "/"%char :: (_ :: _) as r => String.string_of_list_ascii (rev r)
  | _ => lower_string s
  end.

(** The page a path renders: the first matching route, nothing otherwise. *)
Fixpoint route_in (path : string) (rs : list (string * page)) : option page :=
  match rs with
  | [] => None
  | (p, pg) :: rs => if String.eqb (normalize_path p) (normalize_path path) then Some pg else route_in path rs
  end.

Definition route_element (path : string) : option page := route_in path client_routes.

(** The [<section id>]s of the home page's components in the
    repository: [featured] (App.jsx line 32), [popular] (Popular.jsx
    line 173), [discover] (Discover.jsx line 43), [services]
    (Services.jsx line 112) and [contact] (Contact.jsx line 110). *)
Definition home_sections : list string := ["featured"; "popular"; "discover"; "services"; "contact"]%string.

Inductive nav_link := ScrollTo (id : string) | RouteTo (path : string).

#[export] Instance nav_link_eq_dec : EqDecision nav_link.
Proof. solve_decision. Defined.

(** The links of the header (lines 45-150): the logo and the
    navigation, then the user menu when signed in, with the admin
    panel when [user?.role === 'admin']. *)
Definition header_links (user : option auth_user) : list nav_link :=
  [ScrollTo "home"; ScrollTo "home"; ScrollTo "discover"; ScrollTo "services";
   RouteTo "/testimonials"; ScrollTo "contact"]%string ++
  match user with
  | Some u => [RouteTo "/dashboard"; RouteTo "/profile"]%string ++
              (if bool_decide (au_role u = RoleAdmin) then [RouteTo "/admin"%string] else [])
  | None => []
  end.

(** [AdminDashboard]: [if (!user || user.role !== 'admin')] shows
    "Access Denied" (lines 128-138), and [loadDashboardData] runs only
    for an admin (lines 20-24). *)
Inductive admin_view := AccessDenied | AdminPanel.

Definition admin_view_of (user : option auth_user) : admin_view * bool :=
  match user with
  | Some u => if bool_decide (au_role u = RoleAdmin) then (AdminPanel, true) else (AccessDenied, false)
  | None => (AccessDenied, false)
  end.

(** ** Every link leads somewhere *)

(** A route link renders a page; a scroll link targets a section of the
    home page or [home]. *)
Definition link_resolves (l : nav_link) : bool :=
  match l with
  | RouteTo p => bool_decide (is_Some (route_element p))
  | ScrollTo t => bool_decide (t ∈ home_sections) || String.eqb t "home"
  end.

(** Membership in a list of links written out, decided by computation. *)
Ltac in_links := apply (bool_decide_unpack _); vm_compute; exact I.
Ltac absurd_in H := apply (bool_decide_pack _) in H; vm_compute in H; contradiction.

Lemma header_links_check user : forallb link_resolves (header_links user) = true.
Proof. destruct user as [u|]; unfold header_links; [case_bool_decide|]; vm_compute; reflexivity. Qed.

Lemma header_link_resolves user l : l ∈ header_links user -> link_resolves l = true.
Proof. intros Hl. apply list_elem_of_In in Hl. exact (proj1 (forallb_forall _ _) (header_links_check user) _ Hl). Qed.

(** For every signed-in user or none: every route link of the header
    renders a page of [App]; the admin panel's link is there exactly for
    an admin, and exactly then does the page it leads to show itself and
    load its data (otherwise it shows "Access Denied" and sends no
    request); every scroll link targets a section of the home page,
    except [home], whose section would be rendered by the [Hero]
    component that is not in the repository. *)
Theorem header_links_resolve user :
  (forall p, RouteTo p ∈ header_links user -> is_Some (route_element p)) /\
  (RouteTo "/admin"%string ∈ header_links user <-> exists u, user = Some u /\ au_role u = RoleAdmin) /\
  route_element "/admin" = Some AdminDashboard /\
  (RouteTo "/admin"%string ∈ header_links user <-> admin_view_of user = (AdminPanel, true)) /\
  (admin_view_of user = (AdminPanel, true) \/ admin_view_of user = (AccessDenied, false)) /\
  (forall t, ScrollTo t ∈ header_links user -> t ∈ home_sections \/ t = "home"%string) /\
  "home"%string ∉ home_sections.
Proof.
  split_and!.
  - intros p Hp. apply header_link_resolves in Hp. simpl in Hp. by apply bool_decide_eq_true in Hp.
  - destruct user as [u|]; unfold header_links; [case_bool_decide as Ha|]; split.
    + intros _. by exists u.
    + intros _. in_links.
    + intros Hp. by absurd_in Hp.
    + by intros (u' & [= <-] & ?).
    + intros Hp. by absurd_in Hp.
    + by intros (u' & ? & _).
  - reflexivity.
  - destruct user as [u|]; unfold header_links, admin_view_of; [case_bool_decide as Ha|]; split; try done.
    + intros _. in_links.
    + intros Hp. by absurd_in Hp.
    + intros Hp. by absurd_in Hp.
  - destruct user as [u|]; unfold admin_view_of; [case_bool_decide|]; auto.
  - intros t Ht. apply header_link_resolves in Ht. simpl in Ht.
    apply orb_true_iff in Ht as [Ht|Ht]; [left; by apply bool_decide_eq_true in Ht | right; by apply String.eqb_eq].
  - intros H. by absurd_in H.
Qed.
