(* ===== verification/AdminActions.v ===== *)
(** * AdminActions: the buttons and selects of the admin dashboard

    Each control of [pages/AdminDashboard.jsx] sends one request with
    [fetch] and, when the answer is ok, reloads the whole page with
    [loadDashboardData]; the delete buttons and the contact status
    select alert on failure, the two status and role selects stay
    silent.  The admin router's [router.use(authenticateToken,
    requireAdmin)] runs before any of its routes, and before the 404
    handler for a path it does not have ([DELETE /admin/bookings/:id],
    see [Routes.admin_deleteBooking_not_found]). *)

From S2P Require Import Prelude Schema Validation Auth Bookings Admin Client Store Dashboards.

(** [response.ok] of a handler's answer. *)
Definition fetch_ok {A} (o : outcome (Z * A)) : bool := response_ok (answer (fun _ => JNull) o).

(** A handler that answers [res.status(code).json({ message })],
    seen as one with an empty result. *)
Definition status_answer {S} (h : M S Z) : M S (Z * unit) :=
  fun d => let '(d', o) := h d in
           (d', match o with Done c => Done (c, tt) | Reply c m => Reply c m | Throw e => Throw e end).

(** The page after an action, and the alert it shows, if any. *)
Definition admin_result : Type := db * admin_page * option string.

Section admin_actions.
Context `{JwtScheme}.

(** [if (response.ok) loadDashboardData(); else alert(msg)] *)
Definition reload_or {A} (now : Z) (s : storage) (failure : option string)
    (step : db * outcome (Z * A)) (p : admin_page) : admin_result :=
  let '(d', o) := step in
  if fetch_ok o then ((loadDashboardData now s d' p).1, (loadDashboardData now s d' p).2, None)
  else (d', p, failure).

(** [handleUserRoleUpdate] (lines 88-105):
    [PATCH /api/admin/users/${userId}/role]. *)
Definition handleUserRoleUpdate (now : Z) (s : storage) (userId : Z) (newRole : string)
    (d : db) (p : admin_page) : admin_result :=
  reload_or now s None (admin_route now (bearer_header s) (updateUserRole userId (Some newRole)) d) p.

(** [handleBookingStatusUpdate] (lines 107-124):
    [PATCH /api/admin/bookings/${bookingId}/status]. *)
Definition handleBookingStatusUpdate (now : Z) (s : storage) (bookingId : Z) (newStatus : string)
    (d : db) (p : admin_page) : admin_result :=
  reload_or now s None
    (admin_route now (bearer_header s) (adminUpdateBookingStatus bookingId (Some newStatus)) d) p.

(** The user row's Delete button (lines 347-368), after [window.confirm]. *)
Definition deleteUserClick (now : Z) (s : storage) (confirmed : bool) (userId : Z)
    (d : db) (p : admin_page) : admin_result :=
  if confirmed then
    reload_or now s (Some "Failed to delete user."%string)
      (admin_route now (bearer_header s) (deleteUser userId) d) p
  else (d, p, None).

(** The booking row's Delete button (lines 427-448): the admin router
    has no [DELETE /bookings/:id], so after its guard the request
    reaches the 404 handler. *)
Definition deleteBookingClick (now : Z) (s : storage) (confirmed : bool) (bookingId : Z)
    (d : db) (p : admin_page) : admin_result :=
  if confirmed then
    reload_or now s (Some "Failed to delete booking."%string)
      (admin_route now (bearer_header s) (reply 404 "Route not found"%string : M db (Z * unit)) d) p
  else (d, p, None).

(** The contact row's status select (lines 474-493): no token. *)
Definition contactStatusChange (now : Z) (s : storage) (contactId : Z) (newStatus : string)
    (d : db) (p : admin_page) : admin_result :=
  reload_or now s (Some "Failed to update status."%string)
    (status_answer (updateContactStatus contactId (Some newStatus)) d) p.

(** The contact row's Delete button (lines 510-528), after
    [window.confirm]. *)
Definition deleteContactClick (now : Z) (s : storage) (confirmed : bool) (contactId : Z)
    (d : db) (p : admin_page) : admin_result :=
  if confirmed then
    reload_or now s (Some "Failed to delete booking request."%string)
      (status_answer (deleteContact contactId) d) p
  else (d, p, None).
End admin_actions.

(** ** What the controls do *)

Lemma adminUpdateBookingStatus_found k b t st d :
  rows (bookings d) !! k = Some b -> parse_status (Some t) = Some st ->
  adminUpdateBookingStatus k (Some t) d = (with_status d k st, Done (200, booking_join (with_status d k st) k)).
Proof. intros Hb Hs. unfold adminUpdateBookingStatus, catch_500. rewrite Hs. run_m. by rewrite Hb. Qed.

Lemma deleteUser_refused id uu d :
  rows (users d) !! id = Some uu -> user_role uu = RoleAdmin \/ user_bookings d id <> ∅ ->
  exists code msg, deleteUser id d = (d, Reply code msg).
Proof.
  intros Hu Hg. unfold deleteUser, catch_500. run_m. rewrite Hu. simpl.
  destruct (decide (user_role uu = RoleAdmin)) as [Ha|Ha].
  - rewrite bool_decide_true by done. simpl. eauto.
  - rewrite bool_decide_false by done. simpl. destruct Hg as [|Hg]; [done|].
    rewrite bool_decide_true by done. simpl. eauto.
Qed.

Section admin_claims.
Context `{JwtScheme}.

Lemma reload_or_ok {A} now s f d' (a : Z * A) p u :
  authenticateToken now (bearer_header s) d' = (d', Done u) -> au_role u = RoleAdmin ->
  fetch_ok (Done a) = true ->
  reload_or now s f (d', Done a) p = (d', (loadDashboardData now s d' p).2, None).
Proof.
  intros Ha Hr Hok. unfold reload_or. rewrite Hok.
  by rewrite (loadDashboardData_admin now s d' u p Ha Hr).
Qed.

Lemma reload_or_failed {A} now s f d' code msg p :
  (200 <= code < 300 -> False) ->
  reload_or (A := A) now s f (d', Reply code msg) p = (d', p, f).
Proof.
  intros Hc. unfold reload_or, fetch_ok, response_ok. simpl.
  destruct (200 <=? code) eqn:E1, (code <? 300) eqn:E2; simpl; try done.
  apply Z.leb_le in E1. apply Z.ltb_lt in E2. lia.
Qed.

(** C0: the admin dashboard's controls, for an admin session on a store
    satisfying the invariant: a status chosen in a booking's select is
    stored for that booking, keeps the invariant and reloads the page
    from the new store; a booking's Delete button never deletes (the
    route does not exist) and alerts "Failed to delete booking."; a
    user's Delete button on an admin or on a user with bookings deletes
    nothing and alerts "Failed to delete user.". *)
Theorem admin_actions_effects now s d u p :
  store_inv d -> authenticateToken now (bearer_header s) d = (d, Done u) -> au_role u = RoleAdmin ->
  (forall k b t st, rows (bookings d) !! k = Some b -> parse_status (Some t) = Some st ->
     handleBookingStatusUpdate now s k t d p =
       (with_status d k st, (loadDashboardData now s (with_status d k st) p).2, None) /\
     store_inv (with_status d k st)) /\
  (forall k, deleteBookingClick now s true k d p = (d, p, Some "Failed to delete booking."%string)) /\
  (forall id uu, rows (users d) !! id = Some uu -> user_role uu = RoleAdmin \/ user_bookings d id <> ∅ ->
     deleteUserClick now s true id d p = (d, p, Some "Failed to delete user."%string)).
Proof.
  intros Hs Ha Hr. split_and!.
  - intros k b t st Hb Ht. split; [|by apply store_inv_with_status].
    unfold handleBookingStatusUpdate. rewrite (admin_route_admin _ _ _ _ u Ha Hr).
    rewrite (adminUpdateBookingStatus_found k b t st d Hb Ht).
    apply (reload_or_ok _ _ _ _ _ _ u); [|done|reflexivity].
    by apply (authenticateToken_frame _ _ d).
  - intros k. unfold deleteBookingClick. rewrite (admin_route_admin _ _ _ _ u Ha Hr).
    apply reload_or_failed. lia.
  - intros id uu Hu Hg. unfold deleteUserClick. rewrite (admin_route_admin _ _ _ _ u Ha Hr).
    destruct (deleteUser_refused id uu d Hu Hg) as (code & msg & E). rewrite E.
    unfold deleteUser, catch_500 in E. run_m. rewrite Hu in E. simpl in E.
    apply reload_or_failed. repeat case_bool_decide; simpl in E; simplify_eq; lia.
Qed.
End admin_claims.

Section witnesses.
Import Auth.Instances.

Lemma admin_actions_effects_witness :
  store_inv scenario_store /\
  authenticateToken 0 (bearer_header admin_token) scenario_store = (scenario_store, Done seed_admin) /\
  au_role seed_admin = RoleAdmin /\
  deleteBookingClick 0 admin_token true 1 scenario_store admin_page_init =
    (scenario_store, admin_page_init, Some "Failed to delete booking."%string).
Proof.
  split_and!; [exact scenario_store_inv | exact admin_signed_in | reflexivity |].
  exact (proj1 (proj2 (admin_actions_effects 0 admin_token scenario_store seed_admin admin_page_init
                         scenario_store_inv admin_signed_in eq_refl)) 1).
Defined.
End witnesses.
